(** * Project-Plan: spreadsheet-to-tracker reconciliation, verified model

    The repository holds several generations of one sync script and a
    read-only dashboard:

    - [sync-local.js]                     (module [SyncLocal])
    - [scripts/sync-issues.js]            (module [Actions])
    - [sync-local.cjs], with board dates  (module [SyncCjs])
    - the Apps Script variant             (module [AppsScript])
    - the dashboard's [sheets.ts]         (module [Dashboard])

    JavaScript strings are modelled as sequences of code units below 256
    (Rocq [string]); numbers that reach the modelled code are integers
    ([Z]), but for the quotients that the dashboard rounds, which are
    computed in binary64 as the host computes them; a Date is its time
    value in milliseconds since the epoch. *)

From Stdlib Require Import ZArith List String Ascii Bool Lia.
From Stdlib Require SpecFloat.
From stdpp Require Import base gmap.
Import ListNotations.

Local Open Scope Z_scope.
Local Open Scope string_scope.

(** ** JavaScript strings *)

Module Js.

Definition code (c : ascii) : Z := Z.of_N (N_of_ascii c).

Definition between (lo hi : Z) (c : ascii) : bool :=
  Z.leb lo (code c) && Z.leb (code c) hi.

(** [\d] *)
Definition isDigit (c : ascii) : bool := between 48 57 c.

(** [\w], that is [A-Za-z0-9_] *)
Definition isWord (c : ascii) : bool :=
  isDigit c || between 65 90 c || between 97 122 c || Ascii.eqb c "_".

(** [\s] and the characters removed by [trim]: TAB, LF, VT, FF, CR, space
    and the no-break space. *)
Definition isSpace (c : ascii) : bool :=
  between 9 13 c || Ascii.eqb c " " || Z.eqb (code c) 160.

(** [s.includes(t)] *)
Fixpoint includes (t s : string) : bool :=
  String.prefix t s ||
  match s with
  | EmptyString => false
  | String _ s' => includes t s'
  end.

(** [s.split(sep)[0]]: the text before the first [sep], all of [s] when
    there is none. *)
Fixpoint splitHead (sep : ascii) (s : string) : string :=
  match s with
  | EmptyString => EmptyString
  | String c s' => if Ascii.eqb c sep then EmptyString else String c (splitHead sep s')
  end.

Fixpoint trimStart (s : string) : string :=
  match s with
  | String c s' => if isSpace c then trimStart s' else s
  | EmptyString => EmptyString
  end.

(** Drops the trailing white space: a character is kept when something
    that is kept follows it, or when it is not white space itself. *)
Fixpoint trimEnd (s : string) : string :=
  match s with
  | EmptyString => EmptyString
  | String c s' =>
      match trimEnd s' with
      | EmptyString => if isSpace c then EmptyString else String c EmptyString
      | r => String c r
      end
  end.

(** [s.trim()] *)
Definition trim (s : string) : string := trimEnd (trimStart s).

Definition lowerChar (c : ascii) : ascii :=
  if between 65 90 c || between 192 214 c || between 216 222 c
  then ascii_of_N (N_of_ascii c + 32) else c.

(** [s.toLowerCase()] *)
Fixpoint toLowerCase (s : string) : string :=
  match s with
  | EmptyString => EmptyString
  | String c s' => String (lowerChar c) (toLowerCase s')
  end.

(** [s.padStart(2, '0')] *)
Definition padStart2 (s : string) : string :=
  match s with
  | EmptyString => "00"
  | String c EmptyString => String "0" s
  | _ => s
  end.

Definition digitChar (n : Z) : ascii := ascii_of_N (Z.to_N (48 + n)).

Definition digitVal (c : ascii) : Z := code c - 48.

(** Decimal digits of a natural number, most significant first; [fuel]
    bounds the number of digits. *)
Fixpoint digitsOf (fuel : nat) (n : Z) (acc : string) : string :=
  match fuel with
  | O => acc
  | S f =>
      let acc' := String (digitChar (n mod 10)) acc in
      if Z.ltb n 10 then acc' else digitsOf f (n / 10) acc'
  end.

(** [String(n)] for an integer [n] that is printed digit by digit: a
    status, a field of a date, an index. *)
Definition decimal (n : Z) : string :=
  if Z.ltb n 0
  then String "-" (digitsOf (S (Z.to_nat (Z.log2 (- n)))) (- n) EmptyString)
  else digitsOf (S (Z.to_nat (Z.log2 n))) n EmptyString.

(** Fixed-width decimal, as the engine pads the fields of an ISO date. *)
Fixpoint pad (w : nat) (n : Z) : string :=
  match w with
  | O => EmptyString
  | S w' => pad w' (n / 10) ++ String (digitChar (n mod 10)) EmptyString
  end.

(** *** The three regular expressions of the scripts

    Each is matched the way [String.prototype.match] does without the
    [g] flag: the leftmost position where the pattern matches wins. *)

(** The tail [-(\w{3})-(\d{4})] of the date pattern, after the day. *)
Definition monthYearAt (day : string) (s : string) : option (string * string * string) :=
  match s with
  | String h1 (String m1 (String m2 (String m3 (String h2
      (String y1 (String y2 (String y3 (String y4 _)))))))) =>
      if Ascii.eqb h1 "-" && isWord m1 && isWord m2 && isWord m3 &&
         Ascii.eqb h2 "-" && isDigit y1 && isDigit y2 && isDigit y3 && isDigit y4
      then Some (day,
                 String m1 (String m2 (String m3 EmptyString)),
                 String y1 (String y2 (String y3 (String y4 EmptyString))))
      else None
  | _ => None
  end.

(** [/(\d{1,2})-(\w{3})-(\d{4})/] anchored at the head of [s]: the day is
    greedy, two digits are tried before one. *)
Definition dayMonYearAt (s : string) : option (string * string * string) :=
  match s with
  | String d1 rest =>
      if isDigit d1 then
        match rest with
        | String d2 rest2 =>
            if isDigit d2 then
              match monthYearAt (String d1 (String d2 EmptyString)) rest2 with
              | Some r => Some r
              | None => monthYearAt (String d1 EmptyString) rest
              end
            else monthYearAt (String d1 EmptyString) rest
        | EmptyString => None
        end
      else None
  | EmptyString => None
  end.

(** [s.match(/(\d{1,2})-(\w{3})-(\d{4})/)]: groups 1, 2 and 3. *)
Fixpoint matchDayMonYear (s : string) : option (string * string * string) :=
  match dayMonYearAt s with
  | Some r => Some r
  | None =>
      match s with
      | EmptyString => None
      | String _ s' => matchDayMonYear s'
      end
  end.

Definition eqNoCase (c : ascii) (lower : ascii) : bool :=
  Ascii.eqb (lowerChar c) lower && between 0 127 c.

(** [/Phase\s*(\d)/i] anchored at the head of [s]: group 1. *)
Definition phaseAt (s : string) : option ascii :=
  match s with
  | String p (String h (String a (String s1 (String e rest)))) =>
      if eqNoCase p "p" && eqNoCase h "h" && eqNoCase a "a" &&
         eqNoCase s1 "s" && eqNoCase e "e"
      then match trimStart rest with
           | String d _ => if isDigit d then Some d else None
           | EmptyString => None
           end
      else None
  | _ => None
  end.

(** [s.match(/Phase\s*(\d)/i)]: group 1. *)
Fixpoint matchPhase (s : string) : option ascii :=
  match phaseAt s with
  | Some d => Some d
  | None =>
      match s with
      | EmptyString => None
      | String _ s' => matchPhase s'
      end
  end.

(** The white space run [\s+] followed by [\d{4}]; returns the run and
    the digits. *)
Fixpoint spacesYear (s : string) : option string :=
  match s with
  | String c s' =>
      if isSpace c then
        match spacesYear s' with
        | Some r => Some (String c r)
        | None =>
            match s' with
            | String y1 (String y2 (String y3 (String y4 _))) =>
                if isDigit y1 && isDigit y2 && isDigit y3 && isDigit y4
                then Some (String c (String y1 (String y2 (String y3 (String y4 EmptyString)))))
                else None
            | _ => None
            end
        end
      else None
  | EmptyString => None
  end.

(** [/Q\d\s+\d{4}/] anchored at the head of [s]: the matched text. *)
Definition quarterAt (s : string) : option string :=
  match s with
  | String q (String d rest) =>
      if Ascii.eqb q "Q" && isDigit d then
        match spacesYear rest with
        | Some r => Some (String q (String d r))
        | None => None
        end
      else None
  | _ => None
  end.

(** [s.match(/Q\d\s+\d{4}/)]: the matched text ([match[0]]). *)
Fixpoint matchQuarter (s : string) : option string :=
  match quarterAt s with
  | Some r => Some r
  | None =>
      match s with
      | EmptyString => None
      | String _ s' => matchQuarter s'
      end
  end.

(** [s.split(sep)] for a one-character separator: the pieces between
    the separators; the empty string gives one empty piece. *)
Fixpoint split (sep : ascii) (s : string) : list string :=
  match s with
  | EmptyString => [EmptyString]
  | String c s' =>
      if Ascii.eqb c sep then EmptyString :: split sep s'
      else
        match split sep s' with
        | piece :: rest => String c piece :: rest
        | [] => [String c EmptyString]
        end
  end.

(** The value of a digit in the given radix (at most 16). *)
Definition digitIn (radix : Z) (c : ascii) : option Z :=
  let v :=
    if isDigit c then Some (digitVal c)
    else if between 97 102 c then Some (code c - 87)
    else if between 65 70 c then Some (code c - 55)
    else None in
  match v with
  | Some n => if Z.ltb n radix then Some n else None
  | None => None
  end.

(** The number that the longest prefix of digits spells, continuing
    [acc]; [None] while no digit was read. *)
Fixpoint leadingNumber (radix : Z) (s : string) (acc : option Z) : option Z :=
  match s with
  | String c s' =>
      match digitIn radix c with
      | Some v =>
          leadingNumber radix s'
            (Some (radix * (match acc with Some a => a | None => 0 end) + v))
      | None => acc
      end
  | EmptyString => acc
  end.

(** [parseInt(s)] without a radix: leading white space, a sign, [0x] for
    base sixteen, then the longest prefix of digits; [None] is NaN.
    Exact, where the engine rounds a result beyond 2^53. *)
Definition parseInt (s : string) : option Z :=
  let s1 := trimStart s in
  let negative := match s1 with String c _ => Ascii.eqb c "-" | EmptyString => false end in
  let s2 :=
    match s1 with
    | String c r => if Ascii.eqb c "-" || Ascii.eqb c "+" then r else s1
    | EmptyString => s1
    end in
  let n :=
    match s2 with
    | String z (String x r) =>
        if Ascii.eqb z "0" && (Ascii.eqb x "x" || Ascii.eqb x "X")
        then leadingNumber 16 r None
        else leadingNumber 10 s2 None
    | _ => leadingNumber 10 s2 None
    end in
  match n with
  | Some v => Some (if negative then - v else v)
  | None => None
  end.

(** [[a-zA-Z0-9-_]] *)
Definition isIdChar (c : ascii) : bool :=
  between 97 122 c || between 65 90 c || isDigit c || Ascii.eqb c "-" || Ascii.eqb c "_".

(** The longest prefix of characters that satisfy [p]. *)
Fixpoint takeWhile (p : ascii -> bool) (s : string) : string :=
  match s with
  | String c s' => if p c then String c (takeWhile p s') else EmptyString
  | EmptyString => EmptyString
  end.

(** What follows the prefix [t] in [s], when [s] starts with [t]. *)
Fixpoint dropPrefix (t s : string) : option string :=
  match t, s with
  | EmptyString, _ => Some s
  | String a t', String c s' => if Ascii.eqb a c then dropPrefix t' s' else None
  | String _ _, EmptyString => None
  end.

(** [/\/spreadsheets\/d\/([a-zA-Z0-9-_]+)/] anchored at the head of [s]:
    group 1, which is greedy. *)
Definition sheetIdAt (s : string) : option string :=
  match dropPrefix "/spreadsheets/d/" s with
  | Some rest =>
      match takeWhile isIdChar rest with
      | EmptyString => None
      | id => Some id
      end
  | None => None
  end.

(** [s.match(/\/spreadsheets\/d\/([a-zA-Z0-9-_]+)/)]: group 1. *)
Fixpoint matchSheetId (s : string) : option string :=
  match sheetIdAt s with
  | Some r => Some r
  | None =>
      match s with
      | EmptyString => None
      | String _ s' => matchSheetId s'
      end
  end.

End Js.

(** ** Doubles

    The numbers of JavaScript are binary64.  Sums, differences and
    comparisons of whole numbers are exact in the range of the time
    values and are kept in [Z]; a quotient is not, and is computed on
    the doubles nearest to its operands. *)

Module Double.

Import Js.

(** The double nearest to a whole number; a whole number up to [2 ^ 53]
    in absolute value is a double itself. *)
Definition ofZ (z : Z) : SpecFloat.spec_float :=
  SpecFloat.binary_normalize 53 1024 z 0 false.

(** [Math.round(x)]: the whole number nearest to [x], the greater one of
    two; [None] is NaN.  An infinity, which no quotient of the modelled
    code is, has no image. *)
Definition mathRound (x : SpecFloat.spec_float) : option Z :=
  match x with
  | SpecFloat.S754_zero _ => Some 0
  | SpecFloat.S754_finite s m e =>
      let v := if s then Zneg m else Zpos m in
      Some (if Z.leb 0 e then v * 2 ^ e else (2 * v + 2 ^ (- e)) / 2 ^ (1 - e))
  | _ => None
  end.

(** [Math.round((elapsed / total) * 100)] *)
Definition percent (elapsed total : Z) : option Z :=
  mathRound (SpecFloat.SFmul 53 1024
               (SpecFloat.SFdiv 53 1024 (ofZ elapsed) (ofZ total)) (ofZ 100)).

(** [Math.round(sum / n)] *)
Definition meanOf (sum n : Z) : option Z :=
  mathRound (SpecFloat.SFdiv 53 1024 (ofZ sum) (ofZ n)).

(** The whole number that the double of a whole number stands for. *)
Definition wholeOf (x : SpecFloat.spec_float) : Z :=
  match x with
  | SpecFloat.S754_finite s m e =>
      (if s then -1 else 1) * (if Z.leb 0 e then Zpos m * 2 ^ e else Zpos m / 2 ^ (- e))
  | _ => 0
  end.

(** The two doubles are the same number. *)
Definition sameDouble (x y : SpecFloat.spec_float) : bool := SpecFloat.SFeqb x y.

(** The decimal with [k] digits and then zeros that reads as the double
    of [x] and lies nearest to [x]; of two, the one whose last digit is
    even.  [x] has [n] digits. *)
Definition roundTrips (x : Z) (n k : nat) : option Z :=
  if Nat.ltb n k then None
  else
    let p := 10 ^ Z.of_nat (n - k) in
    let s := x / p in
    let lo := s * p in
    let hi := (s + 1) * p in
    let okLo := sameDouble (ofZ lo) (ofZ x) in
    let okHi := sameDouble (ofZ hi) (ofZ x) in
    if okLo && okHi then
      (if Z.ltb (x - lo) (hi - x) then Some lo
       else if Z.ltb (hi - x) (x - lo) then Some hi
       else if Z.even s then Some lo else Some hi)
    else if okLo then Some lo
    else if okHi then Some hi
    else None.

(** The decimal of the fewest digits that reads as the double of [x]. *)
Fixpoint shortestFrom (x : Z) (n : nat) (k fuel : nat) : Z :=
  match fuel with
  | O => x
  | S fuel' =>
      match roundTrips x n k with
      | Some y => y
      | None => shortestFrom x n (S k) fuel'
      end
  end.

Fixpoint dropZeros (digits : list ascii) : list ascii :=
  match digits with
  | "0"%char :: rest => dropZeros rest
  | _ => digits
  end.

(** The digits of [s] without the zeros at its end. *)
Definition significant (s : string) : string :=
  string_of_list_ascii (rev (dropZeros (rev (list_ascii_of_string s)))).

(** [String(x)] for a double [x] that is a whole number and not
    negative: every digit up to [2 ^ 53]; from there on the fewest
    digits that read as the same double, followed by zeros below
    [10 ^ 21] and written with an exponent from there on. *)
Definition printWhole (x : Z) : string :=
  if Z.ltb x (2 ^ 53) then decimal x
  else
    let n := String.length (decimal x) in
    let y := shortestFrom x n 1 17 in
    if Z.ltb y (10 ^ 21) then decimal y
    else
      let digits := decimal y in
      match significant digits with
      | String c EmptyString => String c ("e+" ++ decimal (Z.of_nat (String.length digits) - 1))
      | String c rest =>
          String c ("." ++ rest ++ "e+" ++ decimal (Z.of_nat (String.length digits) - 1))
      | EmptyString => digits
      end.

(** [String(n)] for the number nearest to the whole number [n]. *)
Definition numberToString (n : Z) : string :=
  match ofZ n with
  | SpecFloat.S754_infinity false => "Infinity"
  | SpecFloat.S754_infinity true => "-Infinity"
  | x =>
      let w := wholeOf x in
      if Z.ltb w 0 then String "-" (printWhole (- w)) else printWhole w
  end.

End Double.

(** ** The engine's Date

    Calendar arithmetic on the proleptic Gregorian calendar, as
    ECMAScript's [MakeDay], [YearFromTime], [MonthFromTime] and
    [DateFromTime] define it.  Months are numbered from 1 here. *)

Module JsDate.

Import Js.

Definition msPerDay : Z := 86400000.

(** Days from 1970-01-01 to the given civil date. *)
Definition daysFromCivil (y m d : Z) : Z :=
  let y' := if Z.leb m 2 then y - 1 else y in
  let era := y' / 400 in
  let yoe := y' - era * 400 in
  let mp := if Z.ltb 2 m then m - 3 else m + 9 in
  let doy := (153 * mp + 2) / 5 + d - 1 in
  let doe := yoe * 365 + yoe / 4 - yoe / 100 + doy in
  era * 146097 + doe - 719468.

(** The civil date (year, month, day) of a day number. *)
Definition civilFromDays (z : Z) : Z * Z * Z :=
  let z' := z + 719468 in
  let era := z' / 146097 in
  let doe := z' - era * 146097 in
  let yoe := (doe - doe / 1460 + doe / 36524 - doe / 146096) / 365 in
  let doy := doe - (365 * yoe + yoe / 4 - yoe / 100) in
  let mp := (5 * doy + 2) / 153 in
  let d := doy - (153 * mp + 2) / 5 + 1 in
  let m := if Z.ltb mp 10 then mp + 3 else mp - 9 in
  ((if Z.leb m 2 then yoe + era * 400 + 1 else yoe + era * 400), m, d).

Definition isLeap (y : Z) : bool :=
  Z.eqb (y mod 4) 0 && (negb (Z.eqb (y mod 100) 0) || Z.eqb (y mod 400) 0).

Definition daysInMonth (y m : Z) : Z :=
  if Z.eqb m 2 then (if isLeap y then 29 else 28)
  else if Z.eqb m 4 || Z.eqb m 6 || Z.eqb m 9 || Z.eqb m 11 then 30
  else 31.

Definition validCivil (y m d : Z) : bool :=
  Z.leb 1 m && Z.leb m 12 && Z.leb 1 d && Z.leb d (daysInMonth y m).

(** [YYYY-MM-DD], with the expanded six-digit year outside 0..9999. *)
Definition formatCivil (ymd : Z * Z * Z) : string :=
  let '(y, m, d) := ymd in
  (if Z.leb 0 y && Z.leb y 9999 then pad 4 y
   else String (if Z.ltb y 0 then "-" else "+")%char (pad 6 (Z.abs y)))
  ++ "-" ++ pad 2 m ++ "-" ++ pad 2 d.

(** [new Date(t).toISOString().split('T')[0]] *)
Definition isoDate (t : Z) : string := formatCivil (civilFromDays (t / msPerDay)).

Definition num2 (a b : ascii) : Z := 10 * digitVal a + digitVal b.

Definition num4 (a b c d : ascii) : Z :=
  1000 * digitVal a + 100 * digitVal b + 10 * digitVal c + digitVal d.

(** The fields of a text of the exact shape [dddd-dd-dd]. *)
Definition isoFields (s : string) : option (Z * Z * Z) :=
  match s with
  | String y1 (String y2 (String y3 (String y4 (String h1
      (String m1 (String m2 (String h2 (String d1 (String d2 EmptyString))))))))) =>
      if isDigit y1 && isDigit y2 && isDigit y3 && isDigit y4 && Ascii.eqb h1 "-" &&
         isDigit m1 && isDigit m2 && Ascii.eqb h2 "-" && isDigit d1 && isDigit d2
      then Some (num4 y1 y2 y3 y4, num2 m1 m2, num2 d1 d2)
      else None
  | _ => None
  end.

(** A string is canonical when it is [YYYY-MM-DD] and names a day of the
    calendar. *)
Definition canonical (s : string) : bool :=
  match isoFields s with
  | Some (y, m, d) => validCivil y m d
  | None => false
  end.

(** The weaker, purely lexical notion: four digits, two digits, two
    digits. *)
Definition canonicalShape (s : string) : bool :=
  match isoFields s with
  | Some _ => true
  | None => false
  end.

(** [Date.parse] on the date-only form of the ECMAScript date-time
    format: UTC midnight of that day. *)
Definition parseIsoDate (s : string) : option Z :=
  match isoFields s with
  | Some (y, m, d) =>
      if validCivil y m d then Some (daysFromCivil y m d * msPerDay) else None
  | None => None
  end.

(** What the host provides and the scripts do not fix: [Date.parse] on
    every text that is not a calendar date in ISO form (the standard
    leaves it to the implementation), [Date.prototype.toString], the
    local zone as minutes east of UTC (taken constant over the dates of
    a sheet), the offset of that zone at the end of 1899 in milliseconds
    east of UTC (local mean time in many zones, so not the offset of
    today), and the clock. *)
Record engine : Type := Engine {
  parseOther : string -> option Z;
  dateToString : Z -> string;
  tzOffset : Z;
  offset1899 : Z;
  now : Z
}.

(** [Date.parse(s)]; [None] is NaN. *)
Definition Date_parse (E : engine) (s : string) : option Z :=
  match parseIsoDate s with
  | Some t => Some t
  | None => parseOther E s
  end.

(** The local calendar fields [getFullYear()], [getMonth() + 1],
    [getDate()] of a time value. *)
Definition localCivil (E : engine) (t : Z) : Z * Z * Z :=
  civilFromDays ((t + tzOffset E * 60000) / msPerDay).

(** [new Date(y, m - 1, d).getTime()]: local midnight. *)
Definition localMidnight (E : engine) (y m d : Z) : Z :=
  daysFromCivil y m d * msPerDay - tzOffset E * 60000.

(** The largest time value a Date holds. *)
Definition maxTime : Z := 8640000000000000.

Definition timeClip (t : Z) : option Z :=
  if Z.leb (Z.abs t) maxTime then Some t else None.

End JsDate.

(** ** Cell values *)

Module Cell.

Import Js JsDate.

(** What a spreadsheet cell or an object property holds.  [VNum n] is
    the number nearest to the whole number [n], which is [n] itself up
    to [2 ^ 53] in absolute value; [VDate None] is an Invalid Date. *)
Inductive value : Type :=
| VUndef
| VNull
| VBool (b : bool)
| VNum (n : Z)
| VStr (s : string)
| VDate (t : option Z).

(** JavaScript's truthiness: [if (v)], [!v], [v || w]. *)
Definition truthy (v : value) : bool :=
  match v with
  | VUndef | VNull => false
  | VBool b => b
  | VNum n => negb (Z.eqb n 0)
  | VStr s => negb (String.eqb s EmptyString)
  | VDate _ => true
  end.

(** [v || w] *)
Definition orElse (v w : value) : value := if truthy v then v else w.

(** [String(v)] *)
Definition toStr (E : engine) (v : value) : string :=
  match v with
  | VUndef => "undefined"
  | VNull => "null"
  | VBool true => "true"
  | VBool false => "false"
  | VNum n => Double.numberToString n
  | VStr s => s
  | VDate (Some t) => dateToString E t
  | VDate None => "Invalid Date"
  end.

(** The time value of [new Date(v)]; [None] is an Invalid Date. *)
Definition newDate (E : engine) (v : value) : option Z :=
  match v with
  | VUndef => None
  | VNull => Some 0
  | VBool b => Some (if b then 1 else 0)
  | VNum n => timeClip n
  | VStr s => Date_parse E s
  | VDate t => t
  end.

(** A thrown [Error]: its [name] and its [message]. *)
Inductive exn : Type :=
| JsError (name message : string).

Definition message (e : exn) : string :=
  match e with JsError _ m => m end.

Definition TypeError (m : string) : exn := JsError "TypeError" m.
Definition RangeError (m : string) : exn := JsError "RangeError" m.
Definition Error (m : string) : exn := JsError "Error" m.

(** The outcome of a call: a value, an exception thrown, or a loop that
    was cut off because the fuel given to it ran out. *)
Inductive outcome (A : Type) : Type :=
| Returns (a : A)
| Throws (e : exn)
| OutOfFuel.

Arguments Returns {A} a.
Arguments Throws {A} e.
Arguments OutOfFuel {A}.

(** [months[name] || '01'] over the table of the date parsers. *)
Definition months (name : string) : option string :=
  if String.eqb name "Jan" then Some "01"
  else if String.eqb name "Feb" then Some "02"
  else if String.eqb name "Mar" then Some "03"
  else if String.eqb name "Apr" then Some "04"
  else if String.eqb name "May" then Some "05"
  else if String.eqb name "Jun" then Some "06"
  else if String.eqb name "Jul" then Some "07"
  else if String.eqb name "Aug" then Some "08"
  else if String.eqb name "Sep" then Some "09"
  else if String.eqb name "Oct" then Some "10"
  else if String.eqb name "Nov" then Some "11"
  else if String.eqb name "Dec" then Some "12"
  else None.

(** A call of the string method [method] on [v]: only a string has it. *)
Definition asString (method : string) (v : value) : outcome string :=
  match v with
  | VStr s => Returns s
  | _ => Throws (TypeError (method ++ " is not a function"))
  end.

Definition monthOr01 (name : string) : string :=
  match months name with
  | Some m => m
  | None => "01"
  end.

(** The template [`${match[3]}-${months[match[2]] || '01'}-${match[1].padStart(2, '0')}`] *)
Definition fromMatch (g : string * string * string) : string :=
  let '(day, mon, year) := g in
  year ++ "-" ++ monthOr01 mon ++ "-" ++ padStart2 day.

End Cell.

(** ** The remote tracker and the requests sent to it *)

Module Remote.

Import Js Cell.

Record issue : Type := Issue {
  number : Z;
  title : string;
  body : string;
  labels : list string
}.

(** The external tracker, which the scripts reach over HTTP and which is
    no code of this repository: the state of it that the requests below
    read and write.  It holds the label definitions (looked up by exact
    name), the issues in listing order, and a project board: its
    identifier, its date fields (name, identifier), its entries (entry
    identifier, number of the linked issue if any) and the date set for
    an entry and a field. *)
Record tracker : Type := Tracker {
  labelNames : gset string;
  issues : list issue;
  boardId : string;
  fields : list (string * string);
  items : list (string * option Z);
  dates : gmap (string * string) string
}.

Inductive request : Type :=
| GetLabel (name : string)
| CreateLabel (name : string) (color description : value)
| ListIssues (page : Z)
| UpdateIssue (num : Z) (newBody : string) (newLabels : list string)
| CreateIssue (newTitle newBody : string) (newLabels : list string)
| QueryBoard
| SetDate (project item field date : string).

Inductive payload : Type :=
| PNone
| PIssues (l : list issue)
| PIssue (i : issue)
| PBoard (id : string) (fs : list (string * string)) (its : list (string * option Z)).

Record response : Type := Response {
  status : Z;
  data : payload;
  text : string
}.

Definition perPage : nat := 100.

Definition pageOf (page : Z) (l : list issue) : list issue :=
  if Z.leb 1 page then firstn perPage (skipn (Z.to_nat (page - 1) * perPage) l) else [].

Definition hasNumber (n : Z) (i : issue) : bool := Z.eqb (number i) n.

Definition nextNumber (l : list issue) : Z :=
  1 + fold_right (fun i m => Z.max (number i) m) 0 l.

(** What the tracker answers to a request when nothing fails, and its
    state afterwards: a label is found exactly when it was created, a
    listing returns the issues page by page, a write succeeds on what
    exists. *)
Definition serve (r : request) (t : tracker) : response * tracker :=
  match r with
  | GetLabel name =>
      if bool_decide (name ∈ labelNames t)
      then (Response 200 PNone "", t)
      else (Response 404 PNone "Not Found", t)
  | CreateLabel name _ _ =>
      if bool_decide (name ∈ labelNames t)
      then (Response 422 PNone "Validation Failed", t)
      else (Response 201 PNone "",
            Tracker ({[ name ]} ∪ labelNames t) (issues t) (boardId t) (fields t) (items t) (dates t))
  | ListIssues page => (Response 200 (PIssues (pageOf page (issues t))) "", t)
  | UpdateIssue n b ls =>
      if existsb (hasNumber n) (issues t)
      then (Response 200 PNone "",
            Tracker (labelNames t)
              (map (fun i => if hasNumber n i then Issue n (title i) b ls else i) (issues t))
              (boardId t) (fields t) (items t) (dates t))
      else (Response 404 PNone "Not Found", t)
  | CreateIssue ti b ls =>
      let i := Issue (nextNumber (issues t)) ti b ls in
      (Response 201 (PIssue i) "",
       Tracker (labelNames t) (issues t ++ [i])%list (boardId t) (fields t) (items t) (dates t))
  | QueryBoard => (Response 200 (PBoard (boardId t) (fields t) (items t)) "", t)
  | SetDate _ it f v =>
      (Response 200 PNone "",
       Tracker (labelNames t) (issues t) (boardId t) (fields t) (items t)
         (<[ (it, f) := v ]> (dates t)))
  end.

(** A request that fails for a reason outside the tracker's state
    (credentials, rate limit, outage): the status and the text sent. *)
Record fault : Type := Fault { fstatus : Z; ftext : string }.

(** The tracker, the faults that will strike the coming requests (one
    entry per request, [None] for a request served normally) and the
    requests sent so far, oldest first. *)
Record world : Type := World {
  remote : tracker;
  faults : list (option fault);
  log : list request
}.

(** A world in which nothing fails. *)
Definition calm (t : tracker) : world := World t [] [].

Definition M (A : Type) : Type := world -> outcome A * world.

Definition ret {A} (a : A) : M A := fun w => (Returns a, w).

Definition throw {A} (e : exn) : M A := fun w => (Throws e, w).

Definition bind {A B} (c : M A) (k : A -> M B) : M B :=
  fun w =>
    match c w with
    | (Returns a, w') => k a w'
    | (Throws e, w') => (Throws e, w')
    | (OutOfFuel, w') => (OutOfFuel, w')
    end.

(** [try { c } catch (e) { h(e) }] *)
Definition tryCatch {A} (c : M A) (h : exn -> M A) : M A :=
  fun w =>
    match c w with
    | (Throws e, w') => h e w'
    | r => r
    end.

Definition lift {A} (o : outcome A) : M A := fun w => (o, w).

(** One HTTP round trip. *)
Definition send (r : request) : M response :=
  fun w =>
    let lg := (log w ++ [r])%list in
    match faults w with
    | Some f :: fs =>
        if Z.leb 400 (fstatus f)
        then (Returns (Response (fstatus f) PNone (ftext f)), World (remote w) fs lg)
        else let '(resp, t) := serve r (remote w) in (Returns resp, World t fs lg)
    | None :: fs => let '(resp, t) := serve r (remote w) in (Returns resp, World t fs lg)
    | [] => let '(resp, t) := serve r (remote w) in (Returns resp, World t [] lg)
    end.

End Remote.

Declare Scope remote_scope.
Delimit Scope remote_scope with remote.
Notation "x <- c ;; k" := (Remote.bind c (fun x => k))
  (at level 100, c at next level, right associativity) : remote_scope.
Notation "c ;;; k" := (Remote.bind c (fun _ => k))
  (at level 100, right associativity) : remote_scope.

(** ** Rows and lookup tables *)

Module Row.

Import Js Cell.

(** A row object of [sheet_to_json]: its properties in key order. *)
Definition row : Type := list (string * value).

(** [row[key]] *)
Fixpoint get (r : row) (key : string) : value :=
  match r with
  | [] => VUndef
  | (k, v) :: r' => if String.eqb k key then v else get r' key
  end.

(** The names every object literal inherits from [Object.prototype]. *)
Definition inheritedNames : list string :=
  [ "constructor"; "hasOwnProperty"; "isPrototypeOf"; "propertyIsEnumerable";
    "toLocaleString"; "toString"; "valueOf"; "__proto__";
    "__defineGetter__"; "__defineSetter__"; "__lookupGetter__"; "__lookupSetter__" ].

(** The result of [table[key]] on an object literal: an own entry, an
    inherited member (truthy, but without the entry's fields), or
    [undefined]. *)
Inductive hit (A : Type) : Type :=
| Own (a : A)
| Inherited
| Missing.

Arguments Own {A} a.
Arguments Inherited {A}.
Arguments Missing {A}.

Fixpoint ownEntry {A} (table : list (string * A)) (key : string) : option A :=
  match table with
  | [] => None
  | (k, a) :: table' => if String.eqb k key then Some a else ownEntry table' key
  end.

Definition lookup {A} (table : list (string * A)) (key : string) : hit A :=
  match ownEntry table key with
  | Some a => Own a
  | None => if existsb (String.eqb key) inheritedNames then Inherited else Missing
  end.

End Row.

(** ** sync-local.js *)

Module SyncLocal.

Import Js JsDate Cell Remote Row.
Local Open Scope remote_scope.

(** [PHASE_LABELS]: name, then color and description *)
Definition PHASE_LABELS : list (string * (string * string)) :=
  [ ("Phase 1", ("0052CC", "Phase 1 tasks"));
    ("Phase 2", ("5319E7", "Phase 2 tasks"));
    ("Phase 3", ("0E8A16", "Phase 3 tasks")) ].

(** [QUARTER_LABELS]: name, then color and description *)
Definition QUARTER_LABELS : list (string * (string * string)) :=
  [ ("Q4 2025", ("FBCA04", "Q4 2025 deliverables"));
    ("Q1 2026", ("F9D0C4", "Q1 2026 deliverables"));
    ("Q2 2026", ("C5DEF5", "Q2 2026 deliverables"));
    ("Q3 2026", ("BFD4F2", "Q3 2026 deliverables"));
    ("Q4 2026", ("D4C5F9", "Q4 2026 deliverables")) ].

Inductive action : Type := created | updated.

(** What [main] leaves behind: the three counters it prints, or the
    exit code of [process.exit]. *)
Inductive report : Type :=
| Counts (nCreated nUpdated nSkipped : Z)
| Exit (exitCode : Z).

Section Script.

Variable E : engine.

(** The body text of an issue plays no part in any decision of the
    script; it is left to the caller of the model.  It throws when a date
    cell holds an Invalid Date. *)
Variable createIssueBody : row -> outcome string.

Definition parseDate (v : value) : outcome (option string) :=
  if negb (truthy v) then Returns None
  else
    match v with
    | VDate (Some t) => Returns (Some (isoDate t))
    | VDate None => Throws (RangeError "Invalid time value")
    | _ =>
        match matchDayMonYear (toStr E v) with
        | Some g => Returns (Some (fromMatch g))
        | None =>
            match newDate E v with
            | None => Returns None
            | Some t => Returns (Some (isoDate t))
            end
        end
    end.

Definition githubRequest (r : request) : M payload :=
  resp <- send r ;;
  if Z.leb 400 (status resp)
  then throw (Error ("GitHub API " ++ decimal (status resp) ++ ": " ++ text resp))
  else ret (data resp).

(** The paging loop of [getExistingIssues]; [fuel] bounds the number of
    pages asked for. *)
Fixpoint getExistingIssuesFrom (fuel : nat) (page : Z) (acc : list issue) : M (list issue) :=
  match fuel with
  | O => lift OutOfFuel
  | S fuel' =>
      batch <- githubRequest (ListIssues page) ;;
      match batch with
      | PIssues (i :: l) => getExistingIssuesFrom fuel' (page + 1) (acc ++ i :: l)%list
      | _ => ret acc
      end
  end.

Definition getExistingIssues (fuel : nat) : M (list issue) :=
  getExistingIssuesFrom fuel 1 [].

Definition ensureLabel (name : string) (color description : value) : M unit :=
  tryCatch
    (githubRequest (GetLabel name) ;;; ret tt)
    (fun e =>
       if includes "404" (message e)
       then githubRequest (CreateLabel name color description) ;;; ret tt
       else ret tt).

Definition createIssueTitle (r : row) : outcome string :=
  let phase := orElse (get r "Phase") (VStr "") in
  let activity := orElse (get r "Activity") (VStr "") in
  match asString "phase.split" phase with
  | Returns p =>
      let phasePrefix := orElse (VStr (splitHead ":" p)) (VStr "Task") in
      Returns ("[" ++ toStr E phasePrefix ++ "] " ++ toStr E activity)
  | Throws e => Throws e
  | OutOfFuel => OutOfFuel
  end.

(** The loop over [Object.entries(PHASE_LABELS)]: the first key that the
    phase text includes. *)
Fixpoint firstPhaseKey {A} (table : list (string * A)) (phase : string)
  : option (string * A) :=
  match table with
  | [] => None
  | (key, entry) :: table' =>
      if includes key phase then Some (key, entry) else firstPhaseKey table' phase
  end.

Definition isTitled (t : string) (i : issue) : bool := String.eqb (title i) t.

Definition syncRow (r : row) (existingIssues : list issue) : M (option action) :=
  let activity := get r "Activity" in
  if negb (truthy activity) then ret None
  else
    t <- lift (createIssueTitle r) ;;
    b <- lift (createIssueBody r) ;;
    phase <- lift (asString "phase.includes" (orElse (get r "Phase") (VStr ""))) ;;
    labels1 <-
      match firstPhaseKey PHASE_LABELS phase with
      | Some (key, (color, description)) =>
          ensureLabel key (VStr color) (VStr description) ;;; ret [key]
      | None => ret []
      end ;;
    let quarter := get r "Quarter" in
    labels2 <-
      (if truthy quarter then
         match lookup QUARTER_LABELS (toStr E quarter) with
         | Own (color, description) =>
             ensureLabel (toStr E quarter) (VStr color) (VStr description) ;;;
             ret (labels1 ++ [toStr E quarter])%list
         | Inherited =>
             ensureLabel (toStr E quarter) VUndef VUndef ;;;
             ret (labels1 ++ [toStr E quarter])%list
         | Missing => ret labels1
         end
       else ret labels1) ;;
    match find (isTitled t) existingIssues with
    | Some existing =>
        githubRequest (UpdateIssue (number existing) b labels2) ;;; ret (Some updated)
    | None =>
        githubRequest (CreateIssue t b labels2) ;;; ret (Some created)
    end.

(** The loop of [main] over the rows, with the three counters. *)
Fixpoint syncRows (rows : list row) (existingIssues : list issue)
    (nCreated nUpdated nSkipped : Z) : M report :=
  match rows with
  | [] => ret (Counts nCreated nUpdated nSkipped)
  | r :: rows' =>
      if negb (truthy (get r "Activity"))
      then syncRows rows' existingIssues nCreated nUpdated (nSkipped + 1)
      else
        result <- syncRow r existingIssues ;;
        match result with
        | Some created => syncRows rows' existingIssues (nCreated + 1) nUpdated nSkipped
        | Some updated => syncRows rows' existingIssues nCreated (nUpdated + 1) nSkipped
        | None => syncRows rows' existingIssues nCreated nUpdated nSkipped
        end
  end.

(** [main], given the token of the configuration and the rows that
    [fetchGoogleSheet] delivered. *)
Definition main (fuel : nat) (token : value) (rows : list row) : M report :=
  if negb (truthy token) then ret (Exit 1)
  else
    tryCatch
      (existingIssues <- getExistingIssues fuel ;;
       syncRows rows existingIssues 0 0 0)
      (fun _ => ret (Exit 1)).

End Script.

End SyncLocal.

(** ** scripts/sync-issues.js *)

Module Actions.

Import Js JsDate Cell Remote Row.
Local Open Scope remote_scope.

Definition githubRequest (r : request) : M payload :=
  resp <- send r ;;
  if negb (Z.leb 200 (status resp) && Z.leb (status resp) 299)
  then throw (Error ("GitHub API error: " ++ decimal (status resp) ++ " - " ++ text resp))
  else ret (data resp).

Definition ensureLabel (name : string) (color : value) : M unit :=
  tryCatch
    (githubRequest (GetLabel name) ;;; ret tt)
    (fun _ => githubRequest (CreateLabel name color VUndef) ;;; ret tt).

Definition PHASE_COLORS : list (string * string) :=
  [ ("Phase 1", "0052CC"); ("Phase 2", "5319E7"); ("Phase 3", "0E8A16") ].

Definition QUARTER_COLORS : list (string * string) :=
  [ ("Q4 2025", "FBCA04"); ("Q1 2026", "F9D0C4"); ("Q2 2026", "C5DEF5");
    ("Q3 2026", "BFD4F2"); ("Q4 2026", "D4C5F9") ].

(** [Object.keys(PHASE_COLORS).find(k => phase.includes(k))], with the
    color of the key found. *)
Fixpoint phaseKey (table : list (string * string)) (phase : string)
  : option (string * string) :=
  match table with
  | [] => None
  | (key, color) :: table' =>
      if includes key phase then Some (key, color) else phaseKey table' phase
  end.

Section Script.

Variable E : engine.

(** The body text of an issue plays no part in any decision of the
    script; it is left to the caller of the model. *)
Variable createIssueBody : row -> outcome string.

Definition createOrUpdateIssue (r : row) (existingIssues : list issue) : M (option payload) :=
  let activity := orElse (get r "Activity") (VStr "") in
  if negb (truthy activity) then ret None
  else
    let quarter := orElse (get r "Quarter") (VStr "") in
    phase <- lift (asString "phase.split" (orElse (get r "Phase") (VStr ""))) ;;
    let t := "[" ++ toStr E (orElse (VStr (splitHead ":" phase)) (VStr "Task")) ++ "] "
             ++ toStr E activity in
    let existing := find (fun i => String.eqb (title i) t) existingIssues in
    b <- lift (createIssueBody r) ;;
    labels1 <-
      (if truthy (VStr phase) then
         match phaseKey PHASE_COLORS phase with
         | Some (key, color) => ensureLabel key (VStr color) ;;; ret [key]
         | None => ret []
         end
       else ret []) ;;
    labels2 <-
      (if truthy quarter then
         match lookup QUARTER_COLORS (toStr E quarter) with
         | Own color =>
             ensureLabel (toStr E quarter) (VStr color) ;;;
             ret (labels1 ++ [toStr E quarter])%list
         | Inherited =>
             ensureLabel (toStr E quarter) VUndef ;;;
             ret (labels1 ++ [toStr E quarter])%list
         | Missing => ret labels1
         end
       else ret labels1) ;;
    match existing with
    | Some ex =>
        answer <- githubRequest (UpdateIssue (number ex) b labels2) ;; ret (Some answer)
    | None =>
        answer <- githubRequest (CreateIssue t b labels2) ;; ret (Some answer)
    end.

(** The paging loop of [getExistingIssues]; [fuel] bounds the number of
    pages asked for.  An answer that is no array has no [length] to
    compare with 0. *)
Fixpoint getExistingIssuesFrom (fuel : nat) (page : Z) (acc : list issue) : M (list issue) :=
  match fuel with
  | O => lift OutOfFuel
  | S fuel' =>
      batch <- githubRequest (ListIssues page) ;;
      match batch with
      | PIssues [] => ret acc
      | PIssues (i :: l) => getExistingIssuesFrom fuel' (page + 1) (acc ++ i :: l)%list
      | _ => throw (TypeError "Cannot read properties of null (reading 'length')")
      end
  end.

Definition getExistingIssues (fuel : nat) : M (list issue) :=
  getExistingIssuesFrom fuel 1 [].

(** What [main] leaves behind: the two counters it prints, or the exit
    code of [process.exit]. *)
Inductive report : Type :=
| Counts (nCreated nUpdated : Z)
| Exit (exitCode : Z).

(** The loop of [main] over the rows: it looks the title up itself, for
    the counters, and leaves the write to [createOrUpdateIssue]. *)
Fixpoint syncRows (rows : list row) (existingIssues : list issue)
    (nCreated nUpdated : Z) : M report :=
  match rows with
  | [] => ret (Counts nCreated nUpdated)
  | r :: rows' =>
      if negb (truthy (get r "Activity"))
      then syncRows rows' existingIssues nCreated nUpdated
      else
        phase <- lift (asString "(intermediate value).split" (orElse (get r "Phase") (VStr ""))) ;;
        let t := "[" ++ toStr E (orElse (VStr (splitHead ":" phase)) (VStr "Task")) ++ "] "
                 ++ toStr E (get r "Activity") in
        let existing := find (fun i => String.eqb (title i) t) existingIssues in
        createOrUpdateIssue r existingIssues ;;;
        match existing with
        | Some _ => syncRows rows' existingIssues nCreated (nUpdated + 1)
        | None => syncRows rows' existingIssues (nCreated + 1) nUpdated
        end
  end.

(** [main], given the rows that [fetchSheet] delivered. *)
Definition main (fuel : nat) (rows : list row) : M report :=
  tryCatch
    (existingIssues <- getExistingIssues fuel ;;
     syncRows rows existingIssues 0 0)
    (fun _ => ret (Exit 1)).

End Script.

End Actions.

(** ** sync-local.cjs, the variant that also sets the board dates *)

Module SyncCjs.

Import Js JsDate Cell Remote Row.
Local Open Scope remote_scope.

Definition PHASE_COLORS : list (string * string) :=
  [ ("Phase 1", "0052CC"); ("Phase 2", "5319E7"); ("Phase 3", "0E8A16");
    ("Phase 4", "D93F0B"); ("Phase 5", "FF6B6B") ].

Definition QUARTER_COLORS : list (string * string) :=
  [ ("Q1 2025", "FBCA04"); ("Q2 2025", "F9D0C4"); ("Q3 2025", "C5DEF5");
    ("Q4 2025", "BFD4F2"); ("Q1 2026", "D4C5F9"); ("Q2 2026", "FEF2C0");
    ("Q3 2026", "BFDADC"); ("Q4 2026", "C2E0C6"); ("Q1 2027", "E6CCFF");
    ("Q2 2027", "CCFFE6"); ("Q3 2027", "FFCCCC"); ("Q4 2027", "CCE6FF") ].

Definition STATUS_COLORS : list (string * string) :=
  [ ("Started", "0E8A16"); ("Not Started", "E4E669"); ("In Progress", "1D76DB");
    ("Completed", "98FF98"); ("Blocked", "D73A4A") ].

Inductive action : Type := created | updated.

(** The object [syncRow] returns (its [row] member is the argument). *)
Record synced : Type := Synced { act : action; num : Z }.

(** The second pass of [getField]: the first key that equals the field
    name once trimmed and lowercased. *)
Fixpoint getFieldLoose (r : row) (fieldName : string) : value :=
  match r with
  | [] => VNull
  | (key, v) :: r' =>
      if String.eqb (toLowerCase (trim key)) (toLowerCase fieldName)
      then v else getFieldLoose r' fieldName
  end.

Definition getField (r : row) (fieldName : string) : value :=
  match get r fieldName with
  | VUndef => getFieldLoose r fieldName
  | v => v
  end.

Definition phaseByActivity (activity : string) : option string :=
  if includes "Phase 1" activity || includes "PT1 Breakdown" activity ||
     includes "Evidence Gathering" activity || includes "Documentation Analysis" activity ||
     includes "Third party" activity
  then Some "Phase 1"
  else if includes "Phase 2" activity || includes "Automation" activity ||
          includes "Statement of Conformity" activity || includes "Pilot Product" activity
  then Some "Phase 2"
  else if includes "Phase 3" activity || includes "Internal Audit" activity ||
          includes "Process Mandate" activity
  then Some "Phase 3"
  else if includes "Phase 4" activity || includes "Conformance Delivery" activity ||
          includes "Products not covered" activity
  then Some "Phase 4"
  else if includes "Phase 5" activity || includes "Lifecycle" activity ||
          includes "PDS Solution" activity
  then Some "Phase 5"
  else None.

Definition getPhaseFromRow (r : row) : outcome (option string) :=
  match asString "phaseColumn.match" (orElse (getField r "Phase") (VStr "")) with
  | Returns phaseColumn =>
      match matchPhase phaseColumn with
      | Some d => Returns (Some ("Phase " ++ String d EmptyString))
      | None =>
          match asString "activity.includes" (orElse (getField r "Activity") (VStr "")) with
          | Returns activity => Returns (phaseByActivity activity)
          | Throws e => Throws e
          | OutOfFuel => OutOfFuel
          end
      end
  | Throws e => Throws e
  | OutOfFuel => OutOfFuel
  end.

Section Script.

Variable E : engine.

(** The body text of an issue plays no part in any decision of the
    script; it is left to the caller of the model. *)
Variable createIssueBody : row -> outcome string.

(** The three local calendar fields put together by the template
    [`${getFullYear()}-${String(getMonth() + 1).padStart(2, '0')}-${String(getDate()).padStart(2, '0')}`];
    every field of an Invalid Date is NaN. *)
Definition localDate (t : option Z) : string :=
  match t with
  | Some t =>
      let '(y, m, d) := localCivil E t in
      decimal y ++ "-" ++ padStart2 (decimal m) ++ "-" ++ padStart2 (decimal d)
  | None => "NaN-NaN-NaN"
  end.

(** [parseDate]; a serial number of the sheet counts whole days from
    [new Date(1899, 11, 30)], the local midnight of that day at the
    offset the zone had then, and the result is read back at the offset
    of today. *)
Definition parseDate (v : value) : option string :=
  if negb (truthy v) then None
  else
    match v with
    | VNum n =>
        let excelEpoch := daysFromCivil 1899 12 30 * msPerDay - offset1899 E in
        Some (localDate (timeClip (excelEpoch + n * 24 * 60 * 60 * 1000)))
    | VDate t => Some (localDate t)
    | _ =>
        match matchDayMonYear (toStr E v) with
        | Some g => Some (fromMatch g)
        | None =>
            match newDate E v with
            | Some t => Some (localDate (Some t))
            | None => None
            end
        end
    end.

Definition githubRequest (r : request) : M payload :=
  resp <- send r ;;
  if Z.leb 400 (status resp)
  then throw (Error ("GitHub API " ++ decimal (status resp) ++ ": " ++ text resp))
  else ret (data resp).

(** A GraphQL call; a failed one answers with an [errors] member, which
    is thrown. *)
Definition graphqlRequest (r : request) : M payload :=
  resp <- send r ;;
  if Z.leb 400 (status resp) then throw (Error (text resp)) else ret (data resp).

Definition updateProjectItemDate (projectId itemId fieldId : string)
    (dateValue : option string) : M unit :=
  match dateValue with
  | None => ret tt
  | Some dv =>
      if String.eqb dv EmptyString then ret tt
      else graphqlRequest (SetDate projectId itemId fieldId dv) ;;; ret tt
  end.

Definition isSet (dateValue : option string) : bool :=
  match dateValue with
  | Some dv => negb (String.eqb dv EmptyString)
  | None => false
  end.

(** The two guarded calls of [main] that set the dates of a board
    entry: [if (startDate) await updateProjectItemDate(...)], then the
    same for the end date. *)
Definition setDates (projectId itemId startFieldId endFieldId : string)
    (startDate endDate : option string) : M unit :=
  (if isSet startDate
   then updateProjectItemDate projectId itemId startFieldId startDate
   else ret tt) ;;;
  (if isSet endDate
   then updateProjectItemDate projectId itemId endFieldId endDate
   else ret tt).

(** The step of [main] that sets the two dates of the board entry of a
    synced row. *)
Definition setItemDates (projectId itemId startFieldId endFieldId : string) (r : row)
  : M unit :=
  setDates projectId itemId startFieldId endFieldId
    (parseDate (getField r "Start Date")) (parseDate (getField r "End Date")).

Definition ensureLabel (name : string) (color description : value) : M unit :=
  tryCatch
    (githubRequest (GetLabel name) ;;; ret tt)
    (fun e =>
       if includes "404" (message e)
       then githubRequest (CreateLabel name color description) ;;; ret tt
       else ret tt).

Definition createIssueTitle (r : row) : outcome string :=
  let activity := orElse (getField r "Activity") (VStr "Untitled Task") in
  match getPhaseFromRow r with
  | Returns (Some phase) => Returns ("[" ++ phase ++ "] " ++ toStr E activity)
  | Returns None => Returns (toStr E activity)
  | Throws e => Throws e
  | OutOfFuel => OutOfFuel
  end.

(** The predicate of [existingIssues.find] in [syncRow]. *)
Definition sameTask (activity : value) (t : string) (i : issue) : bool :=
  includes (toStr E activity) (title i) || String.eqb (title i) t.

(** The label of a table entry: ensured with the entry's color when the
    key is an own entry, without a color when the key only names an
    inherited member. *)
Definition labelFor (table : list (string * string)) (key description : string)
    (labels : list string) : option (M (list string)) :=
  match lookup table key with
  | Own color =>
      Some (ensureLabel key (VStr color) (VStr description) ;;; ret (labels ++ [key])%list)
  | Inherited =>
      Some (ensureLabel key VUndef (VStr description) ;;; ret (labels ++ [key])%list)
  | Missing => None
  end.

Definition orKeep (labels : list string) (c : option (M (list string))) : M (list string) :=
  match c with
  | Some c => c
  | None => ret labels
  end.

Definition syncRow (r : row) (existingIssues : list issue) : M (option synced) :=
  let activity := getField r "Activity" in
  if negb (truthy activity) then ret None
  else
    t <- lift (createIssueTitle r) ;;
    b <- lift (createIssueBody r) ;;
    phase <- lift (getPhaseFromRow r) ;;
    labels1 <-
      match phase with
      | Some ph => orKeep [] (labelFor PHASE_COLORS ph (ph ++ " tasks") [])
      | None => ret []
      end ;;
    let quarter := getField r "Quarter" in
    labels2 <-
      (if truthy quarter then
         q <- lift (asString "quarter.match" quarter) ;;
         match
           match matchQuarter q with
           | Some q0 => labelFor QUARTER_COLORS q0 (q0 ++ " deliverables") labels1
           | None => None
           end
         with
         | Some c => c
         | None => orKeep labels1 (labelFor QUARTER_COLORS q (q ++ " deliverables") labels1)
         end
       else ret labels1) ;;
    let status := getField r "Status" in
    labels3 <-
      (if truthy status
       then orKeep labels2
              (labelFor STATUS_COLORS (toStr E status) ("Status: " ++ toStr E status) labels2)
       else ret labels2) ;;
    match find (sameTask activity t) existingIssues with
    | Some existing =>
        githubRequest (UpdateIssue (number existing) b labels3) ;;;
        ret (Some (Synced updated (number existing)))
    | None =>
        newIssue <- githubRequest (CreateIssue t b labels3) ;;
        match newIssue with
        | PIssue i => ret (Some (Synced created (number i)))
        | _ => throw (TypeError "Cannot read properties of null (reading 'number')")
        end
    end.

End Script.

(** The array [months] of [formatDateDisplay]. *)
Definition monthNames : list string :=
  [ "Jan"; "Feb"; "Mar"; "Apr"; "May"; "Jun"; "Jul"; "Aug"; "Sep"; "Oct"; "Nov"; "Dec" ].

(** A piece of the split inside a template: an absent one reads
    [undefined]. *)
Definition shown (piece : option string) : string :=
  match piece with
  | Some s => s
  | None => "undefined"
  end.

(** [formatDateDisplay] on what [parseDate] returned ([None] is [null]). *)
Definition formatDateDisplay (isoDate : option string) : string :=
  match isoDate with
  | None => "TBD"
  | Some s =>
      if String.eqb s EmptyString then "TBD"
      else
        let parts := split "-" s in
        let year := nth_error parts 0 in
        let month := nth_error parts 1 in
        let day := nth_error parts 2 in
        let monthName :=
          match parseInt (shown month) with
          | Some n => if Z.leb 1 n then nth_error monthNames (Z.to_nat (n - 1)) else None
          | None => None
          end in
        shown day ++ "-" ++ shown monthName ++ "-" ++ shown year
  end.

End SyncCjs.

(** ** The Apps Script variant *)

Module AppsScript.

Import Js JsDate Cell Remote.
Local Open Scope remote_scope.

Definition githubRequest (r : request) : M payload :=
  resp <- send r ;;
  if Z.leb 400 (status resp)
  then throw (Error ("GitHub API Error: " ++ decimal (status resp)))
  else ret (data resp).

Definition graphqlRequest (r : request) : M payload :=
  resp <- send r ;;
  if Z.leb 400 (status resp)
  then throw (Error ("GraphQL Error: " ++ text resp))
  else ret (data resp).

Definition ensureLabel (name : string) (color : value) : M unit :=
  tryCatch
    (githubRequest (GetLabel name) ;;; ret tt)
    (fun e =>
       if includes "404" (message e)
       then githubRequest (CreateLabel name color VUndef) ;;; ret tt
       else ret tt).

Definition named (name : string) (f : string * string) : bool := String.eqb (fst f) name.

Definition linkedTo (issueNumber : Z) (it : string * option Z) : bool :=
  match snd it with
  | Some n => Z.eqb n issueNumber
  | None => false
  end.

Definition nonEmpty (s : string) : bool := negb (String.eqb s EmptyString).

(** [updateProjectDates]; the dates are the texts [formatDate] produced,
    empty when the cell had no date.  Whatever is thrown inside is logged
    and dropped. *)
Definition updateProjectDates (issueNumber : Z) (startDate endDate : string) : M unit :=
  tryCatch
    (board <- graphqlRequest QueryBoard ;;
     match board with
     | PBoard projectId fs its =>
         let startDateField := find (named "Start Date") fs in
         let endDateField := find (named "End Date") fs in
         match find (linkedTo issueNumber) its with
         | None => ret tt
         | Some projectItem =>
             (match startDateField with
              | Some f =>
                  if nonEmpty startDate
                  then graphqlRequest (SetDate projectId (fst projectItem) (snd f) startDate) ;;; ret tt
                  else ret tt
              | None => ret tt
              end) ;;;
             (match endDateField with
              | Some f =>
                  if nonEmpty endDate
                  then graphqlRequest (SetDate projectId (fst projectItem) (snd f) endDate) ;;; ret tt
                  else ret tt
              | None => ret tt
              end)
         end
     | _ => throw (TypeError "Cannot read properties of undefined (reading 'user')")
     end)
    (fun _ => ret tt).

Section Titles.

Variable E : engine.

(** [getPhase] on the Phase cell of a row. *)
Definition getPhase (phaseText : value) : option string :=
  if negb (truthy phaseText) then None
  else
    match matchPhase (toStr E phaseText) with
    | Some d => Some ("Phase " ++ String d EmptyString)
    | None => None
    end.

(** [createIssueTitle] on the [phase] and the [activity] of the row data. *)
Definition createIssueTitle (phase activity : value) : string :=
  let activity := orElse activity (VStr "Untitled Task") in
  match getPhase phase with
  | Some ph => "[" ++ ph ++ "] " ++ toStr E activity
  | None => toStr E activity
  end.

End Titles.

End AppsScript.

(** ** The dashboard's sheet reader (sheets.ts) *)

Module Dashboard.

Import Js JsDate Cell.

Inductive TaskStatus : Type := not_started | in_progress | completed | blocked.

Definition TaskStatus_eqb (a b : TaskStatus) : bool :=
  match a, b with
  | not_started, not_started | in_progress, in_progress
  | completed, completed | blocked, blocked => true
  | _, _ => false
  end.

(** A progress is a JavaScript number: an integer here, or NaN ([None]). *)
Record Task : Type := mkTask {
  id : string;
  phase : string;
  activity : string;
  taskDetail : string;
  principle : string;
  deliverable : string;
  owner : string;
  quarter : string;
  startDate : string;
  endDate : string;
  status : TaskStatus;
  progress : option Z
}.

Record Phase : Type := mkPhase {
  name : string;
  tasks : list Task;
  phaseProgress : option Z;
  phaseStart : string;
  phaseEnd : string
}.

Record Stats : Type := mkStats {
  total : Z;
  nCompleted : Z;
  inProgress : Z;
  notStarted : Z;
  overdue : Z
}.

(** [lastUpdated] is kept as the time value of the clock. *)
Record ProjectData : Type := mkProjectData {
  projectName : string;
  allTasks : list Task;
  phases : list Phase;
  lastUpdated : Z;
  stats : Stats;
  overallProgress : option Z
}.

Inductive fetched : Type :=
| Success (data : ProjectData)
| Failure (error : string).

(** The column indices found for the PSC format; -1 when absent. *)
Record columns : Type := mkColumns {
  cPhase : Z;
  cActivity : Z;
  cTaskDetail : Z;
  cPrinciple : Z;
  cDeliverable : Z;
  cOwner : Z;
  cQuarter : Z;
  cStartDate : Z;
  cEndDate : Z
}.

(** A sheet row of [sheet_to_json] with [header: 1]: an array in which an
    empty cell is a hole; a hole reads as [VUndef]. *)
Definition sheetRow : Type := list value.

(** [row[c]] *)
Definition cell (r : sheetRow) (c : Z) : value := nth (Z.to_nat c) r VUndef.

(** The sum of [reduce((sum, t) => sum + t.progress, 0)]; NaN absorbs. *)
Fixpoint sumProgress (ts : list Task) : option Z :=
  match ts with
  | [] => Some 0
  | t :: ts' =>
      match progress t, sumProgress ts' with
      | Some p, Some s => Some (p + s)
      | _, _ => None
      end
  end.

(** [Math.round(sum / ts.length)] of the progress of the tasks. *)
Definition average (ts : list Task) : option Z :=
  match sumProgress ts with
  | Some s => Double.meanOf s (Z.of_nat (length ts))
  | None => None
  end.

(** [l.sort()[0]]: the least text in code unit order. *)
Fixpoint least (s : string) (l : list string) : string :=
  match l with
  | [] => s
  | x :: l' => least (if String.ltb x s then x else s) l'
  end.

(** [l.sort().reverse()[0]]: the greatest text. *)
Fixpoint greatest (s : string) (l : list string) : string :=
  match l with
  | [] => s
  | x :: l' => greatest (if String.ltb s x then x else s) l'
  end.

Definition nonEmpty (s : string) : bool := negb (String.eqb s EmptyString).

Definition count {A} (p : A -> bool) (l : list A) : Z := Z.of_nat (length (List.filter p l)).

(** The [Map] from phase name to tasks, in insertion order:
    [if (!phaseMap.has(phase)) phaseMap.set(phase, []); phaseMap.get(phase).push(task)]. *)
Fixpoint addToPhase (ph : string) (t : Task) (m : list (string * list Task))
  : list (string * list Task) :=
  match m with
  | [] => [(ph, [t])]
  | (k, ts) :: m' =>
      if String.eqb k ph then (k, (ts ++ [t])%list) :: m'
      else (k, ts) :: addToPhase ph t m'
  end.

Section Reader.

Variable E : engine.

(** [XLSX.SSF.parse_date_code] of the spreadsheet library, which is no
    code of this repository: the year, month and day of a serial number,
    or [null]. *)
Variable parse_date_code : Z -> option (Z * Z * Z).

Definition parseDate (v : value) : outcome string :=
  if negb (truthy v) then Returns ""
  else
    match v with
    | VDate (Some t) => Returns (isoDate t)
    | VDate None => Throws (RangeError "Invalid time value")
    | VNum n =>
        match parse_date_code n with
        | Some (y, m, d) =>
            Returns (decimal y ++ "-" ++ padStart2 (decimal m) ++ "-" ++ padStart2 (decimal d))
        | None => Throws (TypeError "Cannot read properties of null (reading 'y')")
        end
    | _ =>
        let str := trim (toStr E v) in
        if String.eqb str EmptyString then Returns ""
        else
          match matchDayMonYear str with
          | Some g => Returns (fromMatch g)
          | None =>
              match Date_parse E str with
              | Some t => Returns (isoDate t)
              | None => Returns str
              end
          end
    end.

(** [today]: the local midnight of the current day. *)
Definition todayMidnight : Z :=
  let '(y, m, d) := localCivil E (now E) in localMidnight E y m d.

(** [d < t] on a Date that may be invalid: false on NaN. *)
Definition before (d : option Z) (t : Z) : bool :=
  match d with Some x => Z.ltb x t | None => false end.

Definition notAfter (d : option Z) (t : Z) : bool :=
  match d with Some x => Z.leb x t | None => false end.

Definition determineStatus (startDate endDate : string) : TaskStatus :=
  if negb (nonEmpty startDate) && negb (nonEmpty endDate) then not_started
  else
    let today := todayMidnight in
    if nonEmpty endDate && before (Date_parse E endDate) today then completed
    else if nonEmpty startDate && notAfter (Date_parse E startDate) today then in_progress
    else not_started.

(** [calculateProgress]; the two differences of time values, their
    quotient and its product with 100 are those of the host's doubles. *)
Definition calculateProgress (startDate endDate : string) : option Z :=
  if negb (nonEmpty startDate) || negb (nonEmpty endDate) then Some 0
  else
    let today := now E in
    let start := Date_parse E startDate in
    let end_ := Date_parse E endDate in
    if notAfter end_ today then Some 100
    else if match start with Some s => Z.leb today s | None => false end then Some 0
    else
      match start, end_ with
      | Some s, Some e => Double.percent (today - s) (e - s)
      | _, _ => None
      end.

(** [String(h || '').toLowerCase().trim()] over the header cells; [map]
    leaves a hole a hole. *)
Definition lowered (h : value) : option string :=
  match h with
  | VUndef => None
  | _ => Some (trim (toLowerCase (toStr E (orElse h (VStr "")))))
  end.

(** The inner loop of [findCol] for one keyword, from index [i]:
    [Some (Returns i)] when found, [None] when the keyword is in no
    header; reading [includes] off a hole throws. *)
Fixpoint scanHeaders (lower : list (option string)) (kw : string) (i : Z)
  : option (outcome Z) :=
  match lower with
  | [] => None
  | None :: _ =>
      Some (Throws (TypeError "Cannot read properties of undefined (reading 'includes')"))
  | Some h :: lower' =>
      if includes (toLowerCase kw) h then Some (Returns i) else scanHeaders lower' kw (i + 1)
  end.

Fixpoint findColIn (lower : list (option string)) (keywords : list string) : outcome Z :=
  match keywords with
  | [] => Returns (-1)
  | kw :: keywords' =>
      match scanHeaders lower kw 0 with
      | Some r => r
      | None => findColIn lower keywords'
      end
  end.

Definition findCol (headers : list value) (keywords : list string) : outcome Z :=
  findColIn (map lowered headers) keywords.

Definition andThen {A B} (o : outcome A) (k : A -> outcome B) : outcome B :=
  match o with
  | Returns a => k a
  | Throws e => Throws e
  | OutOfFuel => OutOfFuel
  end.

(** [rows[0].map(h => String(h || ''))] *)
Definition headerTexts (r : sheetRow) : list value :=
  map (fun h => match h with VUndef => VUndef | _ => VStr (toStr E (orElse h (VStr ""))) end) r.

Definition findColumns (headers : list value) : outcome columns :=
  andThen (findCol headers ["phase"]) (fun c1 =>
  andThen (findCol headers ["activity"]) (fun c2 =>
  andThen (findCol headers ["task detail"]) (fun c3 =>
  andThen (findCol headers ["pt1 principle"; "principle"]) (fun c4 =>
  andThen (findCol headers ["deliverable"]) (fun c5 =>
  andThen (findCol headers ["owner"]) (fun c6 =>
  andThen (findCol headers ["quarter"]) (fun c7 =>
  andThen (findCol headers ["start date"; "start"]) (fun c8 =>
  andThen (findCol headers ["end date"; "end"]) (fun c9 =>
  Returns (mkColumns c1 c2 c3 c4 c5 c6 c7 c8 c9)))))))))).

(** [cols.x >= 0 ? String(row[cols.x] || '').trim() : ''] *)
Definition textAt (r : sheetRow) (c : Z) : string :=
  if Z.leb 0 c then trim (toStr E (orElse (cell r c) (VStr ""))) else "".

(** [cols.x >= 0 ? parseDate(row[cols.x]) : ''] *)
Definition dateAt (r : sheetRow) (c : Z) : outcome string :=
  if Z.leb 0 c then parseDate (cell r c) else Returns "".

(** One turn of the loop over the data rows: the task of row [i], or
    nothing when the row is skipped. *)
Definition rowTask (cols : columns) (i : Z) (r : sheetRow) : outcome (option Task) :=
  if Nat.eqb (length r) 0 then Returns None
  else
    let activity := textAt r (cActivity cols) in
    if negb (nonEmpty activity) then Returns None
    else
      andThen (dateAt r (cStartDate cols)) (fun startDate =>
      andThen (dateAt r (cEndDate cols)) (fun endDate =>
      Returns (Some (mkTask
        ("task-" ++ decimal i)
        (textAt r (cPhase cols))
        activity
        (textAt r (cTaskDetail cols))
        (textAt r (cPrinciple cols))
        (textAt r (cDeliverable cols))
        (textAt r (cOwner cols))
        (textAt r (cQuarter cols))
        startDate
        endDate
        (determineStatus startDate endDate)
        (calculateProgress startDate endDate))))).

(** The loop [for (let i = 1; i < rows.length; i++)]: the tasks and the
    phase map. *)
Fixpoint collect (cols : columns) (i : Z) (rows : list sheetRow)
    (ts : list Task) (phaseMap : list (string * list Task))
  : outcome (list Task * list (string * list Task)) :=
  match rows with
  | [] => Returns (ts, phaseMap)
  | r :: rows' =>
      andThen (rowTask cols i r) (fun t =>
        match t with
        | None => collect cols (i + 1) rows' ts phaseMap
        | Some task =>
            collect cols (i + 1) rows' (ts ++ [task])%list
              (if nonEmpty (phase task) then addToPhase (phase task) task phaseMap
               else phaseMap)
        end)
  end.

Definition buildPhase (entry : string * list Task) : Phase :=
  let '(nm, phaseTasks) := entry in
  let starts := map startDate (List.filter (fun t => nonEmpty (startDate t)) phaseTasks) in
  let ends := map endDate (List.filter (fun t => nonEmpty (endDate t)) phaseTasks) in
  mkPhase nm phaseTasks (average phaseTasks)
    (match starts with [] => "" | s :: l => least s l end)
    (match ends with [] => "" | s :: l => greatest s l end).

Definition buildStats (ts : list Task) : Stats :=
  let today := isoDate (now E) in
  mkStats
    (Z.of_nat (length ts))
    (count (fun t => TaskStatus_eqb (status t) completed) ts)
    (count (fun t => TaskStatus_eqb (status t) in_progress) ts)
    (count (fun t => TaskStatus_eqb (status t) not_started) ts)
    (count (fun t => negb (TaskStatus_eqb (status t) completed) &&
                     nonEmpty (endDate t) && String.ltb (endDate t) today) ts).

(** [fetchProjectData] from the rows of the sheet on: what it returns,
    or what it throws into its [catch]. *)
Definition projectDataOf (rows : list sheetRow) : outcome fetched :=
  match rows with
  | [] | [_] => Returns (Failure "No data rows found")
  | header :: dataRows =>
      andThen (findColumns (headerTexts header)) (fun cols =>
      andThen (collect cols 1 dataRows [] []) (fun '(ts, phaseMap) =>
      Returns (Success (mkProjectData
        "PSC Conformance Delivery Process Plan"
        ts
        (map buildPhase phaseMap)
        (now E)
        (buildStats ts)
        (match ts with [] => Some 0 | _ => average ts end)))))
  end.

End Reader.

(** [extractSheetId]: a text without a slash and longer than twenty
    characters is taken for an identifier as it is; otherwise the
    identifier is read off the address. *)
Definition extractSheetId (input : string) : option string :=
  if negb (includes "/" input) && Nat.ltb 20 (String.length input)
  then Some (trim input)
  else matchSheetId input.

(** The address [fetchProjectData] builds from the identifier. *)
Definition exportUrl (sheetId : string) : string :=
  "https://docs.google.com/spreadsheets/d/" ++ sheetId ++ "/export?format=xlsx".

End Dashboard.

(** ** Vocabulary of the properties *)

Module Props.

Import Js JsDate Cell Remote Row.

Fixpoint allChars (p : ascii -> bool) (s : string) : bool :=
  match s with
  | EmptyString => true
  | String c s' => p c && allChars p s'
  end.

(** One or two digits: the day of [D-Mon-YYYY]. *)
Definition dayToken (s : string) : bool :=
  allChars isDigit s && (Nat.eqb (String.length s) 1 || Nat.eqb (String.length s) 2).

(** Three word characters: the month token. *)
Definition monthToken (s : string) : bool :=
  allChars isWord s && Nat.eqb (String.length s) 3.

(** Four digits: the year. *)
Definition yearToken (s : string) : bool :=
  allChars isDigit s && Nat.eqb (String.length s) 4.

(** An engine that knows no date format besides the ISO calendar date,
    in the zone [tz], at the time [clock]. *)
Definition isoOnly (tz clock : Z) : engine :=
  Engine (fun _ => None) (fun t => isoDate t) tz (tz * 60000) clock.

(** The time value lies in the years 0000 to 9999, those an ISO date
    prints with four digits. *)
Definition fourDigitYear (t : Z) : bool :=
  let y := fst (fst (civilFromDays (t / msPerDay))) in
  Z.leb 0 y && Z.leb y 9999.

(** An engine that, besides the ISO calendar dates, reads the first day
    of the year 10000 written with an expanded year. *)
Definition expandedYears (tz clock : Z) : engine :=
  Engine (fun s => if String.eqb s "+010000-01-01" then Some 253402300800000 else None)
         (fun t => isoDate t) tz (tz * 60000) clock.

(** The twelve month abbreviations of the date parsers. *)
Definition knownMonths : list string :=
  ["Jan"; "Feb"; "Mar"; "Apr"; "May"; "Jun"; "Jul"; "Aug"; "Sep"; "Oct"; "Nov"; "Dec"].

Definition isText (v : value) : bool :=
  match v with VStr _ => true | _ => false end.

(** A row whose cells all hold text, as the fields of a task record do. *)
Definition textRow (r : row) : bool := forallb (fun kv => isText (snd kv)) r.

(** Every issue of the snapshot is still on the tracker. *)
Definition known (t : tracker) (snapshot : list issue) : bool :=
  forallb (fun i => existsb (hasNumber (number i)) (issues t)) snapshot.

(** The length of month [mp] of a year counted from March (0 is March,
    11 is February), as the day arithmetic of the calendar counts. *)
Definition marchMonthLength (mp : Z) (leap : bool) : Z :=
  if Z.eqb mp 11 then (if leap then 29 else 28)
  else if Z.eqb mp 1 || Z.eqb mp 3 || Z.eqb mp 6 || Z.eqb mp 8 then 30
  else 31.

Definition emptyTracker : tracker := Tracker ∅ [] "PVT_1" [] [] ∅.

Definition withLabel (name : string) (t : tracker) : tracker :=
  Tracker ({[ name ]} ∪ labelNames t) (issues t) (boardId t) (fields t) (items t) (dates t).

(** The world after a label was ensured while nothing failed: one lookup,
    and one create when the label was missing. *)
Definition ensured (name : string) (color description : value) (w : world) : world :=
  if bool_decide (name ∈ labelNames (remote w))
  then World (remote w) [] (log w ++ [GetLabel name])
  else World (withLabel name (remote w)) []
         (log w ++ [GetLabel name; CreateLabel name color description]).

(** The write that a date causes: none for an empty or absent date. *)
Definition written (projectId itemId fieldId : string) (d : option string) : list request :=
  match d with
  | Some v => if String.eqb v EmptyString then [] else [SetDate projectId itemId fieldId v]
  | None => []
  end.

(** The board of the examples: both date fields, one entry linked to
    issue 7, whose end date was set before. *)
Definition sampleBoard : tracker :=
  Tracker ∅ [] "PVT_1" [("Start Date", "F1"); ("End Date", "F2")] [("I1", Some 7)]
    {[ ("I1", "F2") := "2025-12-31" ]}.

(** The tracker after an issue was updated, and after one was created. *)
Definition updatedTracker (n : Z) (b : string) (ls : list string) (t : tracker) : tracker :=
  Tracker (labelNames t)
    (map (fun i => if hasNumber n i then Issue n (title i) b ls else i) (issues t))
    (boardId t) (fields t) (items t) (dates t).

Definition createdTracker (ti b : string) (ls : list string) (t : tracker) : tracker :=
  Tracker (labelNames t) (issues t ++ [Issue (nextNumber (issues t)) ti b ls])
    (boardId t) (fields t) (items t) (dates t).

(** The tracker of the examples: one issue, number 7, titled
    "[Phase 1] Kickoff Meeting". *)
Definition kickoffMeeting : issue := Issue 7 "[Phase 1] Kickoff Meeting" "" [].

Definition oneIssueTracker : tracker := Tracker ∅ [kickoffMeeting] "PVT_1" [] [] ∅.

(** The row of the examples: activity "Kickoff" in phase "Phase 1: Setup". *)
Definition kickoffRow : row := [("Phase", VStr "Phase 1: Setup"); ("Activity", VStr "Kickoff")].

Definition plainBody (r : row) : outcome string := Returns "body".

(** A row [syncRow] can process: its cells are text and its body text
    can be built. *)
Definition goodRow (body : row -> outcome string) (r : row) : bool :=
  textRow r && match body r with Returns _ => true | _ => false end.

(** The counters of a run in which every row is matched against one and
    the same list of issues. *)
Fixpoint tally (E : engine) (snapshot : list issue) (rows : list row)
    (nCreated nUpdated nSkipped : Z) : SyncLocal.report :=
  match rows with
  | [] => SyncLocal.Counts nCreated nUpdated nSkipped
  | r :: rows' =>
      if negb (truthy (get r "Activity"))
      then tally E snapshot rows' nCreated nUpdated (nSkipped + 1)
      else
        match SyncLocal.createIssueTitle E r with
        | Returns ti =>
            if existsb (SyncLocal.isTitled ti) snapshot
            then tally E snapshot rows' nCreated (nUpdated + 1) nSkipped
            else tally E snapshot rows' (nCreated + 1) nUpdated nSkipped
        | _ => SyncLocal.Exit 1
        end
  end.

Definition isListing (r : request) : bool :=
  match r with ListIssues _ => true | _ => false end.

Definition notListing (r : request) : bool := negb (isListing r).

Definition isLabelRequest (r : request) : bool :=
  match r with GetLabel _ | CreateLabel _ _ _ => true | _ => false end.

(** The requests that write an issue. *)
Definition isIssueWrite (r : request) : bool :=
  match r with UpdateIssue _ _ _ | CreateIssue _ _ _ => true | _ => false end.

(** A computation that, while nothing fails, returns after label
    requests only, leaving the issues and the calm as they were. *)
Definition labelsOnly {A} (c : M A) : Prop :=
  forall w, faults w = [] ->
    exists a w', c w = (Returns a, w') /\ faults w' = [] /\
      issues (remote w') = issues (remote w) /\
      exists extra, log w' = (log w ++ extra)%list /\ forallb isLabelRequest extra = true.

Definition isCreate (r : request) : bool :=
  match r with CreateLabel _ _ _ => true | _ => false end.






(** The status and the progress of a task are those its two dates give. *)
Definition datedOnly (E : engine) (t : Dashboard.Task) : Prop :=
  Dashboard.status t = Dashboard.determineStatus E (Dashboard.startDate t) (Dashboard.endDate t) /\
  Dashboard.progress t
    = Dashboard.calculateProgress E (Dashboard.startDate t) (Dashboard.endDate t).



(** The tasks of the phase named [nm]. *)
Definition inPhase (nm : string) (t : Dashboard.Task) : bool :=
  String.eqb (Dashboard.phase t) nm.

(** The phase map groups the tasks: its keys are distinct and not empty,
    the entry of a key holds the tasks of that phase in their order, and
    every phase that a task names has an entry. *)
Definition grouped (ts : list Dashboard.Task) (pm : list (string * list Dashboard.Task)) : Prop :=
  List.NoDup (map fst pm) /\
  Forall (fun entry => fst entry <> EmptyString /\ snd entry <> [] /\
                       snd entry = List.filter (inPhase (fst entry)) ts) pm /\
  (forall t, In t ts -> Dashboard.phase t <> EmptyString -> In (Dashboard.phase t) (map fst pm)).

(** No header holds the keyword (and no header is a hole). *)
Definition missing (kw : string) (lower : list (option string)) : Prop :=
  Forall (fun o => exists h, o = Some h /\ includes (toLowerCase kw) h = false) lower.

(** A progress that is a number is a percentage. *)
Definition percentage (p : option Z) : Prop :=
  match p with
  | Some n => 0 <= n <= 100
  | None => True
  end.

(** A sheet of the examples with a Phase column: two phases, three tasks. *)
Definition sheetPhased : list Dashboard.sheetRow :=
  [ [VStr "Phase"; VStr "Activity"; VStr "Start Date"; VStr "End Date"];
    [VStr "Phase 1"; VStr "Kickoff"; VStr "2025-10-01"; VStr "2025-10-31"];
    [VStr "Phase 2"; VStr "Pilot"; VStr "2025-11-01"; VStr "2025-11-30"];
    [VStr "Phase 1"; VStr "Review"; VStr "2025-10-15"; VStr "2025-12-15"] ].

(** The listing requests for [count] pages from page [first] on. *)
Definition pagesFrom (first count : nat) : list request :=
  map (fun k => ListIssues (Z.of_nat k)) (seq first count).

(** The number of pages that [n] issues fill, the last one maybe in part. *)
Definition fullPages (n : nat) : nat := (n + 99) / 100.

(** The titles of the issues on the tracker, in listing order. *)
Definition titles (t : tracker) : list string := map title (issues t).

(** A row that [main] hands to [syncRow]: its Activity cell is truthy. *)
Definition isActive (r : row) : bool := truthy (get r "Activity").

Definition activeRows (rows : list row) : Z := Z.of_nat (length (List.filter isActive rows)).

Definition idleRows (rows : list row) : Z :=
  Z.of_nat (length (List.filter (fun r => negb (isActive r)) rows)).

(** Every label of the list is defined on the tracker. *)
Definition present (t : tracker) (ls : list string) : bool :=
  forallb (fun l => bool_decide (l ∈ labelNames t)) ls.

(** A stage of [syncRow] that extends the labels [ls]: while nothing
    fails it returns [ls'] after label requests only, leaves the issues
    alone, and every label it returns is then defined on the tracker. *)
Definition labelStage (ls ls' : list string) (c : M (list string)) : Prop :=
  forall w, faults w = [] -> present (remote w) ls = true ->
    exists w', c w = (Returns ls', w') /\ faults w' = [] /\
      issues (remote w') = issues (remote w) /\ present (remote w') ls' = true /\
      exists extra, log w' = (log w ++ extra)%list /\ forallb isLabelRequest extra = true.

(** The labels that sync-local.js and sync-issues.js put on the issue of
    a row: the first phase key that the phase text contains, then the
    quarter when the quarter table knows it. *)
Definition phaseLabel (phase : string) : list string :=
  match SyncLocal.firstPhaseKey SyncLocal.PHASE_LABELS phase with
  | Some (key, _) => [key]
  | None => []
  end.

Definition quarterLabel (E : engine) (quarter : value) : list string :=
  if truthy quarter then
    match lookup SyncLocal.QUARTER_LABELS (toStr E quarter) with
    | Missing => []
    | _ => [toStr E quarter]
    end
  else [].

Definition labelsOf (E : engine) (r : row) : list string :=
  (phaseLabel (toStr E (orElse (get r "Phase") (VStr ""))) ++ quarterLabel E (get r "Quarter"))%list.

(** The request that writes the issue of a row: an update of the first
    issue of the snapshot with the title, a create when there is none. *)
Definition issueWrite (snapshot : list issue) (ti b : string) (ls : list string) : request :=
  match find (SyncLocal.isTitled ti) snapshot with
  | Some ex => UpdateIssue (number ex) b ls
  | None => CreateIssue ti b ls
  end.

(** A row of the examples whose Phase cell holds a number. *)
Definition numberedRow : row := [("Phase", VNum 2); ("Activity", VStr "Pilot")].

(** The issue writes of a run of sync-local.js or sync-issues.js over
    the rows, against one snapshot: one for every row with an activity,
    in the order of the rows. *)
Fixpoint writesOf (E : engine) (body : row -> outcome string) (snapshot : list issue)
    (rows : list row) : list request :=
  match rows with
  | [] => []
  | r :: rows' =>
      if isActive r then
        match SyncLocal.createIssueTitle E r, body r with
        | Returns ti, Returns b =>
            issueWrite snapshot ti b (labelsOf E r) :: writesOf E body snapshot rows'
        | _, _ => []
        end
      else writesOf E body snapshot rows'
  end.

(** The counters of sync-issues.js, read off those of sync-local.js. *)
Definition twoCounts (rep : SyncLocal.report) : Actions.report :=
  match rep with
  | SyncLocal.Counts c u _ => Actions.Counts c u
  | SyncLocal.Exit n => Actions.Exit n
  end.

(** An issue write without its body text. *)
Definition withoutBody (r : request) : request :=
  match r with
  | UpdateIssue n _ ls => UpdateIssue n "" ls
  | CreateIssue ti _ ls => CreateIssue ti "" ls
  | _ => r
  end.

(** The report of a run with [k] more rows skipped. *)
Definition skipMore (k : Z) (o : outcome SyncLocal.report) : outcome SyncLocal.report :=
  match o with
  | Returns (SyncLocal.Counts c u s) => Returns (SyncLocal.Counts c u (s + k))
  | _ => o
  end.

(** What the loop of [main] in sync-local.js comes to when every row is
    matched against one and the same list of issues and no request
    fails: the three counters, or what the title or the body of a row
    threw. *)
Fixpoint runAgainst (E : engine) (body : row -> outcome string) (snapshot : list issue)
    (rows : list row) (nCreated nUpdated nSkipped : Z) : outcome SyncLocal.report :=
  match rows with
  | [] => Returns (SyncLocal.Counts nCreated nUpdated nSkipped)
  | r :: rows' =>
      if negb (truthy (get r "Activity"))
      then runAgainst E body snapshot rows' nCreated nUpdated (nSkipped + 1)
      else
        match SyncLocal.createIssueTitle E r with
        | Returns ti =>
            match body r with
            | Returns _ =>
                if existsb (SyncLocal.isTitled ti) snapshot
                then runAgainst E body snapshot rows' nCreated (nUpdated + 1) nSkipped
                else runAgainst E body snapshot rows' (nCreated + 1) nUpdated nSkipped
            | Throws e => Throws e
            | OutOfFuel => OutOfFuel
            end
        | Throws e => Throws e
        | OutOfFuel => OutOfFuel
        end
  end.

(** The [catch] of [main]: whatever was thrown ends the run with exit
    code 1. *)
Definition caught (o : outcome SyncLocal.report) : outcome SyncLocal.report :=
  match o with
  | Throws _ => Returns (SyncLocal.Exit 1)
  | _ => o
  end.

(** A computation that, whatever happens, sends only requests of the
    kind [P]. *)
Definition sends {A} (P : request -> bool) (c : M A) : Prop :=
  forall w, exists rest, log (snd (c w)) = (log w ++ rest)%list /\ forallb P rest = true.

(** A row with a date cell, a number cell and no phase. *)
Definition mixedRow : row :=
  [("Activity", VStr "Review"); ("Start Date", VDate (Some 1759276800000));
   ("Owner", VNum 7); ("Quarter", VStr "Q4 2025")].

(** A double from 0 to the whole number [N]. *)
Definition upTo (N : Z) (x : SpecFloat.spec_float) : Prop :=
  x = SpecFloat.S754_zero false \/
  exists m e, x = SpecFloat.S754_finite false m e /\ e <= 0 /\ Zpos m <= N * 2 ^ (- e).

(** The clock of the engine and the time values its parser yields are
    time values of a Date: at most 8.64e15 in absolute value, the range
    that [TimeClip] leaves. *)
Definition clipped (E : engine) : Prop :=
  Z.abs (now E) <= maxTime /\
  forall s t, parseOther E s = Some t -> Z.abs t <= maxTime.

(** The clock of the examples of rounding: 57 days after the first day
    of 2025. *)
Definition day57 : Z := 1740614400000.

End Props.

(** * Properties *)

Import Js JsDate Cell Remote Row Props.

(** ** The calendar *)

Local Open Scope Z_scope.

Ltac zdiv := Z.to_euclidean_division_equations; lia.

Lemma month_day_recover mp d leap :
  0 <= mp <= 11 -> 1 <= d <= marchMonthLength mp leap ->
  let doy := (153 * mp + 2) / 5 + d - 1 in
  (5 * doy + 2) / 153 = mp /\ doy - (153 * mp + 2) / 5 + 1 = d /\
  0 <= doy <= (if leap then 365 else 364).
Proof.
  intros Hmp Hd.
  assert (H : mp = 0 \/ mp = 1 \/ mp = 2 \/ mp = 3 \/ mp = 4 \/ mp = 5 \/ mp = 6 \/
              mp = 7 \/ mp = 8 \/ mp = 9 \/ mp = 10 \/ mp = 11) by lia.
  repeat (destruct H as [->|H]); try subst mp; destruct leap;
    match type of Hd with
    | context [marchMonthLength ?a ?b] =>
        let v := eval vm_compute in (marchMonthLength a b) in
        change (marchMonthLength a b) with v in Hd
    end; cbv zeta; zdiv.
Qed.

Lemma year_recover yoe doy :
  0 <= yoe <= 399 -> 0 <= doy <= (if isLeap (yoe + 1) then 365 else 364) ->
  let doe := yoe * 365 + yoe / 4 - yoe / 100 + doy in
  (doe - doe / 1460 + doe / 36524 - doe / 146096) / 365 = yoe /\ 0 <= doe < 146097.
Proof.
  intros Hy Hd. unfold isLeap in Hd. cbv zeta.
  destruct (Z.eqb_spec ((yoe + 1) mod 4) 0);
    destruct (Z.eqb_spec ((yoe + 1) mod 100) 0);
    destruct (Z.eqb_spec ((yoe + 1) mod 400) 0); cbn [andb orb negb] in Hd; zdiv.
Qed.

Lemma civilFromDays_parts era yoe mp d :
  0 <= yoe <= 399 -> 0 <= mp <= 11 ->
  1 <= d <= marchMonthLength mp (isLeap (yoe + 1)) ->
  civilFromDays (era * 146097 + (yoe * 365 + yoe / 4 - yoe / 100 + ((153 * mp + 2) / 5 + d - 1)) - 719468)
  = ((if Z.leb (if Z.ltb mp 10 then mp + 3 else mp - 9) 2
      then yoe + era * 400 + 1 else yoe + era * 400),
     (if Z.ltb mp 10 then mp + 3 else mp - 9), d).
Proof.
  intros Hy Hmp Hd.
  destruct (month_day_recover mp d _ Hmp Hd) as (M1 & M2 & M3).
  destruct (year_recover yoe _ Hy M3) as (Y1 & Y2).
  set (doy := (153 * mp + 2) / 5 + d - 1) in *.
  set (doe := yoe * 365 + yoe / 4 - yoe / 100 + doy) in *.
  unfold civilFromDays. cbv zeta.
  replace (era * 146097 + doe - 719468 + 719468) with (doe + era * 146097) by lia.
  rewrite Z.div_add by lia. rewrite (Z.div_small doe) by lia. rewrite Z.add_0_l.
  replace (doe + era * 146097 - era * 146097) with doe by lia.
  rewrite Y1. fold doe.
  replace (doe - (365 * yoe + yoe / 4 - yoe / 100)) with doy by (unfold doe; lia).
  rewrite M1. unfold doy at 1. 
  replace ((153 * mp + 2) / 5 + d - 1 - (153 * mp + 2) / 5 + 1) with d by lia.
  reflexivity.
Qed.

Lemma isLeap_shift k y : isLeap (y + 400 * k) = isLeap y.
Proof.
  unfold isLeap.
  replace ((y + 400 * k) mod 4) with (y mod 4) by zdiv.
  replace ((y + 400 * k) mod 100) with (y mod 100) by zdiv.
  replace ((y + 400 * k) mod 400) with (y mod 400) by zdiv.
  reflexivity.
Qed.

Lemma civil_roundtrip y m d :
  validCivil y m d = true -> civilFromDays (daysFromCivil y m d) = (y, m, d).
Proof.
  unfold validCivil. intros Hv.
  repeat (apply andb_true_iff in Hv as [Hv ?]).
  assert (Hm : 1 <= m <= 12) by lia.
  assert (Hd : 1 <= d <= daysInMonth y m) by lia.
  clear Hv H H0 H1.
  unfold daysFromCivil. cbv zeta.
  set (y' := if m <=? 2 then y - 1 else y).
  set (mp := if 2 <? m then m - 3 else m + 9).
  set (era := y' / 400). set (yoe := y' - era * 400).
  assert (Hyoe : 0 <= yoe <= 399) by (subst yoe era; zdiv).
  assert (Hmp : 0 <= mp <= 11) by (subst mp; destruct (Z.ltb_spec 2 m); lia).
  assert (Hlen : daysInMonth y m = marchMonthLength mp (isLeap (yoe + 1))).
  { unfold daysInMonth, marchMonthLength.
    replace (yoe + 1) with (y' + 1 + 400 * (- era)) by (subst yoe; lia).
    rewrite isLeap_shift. subst mp y'.
    destruct (Z.eqb_spec m 2) as [->|Hne].
    { change (2 <=? 2) with true. change (2 <? 2) with false. cbv iota.
      replace (y - 1 + 1) with y by lia. reflexivity. }
    destruct (Z.ltb_spec 2 m).
    - replace (m - 3 =? 11) with false by lia.
      replace (m - 3 =? 1) with (m =? 4) by lia. replace (m - 3 =? 3) with (m =? 6) by lia.
      replace (m - 3 =? 6) with (m =? 9) by lia. replace (m - 3 =? 8) with (m =? 11) by lia.
      reflexivity.
    - assert (m = 1) as -> by lia. reflexivity. }
  rewrite Hlen in Hd.
  rewrite (civilFromDays_parts era yoe mp d Hyoe Hmp Hd).
  subst mp yoe y'. 
  destruct (Z.ltb_spec 2 m); destruct (Z.ltb_spec (m - 3) 10); destruct (Z.ltb_spec (m + 9) 10); try lia.
  - destruct (Z.leb_spec (m - 3 + 3) 2); destruct (Z.leb_spec m 2); try lia.
    repeat f_equal; lia.
  - destruct (Z.leb_spec (m + 9 - 9) 2); destruct (Z.leb_spec m 2); try lia.
    repeat f_equal; lia.
Qed.

Local Open Scope string_scope.

(** ** Characters and the date pattern *)

Lemma isDigit_isWord c : isDigit c = true -> isWord c = true.
Proof. unfold isWord. intros ->. reflexivity. Qed.

Lemma isDigit_not_hyphen c : isDigit c = true -> Ascii.eqb c "-" = false.
Proof.
  intros H. destruct (Ascii.eqb_spec c "-") as [->|]; [discriminate H | reflexivity].
Qed.

Lemma isDigit_not_space c : isDigit c = true -> isSpace c = false.
Proof. destruct c as [[] [] [] [] [] [] [] []]; vm_compute; congruence. Qed.

Lemma isWord_not_space c : isWord c = true -> isSpace c = false.
Proof. destruct c as [[] [] [] [] [] [] [] []]; vm_compute; congruence. Qed.

Lemma dayToken_inv d :
  dayToken d = true ->
  (exists a, d = String a EmptyString /\ isDigit a = true) \/
  (exists a b, d = String a (String b EmptyString) /\ isDigit a = true /\ isDigit b = true).
Proof.
  unfold dayToken. intros H. apply andb_true_iff in H as [Hd Hl].
  destruct d as [|a [|b [|c d]]]; cbn in Hl; try discriminate Hl.
  - left. exists a. cbn in Hd. rewrite andb_true_r in Hd. auto.
  - right. exists a, b. cbn in Hd. rewrite andb_true_r in Hd.
    apply andb_true_iff in Hd as [? ?]. auto.
Qed.

Lemma monthToken_inv m :
  monthToken m = true ->
  exists a b c, m = String a (String b (String c EmptyString)) /\
    isWord a = true /\ isWord b = true /\ isWord c = true.
Proof.
  unfold monthToken. intros H. apply andb_true_iff in H as [Hd Hl].
  destruct m as [|a [|b [|c [|e m]]]]; cbn in Hl; try discriminate Hl.
  exists a, b, c. cbn in Hd. rewrite andb_true_r in Hd.
  apply andb_true_iff in Hd as [? Hd]. apply andb_true_iff in Hd as [? ?]. auto.
Qed.

Lemma yearToken_inv y :
  yearToken y = true ->
  exists a b c d, y = String a (String b (String c (String d EmptyString))) /\
    isDigit a = true /\ isDigit b = true /\ isDigit c = true /\ isDigit d = true.
Proof.
  unfold yearToken. intros H. apply andb_true_iff in H as [Hd Hl].
  destruct y as [|a [|b [|c [|d [|e y]]]]]; cbn in Hl; try discriminate Hl.
  exists a, b, c, d. cbn in Hd. rewrite andb_true_r in Hd.
  apply andb_true_iff in Hd as [? Hd]. apply andb_true_iff in Hd as [? Hd].
  apply andb_true_iff in Hd as [? ?]. auto.
Qed.

Lemma prefix_app t s : String.prefix t s = true <-> exists b, s = t ++ b.
Proof.
  revert s. induction t as [|c t IH]; intros [|c' s].
  - split; [intros _; exists EmptyString; reflexivity | reflexivity].
  - split; [intros _; exists (String c' s); reflexivity | reflexivity].
  - split; [discriminate | intros [b Hb]; discriminate Hb].
  - change (String.prefix (String c t) (String c' s))
      with (if ascii_dec c c' then String.prefix t s else false).
    destruct (ascii_dec c c') as [<-|Hne].
    + rewrite IH. split; intros [b Hb]; exists b.
      * rewrite Hb. reflexivity.
      * change (String c t ++ b) with (String c (t ++ b)) in Hb. congruence.
    + split; [discriminate|]. intros [b Hb].
      change (String c t ++ b) with (String c (t ++ b)) in Hb. congruence.
Qed.

(** [includes t s] holds exactly when [t] occurs in [s] as a substring. *)
Lemma includes_substring t s :
  includes t s = true <-> exists a b, s = a ++ t ++ b.
Proof.
  induction s as [|c s IH]; cbn [includes]; rewrite orb_true_iff, prefix_app.
  - split.
    + intros [[b Hb] | H]; [|discriminate H]. exists EmptyString, b. exact Hb.
    + intros (a & b & H). left. destruct a as [|x a]; [|discriminate H].
      exists b. exact H.
  - rewrite IH. split.
    + intros [[b Hb] | (a & b & H)].
      * exists EmptyString, b. exact Hb.
      * exists (String c a), b. rewrite H. reflexivity.
    + intros (a & b & H). destruct a as [|x a].
      * left. exists b. exact H.
      * right. exists a, b.
        change (String x a ++ t ++ b) with (String x (a ++ t ++ b)) in H. congruence.
Qed.

(** A text that is exactly day, hyphen, month token, hyphen, year is
    matched from its first character, with these three groups. *)
Lemma matchDayMonYear_exact d m y :
  dayToken d = true -> monthToken m = true -> yearToken y = true ->
  matchDayMonYear (d ++ "-" ++ m ++ "-" ++ y) = Some (d, m, y).
Proof.
  intros Hd Hm Hy.
  apply monthToken_inv in Hm as (m1 & m2 & m3 & -> & Hm1 & Hm2 & Hm3).
  apply yearToken_inv in Hy as (y1 & y2 & y3 & y4 & -> & Hy1 & Hy2 & Hy3 & Hy4).
  apply dayToken_inv in Hd as [(a & -> & Ha) | (a & b & -> & Ha & Hb)].
  - cbv [String.append]; cbn [matchDayMonYear dayMonYearAt]. rewrite Ha.
    change (isDigit "-") with false. cbn [monthYearAt].
    rewrite Hm1, Hm2, Hm3, Hy1, Hy2, Hy3, Hy4. reflexivity.
  - cbv [String.append]; cbn [matchDayMonYear dayMonYearAt]. rewrite Ha, Hb. cbn [monthYearAt].
    rewrite Hm1, Hm2, Hm3, Hy1, Hy2, Hy3, Hy4. reflexivity.
Qed.

Lemma trimEnd_keep c s :
  trimEnd s <> EmptyString -> trimEnd (String c s) = String c (trimEnd s).
Proof. cbn [trimEnd]. destruct (trimEnd s); [congruence | reflexivity]. Qed.

(** Text made of digits, word characters and hyphens, starting and ending
    in a digit, has nothing for [trim] to remove. *)
Lemma trim_exact d m y :
  dayToken d = true -> monthToken m = true -> yearToken y = true ->
  trim (d ++ "-" ++ m ++ "-" ++ y) = d ++ "-" ++ m ++ "-" ++ y.
Proof.
  intros Hd Hm Hy.
  apply monthToken_inv in Hm as (m1 & m2 & m3 & -> & Hm1 & Hm2 & Hm3).
  apply yearToken_inv in Hy as (y1 & y2 & y3 & y4 & -> & Hy1 & Hy2 & Hy3 & Hy4).
  assert (Hend : forall c s, trimEnd (s ++ String y4 EmptyString) <> EmptyString /\
                             trimEnd (String c (s ++ String y4 EmptyString))
                             = String c (trimEnd (s ++ String y4 EmptyString))).
  { intros c s. assert (H : trimEnd (s ++ String y4 EmptyString) <> EmptyString).
    { induction s as [|x s IH]; cbv [String.append]; fold String.append; cbn [trimEnd].
      - rewrite (isDigit_not_space _ Hy4). discriminate.
      - destruct (trimEnd (s ++ String y4 EmptyString)); [congruence | discriminate]. }
    split; [exact H | apply trimEnd_keep, H]. }
  assert (Hall : forall s, trimEnd (s ++ String y4 EmptyString) = s ++ String y4 EmptyString).
  { induction s as [|x s IH]; cbv [String.append]; fold String.append.
    - cbn [trimEnd]. rewrite (isDigit_not_space _ Hy4). reflexivity.
    - rewrite (proj2 (Hend x s)), IH. reflexivity. }
  unfold trim.
  apply dayToken_inv in Hd as [(a & -> & Ha) | (a & b & -> & Ha & Hb)];
    cbv [String.append]; cbn [trimStart]; rewrite (isDigit_not_space _ Ha).
  - apply (Hall (String a (String "-" (String m1 (String m2 (String m3
             (String "-" (String y1 (String y2 (String y3 EmptyString)))))))))).
  - apply (Hall (String a (String b (String "-" (String m1 (String m2 (String m3
             (String "-" (String y1 (String y2 (String y3 EmptyString))))))))))).
Qed.

Lemma fromMatch_unknown d m y :
  months m = None -> fromMatch (d, m, y) = y ++ "-01-" ++ padStart2 d.
Proof.
  intros H. unfold fromMatch, monthOr01. rewrite H. reflexivity.
Qed.

Lemma dayToken_nonempty d : dayToken d = true -> forall s, String.eqb (d ++ s) EmptyString = false.
Proof.
  intros H s. apply dayToken_inv in H as [(a & -> & _) | (a & b & -> & _)]; reflexivity.
Qed.

Lemma matchDayMonYear_nonempty s g : matchDayMonYear s = Some g -> String.eqb s EmptyString = false.
Proof. destruct s; [discriminate | reflexivity]. Qed.

(** Whenever the pattern is found in a text and the month token it
    captured is not in the table, the parsers of sync-local.js and
    sync-local.cjs return year, "01" and the padded day; the parser of
    sheets.ts does the same on the trimmed text. *)
Lemma parseDate_matched_unknown_month (E : engine) (pdc : Z -> option (Z * Z * Z))
    (s d m y : string) :
  months m = None ->
  (matchDayMonYear s = Some (d, m, y) ->
   SyncLocal.parseDate E (VStr s) = Returns (Some (y ++ "-01-" ++ padStart2 d)) /\
   SyncCjs.parseDate E (VStr s) = Some (y ++ "-01-" ++ padStart2 d)) /\
  (s <> EmptyString -> matchDayMonYear (trim s) = Some (d, m, y) ->
   Dashboard.parseDate E pdc (VStr s) = Returns (y ++ "-01-" ++ padStart2 d)).
Proof.
  intros Hn. split.
  - intros Hm. pose proof (matchDayMonYear_nonempty s _ Hm) as Hne.
    unfold SyncLocal.parseDate, SyncCjs.parseDate. cbn [truthy toStr negb].
    rewrite Hne, Hm. cbn [negb]. rewrite (fromMatch_unknown d m y Hn). auto.
  - intros Hne Hm. pose proof (matchDayMonYear_nonempty _ _ Hm) as Hnt.
    unfold Dashboard.parseDate. cbn [truthy toStr].
    destruct (String.eqb_spec s EmptyString) as [|_]; [contradiction|].
    cbn [negb]. rewrite Hnt, Hm, (fromMatch_unknown d m y Hn). reflexivity.
Qed.

Lemma months_unknown m : ~ In m knownMonths -> months m = None.
Proof.
  intros H. unfold months.
  repeat match goal with
  | |- (if String.eqb m ?k then _ else _) = None =>
      destruct (String.eqb_spec m k) as [->|_];
        [exfalso; apply H; unfold knownMonths; cbn [In]; tauto|]
  end.
  reflexivity.
Qed.

(** C9. A text that is exactly [D-Mon-YYYY] or [DD-Mon-YYYY] whose month
    token is none of the twelve abbreviations does not fail to parse: the
    three date parsers (sync-local.js, sync-local.cjs, sheets.ts) put
    month 01 in its place and return [YYYY-01-DD], the year, "-01-" and
    the two digits of the day, a day of one digit with a zero before
    it. *)
Theorem parseDate_unknown_month_gives_january :
  forall (E : engine) (pdc : Z -> option (Z * Z * Z)) (a b : ascii) (m y : string),
    isDigit a = true -> isDigit b = true -> monthToken m = true -> yearToken y = true ->
    ~ In m ["Jan"; "Feb"; "Mar"; "Apr"; "May"; "Jun"; "Jul"; "Aug"; "Sep"; "Oct"; "Nov"; "Dec"] ->
    (SyncLocal.parseDate E (VStr (String b "" ++ "-" ++ m ++ "-" ++ y))
       = Returns (Some (y ++ "-01-" ++ String "0" (String b ""))) /\
     SyncCjs.parseDate E (VStr (String b "" ++ "-" ++ m ++ "-" ++ y))
       = Some (y ++ "-01-" ++ String "0" (String b "")) /\
     Dashboard.parseDate E pdc (VStr (String b "" ++ "-" ++ m ++ "-" ++ y))
       = Returns (y ++ "-01-" ++ String "0" (String b ""))) /\
    (SyncLocal.parseDate E (VStr (String a (String b "") ++ "-" ++ m ++ "-" ++ y))
       = Returns (Some (y ++ "-01-" ++ String a (String b ""))) /\
     SyncCjs.parseDate E (VStr (String a (String b "") ++ "-" ++ m ++ "-" ++ y))
       = Some (y ++ "-01-" ++ String a (String b "")) /\
     Dashboard.parseDate E pdc (VStr (String a (String b "") ++ "-" ++ m ++ "-" ++ y))
       = Returns (y ++ "-01-" ++ String a (String b ""))).
Proof.
  intros E pdc a b m y Ha Hb Hm Hy Hn.
  pose proof (months_unknown m Hn) as Hu.
  assert (D1 : dayToken (String b "") = true)
    by (unfold dayToken; cbn [allChars String.length]; rewrite Hb; reflexivity).
  assert (D2 : dayToken (String a (String b "")) = true)
    by (unfold dayToken; cbn [allChars String.length]; rewrite Ha, Hb; reflexivity).
  assert (G : forall d, dayToken d = true ->
            SyncLocal.parseDate E (VStr (d ++ "-" ++ m ++ "-" ++ y))
              = Returns (Some (y ++ "-01-" ++ padStart2 d)) /\
            SyncCjs.parseDate E (VStr (d ++ "-" ++ m ++ "-" ++ y))
              = Some (y ++ "-01-" ++ padStart2 d) /\
            Dashboard.parseDate E pdc (VStr (d ++ "-" ++ m ++ "-" ++ y))
              = Returns (y ++ "-01-" ++ padStart2 d)).
  { intros d Hd.
    pose proof (matchDayMonYear_exact d m y Hd Hm Hy) as Hmatch.
    destruct (parseDate_matched_unknown_month E pdc (d ++ "-" ++ m ++ "-" ++ y) d m y Hu)
      as [L D].
    destruct (L Hmatch) as [L1 L2]. split; [exact L1|]. split; [exact L2|].
    apply D.
    - intros H. pose proof (dayToken_nonempty d Hd ("-" ++ m ++ "-" ++ y)) as Hne.
      rewrite H in Hne. discriminate Hne.
    - rewrite (trim_exact d m y Hd Hm Hy). exact Hmatch. }
  split; [exact (G _ D1) | exact (G _ D2)].
Qed.

Lemma parseDate_unknown_month_january_witness :
  (SyncLocal.parseDate (isoOnly 0 0) (VStr "5-Foo-2025") = Returns (Some "2025-01-05") /\
   SyncCjs.parseDate (isoOnly 0 0) (VStr "5-Foo-2025") = Some "2025-01-05" /\
   Dashboard.parseDate (isoOnly 0 0) (fun _ => None) (VStr "5-Foo-2025") = Returns "2025-01-05") /\
  (SyncLocal.parseDate (isoOnly 0 0) (VStr "15-Foo-2025") = Returns (Some "2025-01-15") /\
   SyncCjs.parseDate (isoOnly 0 0) (VStr "15-Foo-2025") = Some "2025-01-15" /\
   Dashboard.parseDate (isoOnly 0 0) (fun _ => None) (VStr "15-Foo-2025") = Returns "2025-01-15").
Proof.
  apply (parseDate_unknown_month_gives_january (isoOnly 0 0) (fun _ => None)
           "1" "5" "Foo" "2025" eq_refl eq_refl eq_refl eq_refl).
  cbn [In]. intros H. repeat (destruct H as [H|H]; [discriminate H|]). exact H.
Defined.

(** C4, at the input where the claim breaks.  In a zone five hours behind
    UTC the parser of sync-local.cjs turns the canonical "2025-10-01"
    into the day before, because it reads the UTC midnight that
    [new Date] produced with the local getters; the parsers of
    sync-local.js and sheets.ts, which print with [toISOString], return
    the text unchanged. *)
Theorem parseDate_cjs_shifts_canonical_date :
  SyncCjs.parseDate (isoOnly (-300) 0) (VStr "2025-10-01") = Some "2025-09-30" /\
  SyncLocal.parseDate (isoOnly (-300) 0) (VStr "2025-10-01") = Returns (Some "2025-10-01") /\
  Dashboard.parseDate (isoOnly (-300) 0) (fun _ => None) (VStr "2025-10-01")
    = Returns "2025-10-01".
Proof. vm_compute. auto. Qed.

(** ** Digits and ISO dates *)

Local Open Scope Z_scope.

Lemma digit_roundtrip c :
  isDigit c = true -> digitChar (digitVal c) = c /\ 0 <= digitVal c <= 9.
Proof.
  destruct c as [[] [] [] [] [] [] [] []]; intros H; try discriminate H;
    (split; [reflexivity | vm_compute; split; discriminate]).
Qed.

Lemma digitChar_isDigit n : 0 <= n <= 9 -> isDigit (digitChar n) = true.
Proof.
  intros H. rewrite <- (Z2Nat.id n) by lia.
  assert (Hk : (Z.to_nat n < 10)%nat) by lia.
  revert Hk. generalize (Z.to_nat n). intros k Hk.
  do 10 (destruct k as [|k]; [reflexivity|]). lia.
Qed.

Lemma lastDigit_isDigit n : isDigit (digitChar (n mod 10)) = true.
Proof. apply digitChar_isDigit. zdiv. Qed.

Lemma pad4_num4 a b c d :
  isDigit a = true -> isDigit b = true -> isDigit c = true -> isDigit d = true ->
  pad 4 (num4 a b c d) = String a (String b (String c (String d EmptyString))) /\
  0 <= num4 a b c d <= 9999.
Proof.
  intros Ha Hb Hc Hd.
  destruct (digit_roundtrip a Ha) as [Ea Ra]. destruct (digit_roundtrip b Hb) as [Eb Rb].
  destruct (digit_roundtrip c Hc) as [Ec Rc]. destruct (digit_roundtrip d Hd) as [Ed Rd].
  unfold num4. set (va := digitVal a) in *. set (vb := digitVal b) in *.
  set (vc := digitVal c) in *. set (vd := digitVal d) in *.
  split; [|lia]. cbv [pad String.append].
  replace ((1000 * va + 100 * vb + 10 * vc + vd) mod 10) with vd by zdiv.
  replace (((1000 * va + 100 * vb + 10 * vc + vd) / 10) mod 10) with vc by zdiv.
  replace ((((1000 * va + 100 * vb + 10 * vc + vd) / 10) / 10) mod 10) with vb by zdiv.
  replace (((((1000 * va + 100 * vb + 10 * vc + vd) / 10) / 10) / 10) mod 10) with va by zdiv.
  rewrite Ea, Eb, Ec, Ed. reflexivity.
Qed.

Lemma pad2_num2 a b :
  isDigit a = true -> isDigit b = true ->
  pad 2 (num2 a b) = String a (String b EmptyString).
Proof.
  intros Ha Hb.
  destruct (digit_roundtrip a Ha) as [Ea Ra]. destruct (digit_roundtrip b Hb) as [Eb Rb].
  unfold num2. set (va := digitVal a) in *. set (vb := digitVal b) in *.
  cbv [pad String.append].
  replace ((10 * va + vb) mod 10) with vb by zdiv.
  replace (((10 * va + vb) / 10) mod 10) with va by zdiv.
  rewrite Ea, Eb. reflexivity.
Qed.

Local Open Scope string_scope.

(** The text of which [isoFields] reads the fields is the fields printed
    back with their padding. *)
Lemma isoFields_inv s y m d :
  isoFields s = Some (y, m, d) ->
  s = pad 4 y ++ "-" ++ pad 2 m ++ "-" ++ pad 2 d /\ (0 <= y <= 9999)%Z /\
  matchDayMonYear s = None /\ trim s = s /\ String.eqb s EmptyString = false.
Proof.
  destruct s as [|y1 [|y2 [|y3 [|y4 [|h1 [|m1 [|m2 [|h2 [|d1 [|d2 [|x s]]]]]]]]]]];
    cbn [isoFields]; try discriminate.
  destruct (isDigit y1) eqn:Hy1; [|discriminate].
  destruct (isDigit y2) eqn:Hy2; [|discriminate].
  destruct (isDigit y3) eqn:Hy3; [|discriminate].
  destruct (isDigit y4) eqn:Hy4; [|discriminate].
  destruct (Ascii.eqb_spec h1 "-") as [->|]; [|discriminate].
  destruct (isDigit m1) eqn:Hm1; [|discriminate].
  destruct (isDigit m2) eqn:Hm2; [|discriminate].
  destruct (Ascii.eqb_spec h2 "-") as [->|]; [|discriminate].
  destruct (isDigit d1) eqn:Hd1; [|discriminate].
  destruct (isDigit d2) eqn:Hd2; [|discriminate].
  cbn [andb]. intros [= <- <- <-].
  destruct (pad4_num4 y1 y2 y3 y4 Hy1 Hy2 Hy3 Hy4) as [-> Hr].
  rewrite (pad2_num2 m1 m2 Hm1 Hm2), (pad2_num2 d1 d2 Hd1 Hd2).
  split; [reflexivity|]. split; [exact Hr|].
  pose proof (isDigit_not_hyphen _ Hy1) as Ny1. pose proof (isDigit_not_hyphen _ Hy2) as Ny2.
  pose proof (isDigit_not_hyphen _ Hy3) as Ny3. pose proof (isDigit_not_hyphen _ Hy4) as Ny4.
  pose proof (isDigit_not_hyphen _ Hm1) as Nm1. pose proof (isDigit_not_hyphen _ Hm2) as Nm2.
  pose proof (isDigit_not_hyphen _ Hd1) as Nd1. pose proof (isDigit_not_hyphen _ Hd2) as Nd2.
  split; [|split; [|reflexivity]].
  - cbn [matchDayMonYear dayMonYearAt monthYearAt].
    change (isDigit "-") with false. change (isWord "-") with false.
    rewrite ?Hy1, ?Hy2, ?Hy3, ?Hy4, ?Hm1, ?Hm2, ?Hd1, ?Hd2,
      ?Ny1, ?Ny2, ?Ny3, ?Ny4, ?Nm1, ?Nm2, ?Nd1, ?Nd2.
    cbn [andb]. rewrite ?andb_false_r. reflexivity.
  - unfold trim. cbn [trimStart]. rewrite (isDigit_not_space _ Hy1).
    cbn [trimEnd]. rewrite (isDigit_not_space _ Hd2). reflexivity.
Qed.

Lemma isoDate_of_civil y m d :
  validCivil y m d = true ->
  isoDate (daysFromCivil y m d * msPerDay) = formatCivil (y, m, d).
Proof.
  intros H. unfold isoDate. rewrite Z.div_mul by (unfold msPerDay; lia).
  rewrite (civil_roundtrip y m d H). reflexivity.
Qed.

(** Whatever the fields, the padded print has the canonical shape. *)
Lemma canonicalShape_padded y m d :
  canonicalShape (pad 4 y ++ "-" ++ pad 2 m ++ "-" ++ pad 2 d) = true.
Proof.
  unfold canonicalShape. cbv [pad String.append isoFields].
  rewrite !lastDigit_isDigit. reflexivity.
Qed.

Lemma canonicalShape_formatCivil y m d :
  (0 <= y <= 9999)%Z -> canonicalShape (formatCivil (y, m, d)) = true.
Proof.
  intros H. unfold formatCivil.
  replace (Z.leb 0 y && Z.leb y 9999) with true
    by (symmetry; apply andb_true_iff; split; apply Z.leb_le; lia).
  apply canonicalShape_padded.
Qed.

(** A canonical date is parsed as the UTC midnight of its day, and that
    instant prints back as the same text. *)
Lemma canonical_parse_print s :
  canonical s = true ->
  exists t, parseIsoDate s = Some t /\ isoDate t = s.
Proof.
  unfold canonical, parseIsoDate. destruct (isoFields s) as [[[y m] d]|] eqn:F; [|discriminate].
  intros V. rewrite V. eexists. split; [reflexivity|].
  rewrite (isoDate_of_civil y m d V).
  destruct (isoFields_inv s y m d F) as (-> & Hr & _).
  unfold formatCivil.
  replace (Z.leb 0 y && Z.leb y 9999) with true
    by (symmetry; apply andb_true_iff; split; apply Z.leb_le; lia).
  reflexivity.
Qed.

(** The round trip of a canonical date through the two parsers that
    print with [toISOString]: sync-local.js and sheets.ts return the text
    unchanged, in every zone and on every engine. *)
Lemma parseDate_canonical_unchanged (E : engine) (pdc : Z -> option (Z * Z * Z)) (s : string) :
  canonical s = true ->
  SyncLocal.parseDate E (VStr s) = Returns (Some s) /\
  Dashboard.parseDate E pdc (VStr s) = Returns s.
Proof.
  intros C. destruct (canonical_parse_print s C) as (t & P & I).
  unfold canonical in C. destruct (isoFields s) as [[[y m] d]|] eqn:F; [|discriminate].
  destruct (isoFields_inv s y m d F) as (_ & _ & N & T & Z0).
  unfold SyncLocal.parseDate, Dashboard.parseDate.
  cbn [truthy toStr negb newDate]. rewrite T, Z0, N. cbn [negb].
  unfold Date_parse. rewrite P, I. auto.
Qed.

(** ** What the date pattern captures *)

Lemma monthYearAt_sound day s d m y :
  monthYearAt day s = Some (d, m, y) ->
  d = day /\ monthToken m = true /\ yearToken y = true.
Proof.
  destruct s as [|h1 [|m1 [|m2 [|m3 [|h2 [|y1 [|y2 [|y3 [|y4 s]]]]]]]]];
    cbn [monthYearAt]; try discriminate.
  destruct (_ && _) eqn:C; [|discriminate].
  repeat (apply andb_true_iff in C as [C ?]).
  intros [= <- <- <-]. unfold monthToken, yearToken. cbn [allChars String.length Nat.eqb].
  repeat match goal with H : _ = true |- _ => rewrite H; clear H end. auto.
Qed.

Lemma dayMonYearAt_sound s d m y :
  dayMonYearAt s = Some (d, m, y) ->
  dayToken d = true /\ monthToken m = true /\ yearToken y = true.
Proof.
  destruct s as [|d1 [|d2 rest]]; cbn [dayMonYearAt]; try discriminate.
  - destruct (isDigit d1); discriminate.
  - destruct (isDigit d1) eqn:H1; [|discriminate].
    assert (T1 : dayToken (String d1 EmptyString) = true)
      by (unfold dayToken; cbn [allChars String.length Nat.eqb]; rewrite H1; reflexivity).
    destruct (isDigit d2) eqn:H2.
    + assert (T2 : dayToken (String d1 (String d2 EmptyString)) = true)
        by (unfold dayToken; cbn [allChars String.length Nat.eqb]; rewrite H1, H2; reflexivity).
      destruct (monthYearAt (String d1 (String d2 EmptyString)) rest) as [[[d' m'] y']|] eqn:M.
      * intros [= -> -> ->]. apply monthYearAt_sound in M as (-> & ? & ?). auto.
      * intros M'. apply monthYearAt_sound in M' as (-> & ? & ?). auto.
    + intros M'. apply monthYearAt_sound in M' as (-> & ? & ?). auto.
Qed.

Lemma matchDayMonYear_sound s d m y :
  matchDayMonYear s = Some (d, m, y) ->
  dayToken d = true /\ monthToken m = true /\ yearToken y = true.
Proof.
  induction s as [|c s IH]; cbn [matchDayMonYear].
  - cbn. discriminate.
  - destruct (dayMonYearAt (String c s)) as [[[d' m'] y']|] eqn:A.
    + intros [= -> -> ->]. exact (dayMonYearAt_sound _ _ _ _ A).
    + exact IH.
Qed.

Lemma monthOr01_digits m :
  exists a b, monthOr01 m = String a (String b EmptyString) /\
              isDigit a = true /\ isDigit b = true.
Proof.
  unfold monthOr01, months.
  repeat (destruct (String.eqb m _); [do 2 eexists; split; [reflexivity | split; reflexivity]|]).
  do 2 eexists; split; [reflexivity | split; reflexivity].
Qed.

(** The text built from a match of the pattern has the canonical shape. *)
Lemma fromMatch_shape d m y :
  dayToken d = true -> monthToken m = true -> yearToken y = true ->
  canonicalShape (fromMatch (d, m, y)) = true.
Proof.
  intros Hd _ Hy. unfold fromMatch.
  destruct (monthOr01_digits m) as (a & b & -> & Ha & Hb).
  apply yearToken_inv in Hy as (y1 & y2 & y3 & y4 & -> & Hy1 & Hy2 & Hy3 & Hy4).
  apply dayToken_inv in Hd as [(c & -> & Hc) | (c & e & -> & Hc & He)];
    unfold canonicalShape; cbv [String.append padStart2 isoFields];
    rewrite Hy1, Hy2, Hy3, Hy4, Ha, Hb, Hc, ?He; reflexivity.
Qed.

Lemma isoFields_first c s : isDigit c = false -> isoFields (String c s) = None.
Proof.
  intros H. cbn [isoFields].
  destruct s as [|y2 [|y3 [|y4 [|h1 [|m1 [|m2 [|h2 [|d1 [|d2 [|x s]]]]]]]]]]; try reflexivity.
  rewrite H. reflexivity.
Qed.

(** The date that [toISOString] prints has the shape [YYYY-MM-DD]
    exactly when the year has four digits. *)
Lemma canonicalShape_isoDate t : canonicalShape (isoDate t) = fourDigitYear t.
Proof.
  unfold isoDate, fourDigitYear.
  destruct (civilFromDays (t / msPerDay)) as [[y m] d]. cbn [fst].
  destruct (Z.leb 0 y && Z.leb y 9999) eqn:R.
  - apply canonicalShape_formatCivil. apply andb_true_iff in R as [A B].
    apply Z.leb_le in A, B. lia.
  - unfold formatCivil. rewrite R. unfold canonicalShape.
    change (String ?c ?s ++ ?r) with (String c (s ++ r)).
    rewrite isoFields_first; [reflexivity|]. destruct (Z.ltb y 0); reflexivity.
Qed.

(** C3, as the code has it.  On a text cell no date parser throws.  The
    parser of sync-local.js returns null exactly when the text is empty,
    or holds no [D-Mon-YYYY] and the engine's parser rejects it.  What
    it returns otherwise has the shape [YYYY-MM-DD], but for one case:
    the text holds no [D-Mon-YYYY], the engine parses it to a time value
    outside the years 0000 to 9999, and the result is the date of that
    time value with the expanded year that [toISOString] prints.  The
    parser of sheets.ts returns the empty text, a text of the shape
    [YYYY-MM-DD], such a date with an expanded year, or the trimmed text
    itself; the trimmed text whenever it holds no [D-Mon-YYYY] and the
    engine's parser rejects it. *)
Theorem parseDate_text_results :
  forall (E : engine) (pdc : Z -> option (Z * Z * Z)) (s : string),
    (exists r, SyncLocal.parseDate E (VStr s) = Returns r /\
       (r = None <-> s = EmptyString \/ (matchDayMonYear s = None /\ Date_parse E s = None)) /\
       (forall c, r = Some c ->
          canonicalShape c = true \/
          (exists t, matchDayMonYear s = None /\ Date_parse E s = Some t /\
                     fourDigitYear t = false /\ c = isoDate t /\ canonicalShape c = false))) /\
    (exists c, Dashboard.parseDate E pdc (VStr s) = Returns c /\
       (c = EmptyString \/ canonicalShape c = true \/
        (exists t, matchDayMonYear (trim s) = None /\ Date_parse E (trim s) = Some t /\
                   fourDigitYear t = false /\ c = isoDate t /\ canonicalShape c = false) \/
        (c = trim s /\ matchDayMonYear (trim s) = None /\ Date_parse E (trim s) = None)) /\
       (matchDayMonYear (trim s) = None -> Date_parse E (trim s) = None -> c = trim s)).
Proof.
  intros E pdc s. split.
  - unfold SyncLocal.parseDate. cbn [truthy toStr newDate].
    destruct (String.eqb_spec s EmptyString) as [->|Hne]; cbn [negb].
    + exists None. split; [reflexivity|]. split; [tauto | discriminate].
    + destruct (matchDayMonYear s) as [[[d m] y]|] eqn:M.
      * eexists; split; [reflexivity|]. split.
        -- split; [discriminate | intros [H|[H _]]; [contradiction | discriminate H]].
        -- intros c [= <-]. left.
           destruct (matchDayMonYear_sound _ _ _ _ M) as (? & ? & ?).
           apply fromMatch_shape; assumption.
      * destruct (Date_parse E s) as [t|] eqn:P.
        -- eexists; split; [reflexivity|]. split.
           ++ split; [discriminate | intros [H|[_ H]]; [contradiction | discriminate H]].
           ++ intros c [= <-]. rewrite canonicalShape_isoDate.
              destruct (fourDigitYear t) eqn:Y; [left; reflexivity|].
              right. exists t. auto.
        -- exists None. split; [reflexivity|]. split; [tauto | discriminate].
  - unfold Dashboard.parseDate. cbn [truthy toStr].
    destruct (String.eqb_spec s EmptyString) as [->|Hne]; cbn [negb].
    + exists EmptyString. split; [reflexivity|]. split; [left; reflexivity | reflexivity].
    + destruct (String.eqb_spec (trim s) EmptyString) as [Ht|Ht].
      * exists EmptyString. split; [reflexivity|]. split; [left; reflexivity | congruence].
      * destruct (matchDayMonYear (trim s)) as [[[d m] y]|] eqn:M.
        -- eexists; split; [reflexivity|]. split; [|discriminate]. right; left.
           destruct (matchDayMonYear_sound _ _ _ _ M) as (? & ? & ?).
           apply fromMatch_shape; assumption.
        -- destruct (Date_parse E (trim s)) as [t|] eqn:P.
           ++ eexists; split; [reflexivity|]. split; [|discriminate].
              rewrite canonicalShape_isoDate.
              destruct (fourDigitYear t) eqn:Y; [right; left; reflexivity|].
              right; right; left. exists t. auto.
           ++ eexists; split; [reflexivity|]. split; [|reflexivity].
              right; right; right. auto.
Qed.

Lemma parseDate_text_results_witness :
  (exists r, SyncLocal.parseDate (expandedYears 0 0) (VStr "+010000-01-01") = Returns r /\
     (r = None <-> "+010000-01-01" = EmptyString \/
                   (matchDayMonYear "+010000-01-01" = None /\
                    Date_parse (expandedYears 0 0) "+010000-01-01" = None)) /\
     (forall c, r = Some c ->
        canonicalShape c = true \/
        (exists t, matchDayMonYear "+010000-01-01" = None /\
                   Date_parse (expandedYears 0 0) "+010000-01-01" = Some t /\
                   fourDigitYear t = false /\ c = isoDate t /\ canonicalShape c = false))) /\
  SyncLocal.parseDate (expandedYears 0 0) (VStr "+010000-01-01") = Returns (Some "+010000-01-01") /\
  SyncLocal.parseDate (expandedYears 0 0) (VStr "1-Oct-2025") = Returns (Some "2025-10-01") /\
  SyncLocal.parseDate (expandedYears 0 0) (VStr "TBD") = Returns None.
Proof.
  split; [exact (proj1 (parseDate_text_results (expandedYears 0 0) (fun _ => None)
                          "+010000-01-01"))|].
  vm_compute. repeat split.
Defined.

(** C3 fails as stated: sheets.ts hands back the text it could not parse,
    sync-local.js prints an oversized number with an expanded year, and
    both throw on an Invalid Date. *)
Lemma parseDate_contract_counterexample :
  Dashboard.parseDate (isoOnly 0 0) (fun _ => None) (VStr "TBD") = Returns "TBD" /\
  canonicalShape "TBD" = false /\
  SyncLocal.parseDate (isoOnly 0 0) (VNum 253402300800000) = Returns (Some "+010000-01-01") /\
  canonicalShape "+010000-01-01" = false /\
  SyncLocal.parseDate (isoOnly 0 0) (VDate None) = Throws (RangeError "Invalid time value") /\
  Dashboard.parseDate (isoOnly 0 0) (fun _ => None) (VDate None)
    = Throws (RangeError "Invalid time value").
Proof. vm_compute. repeat split. Qed.

(** ** Requests in a world without faults *)

Lemma send_quiet r w :
  faults w = [] ->
  send r w = (Returns (serve r (remote w)).1, World (serve r (remote w)).2 [] (log w ++ [r])).
Proof. intros H. unfold send. rewrite H. destruct (serve r (remote w)). reflexivity. Qed.

Lemma notFound_mentions_404 :
  includes "404" (message (Error ("GitHub API " ++ decimal 404 ++ ": " ++ "Not Found"))) = true /\
  includes "404" (message (Error ("GitHub API Error: " ++ decimal 404))) = true.
Proof. split; reflexivity. Qed.

Ltac ensure_quiet :=
  let B := fresh "B" in
  match goal with
  | |- _ ?name ?c ?d ?w = _ =>
      destruct w as [t fs lg]; cbn [faults] in *; subst fs;
      unfold ensured; cbn [remote log];
      destruct (bool_decide (name ∈ labelNames t)) eqn:B;
      cbv [SyncLocal.ensureLabel SyncCjs.ensureLabel AppsScript.ensureLabel
           SyncLocal.githubRequest SyncCjs.githubRequest AppsScript.githubRequest
           tryCatch Remote.bind send ret throw faults remote log serve];
      rewrite ?B; cbn [status data text Z.leb Z.compare Pos.compare Pos.compare_cont];
      rewrite ?(proj1 notFound_mentions_404), ?(proj2 notFound_mentions_404); rewrite ?B;
      cbn [status data text Z.leb Z.compare Pos.compare Pos.compare_cont];
      rewrite <- ?app_assoc; reflexivity
  end.

Lemma SyncLocal_ensureLabel_quiet name c d w :
  faults w = [] -> SyncLocal.ensureLabel name c d w = (Returns tt, ensured name c d w).
Proof. intros H. ensure_quiet. Qed.

Lemma SyncCjs_ensureLabel_quiet name c d w :
  faults w = [] -> SyncCjs.ensureLabel name c d w = (Returns tt, ensured name c d w).
Proof. intros H. ensure_quiet. Qed.

Lemma AppsScript_ensureLabel_quiet name c w :
  faults w = [] -> AppsScript.ensureLabel name c w = (Returns tt, ensured name c VUndef w).
Proof.
  intros H. destruct w as [t fs lg]; cbn [faults] in *; subst fs.
  unfold ensured; cbn [remote log].
  destruct (bool_decide (name ∈ labelNames t)) eqn:B;
    cbv [AppsScript.ensureLabel AppsScript.githubRequest
         tryCatch Remote.bind send ret throw faults remote log serve];
    rewrite ?B; cbn [status data text Z.leb Z.compare Pos.compare Pos.compare_cont];
    rewrite ?(proj2 notFound_mentions_404); rewrite ?B;
    cbn [status data text Z.leb Z.compare Pos.compare Pos.compare_cont];
    rewrite <- ?app_assoc; reflexivity.
Qed.

Lemma ensured_quiet name c d w : faults (ensured name c d w) = [].
Proof. unfold ensured. destruct (bool_decide _); reflexivity. Qed.

Lemma ensured_issues name c d w : issues (remote (ensured name c d w)) = issues (remote w).
Proof. unfold ensured. destruct (bool_decide _); reflexivity. Qed.

Lemma ensured_present name c d w :
  bool_decide (name ∈ labelNames (remote (ensured name c d w))) = true.
Proof.
  unfold ensured. destruct (bool_decide (name ∈ labelNames (remote w))) eqn:B.
  - exact B.
  - apply bool_decide_eq_true. cbn [remote withLabel labelNames]. set_solver.
Qed.

(** ** Ensuring a label *)

Lemma status_404_only :
  forall n, 400 <= n <= 599 ->
    includes "404" ("GitHub API Error: " ++ decimal n) = Z.eqb n 404.
Proof.
  assert (H : forallb (fun k => Bool.eqb
                (includes "404" ("GitHub API Error: " ++ decimal (400 + Z.of_nat k)))
                (Z.eqb (400 + Z.of_nat k) 404)) (seq 0 200) = true)
    by (vm_compute; reflexivity).
  intros n Hn. rewrite forallb_forall in H.
  specialize (H (Z.to_nat (n - 400))).
  replace (400 + Z.of_nat (Z.to_nat (n - 400))) with n in H by lia.
  apply Bool.eqb_prop, H, in_seq. lia.
Qed.

(** C5, as the code has it.  On a tracker that answers, [ensureLabel]
    of sync-local.js and of the Apps Script looks the label up by its
    name and creates it exactly when the tracker does not hold it; a
    second call finds it and sends the lookup alone.  So two calls send
    one create when the label was missing and none when it was there,
    and the label is there afterwards.  When the lookup fails, the
    create does not wait for a not-found answer: it is sent exactly
    when the message of the failure contains "404".  In the Apps
    Script, whose message holds the status alone, that is status 404
    among the statuses 400 to 599; in sync-local.js the message also
    holds the text of the answer, and "404" anywhere in it will do. *)
Theorem ensureLabel_creates_on_404_in_message :
  forall (t : tracker) (lg : list request) (name : string) (color description : value),
    let once d := if bool_decide (name ∈ labelNames t) then [] else [CreateLabel name color d] in
    (exists w1 w2,
       SyncLocal.ensureLabel name color description (World t [] lg) = (Returns tt, w1) /\
       SyncLocal.ensureLabel name color description w1 = (Returns tt, w2) /\
       log w1 = (lg ++ GetLabel name :: once description)%list /\
       log w2 = (log w1 ++ [GetLabel name])%list /\
       name ∈ labelNames (remote w2)) /\
    (exists w1 w2,
       AppsScript.ensureLabel name color (World t [] lg) = (Returns tt, w1) /\
       AppsScript.ensureLabel name color w1 = (Returns tt, w2) /\
       log w1 = (lg ++ GetLabel name :: once VUndef)%list /\
       log w2 = (log w1 ++ [GetLabel name])%list /\
       name ∈ labelNames (remote w2)) /\
    (forall (f : fault) (fs : list (option fault)),
       400 <= fstatus f ->
       log (snd (SyncLocal.ensureLabel name color description (World t (Some f :: fs) lg)))
         = (lg ++ GetLabel name ::
              (if includes "404" ("GitHub API " ++ decimal (fstatus f) ++ ": " ++ ftext f)
               then [CreateLabel name color description] else []))%list /\
       log (snd (AppsScript.ensureLabel name color (World t (Some f :: fs) lg)))
         = (lg ++ GetLabel name ::
              (if includes "404" ("GitHub API Error: " ++ decimal (fstatus f))
               then [CreateLabel name color VUndef] else []))%list /\
       (fstatus f <= 599 ->
        includes "404" ("GitHub API Error: " ++ decimal (fstatus f)) = Z.eqb (fstatus f) 404)).
Proof.
  intros t lg name color description once.
  assert (E1 : forall d, ensured name color d (World t [] lg)
                         = World (if bool_decide (name ∈ labelNames t) then t else withLabel name t)
                             [] (lg ++ GetLabel name :: once d)).
  { intros d. unfold ensured, once. cbn [remote log].
    destruct (bool_decide (name ∈ labelNames t)); reflexivity. }
  assert (P : forall d, bool_decide (name ∈ labelNames (remote (ensured name color d (World t [] lg)))) = true)
    by (intros d; apply ensured_present).
  assert (E2 : forall d, ensured name color d (ensured name color d (World t [] lg))
                         = World (remote (ensured name color d (World t [] lg))) []
                             (log (ensured name color d (World t [] lg)) ++ [GetLabel name])).
  { intros d. unfold ensured at 1. rewrite (P d). reflexivity. }
  split; [|split; [|intros f fs Hf;
    assert (L : Z.leb 400 (fstatus f) = true) by (apply Z.leb_le; exact Hf);
    split; [|split]]].
  - exists (ensured name color description (World t [] lg)).
    exists (ensured name color description (ensured name color description (World t [] lg))).
    split; [apply SyncLocal_ensureLabel_quiet; reflexivity|].
    split; [apply SyncLocal_ensureLabel_quiet; apply ensured_quiet|].
    rewrite E2. cbn [log remote]. rewrite E1. cbn [log remote].
    split; [reflexivity|]. split; [reflexivity|].
    pose proof (P description) as Q. rewrite E1 in Q. cbn [remote] in Q.
    apply bool_decide_eq_true in Q. exact Q.
  - exists (ensured name color VUndef (World t [] lg)).
    exists (ensured name color VUndef (ensured name color VUndef (World t [] lg))).
    split; [apply AppsScript_ensureLabel_quiet; reflexivity|].
    split; [apply AppsScript_ensureLabel_quiet; apply ensured_quiet|].
    rewrite E2. cbn [log remote]. rewrite E1. cbn [log remote].
    split; [reflexivity|]. split; [reflexivity|].
    pose proof (P VUndef) as Q. rewrite E1 in Q. cbn [remote] in Q.
    apply bool_decide_eq_true in Q. exact Q.
  - cbv [SyncLocal.ensureLabel SyncLocal.githubRequest tryCatch].
    unfold Remote.bind at 1 2. cbv [send faults remote log]. rewrite L. cbn [status text].
    rewrite L. cbv [throw]. cbn [message Error].
    destruct (includes "404" _); [|reflexivity].
    unfold Remote.bind, send, ret. cbn [faults remote log].
    destruct fs as [|[f2|] fs]; repeat (destruct (serve _ _)); 
      repeat (destruct (Z.leb 400 _)); cbn [snd log]; rewrite <- ?app_assoc; reflexivity.
  - cbv [AppsScript.ensureLabel AppsScript.githubRequest tryCatch].
    unfold Remote.bind at 1 2. cbv [send faults remote log]. rewrite L. cbn [status text].
    rewrite L. cbv [throw]. cbn [message Error].
    destruct (includes "404" _); [|reflexivity].
    unfold Remote.bind, send, ret. cbn [faults remote log].
    destruct fs as [|[f2|] fs]; repeat (destruct (serve _ _)); 
      repeat (destruct (Z.leb 400 _)); cbn [snd log]; rewrite <- ?app_assoc; reflexivity.
  - intros Hu. apply status_404_only. lia.
Qed.

Lemma ensureLabel_creates_on_404_in_message_witness :
  (exists w1 w2,
     SyncLocal.ensureLabel "Phase 1" (VStr "0052CC") (VStr "Phase 1 tasks") (World emptyTracker [] [])
       = (Returns tt, w1) /\
     SyncLocal.ensureLabel "Phase 1" (VStr "0052CC") (VStr "Phase 1 tasks") w1 = (Returns tt, w2) /\
     log w1 = [GetLabel "Phase 1"; CreateLabel "Phase 1" (VStr "0052CC") (VStr "Phase 1 tasks")] /\
     log w2 = (log w1 ++ [GetLabel "Phase 1"])%list /\
     "Phase 1" ∈ labelNames (remote w2)) /\
  log (snd (SyncLocal.ensureLabel "Phase 1" (VStr "0052CC") (VStr "Phase 1 tasks")
              (World emptyTracker [Some (Fault 403 "rate limit, retry in 404 s")] [])))
    = [GetLabel "Phase 1"; CreateLabel "Phase 1" (VStr "0052CC") (VStr "Phase 1 tasks")] /\
  log (snd (AppsScript.ensureLabel "Phase 1" (VStr "0052CC")
              (World emptyTracker [Some (Fault 403 "rate limit, retry in 404 s")] [])))
    = [GetLabel "Phase 1"].
Proof.
  pose proof (ensureLabel_creates_on_404_in_message emptyTracker [] "Phase 1" (VStr "0052CC")
                (VStr "Phase 1 tasks")) as (A & _ & F).
  destruct (F (Fault 403 "rate limit, retry in 404 s") [] ltac:(cbn; lia)) as (B & C & _).
  split; [exact A|]. split; [exact B | exact C].
Defined.

(** C5 fails as stated.  In sync-local.js a lookup refused with status
    403 whose text holds "404" is taken for a missing label: a create
    is sent although the tracker gave no not-found answer.  When that
    happens to both of two calls, two creates are sent; the tracker
    refuses the second with status 422, and [ensureLabel] throws. *)
Lemma ensureLabel_not_found_only_counterexample :
  let refused := Fault 403 "rate limit, retry in 404 s" in
  let w := World emptyTracker [Some refused; None; Some refused; None] [] in
  let first := SyncLocal.ensureLabel "Phase 1" (VStr "0052CC") (VStr "Phase 1 tasks") w in
  let second := SyncLocal.ensureLabel "Phase 1" (VStr "0052CC") (VStr "Phase 1 tasks") (snd first) in
  fst first = Returns tt /\
  fst second = Throws (Error "GitHub API 422: Validation Failed") /\
  log (snd second)
    = [GetLabel "Phase 1"; CreateLabel "Phase 1" (VStr "0052CC") (VStr "Phase 1 tasks");
       GetLabel "Phase 1"; CreateLabel "Phase 1" (VStr "0052CC") (VStr "Phase 1 tasks")] /\
  length (List.filter isCreate (log (snd second))) = 2%nat.
Proof. vm_compute. repeat split. Qed.

(** C6, as the code has it.  When the lookup of [ensureLabel] fails with
    an HTTP error, sync-local.js goes on to create the label exactly when
    the error message contains "404"; otherwise the error is caught and
    dropped: the call returns normally after that one lookup, with no
    create and no second lookup.  scripts/sync-issues.js goes on to
    create the label after every failed lookup.  An error of the create
    request itself is thrown to the caller. *)
Theorem ensureLabel_failed_lookup :
  forall (t : tracker) (fs : list (option fault)) (lg : list request) (f : fault)
         (name : string) (color description : value),
    400 <= fstatus f ->
    let w := World t (Some f :: fs) lg in
    let w' := World t fs (lg ++ [GetLabel name]) in
    let msg := "GitHub API " ++ decimal (fstatus f) ++ ": " ++ ftext f in
    SyncLocal.ensureLabel name color description w
      = (if includes "404" msg
         then Remote.bind (SyncLocal.githubRequest (CreateLabel name color description))
                (fun _ => ret tt) w'
         else (Returns tt, w')) /\
    Actions.ensureLabel name color w
      = Remote.bind (Actions.githubRequest (CreateLabel name color VUndef)) (fun _ => ret tt) w' /\
    (forall f2 fs', fs = Some f2 :: fs' -> 400 <= fstatus f2 ->
       fst (Actions.ensureLabel name color w)
         = Throws (Error ("GitHub API error: " ++ decimal (fstatus f2) ++ " - " ++ ftext f2)) /\
       (includes "404" msg = true ->
        fst (SyncLocal.ensureLabel name color description w)
          = Throws (Error ("GitHub API " ++ decimal (fstatus f2) ++ ": " ++ ftext f2)))).
Proof.
  intros t fs lg f name color description Hf w w' msg.
  assert (L : Z.leb 400 (fstatus f) = true) by (apply Z.leb_le; exact Hf).
  assert (NOK : negb (Z.leb 200 (fstatus f) && Z.leb (fstatus f) 299) = true).
  { apply negb_true_iff, andb_false_iff. right. apply Z.leb_gt. lia. }
  assert (S1 : SyncLocal.ensureLabel name color description w
      = (if includes "404" msg
         then Remote.bind (SyncLocal.githubRequest (CreateLabel name color description))
                (fun _ => ret tt) w'
         else (Returns tt, w'))).
  { subst w w' msg.
    cbv [SyncLocal.ensureLabel SyncLocal.githubRequest tryCatch send throw faults remote log].
    unfold Remote.bind at 1 2. cbv [send faults remote log]. rewrite L. cbn [status text].
    rewrite L. cbv [throw]. cbn [message Error].
    destruct (includes "404" _); reflexivity. }
  assert (S2 : Actions.ensureLabel name color w
      = Remote.bind (Actions.githubRequest (CreateLabel name color VUndef)) (fun _ => ret tt) w').
  { subst w w'.
    cbv [Actions.ensureLabel Actions.githubRequest tryCatch].
    unfold Remote.bind at 1 2. cbv [send faults remote log]. rewrite L. cbn [status text].
    rewrite NOK. reflexivity. }
  split; [exact S1|]. split; [exact S2|].
  intros f2 fs' -> Hf2.
  assert (L2 : Z.leb 400 (fstatus f2) = true) by (apply Z.leb_le; exact Hf2).
  assert (NOK2 : negb (Z.leb 200 (fstatus f2) && Z.leb (fstatus f2) 299) = true).
  { apply negb_true_iff, andb_false_iff. right. apply Z.leb_gt. lia. }
  split.
  - rewrite S2. subst w'. cbv [Actions.githubRequest Remote.bind send faults remote log].
    rewrite L2. cbn [status text]. rewrite NOK2. reflexivity.
  - intros I. rewrite S1, I. subst w'.
    cbv [SyncLocal.githubRequest Remote.bind send faults remote log].
    rewrite L2. cbn [status text]. rewrite L2. reflexivity.
Qed.

Lemma ensureLabel_failed_lookup_witness :
  SyncLocal.ensureLabel "Phase 1" (VStr "0052CC") (VStr "Phase 1 tasks")
    (World emptyTracker [Some (Fault 500 "Server Error")] [])
    = (Returns tt, World emptyTracker [] [GetLabel "Phase 1"]).
Proof.
  exact (proj1 (ensureLabel_failed_lookup emptyTracker [] [] (Fault 500 "Server Error")
                  "Phase 1" (VStr "0052CC") (VStr "Phase 1 tasks") ltac:(cbn; lia))).
Defined.

(** C6 fails as stated.  A lookup that fails with status 500 is not
    propagated by sync-local.js: [ensureLabel] returns normally, the
    error is lost.  The same failure makes scripts/sync-issues.js create
    the label, and so does, in sync-local.js, a failure other than "not
    found" whose text happens to contain "404". *)
Lemma ensureLabel_propagation_counterexample :
  SyncLocal.ensureLabel "Phase 1" (VStr "0052CC") (VStr "Phase 1 tasks")
    (World emptyTracker [Some (Fault 500 "Server Error")] [])
    = (Returns tt, World emptyTracker [] [GetLabel "Phase 1"]) /\
  log (snd (Actions.ensureLabel "Phase 1" (VStr "0052CC")
              (World emptyTracker [Some (Fault 500 "Server Error")] [])))
    = [GetLabel "Phase 1"; CreateLabel "Phase 1" (VStr "0052CC") VUndef] /\
  log (snd (SyncLocal.ensureLabel "Phase 1" (VStr "0052CC") (VStr "Phase 1 tasks")
              (World emptyTracker [Some (Fault 403 "rate limit, retry in 404 s")] [])))
    = [GetLabel "Phase 1";
       CreateLabel "Phase 1" (VStr "0052CC") (VStr "Phase 1 tasks")].
Proof. vm_compute. repeat split. Qed.

(** ** Setting the dates of a board entry *)

Lemma setDate_quiet_cjs p it f v t lg :
  SyncCjs.graphqlRequest (SetDate p it f v) (World t [] lg)
  = (Returns PNone,
     World (Tracker (labelNames t) (issues t) (boardId t) (fields t) (items t)
              (<[ (it, f) := v ]> (dates t))) [] (lg ++ [SetDate p it f v])).
Proof. reflexivity. Qed.

Lemma setDate_quiet_gas p it f v t lg :
  AppsScript.graphqlRequest (SetDate p it f v) (World t [] lg)
  = (Returns PNone,
     World (Tracker (labelNames t) (issues t) (boardId t) (fields t) (items t)
              (<[ (it, f) := v ]> (dates t))) [] (lg ++ [SetDate p it f v])).
Proof. reflexivity. Qed.

Lemma updateProjectItemDate_quiet p it f d t lg :
  exists t',
    SyncCjs.updateProjectItemDate p it f d (World t [] lg)
      = (Returns tt, World t' [] (lg ++ written p it f d)) /\
    (forall k, k <> (it, f) -> dates t' !! k = dates t !! k) /\
    (SyncCjs.isSet d = false -> t' = t) /\
    (SyncCjs.isSet d = true -> dates t' !! (it, f) = d).
Proof.
  destruct d as [v|]; cbn [SyncCjs.updateProjectItemDate written SyncCjs.isSet].
  - destruct (String.eqb v EmptyString) eqn:Ev; cbn [negb].
    + exists t. rewrite app_nil_r. repeat split; auto. discriminate.
    + eexists. unfold Remote.bind. rewrite setDate_quiet_cjs. split; [reflexivity|].
      cbn [dates]. split; [|split; [discriminate|]].
      * intros k Hk. apply lookup_insert_ne. congruence.
      * intros _. apply lookup_insert_eq.
  - exists t. rewrite app_nil_r. repeat split; auto. discriminate.
Qed.

Lemma setDates_quiet p it sf ef startDate endDate t :
  sf <> ef ->
  exists t',
    SyncCjs.setDates p it sf ef startDate endDate (calm t)
      = (Returns tt, World t' [] (written p it sf startDate ++ written p it ef endDate)) /\
    (SyncCjs.isSet startDate = false -> dates t' !! (it, sf) = dates t !! (it, sf)) /\
    (SyncCjs.isSet endDate = false -> dates t' !! (it, ef) = dates t !! (it, ef)) /\
    (SyncCjs.isSet startDate = true -> dates t' !! (it, sf) = startDate) /\
    (SyncCjs.isSet endDate = true -> dates t' !! (it, ef) = endDate).
Proof.
  intros Hne.
  destruct (updateProjectItemDate_quiet p it sf startDate t []) as (t1 & R1 & F1 & N1 & S1).
  destruct (updateProjectItemDate_quiet p it ef endDate t1 (written p it sf startDate))
    as (t2 & R2 & F2 & N2 & S2).
  assert (W1 : forall d f, SyncCjs.isSet d = false -> written p it f d = []).
  { intros [v|] f; cbn [SyncCjs.isSet written]; [|reflexivity].
    destruct (String.eqb v EmptyString); [reflexivity | discriminate]. }
  exists t2. unfold SyncCjs.setDates, Remote.bind, calm.
  destruct (SyncCjs.isSet startDate) eqn:I1; destruct (SyncCjs.isSet endDate) eqn:I2;
    rewrite ?R1; cbn [app] in R2 |- *; unfold ret; rewrite ?R2.
  - split; [reflexivity|]. repeat split; try discriminate.
    + intros _. rewrite F2 by congruence. auto.
    + auto.
  - rewrite (N2 eq_refl) in *. rewrite (W1 endDate ef I2), app_nil_r.
    split; [reflexivity|]. repeat split; try discriminate; auto.
    intros _. apply F1. congruence.
  - rewrite (N1 eq_refl) in *. rewrite (W1 startDate sf I1) in *. cbn [app] in *.
    rewrite R2. split; [reflexivity|]. repeat split; try discriminate; auto.
    intros _. apply F2. congruence.
  - rewrite (N1 eq_refl) in *. rewrite (N2 eq_refl) in *.
    rewrite (W1 startDate sf I1), (W1 endDate ef I2). cbn [app].
    split; [reflexivity|]. repeat split; try discriminate; auto.
Qed.

Lemma updateProjectDates_quiet t n item sfield efield s e :
  find (AppsScript.linkedTo n) (items t) = Some item ->
  find (AppsScript.named "Start Date") (fields t) = Some sfield ->
  find (AppsScript.named "End Date") (fields t) = Some efield ->
  snd sfield <> snd efield ->
  exists t',
    AppsScript.updateProjectDates n s e (calm t)
      = (Returns tt,
         World t' [] (QueryBoard :: written (boardId t) (fst item) (snd sfield) (Some s)
                        ++ written (boardId t) (fst item) (snd efield) (Some e))) /\
    (s = EmptyString -> dates t' !! (fst item, snd sfield) = dates t !! (fst item, snd sfield)) /\
    (e = EmptyString -> dates t' !! (fst item, snd efield) = dates t !! (fst item, snd efield)) /\
    (s <> EmptyString -> dates t' !! (fst item, snd sfield) = Some s) /\
    (e <> EmptyString -> dates t' !! (fst item, snd efield) = Some e).
Proof.
  intros Hi Hs He Hne.
  unfold AppsScript.updateProjectDates, tryCatch, calm.
  unfold Remote.bind at 1. unfold AppsScript.graphqlRequest at 1.
  unfold Remote.bind at 1. cbv [send faults remote log serve]. cbn [status data app].
  change (Z.leb 400 200) with false. cbv iota. unfold ret at 1.
  rewrite Hi, Hs, He. unfold Remote.bind, ret, AppsScript.nonEmpty. cbn [written].
  destruct (String.eqb_spec s EmptyString) as [->|Ns];
    destruct (String.eqb_spec e EmptyString) as [->|Ne]; cbn [negb app];
    rewrite ?setDate_quiet_gas; cbn [app]; rewrite ?setDate_quiet_gas;
    eexists; (split; [reflexivity|]); cbn [dates];
    (split; [|split; [|split]]); intros X; try (exfalso; congruence);
    repeat first [rewrite lookup_insert_eq | rewrite lookup_insert_ne by congruence];
    reflexivity.
Qed.

(** C7. On a tracker that answers every request, the two dates of a board
    entry are set one by one, each under its own guard.  A date that is
    empty (or absent) causes no write, and the value the tracker holds
    for that field stays what it was; a date that is not empty is
    written to its field, whatever the other date is.  This holds for
    the date step of sync-local.cjs ([updateProjectItemDate] under the
    two guards of [main]) and for [updateProjectDates] of the Apps
    Script, once the entry and the two fields are found on the board. *)
Theorem schedule_dates_set_independently :
  forall (t : tracker) (projectId itemId startFieldId endFieldId : string)
         (startDate endDate : option string),
    startFieldId <> endFieldId ->
    (exists t',
       SyncCjs.setDates projectId itemId startFieldId endFieldId startDate endDate (calm t)
         = (Returns tt,
            World t' [] (written projectId itemId startFieldId startDate
                           ++ written projectId itemId endFieldId endDate)) /\
       (SyncCjs.isSet startDate = false ->
          written projectId itemId startFieldId startDate = [] /\
          dates t' !! (itemId, startFieldId) = dates t !! (itemId, startFieldId)) /\
       (SyncCjs.isSet endDate = false ->
          written projectId itemId endFieldId endDate = [] /\
          dates t' !! (itemId, endFieldId) = dates t !! (itemId, endFieldId)) /\
       (SyncCjs.isSet startDate = true -> dates t' !! (itemId, startFieldId) = startDate) /\
       (SyncCjs.isSet endDate = true -> dates t' !! (itemId, endFieldId) = endDate)) /\
    (forall (n : Z) (s e : string),
       find (AppsScript.linkedTo n) (items t) = Some (itemId, Some n) ->
       find (AppsScript.named "Start Date") (fields t) = Some ("Start Date", startFieldId) ->
       find (AppsScript.named "End Date") (fields t) = Some ("End Date", endFieldId) ->
       exists t',
         AppsScript.updateProjectDates n s e (calm t)
           = (Returns tt,
              World t' [] (QueryBoard :: written (boardId t) itemId startFieldId (Some s)
                             ++ written (boardId t) itemId endFieldId (Some e))) /\
         (s = EmptyString ->
            written (boardId t) itemId startFieldId (Some s) = [] /\
            dates t' !! (itemId, startFieldId) = dates t !! (itemId, startFieldId)) /\
         (e = EmptyString ->
            written (boardId t) itemId endFieldId (Some e) = [] /\
            dates t' !! (itemId, endFieldId) = dates t !! (itemId, endFieldId)) /\
         (s <> EmptyString -> dates t' !! (itemId, startFieldId) = Some s) /\
         (e <> EmptyString -> dates t' !! (itemId, endFieldId) = Some e)).
Proof.
  intros t p it sf ef startDate endDate Hne.
  assert (W1 : forall d f, SyncCjs.isSet d = false -> written p it f d = []).
  { intros [v|] f; cbn [SyncCjs.isSet written]; [|reflexivity].
    destruct (String.eqb v EmptyString); [reflexivity | discriminate]. }
  split.
  - destruct (setDates_quiet p it sf ef startDate endDate t Hne) as (t' & R & A & B & C & D).
    exists t'. repeat split; auto.
  - intros n s e Hi Hs He.
    destruct (updateProjectDates_quiet t n _ _ _ s e Hi Hs He Hne) as (t' & R & A & B & C & D).
    cbn [fst snd] in *. exists t'. split; [exact R|].
    split; [intros ->; split; [reflexivity | apply A; reflexivity]|].
    split; [intros ->; split; [reflexivity | apply B; reflexivity]|].
    split; [exact C | exact D].
Qed.

Lemma schedule_dates_witness :
  exists t',
    SyncCjs.setDates "PVT_1" "I1" "F1" "F2" (Some "2025-10-01") None (calm sampleBoard)
      = (Returns tt, World t' [] [SetDate "PVT_1" "I1" "F1" "2025-10-01"]) /\
    dates t' !! ("I1", "F2") = Some "2025-12-31" /\
    dates t' !! ("I1", "F1") = Some "2025-10-01".
Proof.
  destruct (schedule_dates_set_independently sampleBoard "PVT_1" "I1" "F1" "F2"
              (Some "2025-10-01") None ltac:(discriminate))
    as [(t' & R & _ & B & C & _) _].
  exists t'. split; [exact R|]. split.
  - rewrite (proj2 (B eq_refl)). reflexivity.
  - exact (C eq_refl).
Defined.

(** ** Issue titles *)

(** C2, as the code has it.  For a row whose phase and activity are text,
    sync-local.js builds "[P] activity", where P is the phase text before
    its first colon, or the word Task when that is empty; sync-local.cjs
    builds "[Phase d] activity" from the digit that follows "Phase" in
    the phase cell, else from the phase it guesses from the activity, and
    when it derives no phase the title is the bare activity, without any
    bracketed prefix. *)
Theorem issue_title_by_variant :
  forall (E : engine) (r : row) (phase activity : string),
    (get r "Phase" = VStr phase -> get r "Activity" = VStr activity ->
     SyncLocal.createIssueTitle E r
       = Returns ("[" ++ (if String.eqb (splitHead ":" phase) EmptyString
                          then "Task" else splitHead ":" phase)
                      ++ "] " ++ activity)) /\
    (SyncCjs.getField r "Phase" = VStr phase -> SyncCjs.getField r "Activity" = VStr activity ->
     activity <> EmptyString ->
     SyncCjs.createIssueTitle E r
       = Returns (match matchPhase phase with
                  | Some d => "[" ++ ("Phase " ++ String d EmptyString) ++ "] " ++ activity
                  | None =>
                      match SyncCjs.phaseByActivity activity with
                      | Some ph => "[" ++ ph ++ "] " ++ activity
                      | None => activity
                      end
                  end)).
Proof.
  intros E r phase activity. split.
  - intros Hp Ha. unfold SyncLocal.createIssueTitle. rewrite Hp, Ha.
    assert (P : orElse (VStr phase) (VStr "") = VStr phase).
    { unfold orElse. cbn [truthy]. destruct (String.eqb_spec phase EmptyString) as [->|]; reflexivity. }
    assert (A : toStr E (orElse (VStr activity) (VStr "")) = activity).
    { unfold orElse. cbn [truthy].
      destruct (String.eqb_spec activity EmptyString) as [->|]; reflexivity. }
    rewrite P, A. cbn [asString]. unfold orElse. cbn [truthy].
    destruct (String.eqb (splitHead ":" phase) EmptyString); reflexivity.
  - intros Hp Ha Hne. unfold SyncCjs.createIssueTitle, SyncCjs.getPhaseFromRow.
    rewrite Hp, Ha.
    assert (P : orElse (VStr phase) (VStr "") = VStr phase).
    { unfold orElse. cbn [truthy]. destruct (String.eqb_spec phase EmptyString) as [->|]; reflexivity. }
    assert (A : forall d, orElse (VStr activity) (VStr d) = VStr activity).
    { intros d. unfold orElse. cbn [truthy].
      destruct (String.eqb_spec activity EmptyString) as [->|]; [congruence | reflexivity]. }
    rewrite P, !A. cbn [asString toStr].
    destruct (matchPhase phase); [reflexivity|].
    destruct (SyncCjs.phaseByActivity activity); reflexivity.
Qed.

Lemma issue_title_witness :
  SyncLocal.createIssueTitle (isoOnly 0 0)
    [("Phase", VStr "Phase 1: Setup"); ("Activity", VStr "Kickoff")]
    = Returns "[Phase 1] Kickoff" /\
  SyncCjs.createIssueTitle (isoOnly 0 0)
    [("Phase", VStr "Phase 1: Setup"); ("Activity", VStr "Kickoff")]
    = Returns "[Phase 1] Kickoff".
Proof.
  pose proof (issue_title_by_variant (isoOnly 0 0)
                [("Phase", VStr "Phase 1: Setup"); ("Activity", VStr "Kickoff")]
                "Phase 1: Setup" "Kickoff") as [L C].
  split.
  - exact (L eq_refl eq_refl).
  - exact (C eq_refl eq_refl ltac:(discriminate)).
Defined.

(** C2 fails as stated: without a phase, sync-local.cjs titles the issue
    with the bare activity, not with "[Task] ..."; and in sync-local.js
    the bracketed prefix is the phase text before the colon even when no
    phase label is derived from it. *)
Lemma issue_title_counterexample :
  SyncCjs.createIssueTitle (isoOnly 0 0) [("Activity", VStr "Kickoff")] = Returns "Kickoff" /\
  SyncLocal.firstPhaseKey SyncLocal.PHASE_LABELS "Planning: first steps" = None /\
  SyncLocal.createIssueTitle (isoOnly 0 0)
    [("Phase", VStr "Planning: first steps"); ("Activity", VStr "Kickoff")]
    = Returns "[Planning] Kickoff".
Proof. vm_compute. repeat split. Qed.

(** ** Label requests leave the issues alone *)

Lemma labelsOnly_ret {A} (a : A) : labelsOnly (ret a).
Proof.
  intros w Hw. exists a, w. repeat split; auto. exists []. rewrite app_nil_r. auto.
Qed.

Lemma labelsOnly_bind {A B} (c : M A) (k : A -> M B) :
  labelsOnly c -> (forall a, labelsOnly (k a)) -> labelsOnly (Remote.bind c k).
Proof.
  intros Hc Hk w Hw.
  destruct (Hc w Hw) as (a & w1 & R1 & F1 & I1 & e1 & L1 & P1).
  destruct (Hk a w1 F1) as (b & w2 & R2 & F2 & I2 & e2 & L2 & P2).
  exists b, w2. unfold Remote.bind. rewrite R1, R2. repeat split; auto; [congruence|].
  exists (e1 ++ e2)%list. rewrite L2, L1, <- app_assoc. split; [reflexivity|].
  rewrite forallb_app, P1, P2. reflexivity.
Qed.

Lemma labelsOnly_lift {A B} (a : A) (k : A -> M B) :
  labelsOnly (k a) -> labelsOnly (Remote.bind (lift (Returns a)) k).
Proof. intros H. exact H. Qed.

Lemma labelsOnly_ensured name c d w :
  faults w = [] ->
  faults (ensured name c d w) = [] /\
  issues (remote (ensured name c d w)) = issues (remote w) /\
  exists extra, log (ensured name c d w) = (log w ++ extra)%list /\
                forallb isLabelRequest extra = true.
Proof.
  intros _. split; [apply ensured_quiet|]. split; [apply ensured_issues|].
  unfold ensured. destruct (bool_decide _); cbn [log]; eexists; split; reflexivity.
Qed.

Lemma labelsOnly_ensureLabel_local name c d : labelsOnly (SyncLocal.ensureLabel name c d).
Proof.
  intros w Hw. exists tt, (ensured name c d w).
  split; [apply SyncLocal_ensureLabel_quiet, Hw | apply labelsOnly_ensured, Hw].
Qed.

Lemma labelsOnly_ensureLabel_cjs name c d : labelsOnly (SyncCjs.ensureLabel name c d).
Proof.
  intros w Hw. exists tt, (ensured name c d w).
  split; [apply SyncCjs_ensureLabel_quiet, Hw | apply labelsOnly_ensured, Hw].
Qed.

Lemma labelsOnly_orKeep table key description labels :
  labelsOnly (SyncCjs.orKeep labels (SyncCjs.labelFor table key description labels)).
Proof.
  unfold SyncCjs.orKeep, SyncCjs.labelFor.
  destruct (lookup table key);
    [apply labelsOnly_bind; [apply labelsOnly_ensureLabel_cjs | intros; apply labelsOnly_ret]
    |apply labelsOnly_bind; [apply labelsOnly_ensureLabel_cjs | intros; apply labelsOnly_ret]
    |apply labelsOnly_ret].
Qed.

Lemma labelsOnly_labelFor table key description labels c :
  SyncCjs.labelFor table key description labels = Some c -> labelsOnly c.
Proof.
  unfold SyncCjs.labelFor.
  destruct (lookup table key); intros [= <-];
    (apply labelsOnly_bind; [apply labelsOnly_ensureLabel_cjs | intros; apply labelsOnly_ret]).
Qed.

(** Running a label stage in front of a continuation. *)
Lemma labelsOnly_run {A B} (c : M A) (k : A -> M B) w :
  labelsOnly c -> faults w = [] ->
  exists a w1, Remote.bind c k w = k a w1 /\ faults w1 = [] /\
    issues (remote w1) = issues (remote w) /\
    exists extra, log w1 = (log w ++ extra)%list /\ forallb isLabelRequest extra = true.
Proof.
  intros Hc Hw. destruct (Hc w Hw) as (a & w1 & R1 & F1 & I1 & E1).
  exists a, w1. unfold Remote.bind. rewrite R1. auto.
Qed.

(** ** Rows of text *)

Lemma get_text r k :
  textRow r = true -> (exists s, get r k = VStr s) \/ get r k = VUndef.
Proof.
  induction r as [|[k' v] r IH]; cbn [textRow forallb get snd]; [auto|].
  intros H. apply andb_true_iff in H as [Hv Hr].
  destruct (String.eqb k' k); [|exact (IH Hr)].
  destruct v; try discriminate Hv. left. eauto.
Qed.

Lemma getFieldLoose_text r k :
  textRow r = true -> (exists s, SyncCjs.getFieldLoose r k = VStr s) \/ SyncCjs.getFieldLoose r k = VNull.
Proof.
  induction r as [|[k' v] r IH]; cbn [textRow forallb SyncCjs.getFieldLoose snd]; [auto|].
  intros H. apply andb_true_iff in H as [Hv Hr].
  destruct (String.eqb _ _); [|exact (IH Hr)].
  destruct v; try discriminate Hv. left. eauto.
Qed.

Lemma getField_text r k :
  textRow r = true -> (exists s, SyncCjs.getField r k = VStr s) \/ SyncCjs.getField r k = VNull.
Proof.
  intros H. unfold SyncCjs.getField.
  destruct (get_text r k H) as [[s ->] | ->]; [left; eauto | apply getFieldLoose_text, H].
Qed.

Lemma orElse_text v d :
  (exists s, v = VStr s) \/ v = VUndef \/ v = VNull -> exists s, orElse v (VStr d) = VStr s.
Proof.
  unfold orElse. intros [[s ->] | [-> | ->]]; cbn [truthy]; eauto.
  destruct (negb _); eauto.
Qed.

(** ** Writing an issue *)

Lemma bind_lift_returns {A B} (a : A) (k : A -> M B) w :
  Remote.bind (lift (Returns a)) k w = k a w.
Proof. reflexivity. Qed.

Lemma filter_labels l : forallb isLabelRequest l = true -> List.filter isIssueWrite l = [].
Proof.
  induction l as [|r l IH]; [reflexivity|]. cbn [forallb List.filter].
  intros H. apply andb_true_iff in H as [Hr Hl]. destruct r; try discriminate Hr; exact (IH Hl).
Qed.

Lemma known_same t t' snapshot :
  issues t' = issues t -> known t' snapshot = known t snapshot.
Proof. unfold known. intros ->. reflexivity. Qed.

Lemma hasNumber_updated n b ls m l :
  existsb (hasNumber m) (map (fun i => if hasNumber n i then Issue n (title i) b ls else i) l)
  = existsb (hasNumber m) l.
Proof.
  induction l as [|i l IH]; [reflexivity|]. cbn [map existsb]. rewrite IH. f_equal.
  destruct (hasNumber n i) eqn:H; [|reflexivity].
  unfold hasNumber in *. cbn [number]. apply Z.eqb_eq in H. rewrite H. reflexivity.
Qed.

Lemma known_updated n b ls t snapshot :
  known (updatedTracker n b ls t) snapshot = known t snapshot.
Proof.
  unfold known, updatedTracker. cbn [issues].
  induction snapshot as [|i l IH]; [reflexivity|]. cbn [forallb].
  rewrite IH, hasNumber_updated. reflexivity.
Qed.

Lemma known_created ti b ls t snapshot :
  known t snapshot = true -> known (createdTracker ti b ls t) snapshot = true.
Proof.
  unfold known, createdTracker. cbn [issues]. rewrite !forallb_forall.
  intros H i Hi. rewrite existsb_app, (H i Hi). reflexivity.
Qed.

Lemma known_find t snapshot p ex :
  known t snapshot = true -> find p snapshot = Some ex ->
  existsb (hasNumber (number ex)) (issues t) = true.
Proof.
  unfold known. rewrite forallb_forall. intros H F. apply H. exact (proj1 (find_some _ _ F)).
Qed.

Lemma updateIssue_quiet_local n b ls w :
  faults w = [] -> existsb (hasNumber n) (issues (remote w)) = true ->
  SyncLocal.githubRequest (UpdateIssue n b ls) w
  = (Returns PNone, World (updatedTracker n b ls (remote w)) [] (log w ++ [UpdateIssue n b ls])).
Proof.
  intros Hw Hn. destruct w as [t fs lg]. cbn [faults remote log] in *. subst fs.
  cbv [SyncLocal.githubRequest Remote.bind send faults remote log serve]. rewrite Hn.
  reflexivity.
Qed.

Lemma createIssue_quiet_local ti b ls w :
  faults w = [] ->
  SyncLocal.githubRequest (CreateIssue ti b ls) w
  = (Returns (PIssue (Issue (nextNumber (issues (remote w))) ti b ls)),
     World (createdTracker ti b ls (remote w)) [] (log w ++ [CreateIssue ti b ls])).
Proof.
  intros Hw. destruct w as [t fs lg]. cbn [faults remote log] in *. subst fs. reflexivity.
Qed.

Lemma updateIssue_quiet_cjs n b ls w :
  faults w = [] -> existsb (hasNumber n) (issues (remote w)) = true ->
  SyncCjs.githubRequest (UpdateIssue n b ls) w
  = (Returns PNone, World (updatedTracker n b ls (remote w)) [] (log w ++ [UpdateIssue n b ls])).
Proof.
  intros Hw Hn. destruct w as [t fs lg]. cbn [faults remote log] in *. subst fs.
  cbv [SyncCjs.githubRequest Remote.bind send faults remote log serve]. rewrite Hn.
  reflexivity.
Qed.

Lemma createIssue_quiet_cjs ti b ls w :
  faults w = [] ->
  SyncCjs.githubRequest (CreateIssue ti b ls) w
  = (Returns (PIssue (Issue (nextNumber (issues (remote w))) ti b ls)),
     World (createdTracker ti b ls (remote w)) [] (log w ++ [CreateIssue ti b ls])).
Proof.
  intros Hw. destruct w as [t fs lg]. cbn [faults remote log] in *. subst fs. reflexivity.
Qed.

Lemma truthy_text a : a <> EmptyString -> truthy (VStr a) = true.
Proof. intros H. cbn [truthy]. destruct (String.eqb_spec a EmptyString); [contradiction | reflexivity]. Qed.

Lemma orElse_truthy_text a d : a <> EmptyString -> orElse (VStr a) d = VStr a.
Proof. intros H. unfold orElse. rewrite (truthy_text a H). reflexivity. Qed.

(** [syncRow] of sync-local.js on a row of text, while nothing fails:
    label requests, then exactly one issue write, chosen by the exact
    title among the issues of the snapshot. *)
Lemma SyncLocal_syncRow_quiet E body r snapshot w a b :
  faults w = [] -> known (remote w) snapshot = true ->
  textRow r = true -> get r "Activity" = VStr a -> a <> EmptyString ->
  body r = Returns b ->
  exists ti lbls extra w',
    SyncLocal.createIssueTitle E r = Returns ti /\
    forallb isLabelRequest extra = true /\
    faults w' = [] /\ known (remote w') snapshot = true /\
    match find (SyncLocal.isTitled ti) snapshot with
    | Some ex =>
        SyncLocal.syncRow E body r snapshot w = (Returns (Some SyncLocal.updated), w') /\
        log w' = (log w ++ extra ++ [UpdateIssue (number ex) b lbls])%list
    | None =>
        SyncLocal.syncRow E body r snapshot w = (Returns (Some SyncLocal.created), w') /\
        log w' = (log w ++ extra ++ [CreateIssue ti b lbls])%list
    end.
Proof.
  intros Hw Hk Ht Ha Hne Hb.
  assert (Hp : exists p, orElse (get r "Phase") (VStr "") = VStr p).
  { apply orElse_text. destruct (get_text r "Phase" Ht) as [?| ->]; auto. }
  destruct Hp as [p Hp].
  assert (Hti : exists ti, SyncLocal.createIssueTitle E r = Returns ti).
  { unfold SyncLocal.createIssueTitle. rewrite Hp. cbn [asString]. eauto. }
  destruct Hti as [ti Hti]. exists ti.
  unfold SyncLocal.syncRow. rewrite Ha, (truthy_text a Hne), Hti, Hb, Hp. cbn [negb asString].
  rewrite !bind_lift_returns.
  match goal with |- context [Remote.bind ?c ?k w] =>
    assert (L1 : labelsOnly c)
  end.
  { destruct (SyncLocal.firstPhaseKey _ p) as [[key [color description]]|];
      [apply labelsOnly_bind; [apply labelsOnly_ensureLabel_local | intros; apply labelsOnly_ret]
      |apply labelsOnly_ret]. }
  match goal with |- context [Remote.bind ?c ?k w] =>
    destruct (labelsOnly_run c k w L1 Hw) as (l1 & w1 & R1 & F1 & I1 & e1 & G1 & P1);
    rewrite R1; clear R1 L1
  end.
  match goal with |- context [Remote.bind ?c ?k w1] =>
    assert (L2 : labelsOnly c)
  end.
  { destruct (truthy (get r "Quarter")); [|apply labelsOnly_ret].
    destruct (lookup _ _) as [[color description]| |];
      [apply labelsOnly_bind; [apply labelsOnly_ensureLabel_local | intros; apply labelsOnly_ret]
      |apply labelsOnly_bind; [apply labelsOnly_ensureLabel_local | intros; apply labelsOnly_ret]
      |apply labelsOnly_ret]. }
  match goal with |- context [Remote.bind ?c ?k w1] =>
    destruct (labelsOnly_run c k w1 L2 F1) as (l2 & w2 & R2 & F2 & I2 & e2 & G2 & P2);
    rewrite R2; clear R2 L2
  end.
  assert (K2 : known (remote w2) snapshot = true).
  { rewrite (known_same (remote w1) (remote w2)) by exact I2.
    rewrite (known_same (remote w) (remote w1)) by exact I1. exact Hk. }
  exists l2, (e1 ++ e2)%list.
  assert (P12 : forallb isLabelRequest (e1 ++ e2) = true)
    by (rewrite forallb_app, P1, P2; reflexivity).
  destruct (find (SyncLocal.isTitled ti) snapshot) as [ex|] eqn:F.
  - pose proof (known_find _ _ _ _ K2 F) as Hn.
    exists (World (updatedTracker (number ex) b l2 (remote w2)) []
              (log w2 ++ [UpdateIssue (number ex) b l2])).
    unfold Remote.bind. rewrite (updateIssue_quiet_local _ b l2 w2 F2 Hn).
    unfold ret. split; [reflexivity|]. split; [exact P12|]. split; [reflexivity|].
    cbn [remote log]. rewrite known_updated. split; [exact K2|]. split; [reflexivity|].
    rewrite G2, G1, <- !app_assoc. reflexivity.
  - exists (World (createdTracker ti b l2 (remote w2)) [] (log w2 ++ [CreateIssue ti b l2])).
    unfold Remote.bind. rewrite (createIssue_quiet_local ti b l2 w2 F2).
    unfold ret. split; [reflexivity|]. split; [exact P12|]. split; [reflexivity|].
    cbn [remote log]. split; [apply known_created, K2|]. split; [reflexivity|].
    rewrite G2, G1, <- !app_assoc. reflexivity.
Qed.

Lemma getPhaseFromRow_text r a :
  textRow r = true -> SyncCjs.getField r "Activity" = VStr a -> a <> EmptyString ->
  exists ph, SyncCjs.getPhaseFromRow r = Returns ph.
Proof.
  intros Ht Ha Hne. unfold SyncCjs.getPhaseFromRow.
  assert (Hp : exists p, orElse (SyncCjs.getField r "Phase") (VStr "") = VStr p).
  { apply orElse_text. destruct (getField_text r "Phase" Ht) as [?| ->]; auto. }
  destruct Hp as [p ->]. cbn [asString].
  destruct (matchPhase p); [eauto|].
  rewrite Ha, (orElse_truthy_text a _ Hne). cbn [asString]. eauto.
Qed.

(** [syncRow] of sync-local.cjs on a row of text, while nothing fails:
    label requests, then exactly one issue write, chosen by [sameTask]
    among the issues of the snapshot. *)
Lemma SyncCjs_syncRow_quiet E body r snapshot w a b :
  faults w = [] -> known (remote w) snapshot = true ->
  textRow r = true -> SyncCjs.getField r "Activity" = VStr a -> a <> EmptyString ->
  body r = Returns b ->
  exists ti lbls extra w',
    SyncCjs.createIssueTitle E r = Returns ti /\
    forallb isLabelRequest extra = true /\
    match find (SyncCjs.sameTask E (VStr a) ti) snapshot with
    | Some ex =>
        SyncCjs.syncRow E body r snapshot w
          = (Returns (Some (SyncCjs.Synced SyncCjs.updated (number ex))), w') /\
        log w' = (log w ++ extra ++ [UpdateIssue (number ex) b lbls])%list
    | None =>
        SyncCjs.syncRow E body r snapshot w
          = (Returns (Some (SyncCjs.Synced SyncCjs.created (nextNumber (issues (remote w))))), w') /\
        log w' = (log w ++ extra ++ [CreateIssue ti b lbls])%list
    end.
Proof.
  intros Hw Hk Ht Ha Hne Hb.
  destruct (getPhaseFromRow_text r a Ht Ha Hne) as [ph Hph].
  assert (Hti : exists ti, SyncCjs.createIssueTitle E r = Returns ti).
  { unfold SyncCjs.createIssueTitle. rewrite Hph. destruct ph; eauto. }
  destruct Hti as [ti Hti]. exists ti.
  unfold SyncCjs.syncRow. rewrite Ha, (truthy_text a Hne), Hti, Hb, Hph. cbn [negb].
  rewrite !bind_lift_returns.
  match goal with |- context [Remote.bind ?c ?k w] =>
    assert (L1 : labelsOnly c)
  end.
  { destruct ph; [apply labelsOnly_orKeep | apply labelsOnly_ret]. }
  match goal with |- context [Remote.bind ?c ?k w] =>
    destruct (labelsOnly_run c k w L1 Hw) as (l1 & w1 & R1 & F1 & I1 & e1 & G1 & P1);
    rewrite R1; clear R1 L1
  end.
  match goal with |- context [Remote.bind ?c ?k w1] =>
    assert (L2 : labelsOnly c)
  end.
  { destruct (getField_text r "Quarter" Ht) as [[q ->] | ->]; [|apply labelsOnly_ret].
    destruct (truthy (VStr q)); [|apply labelsOnly_ret].
    cbn [asString]. apply labelsOnly_lift.
    destruct (matchQuarter q) as [q0|].
    - destruct (SyncCjs.labelFor _ q0 _ l1) eqn:Q0;
        [exact (labelsOnly_labelFor _ _ _ _ _ Q0) | apply labelsOnly_orKeep].
    - apply labelsOnly_orKeep. }
  match goal with |- context [Remote.bind ?c ?k w1] =>
    destruct (labelsOnly_run c k w1 L2 F1) as (l2 & w2 & R2 & F2 & I2 & e2 & G2 & P2);
    rewrite R2; clear R2 L2
  end.
  match goal with |- context [Remote.bind ?c ?k w2] =>
    assert (L3 : labelsOnly c)
  end.
  { destruct (truthy _); [apply labelsOnly_orKeep | apply labelsOnly_ret]. }
  match goal with |- context [Remote.bind ?c ?k w2] =>
    destruct (labelsOnly_run c k w2 L3 F2) as (l3 & w3 & R3 & F3 & I3 & e3 & G3 & P3);
    rewrite R3; clear R3 L3
  end.
  assert (I : issues (remote w3) = issues (remote w)) by congruence.
  assert (K3 : known (remote w3) snapshot = true)
    by (rewrite (known_same (remote w) (remote w3)) by exact I; exact Hk).
  exists l3, (e1 ++ e2 ++ e3)%list.
  assert (P123 : forallb isLabelRequest (e1 ++ e2 ++ e3) = true)
    by (rewrite !forallb_app, P1, P2, P3; reflexivity).
  destruct (find (SyncCjs.sameTask E (VStr a) ti) snapshot) as [ex|] eqn:F.
  - pose proof (known_find _ _ _ _ K3 F) as Hn.
    exists (World (updatedTracker (number ex) b l3 (remote w3)) []
              (log w3 ++ [UpdateIssue (number ex) b l3])).
    unfold Remote.bind. rewrite (updateIssue_quiet_cjs _ b l3 w3 F3 Hn).
    unfold ret. split; [reflexivity|]. split; [exact P123|]. split; [reflexivity|].
    cbn [log]. rewrite G3, G2, G1, <- !app_assoc. reflexivity.
  - exists (World (createdTracker ti b l3 (remote w3)) [] (log w3 ++ [CreateIssue ti b l3])).
    unfold Remote.bind. rewrite (createIssue_quiet_cjs ti b l3 w3 F3).
    unfold ret. rewrite I. split; [reflexivity|]. split; [exact P123|]. split; [reflexivity|].
    cbn [log]. rewrite G3, G2, G1, <- !app_assoc. reflexivity.
Qed.

(** ** The match policy of the reconciler *)

(** C1, as the code has it.  For a row of text with a non-empty activity,
    a snapshot whose issues the tracker still holds, and a tracker that
    answers every request: [syncRow] of sync-local.cjs takes the first
    issue of the snapshot whose title contains the activity or equals the
    new title, and issues one update of that issue; when there is none it
    issues one create.  [syncRow] of sync-local.js does the same with the
    exact title alone: a title that merely contains the activity is no
    match there. *)
Theorem reconciler_match_policy :
  forall (E : engine) (body : row -> outcome string) (r : row)
         (snapshot : list issue) (t : tracker) (a b : string),
    textRow r = true -> a <> EmptyString -> body r = Returns b ->
    known t snapshot = true ->
    (SyncCjs.getField r "Activity" = VStr a ->
     exists ti lbls w' res,
       SyncCjs.createIssueTitle E r = Returns ti /\
       SyncCjs.syncRow E body r snapshot (calm t) = (Returns (Some res), w') /\
       match find (fun i => includes a (title i) || String.eqb (title i) ti) snapshot with
       | Some ex =>
           res = SyncCjs.Synced SyncCjs.updated (number ex) /\
           List.filter isIssueWrite (log w') = [UpdateIssue (number ex) b lbls]
       | None =>
           SyncCjs.act res = SyncCjs.created /\
           List.filter isIssueWrite (log w') = [CreateIssue ti b lbls]
       end) /\
    (get r "Activity" = VStr a ->
     exists ti lbls w' res,
       SyncLocal.createIssueTitle E r = Returns ti /\
       SyncLocal.syncRow E body r snapshot (calm t) = (Returns (Some res), w') /\
       match find (fun i => String.eqb (title i) ti) snapshot with
       | Some ex =>
           res = SyncLocal.updated /\
           List.filter isIssueWrite (log w') = [UpdateIssue (number ex) b lbls]
       | None =>
           res = SyncLocal.created /\
           List.filter isIssueWrite (log w') = [CreateIssue ti b lbls]
       end).
Proof.
  intros E body r snapshot t a b Ht Hne Hb Hk.
  assert (W : forall extra x, forallb isLabelRequest extra = true -> isIssueWrite x = true ->
                List.filter isIssueWrite (log (calm t) ++ extra ++ [x])%list = [x]).
  { intros extra x He Hx. cbn [calm log app]. rewrite List.filter_app, (filter_labels extra He).
    cbn [List.filter app]. rewrite Hx. reflexivity. }
  split; intros Ha.
  - destruct (SyncCjs_syncRow_quiet E body r snapshot (calm t) a b eq_refl Hk Ht Ha Hne Hb)
      as (ti & lbls & extra & w' & T & P & M).
    exists ti, lbls, w'.
    change (find (SyncCjs.sameTask E (VStr a) ti) snapshot)
      with (find (fun i => includes a (title i) || String.eqb (title i) ti) snapshot) in M.
    destruct (find _ snapshot) as [ex|]; destruct M as [R L]; eexists;
      (split; [exact T|]); (split; [exact R|]); (split; [reflexivity|]);
      rewrite L; apply W; auto.
  - destruct (SyncLocal_syncRow_quiet E body r snapshot (calm t) a b eq_refl Hk Ht Ha Hne Hb)
      as (ti & lbls & extra & w' & T & P & _ & _ & M).
    exists ti, lbls, w'.
    change (find (SyncLocal.isTitled ti) snapshot)
      with (find (fun i => String.eqb (title i) ti) snapshot) in M.
    destruct (find _ snapshot) as [ex|]; destruct M as [R L]; eexists;
      (split; [exact T|]); (split; [exact R|]); (split; [reflexivity|]);
      rewrite L; apply W; auto.
Qed.

Lemma reconciler_match_witness :
  exists w' lbls,
    SyncCjs.syncRow (isoOnly 0 0) plainBody kickoffRow [kickoffMeeting] (calm oneIssueTracker)
      = (Returns (Some (SyncCjs.Synced SyncCjs.updated 7)), w') /\
    List.filter isIssueWrite (log w') = [UpdateIssue 7 "body" lbls].
Proof.
  destruct (reconciler_match_policy (isoOnly 0 0) plainBody kickoffRow [kickoffMeeting]
              oneIssueTracker "Kickoff" "body" eq_refl ltac:(discriminate) eq_refl eq_refl)
    as [C _].
  destruct (C eq_refl) as (ti & lbls & w' & res & T & R & M).
  vm_compute in T. injection T as <-.
  change (find _ [kickoffMeeting]) with (Some kickoffMeeting) in M.
  destruct M as [-> L]. exists w', lbls. split; [exact R | exact L].
Defined.

(** C1 fails as stated on sync-local.js: an issue titled
    "[Phase 1] Kickoff Meeting" is no match for the activity "Kickoff"
    there, and a new issue is created. *)
Lemma reconciler_match_counterexample :
  fst (SyncLocal.syncRow (isoOnly 0 0) plainBody kickoffRow [kickoffMeeting]
         (calm oneIssueTracker))
    = Returns (Some SyncLocal.created) /\
  List.filter isIssueWrite
    (log (snd (SyncLocal.syncRow (isoOnly 0 0) plainBody kickoffRow [kickoffMeeting]
                 (calm oneIssueTracker))))
    = [CreateIssue "[Phase 1] Kickoff" "body" ["Phase 1"]].
Proof. vm_compute. split; reflexivity. Qed.

(** ** The snapshot of a run *)

Lemma firstn_more {A} (a b : nat) (l : list A) :
  firstn (a + b) l = (firstn a l ++ firstn b (skipn a l))%list.
Proof.
  revert l. induction a as [|a IH]; intros l; [reflexivity|].
  destruct l as [|x l]; cbn [Nat.add firstn skipn app].
  - destruct b; reflexivity.
  - rewrite IH. reflexivity.
Qed.

Lemma skipn_more {A} (a b : nat) (l : list A) : skipn (a + b) l = skipn b (skipn a l).
Proof.
  revert l. induction a as [|a IH]; intros l; [reflexivity|].
  destruct l as [|x l]; cbn [Nat.add skipn]; [destruct b; reflexivity | apply IH].
Qed.

Lemma skipn_nil_firstn {A} (n : nat) (l : list A) : skipn n l = [] -> firstn n l = l.
Proof.
  revert l. induction n as [|n IH]; intros [|x l]; cbn [skipn firstn]; try reflexivity.
  - discriminate.
  - intros H. rewrite (IH l H). reflexivity.
Qed.

Lemma listIssues_quiet page w :
  faults w = [] ->
  SyncLocal.githubRequest (ListIssues page) w
  = (Returns (PIssues (pageOf page (issues (remote w)))),
     World (remote w) [] (log w ++ [ListIssues page])).
Proof.
  intros Hw. destruct w as [t fs lg]. cbn [faults remote log] in *. subst fs. reflexivity.
Qed.

(** The paging loop, once [k] full pages are read: with fuel for the
    pages left it returns every issue of the tracker, after listing
    requests only. *)
Lemma getExistingIssuesFrom_quiet fuel :
  forall (k : nat) (w : world),
    faults w = [] ->
    (length (skipn (k * perPage) (issues (remote w))) < fuel)%nat ->
    exists pages,
      SyncLocal.getExistingIssuesFrom fuel (Z.of_nat k + 1)
        (firstn (k * perPage) (issues (remote w))) w
      = (Returns (issues (remote w)), World (remote w) [] (log w ++ pages)) /\
      pages <> [] /\ forallb isListing pages = true.
Proof.
  induction fuel as [|fuel IH]; intros k w Hw Hf; [lia|].
  cbn [SyncLocal.getExistingIssuesFrom]. unfold Remote.bind at 1.
  rewrite (listIssues_quiet _ w Hw). unfold pageOf.
  replace (Z.leb 1 (Z.of_nat k + 1)) with true by (symmetry; apply Z.leb_le; lia).
  replace (Z.to_nat (Z.of_nat k + 1 - 1)) with k by lia.
  destruct (skipn (k * perPage) (issues (remote w))) as [|i rest] eqn:Sk.
  - cbn [firstn perPage]. rewrite (skipn_nil_firstn _ _ Sk).
    exists [ListIssues (Z.of_nat k + 1)]. repeat split. discriminate.
  - assert (Fp : firstn perPage (i :: rest) = i :: firstn 99 rest) by reflexivity.
    assert (Acc : (firstn (k * perPage) (issues (remote w)) ++ i :: firstn 99 rest)%list
                  = firstn (S k * perPage) (issues (remote w))).
    { rewrite <- Fp, <- Sk, <- firstn_more. f_equal. lia. }
    rewrite Fp. cbv iota. rewrite Acc.
    replace (Z.of_nat k + 1 + 1) with (Z.of_nat (S k) + 1) by lia.
    set (w1 := World (remote w) [] (log w ++ [ListIssues (Z.of_nat k + 1)])).
    assert (Hf1 : (length (skipn (S k * perPage) (issues (remote w1))) < fuel)%nat).
    { subst w1. cbn [remote].
      replace (S k * perPage)%nat with (k * perPage + perPage)%nat by lia.
      rewrite skipn_more, Sk. rewrite length_skipn. cbn [length] in *. unfold perPage. lia. }
    destruct (IH (S k) w1 eq_refl Hf1) as (pages & R & N & P).
    subst w1. cbn [remote log] in R. rewrite R.
    exists (ListIssues (Z.of_nat k + 1) :: pages). rewrite <- app_assoc.
    repeat split; [discriminate | exact P].
Qed.

Lemma getExistingIssues_quiet fuel t :
  (length (issues t) < fuel)%nat ->
  exists pages,
    SyncLocal.getExistingIssues fuel (calm t) = (Returns (issues t), World t [] pages) /\
    pages <> [] /\ forallb isListing pages = true.
Proof.
  intros Hf. exact (getExistingIssuesFrom_quiet fuel 0 (calm t) eq_refl Hf).
Qed.

Lemma labels_notListing l : forallb isLabelRequest l = true -> forallb notListing l = true.
Proof.
  induction l as [|r l IH]; [reflexivity|]. cbn [forallb].
  intros H. apply andb_true_iff in H as [Hr Hl]. rewrite (IH Hl).
  destruct r; try discriminate Hr; reflexivity.
Qed.

Lemma find_existsb {A} (p : A -> bool) (l : list A) :
  existsb p l = match find p l with Some _ => true | None => false end.
Proof.
  induction l as [|x l IH]; [reflexivity|]. cbn [existsb find].
  destruct (p x); [reflexivity | exact IH].
Qed.

Lemma known_self t : known t (issues t) = true.
Proof.
  unfold known. apply forallb_forall. intros i Hi. apply existsb_exists.
  exists i. split; [exact Hi | apply Z.eqb_refl].
Qed.

(** C8 fails as stated: an issue created for one row is not seen by the
    rows that follow.  Two rows with the same title, run against an
    empty tracker, are both created, and the tracker ends up with two
    issues of that title. *)
Lemma snapshot_not_appended_counterexample :
  fst (SyncLocal.main (isoOnly 0 0) plainBody 1 (VStr "token") [kickoffRow; kickoffRow]
         (calm emptyTracker))
    = Returns (SyncLocal.Counts 2 0 0) /\
  map title (issues (remote (snd
    (SyncLocal.main (isoOnly 0 0) plainBody 1 (VStr "token") [kickoffRow; kickoffRow]
       (calm emptyTracker)))))
    = ["[Phase 1] Kickoff"; "[Phase 1] Kickoff"].
Proof. vm_compute. split; reflexivity. Qed.

(** ** The dashboard and the Status column *)













Lemma collect_datedOnly E pdc cols rows :
  forall i ts pm ts' pm',
    Forall (datedOnly E) ts ->
    Dashboard.collect E pdc cols i rows ts pm = Returns (ts', pm') ->
    Forall (datedOnly E) ts'.
Proof.
  induction rows as [|r rows IH]; intros i ts pm ts' pm' Hts; cbn [Dashboard.collect].
  - intros [= <- <-]. exact Hts.
  - destruct (Dashboard.rowTask E pdc cols i r) as [[task|]| |] eqn:R;
      cbn [Dashboard.andThen]; try discriminate.
    + apply IH. apply Forall_app. split; [exact Hts|]. constructor; [|constructor].
      unfold Dashboard.rowTask in R.
      destruct (Nat.eqb _ _); [discriminate R|].
      destruct (negb _); [discriminate R|].
      destruct (Dashboard.dateAt E pdc r (Dashboard.cStartDate cols)) as [sd| |];
        cbn [Dashboard.andThen] in R; try discriminate R.
      destruct (Dashboard.dateAt E pdc r (Dashboard.cEndDate cols)) as [ed| |];
        cbn [Dashboard.andThen] in R; try discriminate R.
      injection R as <-. split; reflexivity.
    + apply IH. exact Hts.
Qed.




(** ** The local-time parser of sync-local.cjs *)

Local Open Scope Z_scope.

Lemma digitsOf_last f n acc :
  0 <= n <= 9 -> digitsOf (S f) n acc = String (digitChar n) acc.
Proof.
  intros H. cbn [digitsOf]. replace (n mod 10) with n by zdiv.
  replace (Z.ltb n 10) with true by (symmetry; apply Z.ltb_lt; lia). reflexivity.
Qed.

Lemma digitsOf_more f n acc :
  10 <= n -> digitsOf (S f) n acc = digitsOf f (n / 10) (String (digitChar (n mod 10)) acc).
Proof.
  intros H. cbn [digitsOf].
  replace (Z.ltb n 10) with false by (symmetry; apply Z.ltb_ge; lia). reflexivity.
Qed.

Lemma padStart2_decimal n : 0 <= n <= 99 -> padStart2 (decimal n) = pad 2 n.
Proof.
  intros H. unfold decimal.
  replace (Z.ltb n 0) with false by (symmetry; apply Z.ltb_ge; lia).
  cbv [pad String.append].
  destruct (Z.lt_ge_cases n 10) as [Hs|Hl].
  - rewrite digitsOf_last by lia. cbn [padStart2].
    replace (n / 10) with 0 by zdiv. replace (n mod 10) with n by zdiv. reflexivity.
  - assert (L : 3 <= Z.log2 n) by (change 3 with (Z.log2 10); apply Z.log2_le_mono; lia).
    destruct (Z.to_nat (Z.log2 n)) as [|f] eqn:F; [lia|].
    rewrite digitsOf_more by lia. rewrite digitsOf_last by zdiv.
    replace ((n / 10) mod 10) with (n / 10) by zdiv. reflexivity.
Qed.

Lemma decimal_year y : 1000 <= y <= 9999 -> decimal y = pad 4 y.
Proof.
  intros H. unfold decimal.
  replace (Z.ltb y 0) with false by (symmetry; apply Z.ltb_ge; lia).
  assert (L : 9 <= Z.log2 y) by (change 9 with (Z.log2 1000); apply Z.log2_le_mono; lia).
  destruct (Z.to_nat (Z.log2 y)) as [|[|[|f]]] eqn:F; try lia.
  rewrite digitsOf_more by lia. rewrite digitsOf_more by zdiv.
  rewrite digitsOf_more by zdiv. rewrite digitsOf_last by zdiv.
  cbv [pad String.append].
  replace (((y / 10) / 10 / 10) mod 10) with (y / 10 / 10 / 10) by zdiv. reflexivity.
Qed.

Local Open Scope string_scope.

(** Where the parser of sync-local.cjs does return a canonical date
    unchanged: in a zone that is not behind UTC, for a year of four
    significant digits.  Behind UTC it returns the day before (see
    [parseDate_cjs_shifts_canonical_date]). *)
Lemma parseDate_cjs_canonical_east (E : engine) (s : string) (y m d : Z) :
  isoFields s = Some (y, m, d) -> validCivil y m d = true ->
  (1000 <= y)%Z -> (0 <= tzOffset E < 1440)%Z ->
  SyncCjs.parseDate E (VStr s) = Some s.
Proof.
  intros F V Hy Htz.
  destruct (isoFields_inv s y m d F) as (Hs & Hr & N & _ & Z0).
  unfold SyncCjs.parseDate. cbn [truthy toStr newDate]. rewrite Z0, N. cbn [negb].
  unfold Date_parse, parseIsoDate. rewrite F, V.
  unfold SyncCjs.localDate, localCivil.
  replace ((daysFromCivil y m d * msPerDay + tzOffset E * 60000) / msPerDay)%Z
    with (daysFromCivil y m d) by (unfold msPerDay; zdiv).
  rewrite (civil_roundtrip y m d V).
  assert (Hm : (1 <= m <= 12 /\ 1 <= d <= 31)%Z).
  { unfold validCivil in V. repeat (apply andb_true_iff in V as [V ?]).
    assert (daysInMonth y m <= 31)%Z.
    { unfold daysInMonth. destruct (Z.eqb m 2); [destruct (isLeap y); lia|].
      destruct (_ || _); lia. }
    lia. }
  rewrite (decimal_year y) by lia.
  rewrite (padStart2_decimal m), (padStart2_decimal d) by lia.
  rewrite <- Hs. reflexivity.
Qed.

(** * Further properties

    What the scripts and the dashboard do beyond the claims above: the
    calendar both ways, the date parsers on the texts they print, the
    sheet identifier, the figures of the dashboard, the paging of the
    issue list, the runs of [main] and the label requests. *)

(** ** The calendar, from days to dates *)

Local Open Scope Z_scope.

Lemma daysFromCivil_flat y m d :
  daysFromCivil y m d
  = let y' := if Z.leb m 2 then y - 1 else y in
    365 * y' + y' / 4 - y' / 100 + y' / 400
    + (153 * (if Z.ltb 2 m then m - 3 else m + 9) + 2) / 5 + d - 1 - 719468.
Proof.
  unfold daysFromCivil. cbv zeta.
  set (y' := if Z.leb m 2 then y - 1 else y). clearbody y'.
  set (mp := if Z.ltb 2 m then m - 3 else m + 9). clearbody mp.
  zdiv.
Qed.

Lemma daysFromCivil_year_lt y1 m1 d1 y2 m2 d2 :
  1 <= m1 <= 12 -> 1 <= d1 <= 31 -> 1 <= m2 <= 12 -> 1 <= d2 <= 31 -> y1 < y2 ->
  daysFromCivil y1 m1 d1 < daysFromCivil y2 m2 d2.
Proof.
  intros. rewrite !daysFromCivil_flat. cbv zeta.
  destruct (Z.leb_spec m1 2), (Z.leb_spec m2 2), (Z.ltb_spec 2 m1), (Z.ltb_spec 2 m2); try lia; zdiv.
Qed.

Lemma yearOfEra_bounds doe :
  0 <= doe <= 146096 ->
  let yoe := (doe - doe / 1460 + doe / 36524 - doe / 146096) / 365 in
  let doy := doe - (365 * yoe + yoe / 4 - yoe / 100) in
  0 <= yoe <= 399 /\ 0 <= doy <= (if isLeap (yoe + 1) then 365 else 364).
Proof.
  intros H. cbv zeta. unfold isLeap.
  set (yoe := (doe - doe / 1460 + doe / 36524 - doe / 146096) / 365).
  destruct (Z.eqb_spec ((yoe + 1) mod 4) 0), (Z.eqb_spec ((yoe + 1) mod 100) 0), (Z.eqb_spec ((yoe + 1) mod 400) 0); cbn [andb orb negb]; subst yoe; zdiv.
Qed.

Lemma daysFromCivil_civilFromDays z :
  let '(y, m, d) := civilFromDays z in daysFromCivil y m d = z.
Proof.
  unfold civilFromDays, daysFromCivil.
  set (z' := z + 719468). set (era := z' / 146097). set (doe := z' - era * 146097).
  assert (Hdoe : 0 <= doe <= 146096) by (subst doe era; zdiv).
  pose proof (yearOfEra_bounds doe Hdoe) as H. cbv zeta in H.
  set (yoe := (doe - doe / 1460 + doe / 36524 - doe / 146096) / 365) in *.
  set (doy := doe - (365 * yoe + yoe / 4 - yoe / 100)) in *.
  destruct H as [Hy Hd].
  assert (Hd' : 0 <= doy <= 365) by (destruct (isLeap _); lia).
  set (mp := (5 * doy + 2) / 153).
  assert (Hmp : 0 <= mp <= 11) by (subst mp; zdiv).
  destruct (Z.ltb_spec mp 10).
  - destruct (Z.leb_spec (mp + 3) 2); [lia|]. destruct (Z.ltb_spec 2 (mp + 3)); [|lia].
    replace (mp + 3 - 3) with mp by lia.
    replace ((yoe + era * 400) / 400) with era by zdiv.
    replace (yoe + era * 400 - era * 400) with yoe by lia. subst doy z' doe. lia.
  - destruct (Z.leb_spec (mp - 9) 2); [|lia]. destruct (Z.ltb_spec 2 (mp - 9)); [lia|].
    replace (mp - 9 + 9) with mp by lia. replace (yoe + era * 400 + 1 - 1) with (yoe + era * 400) by lia.
    replace ((yoe + era * 400) / 400) with era by zdiv.
    replace (yoe + era * 400 - era * 400) with yoe by lia. subst doy z' doe. lia.
Qed.

Lemma civilFromDays_valid z :
  let '(y, m, d) := civilFromDays z in validCivil y m d = true.
Proof.
  unfold civilFromDays.
  set (z' := z + 719468). set (era := z' / 146097). set (doe := z' - era * 146097).
  assert (Hdoe : 0 <= doe <= 146096) by (subst doe era; zdiv).
  pose proof (yearOfEra_bounds doe Hdoe) as H. cbv zeta in H.
  set (yoe := (doe - doe / 1460 + doe / 36524 - doe / 146096) / 365) in *.
  set (doy := doe - (365 * yoe + yoe / 4 - yoe / 100)) in *.
  destruct H as [Hy Hd].
  set (mp := (5 * doy + 2) / 153).
  assert (Hmp : 0 <= mp <= 11) by (subst mp; destruct (isLeap _); zdiv).
  unfold validCivil, daysInMonth.
  assert (Hd1 : 1 <= doy - (153 * mp + 2) / 5 + 1 <= marchMonthLength mp (isLeap (yoe + 1))).
  { unfold marchMonthLength. subst mp.
    destruct (isLeap (yoe + 1));
    repeat match goal with |- context [Z.eqb ?a ?b] => destruct (Z.eqb_spec a b) end; cbn [orb]; zdiv. }
  clear Hd.
  set (d := doy - (153 * mp + 2) / 5 + 1) in *. clearbody d. clearbody mp.
  assert (Hm : exists k, mp = Z.of_nat k /\ (k < 12)%nat) by (exists (Z.to_nat mp); lia).
  destruct Hm as (k & -> & Hk).
  do 12 (destruct k as [|k];
    [ unfold marchMonthLength in Hd1; simpl in Hd1 |- *;
      try (replace (yoe + era * 400 + 1) with (yoe + 1 + 400 * era) by lia; rewrite isLeap_shift);
      try destruct (isLeap (yoe + 1));
      destruct (Z.leb_spec 1 d); try lia;
      match goal with |- context [Z.leb d ?n] => destruct (Z.leb_spec d n); try lia end;
      reflexivity |]).
  lia.
Qed.

Lemma validCivil_bounds y m d :
  validCivil y m d = true -> 1 <= m <= 12 /\ 1 <= d <= 31.
Proof.
  intros V. unfold validCivil in V. repeat (apply andb_true_iff in V as [V ?]).
  assert (daysInMonth y m <= 31).
  { unfold daysInMonth. destruct (Z.eqb m 2); [destruct (isLeap y); lia|].
    destruct (_ || _); lia. }
  lia.
Qed.

(** The day before a calendar day, as a civil date. *)
Lemma dayBefore_civil y m d :
  validCivil y m d = true ->
  exists y' m' d',
    civilFromDays (daysFromCivil y m d - 1) = (y', m', d') /\
    validCivil y' m' d' = true /\ y - 1 <= y' <= y /\
    (y', m', d') <> (y, m, d).
Proof.
  intros V.
  pose proof (civilFromDays_valid (daysFromCivil y m d - 1)) as V'.
  pose proof (daysFromCivil_civilFromDays (daysFromCivil y m d - 1)) as R.
  destruct (civilFromDays (daysFromCivil y m d - 1)) as [[y' m'] d'].
  exists y', m', d'. split; [reflexivity|]. split; [exact V'|].
  destruct (validCivil_bounds _ _ _ V) as [Hm Hd].
  destruct (validCivil_bounds _ _ _ V') as [Hm' Hd'].
  split.
  - split.
    + destruct (Z.lt_ge_cases y' (y - 1)) as [L|]; [|lia].
      pose proof (daysFromCivil_year_lt y' m' d' (y - 1) 12 31 Hm' Hd' ltac:(lia) ltac:(lia) L).
      pose proof (daysFromCivil_year_lt (y - 1) 12 31 y m d ltac:(lia) ltac:(lia) Hm Hd ltac:(lia)).
      lia.
    + destruct (Z.lt_ge_cases y y') as [L|]; [|lia].
      pose proof (daysFromCivil_year_lt y m d y' m' d' Hm Hd Hm' Hd' L). lia.
  - intros [= -> -> ->]. lia.
Qed.

(** ** Dates through the parsers *)

Lemma digitVal_digitChar n : 0 <= n <= 9 -> digitVal (digitChar n) = n.
Proof.
  intros H. rewrite <- (Z2Nat.id n) at 2 by lia. rewrite <- (Z2Nat.id n) at 1 by lia.
  assert (Hk : (Z.to_nat n < 10)%nat) by lia.
  revert Hk. generalize (Z.to_nat n). intros k Hk.
  do 10 (destruct k as [|k]; [reflexivity|]). lia.
Qed.

Local Open Scope string_scope.

Lemma formatCivil_fields y m d :
  (0 <= y <= 9999)%Z -> (0 <= m <= 99)%Z -> (0 <= d <= 99)%Z ->
  isoFields (formatCivil (y, m, d)) = Some (y, m, d).
Proof.
  intros Hy Hm Hd. unfold formatCivil.
  replace (Z.leb 0 y && Z.leb y 9999) with true
    by (symmetry; apply andb_true_iff; split; apply Z.leb_le; lia).
  cbv [pad String.append isoFields]. rewrite !lastDigit_isDigit. cbn [andb Ascii.eqb Bool.eqb].
  unfold num4, num2. rewrite !digitVal_digitChar by zdiv.
  f_equal. f_equal; [f_equal|]; zdiv.
Qed.

Lemma localDate_civil E t y m d :
  localCivil E t = (y, m, d) -> validCivil y m d = true -> (1000 <= y <= 9999)%Z ->
  SyncCjs.localDate E (Some t) = formatCivil (y, m, d).
Proof.
  intros L V Hy. unfold SyncCjs.localDate. rewrite L.
  destruct (validCivil_bounds _ _ _ V) as [Hm Hd].
  rewrite (decimal_year y) by lia.
  rewrite (padStart2_decimal m), (padStart2_decimal d) by lia.
  unfold formatCivil.
  replace (Z.leb 0 y && Z.leb y 9999) with true
    by (symmetry; apply andb_true_iff; split; apply Z.leb_le; lia).
  reflexivity.
Qed.

Lemma isoDate_canonical t :
  (0 <= fst (fst (civilFromDays (t / msPerDay))) <= 9999)%Z -> canonical (isoDate t) = true.
Proof.
  intros Hy. unfold isoDate, canonical.
  pose proof (civilFromDays_valid (t / msPerDay)) as V.
  destruct (civilFromDays (t / msPerDay)) as [[y m] d]. cbn [fst] in Hy.
  destruct (validCivil_bounds y m d V) as [Hm Hd].
  rewrite (formatCivil_fields y m d) by lia. exact V.
Qed.

(** X1. A canonical date is a fixed point of the parsers that print with
    [toISOString] (sync-local.js, sync-issues.js and sheets.ts): the
    text comes back unchanged, in every zone and on every engine.  And
    what they return for a Date cell of the years 0000 to 9999 is such a
    canonical date, so that parsing their own output again changes
    nothing. *)
Theorem parseDate_fixes_canonical_dates :
  forall (E : engine) (pdc : Z -> option (Z * Z * Z)),
    (forall s, canonical s = true ->
       SyncLocal.parseDate E (VStr s) = Returns (Some s) /\
       Dashboard.parseDate E pdc (VStr s) = Returns s) /\
    (forall t, (0 <= fst (fst (civilFromDays (t / msPerDay))) <= 9999)%Z ->
       canonical (isoDate t) = true /\
       SyncLocal.parseDate E (VDate (Some t)) = Returns (Some (isoDate t)) /\
       Dashboard.parseDate E pdc (VDate (Some t)) = Returns (isoDate t)).
Proof.
  intros E pdc. split.
  - intros s C. exact (parseDate_canonical_unchanged E pdc s C).
  - intros t Hy. split; [exact (isoDate_canonical t Hy)|]. split; reflexivity.
Qed.

Lemma parseDate_fixes_canonical_witness :
  SyncLocal.parseDate (isoOnly (-300) 0) (VStr "2025-10-01") = Returns (Some "2025-10-01") /\
  Dashboard.parseDate (isoOnly (-300) 0) (fun _ => None) (VStr "2025-10-01")
    = Returns "2025-10-01".
Proof.
  exact (proj1 (parseDate_fixes_canonical_dates (isoOnly (-300) 0) (fun _ => None))
           "2025-10-01" eq_refl).
Defined.

(** X2. The parser of sync-local.cjs reads a canonical date as UTC
    midnight and prints it with the local calendar fields.  For a year
    from 1001 on: in a zone at or ahead of UTC the date comes back
    unchanged; in every zone behind UTC it comes back as the day before,
    which is never the date that went in. *)
Theorem parseDate_cjs_by_zone :
  forall (E : engine) (s : string) (y m d : Z),
    isoFields s = Some (y, m, d) -> validCivil y m d = true -> (1001 <= y)%Z ->
    ((0 <= tzOffset E < 1440)%Z -> SyncCjs.parseDate E (VStr s) = Some s) /\
    ((-1440 < tzOffset E < 0)%Z ->
     SyncCjs.parseDate E (VStr s) = Some (isoDate ((daysFromCivil y m d - 1) * msPerDay)) /\
     SyncCjs.parseDate E (VStr s) <> Some s).
Proof.
  intros E s y m d F V Hy. split.
  - intros Htz. apply (parseDate_cjs_canonical_east E s y m d F V); lia.
  - intros Htz.
    destruct (isoFields_inv s y m d F) as (Hs & Hr & N & _ & Z0).
    destruct (dayBefore_civil y m d V) as (y' & m' & d' & C & V' & By & Ne).
    assert (P : SyncCjs.parseDate E (VStr s) = Some (formatCivil (y', m', d'))).
    { unfold SyncCjs.parseDate. cbn [truthy toStr newDate]. rewrite Z0, N. cbn [negb].
      unfold Date_parse, parseIsoDate. rewrite F, V. f_equal.
      apply localDate_civil; [|exact V'|lia].
      unfold localCivil.
      replace ((daysFromCivil y m d * msPerDay + tzOffset E * 60000) / msPerDay)%Z
        with (daysFromCivil y m d - 1)%Z by (unfold msPerDay; zdiv).
      exact C. }
    rewrite P. split.
    + unfold isoDate. rewrite Z.div_mul by (unfold msPerDay; lia). rewrite C. reflexivity.
    + intros [= Q]. destruct (validCivil_bounds _ _ _ V') as [Hm' Hd'].
      pose proof (formatCivil_fields y' m' d' ltac:(lia) ltac:(lia) ltac:(lia)) as G.
      assert (G' : isoFields s = Some (y', m', d')) by (rewrite <- Q; exact G).
      rewrite F in G'. apply Ne. congruence.
Qed.

Lemma parseDate_cjs_by_zone_witness :
  SyncCjs.parseDate (isoOnly 330 0) (VStr "2025-10-01") = Some "2025-10-01" /\
  SyncCjs.parseDate (isoOnly (-300) 0) (VStr "2025-10-01") = Some "2025-09-30".
Proof.
  split.
  - apply (proj1 (parseDate_cjs_by_zone (isoOnly 330 0) "2025-10-01" 2025 10 1
                    eq_refl eq_refl ltac:(lia))).
    cbn [tzOffset isoOnly]. lia.
  - apply (proj2 (parseDate_cjs_by_zone (isoOnly (-300) 0) "2025-10-01" 2025 10 1
                    eq_refl eq_refl ltac:(lia))).
    cbn [tzOffset isoOnly]. lia.
Defined.



(** ** The date shown in the issue body *)

Lemma isDigit_not_sign c : isDigit c = true -> Ascii.eqb c "-" || Ascii.eqb c "+" = false.
Proof. destruct c as [[] [] [] [] [] [] [] []]; intros H; try discriminate H; reflexivity. Qed.

Lemma isDigit_not_x c : isDigit c = true -> Ascii.eqb c "x" || Ascii.eqb c "X" = false.
Proof. destruct c as [[] [] [] [] [] [] [] []]; intros H; try discriminate H; reflexivity. Qed.

Lemma digitIn_decimal c : isDigit c = true -> digitIn 10 c = Some (digitVal c).
Proof.
  intros H. unfold digitIn. rewrite H.
  destruct (digit_roundtrip c H) as [_ R].
  replace (Z.ltb (digitVal c) 10) with true by (symmetry; apply Z.ltb_lt; lia). reflexivity.
Qed.

(** [parseInt] reads a two-digit text as its number. *)
Lemma parseInt_two_digits a b :
  isDigit a = true -> isDigit b = true ->
  parseInt (String a (String b EmptyString)) = Some (num2 a b).
Proof.
  intros Ha Hb. unfold parseInt. cbn [trimStart]. rewrite (isDigit_not_space a Ha).
  rewrite (isDigit_not_sign a Ha).
  assert (Hm : Ascii.eqb a "-" = false) by (apply isDigit_not_hyphen, Ha). rewrite Hm.
  rewrite (isDigit_not_x b Hb), andb_false_r.
  cbn [leadingNumber]. rewrite (digitIn_decimal a Ha), (digitIn_decimal b Hb).
  unfold num2. f_equal; lia.
Qed.

Lemma split_iso y1 y2 y3 y4 m1 m2 d1 d2 :
  isDigit y1 = true -> isDigit y2 = true -> isDigit y3 = true -> isDigit y4 = true ->
  isDigit m1 = true -> isDigit m2 = true -> isDigit d1 = true -> isDigit d2 = true ->
  split "-" (String y1 (String y2 (String y3 (String y4 (String "-"
      (String m1 (String m2 (String "-" (String d1 (String d2 EmptyString))))))))))
  = [ String y1 (String y2 (String y3 (String y4 EmptyString)));
      String m1 (String m2 EmptyString); String d1 (String d2 EmptyString) ].
Proof.
  intros. cbn [split]. change (Ascii.eqb "-" "-") with true.
  rewrite (isDigit_not_hyphen y1), (isDigit_not_hyphen y2), (isDigit_not_hyphen y3),
    (isDigit_not_hyphen y4), (isDigit_not_hyphen m1), (isDigit_not_hyphen m2),
    (isDigit_not_hyphen d1), (isDigit_not_hyphen d2) by assumption.
  reflexivity.
Qed.

(** The month name of a month number and the number of the name agree. *)
Lemma monthName_number n :
  (1 <= n <= 12)%Z ->
  exists name, nth_error SyncCjs.monthNames (Z.to_nat (n - 1)) = Some name /\
               months name = Some (pad 2 n) /\ monthToken name = true.
Proof.
  intros H.
  assert (Hk : exists k, n = Z.of_nat (S k) /\ (k < 12)%nat) by (exists (Z.to_nat (n - 1)); lia).
  destruct Hk as (k & -> & Hk).
  replace (Z.to_nat (Z.of_nat (S k) - 1)) with k by lia.
  do 12 (destruct k as [|k]; [eexists; split; [reflexivity|split; reflexivity]|]). lia.
Qed.

(** X4. [formatDateDisplay] of sync-local.cjs turns a canonical date into
    the [DD-Mon-YYYY] text of the issue body, and [parseDate] reads that
    text back as the date it came from, in every zone. *)
Theorem formatDateDisplay_round_trip :
  forall (E : engine) (s : string),
    canonical s = true ->
    SyncCjs.parseDate E (VStr (SyncCjs.formatDateDisplay (Some s))) = Some s.
Proof.
  intros E s C. unfold canonical in C.
  destruct (isoFields s) as [[[y m] d]|] eqn:F; [|discriminate].
  destruct (validCivil_bounds y m d C) as [Hm Hd]. revert F.
  destruct s as [|y1 [|y2 [|y3 [|y4 [|h1 [|m1 [|m2 [|h2 [|d1 [|d2 [|x s]]]]]]]]]]];
    cbn [isoFields]; try discriminate.
  destruct (isDigit y1) eqn:Hy1; [|discriminate].
  destruct (isDigit y2) eqn:Hy2; [|discriminate].
  destruct (isDigit y3) eqn:Hy3; [|discriminate].
  destruct (isDigit y4) eqn:Hy4; [|discriminate].
  destruct (Ascii.eqb_spec h1 "-") as [->|]; [|discriminate].
  destruct (isDigit m1) eqn:Hm1; [|discriminate].
  destruct (isDigit m2) eqn:Hm2; [|discriminate].
  destruct (Ascii.eqb_spec h2 "-") as [->|]; [|discriminate].
  destruct (isDigit d1) eqn:Hd1; [|discriminate].
  destruct (isDigit d2) eqn:Hd2; [|discriminate].
  cbn [andb]. intros [= Ey Em Ed].
  unfold SyncCjs.formatDateDisplay. cbn [String.eqb].
  rewrite split_iso by assumption. cbn [nth_error SyncCjs.shown].
  rewrite (parseInt_two_digits m1 m2 Hm1 Hm2), Em.
  replace (Z.leb 1 m) with true by (symmetry; apply Z.leb_le; lia).
  destruct (monthName_number m Hm) as (name & -> & Mn & Mt). cbn [SyncCjs.shown].
  assert (Dt : dayToken (String d1 (String d2 EmptyString)) = true)
    by (unfold dayToken; cbn [allChars String.length]; rewrite Hd1, Hd2; reflexivity).
  assert (Yt : yearToken (String y1 (String y2 (String y3 (String y4 EmptyString)))) = true)
    by (unfold yearToken; cbn [allChars String.length]; rewrite Hy1, Hy2, Hy3, Hy4; reflexivity).
  unfold SyncCjs.parseDate. cbn [truthy toStr].
  rewrite (dayToken_nonempty _ Dt). cbn [negb].
  rewrite (matchDayMonYear_exact _ _ _ Dt Mt Yt).
  unfold fromMatch, monthOr01. rewrite Mn, <- Em, (pad2_num2 m1 m2 Hm1 Hm2).
  reflexivity.
Qed.

Lemma formatDateDisplay_round_trip_witness :
  SyncCjs.formatDateDisplay (Some "2025-10-01") = "01-Oct-2025" /\
  SyncCjs.parseDate (isoOnly (-300) 0) (VStr (SyncCjs.formatDateDisplay (Some "2025-10-01")))
    = Some "2025-10-01".
Proof.
  split; [reflexivity|].
  exact (formatDateDisplay_round_trip (isoOnly (-300) 0) "2025-10-01" eq_refl).
Defined.

(** ** The sheet identifier *)

Lemma takeWhile_app p id rest :
  allChars p id = true ->
  match rest with String c _ => p c = false | EmptyString => True end ->
  takeWhile p (id ++ rest) = id.
Proof.
  intros Hid Hr. induction id as [|c id IH].
  - change (EmptyString ++ rest) with rest. destruct rest as [|c r]; [reflexivity|].
    cbn [takeWhile]. rewrite Hr. reflexivity.
  - change (String c id ++ rest) with (String c (id ++ rest)).
    cbn [allChars] in Hid. apply andb_true_iff in Hid as [Hc Hid].
    cbn [takeWhile]. rewrite Hc, (IH Hid). reflexivity.
Qed.

Lemma matchSheetId_no_slash s : includes "/" s = false -> matchSheetId s = None.
Proof.
  induction s as [|c s IH]; [reflexivity|].
  cbn [includes]. intros H. apply orb_false_iff in H as [Hp Hs].
  cbn [matchSheetId]. rewrite (IH Hs).
  unfold sheetIdAt. cbn [dropPrefix].
  cbn [String.prefix] in Hp.
  destruct (Ascii.eqb_spec "/" c) as [<-|]; [|reflexivity].
  exfalso. revert Hp. destruct s; cbn; discriminate.
Qed.

(** X5. [extractSheetId] reads an identifier back off the address that
    [fetchProjectData] builds from it, and off every address of a sheet
    in which the identifier is followed by nothing or by a character
    that cannot be part of it (such as the [/edit] of the browser). *)
Theorem extractSheetId_of_exportUrl :
  forall (id : string),
    id <> EmptyString -> allChars isIdChar id = true ->
    Dashboard.extractSheetId (Dashboard.exportUrl id) = Some id /\
    (forall rest,
       match rest with String c _ => isIdChar c = false | EmptyString => True end ->
       Dashboard.extractSheetId ("https://docs.google.com/spreadsheets/d/" ++ id ++ rest)
         = Some id).
Proof.
  intros id Hne Hid.
  assert (G : forall rest,
    match rest with String c _ => isIdChar c = false | EmptyString => True end ->
    Dashboard.extractSheetId ("https://docs.google.com/spreadsheets/d/" ++ id ++ rest) = Some id).
  { intros rest Hr. pose proof (takeWhile_app isIdChar id rest Hid Hr) as T.
    unfold Dashboard.extractSheetId. revert T. generalize (id ++ rest). intros tail T.
    assert (I : includes "/" ("https://docs.google.com/spreadsheets/d/" ++ tail) = true).
    { apply includes_substring. exists "https:", ("/docs.google.com/spreadsheets/d/" ++ tail).
      reflexivity. }
    rewrite I. cbn [negb andb]. cbv [String.append].
    cbn [matchSheetId sheetIdAt dropPrefix Ascii.eqb Bool.eqb].
    rewrite T. destruct id; [contradiction|reflexivity]. }
  split; [|exact G]. apply (G "/export?format=xlsx"). reflexivity.
Qed.

Lemma extractSheetId_of_exportUrl_witness :
  Dashboard.extractSheetId
    (Dashboard.exportUrl "1fyFoRxuOWI71S6ZoTkMXZpaEM3Mf00L3x-pV7NOFnYE")
  = Some "1fyFoRxuOWI71S6ZoTkMXZpaEM3Mf00L3x-pV7NOFnYE".
Proof.
  exact (proj1 (extractSheetId_of_exportUrl "1fyFoRxuOWI71S6ZoTkMXZpaEM3Mf00L3x-pV7NOFnYE"
                  ltac:(discriminate) eq_refl)).
Defined.

(** X6. A text without a slash is taken for an identifier exactly when it
    is longer than twenty characters, and then it is returned trimmed
    and otherwise unchecked; a shorter one is refused, whatever it
    holds. *)
Theorem extractSheetId_bare :
  forall (input : string),
    includes "/" input = false ->
    Dashboard.extractSheetId input
      = if Nat.ltb 20 (String.length input) then Some (trim input) else None.
Proof.
  intros input H. unfold Dashboard.extractSheetId. rewrite H. cbn [negb andb].
  destruct (Nat.ltb 20 (String.length input)); [reflexivity|].
  apply matchSheetId_no_slash, H.
Qed.

Lemma extractSheetId_bare_witness :
  Dashboard.extractSheetId "1fyFoRxuOWI71S6ZoTkMXZpaEM3Mf00L3x-pV7NOFnYE"
    = Some "1fyFoRxuOWI71S6ZoTkMXZpaEM3Mf00L3x-pV7NOFnYE" /\
  Dashboard.extractSheetId "psc-plan-2025" = None.
Proof.
  split.
  - exact (extractSheetId_bare "1fyFoRxuOWI71S6ZoTkMXZpaEM3Mf00L3x-pV7NOFnYE" eq_refl).
  - exact (extractSheetId_bare "psc-plan-2025" eq_refl).
Defined.

(** ** The figures of the dashboard *)

Local Open Scope Z_scope.

(** ** Rounding to binary64 *)

Module DoubleFacts.

Import SpecFloat Double.

Lemma pow2_gt0 n : 0 <= n -> 0 < 2 ^ n.
Proof. intros H. apply Z.pow_pos_nonneg; lia. Qed.

Lemma digits2_bounds p :
  2 ^ (Zpos (digits2_pos p) - 1) <= Zpos p < 2 ^ Zpos (digits2_pos p).
Proof.
  induction p as [p IH|p IH|]; cbn [digits2_pos].
  - rewrite Pos2Z.inj_succ.
    replace (Z.succ (Zpos (digits2_pos p)) - 1) with (Z.succ (Zpos (digits2_pos p) - 1)) by lia.
    rewrite !Z.pow_succ_r by lia. lia.
  - rewrite Pos2Z.inj_succ.
    replace (Z.succ (Zpos (digits2_pos p)) - 1) with (Z.succ (Zpos (digits2_pos p) - 1)) by lia.
    rewrite !Z.pow_succ_r by lia. lia.
  - cbn. lia.
Qed.

(** A number below [2 ^ k] has at most [k] digits. *)
Lemma Zdigits2_le m k : 0 <= m -> 0 <= k -> m < 2 ^ k -> Zdigits2 m <= k.
Proof.
  intros Hm Hk H. destruct m as [|p|p]; cbn [Zdigits2]; [lia| |lia].
  pose proof (digits2_bounds p) as [L _].
  destruct (Z_lt_le_dec k (Zpos (digits2_pos p))) as [G|G]; [|exact G].
  exfalso. assert (2 ^ k <= 2 ^ (Zpos (digits2_pos p) - 1)) by (apply Z.pow_le_mono_r; lia). lia.
Qed.

(** A number from [2 ^ k] on has more than [k] digits. *)
Lemma Zdigits2_gt m k : 0 <= k -> 2 ^ k <= m -> k < Zdigits2 m.
Proof.
  intros Hk H. pose proof (pow2_gt0 k Hk).
  destruct m as [|p|p]; cbn [Zdigits2]; try lia.
  pose proof (digits2_bounds p) as [_ U].
  destruct (Z_lt_le_dec k (Zpos (digits2_pos p))) as [G|G]; [exact G|].
  exfalso. assert (2 ^ Zpos (digits2_pos p) <= 2 ^ k) by (apply Z.pow_le_mono_r; lia). lia.
Qed.

(** ** Shifting to the right *)

Lemma iter_pos_nat {A} (f : A -> A) p : forall x, iter_pos f p x = Nat.iter (Pos.to_nat p) f x.
Proof.
  induction p as [p IH|p IH|]; intros x; cbn [iter_pos].
  - rewrite !IH, Pos2Nat.inj_xI.
    replace (S (2 * Pos.to_nat p)) with (Pos.to_nat p + (Pos.to_nat p + 1))%nat by lia.
    rewrite !Nat.iter_add. reflexivity.
  - rewrite !IH, Pos2Nat.inj_xO.
    replace (2 * Pos.to_nat p)%nat with (Pos.to_nat p + Pos.to_nat p)%nat by lia.
    rewrite Nat.iter_add. reflexivity.
  - reflexivity.
Qed.

Lemma shr_1_m mrs : 0 <= shr_m mrs -> shr_m (shr_1 mrs) = shr_m mrs / 2.
Proof.
  destruct mrs as [m r s]. cbn [shr_m shr_1]. intros H.
  destruct m as [|[p|p|]|p]; cbn [shr_m]; try lia; try reflexivity.
  - apply Z.div_unique with 1; lia.
  - apply Z.div_unique with 0; lia.
Qed.

Lemma shr_1_exact k :
  0 <= k -> shr_1 (Build_shr_record (2 * k) false false) = Build_shr_record k false false.
Proof. intros H. destruct k as [|p|p]; try lia; reflexivity. Qed.

Lemma shr_iter_m n : forall mrs,
  0 <= shr_m mrs -> shr_m (Nat.iter n shr_1 mrs) = shr_m mrs / 2 ^ Z.of_nat n.
Proof.
  induction n as [|n IH]; intros mrs H.
  - cbn. rewrite Z.div_1_r. reflexivity.
  - rewrite Nat.iter_succ_r, IH by (rewrite shr_1_m by exact H; apply Z.div_pos; lia).
    rewrite shr_1_m by exact H. rewrite Nat2Z.inj_succ, Z.pow_succ_r by lia.
    rewrite Z.div_div by (try apply pow2_gt0; lia). reflexivity.
Qed.

Lemma shr_iter_exact n : forall m,
  0 <= m -> m mod 2 ^ Z.of_nat n = 0 ->
  Nat.iter n shr_1 (Build_shr_record m false false)
  = Build_shr_record (m / 2 ^ Z.of_nat n) false false.
Proof.
  induction n as [|n IH]; intros m Hm H.
  - cbn. rewrite Z.div_1_r. reflexivity.
  - rewrite Nat2Z.inj_succ, Z.pow_succ_r in * by lia.
    pose proof (pow2_gt0 (Z.of_nat n) ltac:(lia)) as P.
    assert (D : m = 2 * (2 ^ Z.of_nat n * (m / (2 * 2 ^ Z.of_nat n))))
      by (pose proof (Z.div_mod m (2 * 2 ^ Z.of_nat n) ltac:(lia)); lia).
    rewrite Nat.iter_succ_r. rewrite D at 1. rewrite shr_1_exact.
    + rewrite IH.
      * f_equal. rewrite Z.mul_comm, Z.div_mul by lia. reflexivity.
      * apply Z.mul_nonneg_nonneg; [lia|]. apply Z.div_pos; lia.
      * rewrite Z.mul_comm. apply Z.mod_mul. lia.
    + apply Z.mul_nonneg_nonneg; [lia|]. apply Z.div_pos; lia.
Qed.

Lemma shr_spec m l e n :
  0 <= m ->
  shr_m (fst (shr (shr_record_of_loc m l) e n)) = m / 2 ^ Z.max n 0 /\
  snd (shr (shr_record_of_loc m l) e n) = e + Z.max n 0 /\
  (l = loc_Exact -> m mod 2 ^ Z.max n 0 = 0 ->
   loc_of_shr_record (fst (shr (shr_record_of_loc m l) e n)) = loc_Exact).
Proof.
  intros Hm.
  assert (M : shr_m (shr_record_of_loc m l) = m) by (destruct l as [|[| |]]; reflexivity).
  destruct n as [|p|p]; cbn [shr fst snd].
  - rewrite Z.max_r by lia. cbn. rewrite Z.div_1_r, M, Z.add_0_r.
    repeat split. intros -> _. reflexivity.
  - rewrite Z.max_l by lia. rewrite iter_pos_nat.
    rewrite shr_iter_m by (rewrite M; exact Hm). rewrite M, positive_nat_Z.
    repeat split. intros -> H. cbn [shr_record_of_loc].
    rewrite <- (positive_nat_Z p) in H. rewrite (shr_iter_exact _ m Hm H). reflexivity.
  - rewrite Z.max_r by lia. cbn. rewrite Z.div_1_r, M, Z.add_0_r.
    repeat split. intros -> _. reflexivity.
Qed.

Lemma round_nearest_even_spec m l :
  (round_nearest_even m l = m \/ round_nearest_even m l = m + 1) /\
  (l = loc_Exact -> round_nearest_even m l = m).
Proof.
  split.
  - destruct l as [|[| |]]; cbn [round_nearest_even]; auto. destruct (Z.even m); auto.
  - intros ->. reflexivity.
Qed.

(** What [binary_round_aux] comes to on a mantissa that is not negative:
    the mantissa is cut to the precision, one is added or not, and the
    result is cut once more. *)
Lemma binary_round_aux_spec prec emax sx mx ex lx :
  0 <= mx ->
  exists m2,
    let n1 := Z.max (fexp prec emax (Zdigits2 mx + ex) - ex) 0 in
    let m1 := mx / 2 ^ n1 in
    let e1 := ex + n1 in
    (m2 = m1 \/ m2 = m1 + 1) /\
    (lx = loc_Exact -> mx mod 2 ^ n1 = 0 -> m2 = m1) /\
    let n2 := Z.max (fexp prec emax (Zdigits2 m2 + e1) - e1) 0 in
    binary_round_aux prec emax sx mx ex lx
    = match m2 / 2 ^ n2 with
      | Z0 => S754_zero sx
      | Zpos m => if Z.leb (e1 + n2) (emax - prec) then S754_finite sx m (e1 + n2)
                  else S754_infinity sx
      | Zneg _ => S754_nan
      end.
Proof.
  intros Hm. unfold binary_round_aux, shr_fexp.
  destruct (shr_spec mx lx ex (fexp prec emax (Zdigits2 mx + ex) - ex) Hm) as (A1 & B1 & C1).
  destruct (shr (shr_record_of_loc mx lx) ex (fexp prec emax (Zdigits2 mx + ex) - ex))
    as [mrs1 e1]. cbn [fst snd] in A1, B1, C1.
  exists (round_nearest_even (shr_m mrs1) (loc_of_shr_record mrs1)).
  cbv zeta. rewrite <- A1, <- B1.
  destruct (round_nearest_even_spec (shr_m mrs1) (loc_of_shr_record mrs1)) as [R1 R2].
  split; [exact R1|]. split; [intros Hl Hd; apply R2, C1; assumption|].
  set (m2 := round_nearest_even (shr_m mrs1) (loc_of_shr_record mrs1)) in *.
  assert (Hm2 : 0 <= m2).
  { assert (0 <= shr_m mrs1) by (rewrite A1; apply Z.div_pos; [lia | apply pow2_gt0; lia]).
    destruct R1 as [-> | ->]; lia. }
  destruct (shr_spec m2 loc_Exact e1 (fexp prec emax (Zdigits2 m2 + e1) - e1) Hm2) as (A2 & B2 & _).
  destruct (shr (shr_record_of_loc m2 loc_Exact) e1 (fexp prec emax (Zdigits2 m2 + e1) - e1))
    as [mrs2 e2]. cbn [fst snd] in A2, B2. rewrite A2, B2. reflexivity.
Qed.

Lemma fexp_le0 v : v <= 53 -> fexp 53 1024 v <= 0.
Proof. unfold fexp, emin. lia. Qed.

Lemma pow2_split a b : 0 <= b -> b <= a -> 2 ^ a = 2 ^ b * 2 ^ (a - b).
Proof. intros. rewrite <- Z.pow_add_r by lia. f_equal. lia. Qed.

(** A number that is at most [N * 2 ^ k], for [N] below [2 ^ 50], has at
    most [50 + k] digits. *)
Lemma digits_bound m N k :
  0 <= m -> 0 < N < 2 ^ 50 -> 0 <= k -> m <= N * 2 ^ k -> Zdigits2 m <= 50 + k.
Proof.
  intros Hm HN Hk H. apply Zdigits2_le; [exact Hm | lia|].
  rewrite Z.pow_add_r by lia. pose proof (pow2_gt0 k Hk). nia.
Qed.

(** Cutting off [n] digits of a number that is at most [N * 2 ^ (n + k)]. *)
Lemma cut_bound m N n k :
  0 <= n -> 0 <= k -> m <= N * 2 ^ (n + k) -> m / 2 ^ n <= N * 2 ^ k.
Proof.
  intros Hn Hk H. pose proof (pow2_gt0 n Hn).
  apply Z.div_le_upper_bound; [assumption|].
  rewrite Z.pow_add_r in H by lia. lia.
Qed.

(** Rounding does not carry a value beyond a whole number it does not
    exceed. *)
Lemma binary_round_aux_le sx mx ex lx N :
  0 <= mx -> 0 < N < 2 ^ 50 -> ex <= 0 ->
  mx <= N * 2 ^ (- ex) -> (mx = N * 2 ^ (- ex) -> lx = loc_Exact) ->
  binary_round_aux 53 1024 sx mx ex lx = S754_zero sx \/
  exists m e, binary_round_aux 53 1024 sx mx ex lx = S754_finite sx m e /\
              e <= 0 /\ Zpos m <= N * 2 ^ (- e).
Proof.
  intros Hm HN Hex Hle Hex'.
  destruct (binary_round_aux_spec 53 1024 sx mx ex lx Hm) as (m2 & R1 & R2 & EQ).
  cbv zeta in R1, R2, EQ.
  set (n1 := Z.max (fexp 53 1024 (Zdigits2 mx + ex) - ex) 0) in *.
  set (e1 := ex + n1) in *.
  assert (D1 : Zdigits2 mx + ex <= 50)
    by (pose proof (digits_bound mx N (- ex) Hm HN ltac:(lia) Hle); lia).
  pose proof (fexp_le0 (Zdigits2 mx + ex) ltac:(lia)) as F1.
  assert (Hn1 : 0 <= n1) by (unfold n1; lia).
  assert (He1 : e1 <= 0) by (unfold e1, n1; lia).
  assert (P1 : - ex = n1 + - e1) by (unfold e1; lia).
  assert (B1 : mx / 2 ^ n1 <= N * 2 ^ (- e1)).
  { apply cut_bound; [lia | lia|]. rewrite <- P1. exact Hle. }
  assert (B2 : m2 <= N * 2 ^ (- e1)).
  { destruct R1 as [-> | ->]; [exact B1|].
    destruct (Z_lt_le_dec (mx / 2 ^ n1) (N * 2 ^ (- e1))) as [G|G]; [lia|].
    exfalso.
    assert (Q : mx / 2 ^ n1 = N * 2 ^ (- e1)) by lia.
    pose proof (pow2_gt0 n1 Hn1) as Pn.
    pose proof (Z.mul_div_le mx (2 ^ n1) Pn) as L.
    assert (X : mx = N * 2 ^ (- ex)).
    { rewrite P1, Z.pow_add_r in * by lia. rewrite Q in L. lia. }
    assert (Md : mx mod 2 ^ n1 = 0).
    { rewrite X, P1, Z.pow_add_r by lia.
      replace (N * (2 ^ n1 * 2 ^ (- e1))) with (N * 2 ^ (- e1) * 2 ^ n1) by lia.
      apply Z.mod_mul. lia. }
    pose proof (R2 (Hex' X) Md). lia. }
  assert (Hm2 : 0 <= m2).
  { assert (0 <= mx / 2 ^ n1) by (apply Z.div_pos; [lia | apply pow2_gt0; lia]).
    destruct R1 as [-> | ->]; lia. }
  set (n2 := Z.max (fexp 53 1024 (Zdigits2 m2 + e1) - e1) 0) in *.
  assert (D2 : Zdigits2 m2 + e1 <= 50)
    by (pose proof (digits_bound m2 N (- e1) Hm2 HN ltac:(lia) B2); lia).
  pose proof (fexp_le0 (Zdigits2 m2 + e1) ltac:(lia)) as F2.
  assert (Hn2 : 0 <= n2) by (unfold n2; lia).
  assert (He3 : e1 + n2 <= 0) by (unfold n2; lia).
  assert (B3 : m2 / 2 ^ n2 <= N * 2 ^ (- (e1 + n2))).
  { apply cut_bound; [lia | lia|]. replace (n2 + - (e1 + n2)) with (- e1) by lia. exact B2. }
  assert (Hm3 : 0 <= m2 / 2 ^ n2) by (apply Z.div_pos; [lia | apply pow2_gt0; lia]).
  rewrite EQ. destruct (m2 / 2 ^ n2) as [|m3|m3]; [left; reflexivity | right | lia].
  replace (Z.leb (e1 + n2) (1024 - 53)) with true by (symmetry; apply Z.leb_le; lia).
  exists m3, (e1 + n2). auto.
Qed.

(** ** Quotients *)

Lemma new_location_0 n : new_location n 0 = loc_Exact.
Proof. unfold new_location. destruct (Z.even n); reflexivity. Qed.

(** The quotient of two positive doubles, the first at most [N] times
    the second, is at most [N]. *)
Lemma SFdiv_le N m1 e1 m2 e2 K :
  0 < N < 2 ^ 50 -> 0 <= e1 + K -> 0 <= e2 + K ->
  Zpos m1 * 2 ^ (e1 + K) <= N * (Zpos m2 * 2 ^ (e2 + K)) ->
  SFdiv 53 1024 (S754_finite false m1 e1) (S754_finite false m2 e2) = S754_zero false \/
  exists m e, SFdiv 53 1024 (S754_finite false m1 e1) (S754_finite false m2 e2)
              = S754_finite false m e /\ e <= 0 /\ Zpos m <= N * 2 ^ (- e).
Proof.
  intros HN H1 H2 Hle. cbn [SFdiv xorb]. unfold SFdiv_core_binary.
  set (d1 := Zdigits2 (Zpos m1)). set (d2 := Zdigits2 (Zpos m2)).
  set (e' := Z.min (fexp 53 1024 (d1 + e1 - (d2 + e2))) (e1 - e2)).
  set (s := e1 - e2 - e').
  assert (Hs : 0 <= s) by (unfold s, e'; lia).
  pose proof (digits2_bounds m1) as [L1 _]. pose proof (digits2_bounds m2) as [_ U2].
  fold (Zdigits2 (Zpos m1)) in L1. fold (Zdigits2 (Zpos m2)) in U2. fold d1 in L1. fold d2 in U2.
  assert (Hd1 : 1 <= d1) by (unfold d1; cbn; lia).
  assert (Hd2 : 1 <= d2) by (unfold d2; cbn; lia).
  assert (D : d1 + e1 - (d2 + e2) <= 50).
  { destruct (Z_le_gt_dec (d1 + e1 - (d2 + e2)) 50) as [G|G]; [exact G | exfalso].
    assert (A : 2 ^ (d1 - 1) * 2 ^ (e1 + K) <= Zpos m1 * 2 ^ (e1 + K))
      by (apply Z.mul_le_mono_nonneg_r; [apply Z.pow_nonneg; lia | exact L1]).
    assert (B : N * (Zpos m2 * 2 ^ (e2 + K)) < 2 ^ 50 * (2 ^ d2 * 2 ^ (e2 + K))).
    { pose proof (pow2_gt0 (e2 + K) H2).
      apply Z.mul_lt_mono_nonneg; [lia | lia | nia|].
      apply Z.mul_lt_mono_pos_r; lia. }
    rewrite <- !Z.pow_add_r in A, B by lia.
    assert (C : 2 ^ 50 * 2 ^ (d2 + (e2 + K)) <= 2 ^ (d1 - 1 + (e1 + K)))
      by (rewrite <- Z.pow_add_r by lia; apply Z.pow_le_mono_r; lia).
    lia. }
  pose proof (fexp_le0 (d1 + e1 - (d2 + e2)) ltac:(lia)) as F.
  assert (He' : e' <= 0) by (unfold e'; lia).
  set (m' := match s with Zpos _ => Z.shiftl (Zpos m1) s | Z0 => Zpos m1 | Zneg _ => 0 end).
  assert (Em : m' = Zpos m1 * 2 ^ s).
  { unfold m'. destruct s as [|p|p] eqn:Es; [cbn; lia| |lia].
    rewrite Z.shiftl_mul_pow2 by lia. reflexivity. }
  assert (Q : m' <= Zpos m2 * (N * 2 ^ (- e'))).
  { rewrite Em.
    pose proof (pow2_gt0 (e2 + K) H2) as P2. pose proof (pow2_gt0 (- e') ltac:(lia)) as Pe.
    pose proof (pow2_gt0 s Hs) as Ps.
    assert (X : 2 ^ s * 2 ^ (e2 + K) = 2 ^ (e1 + K) * 2 ^ (- e')).
    { rewrite <- !Z.pow_add_r by lia. f_equal. unfold s. lia. }
    apply Z.mul_le_mono_pos_r with (p := 2 ^ (e2 + K)); [exact P2|].
    replace (Zpos m1 * 2 ^ s * 2 ^ (e2 + K)) with (Zpos m1 * 2 ^ (e1 + K) * 2 ^ (- e'))
      by (rewrite <- !Z.mul_assoc, X; reflexivity).
    replace (Zpos m2 * (N * 2 ^ (- e')) * 2 ^ (e2 + K))
      with (N * (Zpos m2 * 2 ^ (e2 + K)) * 2 ^ (- e')) by ring.
    apply Z.mul_le_mono_nonneg_r; lia. }
  fold m'.
  pose proof (Z_div_mod m' (Zpos m2) ltac:(lia)) as DM.
  destruct (Z.div_eucl m' (Zpos m2)) as [q r]. destruct DM as [DM1 DM2].
  assert (Hm' : 0 <= m') by (rewrite Em; pose proof (pow2_gt0 s Hs); lia).
  assert (Hq : 0 <= q) by nia.
  apply binary_round_aux_le; [exact Hq | exact HN | exact He' | |].
  - pose proof (pow2_gt0 (- e') ltac:(lia)). nia.
  - intros X. assert (r = 0) by nia. subst r. apply new_location_0.
Qed.

(** ** Whole numbers as doubles *)

Lemma iter_xO p d : Zpos (Pos.iter xO p d) = Zpos p * 2 ^ Zpos d.
Proof.
  induction d as [|d IH] using Pos.peano_ind.
  - cbn. lia.
  - rewrite Pos.iter_succ, Pos2Z.inj_xO, IH, Pos2Z.inj_succ, Z.pow_succ_r by lia. lia.
Qed.

Lemma shl_align_spec mx ex ex' :
  snd (shl_align mx ex ex') = Z.min ex ex' /\
  Zpos (fst (shl_align mx ex ex')) = Zpos mx * 2 ^ (ex - Z.min ex ex').
Proof.
  unfold shl_align. destruct (ex' - ex) as [|d|d] eqn:D; cbn [fst snd].
  - rewrite Z.min_l by lia. rewrite Z.sub_diag. cbn. lia.
  - rewrite Z.min_l by lia. rewrite Z.sub_diag. cbn. lia.
  - rewrite Z.min_r by lia. rewrite iter_xO. split; [reflexivity|]. f_equal. f_equal. lia.
Qed.

Lemma fexp_53 v : -1021 <= v -> fexp 53 1024 v = v - 53.
Proof. unfold fexp, emin. lia. Qed.

(** A whole number below [2 ^ 53] is a double. *)
Lemma ofZ_small x :
  0 < x < 2 ^ 53 ->
  exists m e, ofZ x = S754_finite false m e /\ -52 <= e <= 0 /\
              Zpos m * 2 ^ (e + 52) = x * 2 ^ 52.
Proof.
  intros Hx. destruct x as [|p|p]; try lia.
  unfold ofZ, binary_normalize, binary_round.
  pose proof (digits2_bounds p) as [L U].
  set (d := Zpos (digits2_pos p)) in *.
  assert (Hd : 1 <= d <= 53).
  { split; [unfold d; lia|].
    pose proof (Zdigits2_le (Zpos p) 53 ltac:(lia) ltac:(lia) ltac:(lia)) as Q. exact Q. }
  rewrite (fexp_53 (d + 0)) by lia.
  destruct (shl_align_spec p 0 (d + 0 - 53)) as [Se Sm].
  destruct (shl_align p 0 (d + 0 - 53)) as [mz ez]. cbn [fst snd] in Se, Sm.
  rewrite Z.min_r in Se, Sm by lia. subst ez.
  replace (0 - (d + 0 - 53)) with (53 - d) in Sm by lia.
  assert (Bz : 2 ^ 52 <= Zpos mz < 2 ^ 53).
  { rewrite Sm. rewrite (pow2_split 52 (d - 1)), (pow2_split 53 d) by lia.
    replace (52 - (d - 1)) with (53 - d) by lia.
    pose proof (pow2_gt0 (53 - d) ltac:(lia)). nia. }
  assert (Dz : Zdigits2 (Zpos mz) = 53).
  { pose proof (Zdigits2_le (Zpos mz) 53 ltac:(lia) ltac:(lia) ltac:(lia)).
    pose proof (Zdigits2_gt (Zpos mz) 52 ltac:(lia) ltac:(lia)). lia. }
  destruct (binary_round_aux_spec 53 1024 false (Zpos mz) (d + 0 - 53) loc_Exact ltac:(lia))
    as (m2 & R1 & R2 & EQ).
  cbv zeta in R1, R2, EQ. rewrite Dz in *.
  rewrite (fexp_53 (53 + (d + 0 - 53))) in * by lia.
  replace (Z.max (53 + (d + 0 - 53) - 53 - (d + 0 - 53)) 0) with 0 in * by lia.
  change (2 ^ 0) with 1 in *. rewrite Z.div_1_r in *.
  assert (m2 = Zpos mz) by (apply R2; [reflexivity | apply Z.mod_1_r]). subst m2.
  rewrite Dz in EQ. rewrite (fexp_53 (53 + (d + 0 - 53 + 0))) in EQ by lia.
  replace (Z.max (53 + (d + 0 - 53 + 0) - 53 - (d + 0 - 53 + 0)) 0) with 0 in EQ by lia.
  change (2 ^ 0) with 1 in EQ. rewrite Z.div_1_r in EQ.
  replace (Z.leb (d + 0 - 53 + 0 + 0) (1024 - 53)) with true in EQ
    by (symmetry; apply Z.leb_le; lia).
  rewrite EQ. exists mz, (d + 0 - 53 + 0 + 0). split; [reflexivity|]. split; [lia|].
  rewrite Sm. replace (d + 0 - 53 + 0 + 0 + 52) with (d - 1) by lia.
  rewrite (pow2_split 52 (53 - d)) by lia. replace (52 - (53 - d)) with (d - 1) by lia. ring.
Qed.

(** A whole number of 54 digits is rounded to an even neighbour. *)
Lemma ofZ_54 x :
  2 ^ 53 <= x < 2 ^ 54 ->
  exists m e r, ofZ x = S754_finite false m e /\ -52 <= e <= 2 /\
                Zpos m * 2 ^ (e + 52) = r * 2 ^ 52 /\
                x - 1 <= r <= x + 1 /\ (x mod 2 = 0 -> r = x).
Proof.
  intros Hx. destruct x as [|p|p]; try lia.
  unfold ofZ, binary_normalize, binary_round.
  assert (Dx : Zdigits2 (Zpos p) = 54).
  { pose proof (Zdigits2_le (Zpos p) 54 ltac:(lia) ltac:(lia) ltac:(lia)).
    pose proof (Zdigits2_gt (Zpos p) 53 ltac:(lia) ltac:(lia)). lia. }
  cbn [Zdigits2] in Dx. rewrite Dx.
  change (fexp 53 1024 (54 + 0)) with 1. change (shl_align p 0 1) with (p, 0). cbv iota.
  destruct (binary_round_aux_spec 53 1024 false (Zpos p) 0 loc_Exact ltac:(lia))
    as (m2 & R1 & R2 & EQ).
  cbv zeta in R1, R2, EQ. cbn [Zdigits2] in R1, R2, EQ. rewrite Dx in R1, R2, EQ.
  change (Z.max (fexp 53 1024 (54 + 0) - 0) 0) with 1 in *.
  change (2 ^ 1) with 2 in *. change (0 + 1) with 1 in *.
  assert (H2 : 2 ^ 52 <= Zpos p / 2 < 2 ^ 53).
  { split; [apply Z.div_le_lower_bound | apply Z.div_lt_upper_bound]; lia. }
  assert (Hp : 2 * (Zpos p / 2) <= Zpos p <= 2 * (Zpos p / 2) + 1)
    by (pose proof (Z.div_mod (Zpos p) 2 ltac:(lia)); pose proof (Z.mod_pos_bound (Zpos p) 2 ltac:(lia)); lia).
  assert (Hev : Zpos p mod 2 = 0 -> m2 = Zpos p / 2 /\ Zpos p = 2 * (Zpos p / 2)).
  { intros M. split; [apply R2; [reflexivity | exact M]|].
    pose proof (Z.div_mod (Zpos p) 2 ltac:(lia)). lia. }
  assert (B2 : 2 ^ 52 <= m2 <= 2 ^ 53) by (destruct R1 as [-> | ->]; lia).
  destruct (Z_lt_le_dec m2 (2 ^ 53)) as [G|G].
  - assert (D2 : Zdigits2 m2 = 53).
    { pose proof (Zdigits2_le m2 53 ltac:(lia) ltac:(lia) ltac:(lia)).
      pose proof (Zdigits2_gt m2 52 ltac:(lia) ltac:(lia)). lia. }
    rewrite D2 in EQ. change (Z.max (fexp 53 1024 (53 + 1) - 1) 0) with 0 in EQ.
    change (2 ^ 0) with 1 in EQ. rewrite Z.div_1_r in EQ.
    destruct m2 as [|q|q]; try lia. cbn [Z.add Z.leb Z.compare Z.sub] in EQ.
    change (Z.leb (1 + 0) (1024 - 53)) with true in EQ. 
    exists q, (1 + 0), (2 * Zpos q). split; [exact EQ|]. split; [lia|].
    split; [change (2 ^ (1 + 0 + 52)) with (2 * 2 ^ 52); ring|].
    split; [destruct R1 as [R1 | R1]; [lia|] | intros M; destruct (Hev M); lia].
    destruct (Z.eq_dec (Zpos p mod 2) 0) as [M|M]; [destruct (Hev M); lia|].
    pose proof (Z.div_mod (Zpos p) 2 ltac:(lia)).
    pose proof (Z.mod_pos_bound (Zpos p) 2 ltac:(lia)). lia.
  - assert (m2 = 2 ^ 53) by lia. subst m2.
    change (Zdigits2 (2 ^ 53)) with 54 in EQ.
    change (Z.max (fexp 53 1024 (54 + 1) - 1) 0) with 1 in EQ.
    change (2 ^ 53 / 2 ^ 1) with (Zpos (Z.to_pos (2 ^ 52))) in EQ. cbv iota in EQ.
    change (Z.leb (1 + 1) (1024 - 53)) with true in EQ. cbv iota in EQ.
    exists (Z.to_pos (2 ^ 52)), (1 + 1), (2 ^ 54). split; [exact EQ|]. split; [lia|].
    split; [reflexivity|].
    destruct R1 as [R1 | R1]; [lia|].
    destruct (Z.eq_dec (Zpos p mod 2) 0) as [M|M]; [destruct (Hev M); lia|].
    split; [|intros M'; contradiction].
    pose proof (Z.div_mod (Zpos p) 2 ltac:(lia)).
    pose proof (Z.mod_pos_bound (Zpos p) 2 ltac:(lia)). lia.
Qed.

(** The double of a whole number below [2 ^ 54], with the whole number
    [r] it stands for. *)
Lemma ofZ_rounded x :
  0 < x < 2 ^ 54 ->
  exists m e r, ofZ x = S754_finite false m e /\ -52 <= e <= 2 /\
                Zpos m * 2 ^ (e + 52) = r * 2 ^ 52 /\
                (x < 2 ^ 53 -> r = x) /\
                x - 1 <= r <= x + 1 /\ (x mod 2 = 0 -> r = x).
Proof.
  intros Hx. destruct (Z_lt_le_dec x (2 ^ 53)) as [G|G].
  - destruct (ofZ_small x ltac:(lia)) as (m & e & Q & He & V).
    exists m, e, x. repeat split; auto; lia.
  - destruct (ofZ_54 x ltac:(lia)) as (m & e & r & Q & He & V & B & Ev).
    exists m, e, r. repeat split; auto; lia.
Qed.

(** Rounding keeps the order of whole numbers below [2 ^ 54]. *)
Lemma rounded_mono a b ra rb :
  0 < a -> a < b -> b < 2 ^ 54 ->
  (a < 2 ^ 53 -> ra = a) -> a - 1 <= ra <= a + 1 -> (a mod 2 = 0 -> ra = a) ->
  (b < 2 ^ 53 -> rb = b) -> b - 1 <= rb <= b + 1 -> (b mod 2 = 0 -> rb = b) ->
  0 < ra <= rb.
Proof.
  intros Ha Hab Hb A1 A2 A3 B1 B2 B3.
  pose proof (Z.mod_pos_bound a 2 ltac:(lia)). pose proof (Z.mod_pos_bound b 2 ltac:(lia)).
  pose proof (Z.div_mod a 2 ltac:(lia)). pose proof (Z.div_mod b 2 ltac:(lia)).
  destruct (Z_lt_le_dec a (2 ^ 53)) as [Ga|Ga];
    destruct (Z_lt_le_dec b (2 ^ 53)) as [Gb|Gb];
    destruct (Z.eq_dec (a mod 2) 0) as [Ma|Ma];
    destruct (Z.eq_dec (b mod 2) 0) as [Mb|Mb]; lia.
Qed.

Lemma mathRound_upTo N x :
  0 < N -> upTo N x -> exists r, mathRound x = Some r /\ 0 <= r <= N.
Proof.
  intros HN [-> | (m & e & -> & He & Hm)]; cbn [mathRound]; [exists 0; split; [reflexivity | lia]|].
  eexists. split; [reflexivity|].
  pose proof (pow2_gt0 (- e) ltac:(lia)) as P.
  destruct (Z.leb_spec 0 e) as [G|G].
  - assert (e = 0) by lia. subst e. cbn in Hm |- *. lia.
  - replace (1 - e) with (Z.succ (- e)) by lia. rewrite Z.pow_succ_r by lia. split.
    + apply Z.div_pos; lia.
    + apply Z.lt_succ_r. apply Z.div_lt_upper_bound; lia.
Qed.

Lemma ofZ_100 : ofZ 100 = S754_finite false 7036874417766400 (-46).
Proof. reflexivity. Qed.

Lemma ofZ_0 : ofZ 0 = S754_zero false.
Proof. reflexivity. Qed.

(** A hundred times a double from 0 to 1 is a double from 0 to 100. *)
Lemma SFmul_100 q : upTo 1 q -> upTo 100 (SFmul 53 1024 q (ofZ 100)).
Proof.
  rewrite ofZ_100. intros [-> | (m & e & -> & He & Hm)]; [left; reflexivity|].
  cbn [SFmul xorb]. unfold upTo.
  apply binary_round_aux_le; try lia.
  - rewrite Pos2Z.inj_mul.
    replace (- (e + -46)) with (46 + - e) by lia. rewrite Z.pow_add_r by lia.
    change (Zpos 7036874417766400) with (100 * 2 ^ 46).
    pose proof (pow2_gt0 (- e) ltac:(lia)). nia.
  - reflexivity.
Qed.

Lemma percent_range a b :
  0 < a -> a < b -> b < 2 ^ 54 ->
  exists p, percent a b = Some p /\ 0 <= p <= 100.
Proof.
  intros Ha Hab Hb. unfold percent.
  destruct (ofZ_rounded a ltac:(lia)) as (ma & ea & ra & Qa & Ea & Va & A1 & A2 & A3).
  destruct (ofZ_rounded b ltac:(lia)) as (mb & eb & rb & Qb & Eb & Vb & B1 & B2 & B3).
  pose proof (rounded_mono a b ra rb Ha Hab Hb A1 A2 A3 B1 B2 B3) as M.
  rewrite Qa, Qb.
  apply (mathRound_upTo 100); [lia|]. apply SFmul_100.
  apply (SFdiv_le 1 ma ea mb eb 52); lia.
Qed.

Lemma mean_range s n :
  0 <= s -> s <= 100 * n -> 0 < n -> n < 2 ^ 32 ->
  exists p, meanOf s n = Some p /\ 0 <= p <= 100.
Proof.
  intros Hs Hsn Hn Hb. unfold meanOf.
  destruct (ofZ_small n ltac:(lia)) as (mn & en & Qn & En & Vn).
  rewrite Qn. apply (mathRound_upTo 100); [lia|].
  destruct (Z.eq_dec s 0) as [->|Hs0]; [left; reflexivity|].
  destruct (ofZ_small s ltac:(lia)) as (ms & es & Qs & Es & Vs).
  rewrite Qs. apply (SFdiv_le 100 ms es mn en 52); lia.
Qed.

End DoubleFacts.

Lemma daysFromCivil_range y m d :
  0 <= y <= 9999 -> 1 <= m <= 12 -> 1 <= d <= 31 ->
  -719600 <= daysFromCivil y m d <= 2933000.
Proof.
  intros Hy Hm Hd. unfold daysFromCivil.
  destruct (Z.leb_spec m 2); destruct (Z.ltb_spec 2 m); try lia; zdiv.
Qed.

Lemma Date_parse_clipped E s t :
  clipped E -> Date_parse E s = Some t -> Z.abs t <= maxTime.
Proof.
  intros [_ HE]. unfold Date_parse, parseIsoDate.
  destruct (isoFields s) as [[[y m] d]|] eqn:F; [|apply HE].
  destruct (validCivil y m d) eqn:V; [|apply HE].
  intros [= <-].
  pose proof (proj1 (proj2 (isoFields_inv s y m d F))) as Hy.
  unfold validCivil in V.
  apply andb_true_iff in V as [V Vd]. apply andb_true_iff in V as [V Vd1].
  apply andb_true_iff in V as [Vm1 Vm2].
  apply Z.leb_le in Vm1, Vm2, Vd1, Vd.
  assert (Hd : d <= 31).
  { unfold daysInMonth in Vd. destruct (Z.eqb m 2); [destruct (isLeap y); lia|].
    destruct (_ || _); lia. }
  pose proof (daysFromCivil_range y m d Hy ltac:(lia) ltac:(lia)).
  unfold msPerDay, maxTime. lia.
Qed.

Lemma calculateProgress_percent E s e :
  clipped E ->
  match Dashboard.calculateProgress E s e with
  | Some p => 0 <= p <= 100
  | None =>
      s <> EmptyString /\ e <> EmptyString /\
      (Date_parse E s = None \/ Date_parse E e = None)
  end.
Proof.
  intros HE. unfold Dashboard.calculateProgress, Dashboard.nonEmpty.
  destruct (String.eqb_spec s EmptyString) as [->|Hs]; [cbn; lia|].
  destruct (String.eqb_spec e EmptyString) as [->|He]; [cbn; lia|].
  cbn [negb orb].
  destruct (Date_parse E e) as [te|] eqn:Pe, (Date_parse E s) as [ts|] eqn:Ps;
    cbn [Dashboard.notAfter].
  - destruct (Z.leb_spec te (now E)); [lia|].
    destruct (Z.leb_spec (now E) ts); [lia|].
    pose proof (Date_parse_clipped E e te HE Pe) as Ce.
    pose proof (Date_parse_clipped E s ts HE Ps) as Cs.
    unfold maxTime in Ce, Cs.
    destruct (DoubleFacts.percent_range (now E - ts) (te - ts)) as (p & Q & R);
      [lia | lia | change (2 ^ 54) with 18014398509481984; lia|].
    rewrite Q. exact R.
  - destruct (Z.leb_spec te (now E)); [lia|]. auto.
  - destruct (Z.leb_spec (now E) ts); [lia|]. auto.
  - auto.
Qed.

Lemma sumProgress_range ts s :
  Forall (fun t => percentage (Dashboard.progress t)) ts ->
  Dashboard.sumProgress ts = Some s -> 0 <= s <= 100 * Z.of_nat (length ts).
Proof.
  intros F. revert s. induction F as [|t ts Ht _ IH]; cbn [Dashboard.sumProgress length].
  - intros s [= <-]. lia.
  - destruct (Dashboard.progress t) as [p|]; [|discriminate].
    destruct (Dashboard.sumProgress ts) as [s'|]; [|discriminate].
    intros s [= <-]. specialize (IH s' eq_refl). cbn [percentage] in Ht. lia.
Qed.

Lemma average_range ts :
  ts <> [] -> Z.of_nat (length ts) < 2 ^ 32 ->
  Forall (fun t => percentage (Dashboard.progress t)) ts ->
  match Dashboard.average ts with
  | Some p => 0 <= p <= 100
  | None => exists t, In t ts /\ Dashboard.progress t = None
  end.
Proof.
  intros Hne Hlen F. unfold Dashboard.average.
  destruct (Dashboard.sumProgress ts) as [s|] eqn:S.
  - pose proof (sumProgress_range ts s F S) as R.
    assert (0 < Z.of_nat (length ts)) by (destruct ts; [contradiction | cbn [length]; lia]).
    destruct (DoubleFacts.mean_range s (Z.of_nat (length ts))) as (p & Q & B); try lia.
    rewrite Q. exact B.
  - clear F Hne Hlen. induction ts as [|t ts IH]; cbn [Dashboard.sumProgress] in S; [discriminate|].
    destruct (Dashboard.progress t) as [p|] eqn:P; [|exists t; split; [left; reflexivity | exact P]].
    destruct (Dashboard.sumProgress ts) as [s'|]; [discriminate|].
    destruct (IH eq_refl) as (t' & Hin & Hp). exists t'. split; [right; exact Hin | exact Hp].
Qed.

Lemma collect_length E pdc cols rows :
  forall i ts pm ts' pm',
    Dashboard.collect E pdc cols i rows ts pm = Returns (ts', pm') ->
    (length ts' <= length ts + length rows)%nat.
Proof.
  induction rows as [|r rows IH]; intros i ts pm ts' pm'; cbn [Dashboard.collect length].
  - intros [= <- <-]. lia.
  - destruct (Dashboard.rowTask E pdc cols i r) as [[task|]| |];
      cbn [Dashboard.andThen]; try discriminate.
    + intros H. apply IH in H. rewrite length_app in H. cbn [length] in H. lia.
    + intros H. apply IH in H. lia.
Qed.

Lemma filter_length_le {A} (p : A -> bool) (l : list A) :
  (length (List.filter p l) <= length l)%nat.
Proof.
  induction l as [|a l IH]; cbn [List.filter length]; [lia|].
  destruct (p a); cbn [length]; lia.
Qed.

Lemma Forall_filter {A} (P : A -> Prop) (p : A -> bool) l :
  Forall P l -> Forall P (List.filter p l).
Proof.
  induction 1 as [|a l Ha _ IH]; cbn [List.filter]; [constructor|].
  destruct (p a); [constructor; assumption | exact IH].
Qed.

Local Open Scope string_scope.

(** *** Tasks by phase *)

Lemma addToPhase_keys ph t m :
  map fst (Dashboard.addToPhase ph t m)
  = if existsb (String.eqb ph) (map fst m) then map fst m else (map fst m ++ [ph])%list.
Proof.
  induction m as [|[k l] m IH]; [reflexivity|].
  cbn [Dashboard.addToPhase map fst existsb].
  rewrite (String.eqb_sym ph k).
  destruct (String.eqb k ph); cbn [orb map fst]; [reflexivity|].
  rewrite IH. destruct (existsb _ _); reflexivity.
Qed.

Lemma existsb_eqb_In ph keys : existsb (String.eqb ph) keys = true <-> In ph keys.
Proof.
  rewrite existsb_exists. split.
  - intros (k & Hk & E). apply String.eqb_eq in E. subst. exact Hk.
  - intros H. exists ph. split; [exact H | apply String.eqb_refl].
Qed.

Lemma grouped_skip ts pm task :
  Dashboard.phase task = EmptyString -> grouped ts pm -> grouped (ts ++ [task]) pm.
Proof.
  intros Hp (N & F & C). split; [exact N|]. split.
  - eapply Forall_impl; [exact F|]. intros [k l] (Hk & Hl & E). cbn [fst snd] in *.
    split; [exact Hk|]. split; [exact Hl|].
    rewrite List.filter_app. cbn [List.filter]. unfold inPhase at 2. rewrite Hp.
    destruct (String.eqb_spec EmptyString k) as [<-|]; [contradiction|].
    rewrite app_nil_r. exact E.
  - intros t Ht Hn. apply in_app_or in Ht as [Ht|[<-|[]]]; [exact (C t Ht Hn)|contradiction].
Qed.

Lemma NoDup_snoc {A} (x : A) l : List.NoDup l -> ~ In x l -> List.NoDup (l ++ [x]).
Proof.
  induction 1 as [|a l Ha _ IH]; intros Hx; cbn [app].
  - constructor; [intros [] | constructor].
  - constructor.
    + intros H. apply in_app_or in H as [H|[->|[]]]; [exact (Ha H)|].
      apply Hx. left. reflexivity.
    + apply IH. intros H. apply Hx. right. exact H.
Qed.

Lemma addToPhase_Forall ph t m (Q Q' : string * list Dashboard.Task -> Prop) :
  (forall k l, Q (k, l) -> k <> ph -> Q' (k, l)) ->
  (forall l, Q (ph, l) -> Q' (ph, (l ++ [t])%list)) ->
  (~ In ph (map fst m) -> Q' (ph, [t])) ->
  List.NoDup (map fst m) -> Forall Q m -> Forall Q' (Dashboard.addToPhase ph t m).
Proof.
  intros Hother Hsame. induction m as [|[k l] m IH]; intros Hnew N F; cbn [Dashboard.addToPhase].
  - constructor; [apply Hnew; intros [] | constructor].
  - cbn [map fst] in N. inversion N as [|? ? Nk N']. subst.
    inversion F as [|? ? Fk F']. subst.
    destruct (String.eqb_spec k ph) as [->|Hne].
    + constructor; [apply Hsame, Fk|].
      rewrite List.Forall_forall in F' |- *. intros [k' l'] Hin. apply Hother.
      * apply F', Hin.
      * intros ->. apply Nk. apply in_map_iff. exists (ph, l'). split; [reflexivity | exact Hin].
    + constructor; [apply Hother; assumption|].
      apply IH; [|exact N'|exact F'].
      intros Hn. apply Hnew. cbn [map fst]. intros [E|H]; [contradiction | exact (Hn H)].
Qed.

Lemma grouped_add ts pm task :
  Dashboard.phase task <> EmptyString -> grouped ts pm ->
  grouped (ts ++ [task]) (Dashboard.addToPhase (Dashboard.phase task) task pm).
Proof.
  set (ph := Dashboard.phase task). intros Hp (N & F & C).
  split; [|split].
  - rewrite addToPhase_keys. destruct (existsb _ _) eqn:X; [exact N|].
    apply NoDup_snoc; [exact N|]. intros H. apply existsb_eqb_In in H. congruence.
  - apply (addToPhase_Forall ph task pm
             (fun entry => fst entry <> EmptyString /\ snd entry <> [] /\
                           snd entry = List.filter (inPhase (fst entry)) ts));
      [| | |exact N|exact F]; cbn [fst snd].
    + intros k l (Hk & Hl & E) Hne. split; [exact Hk|]. split; [exact Hl|].
      rewrite List.filter_app. cbn [List.filter]. unfold inPhase at 2. fold ph.
      destruct (String.eqb_spec ph k) as [<-|]; [contradiction|].
      rewrite app_nil_r. exact E.
    + intros l (_ & _ & E). split; [exact Hp|]. split; [destruct l; discriminate|].
      rewrite List.filter_app. cbn [List.filter]. unfold inPhase at 2. fold ph.
      rewrite String.eqb_refl, <- E. reflexivity.
    + intros Hn. split; [exact Hp|]. split; [discriminate|].
      rewrite List.filter_app. cbn [List.filter]. unfold inPhase at 2. fold ph.
      rewrite String.eqb_refl.
      replace (List.filter (inPhase ph) ts) with (@nil Dashboard.Task); [reflexivity|].
      symmetry. clear F. induction ts as [|t ts IH]; [reflexivity|]. cbn [List.filter].
      unfold inPhase at 1. destruct (String.eqb_spec (Dashboard.phase t) ph) as [E|_].
      * exfalso. apply Hn. rewrite <- E. apply C; [left; reflexivity|]. rewrite E. exact Hp.
      * apply IH. intros t' Ht'. apply C. right. exact Ht'.
  - intros t Ht Hn. rewrite addToPhase_keys.
    assert (G : In (Dashboard.phase t) (map fst pm ++ [ph])).
    { apply in_or_app. apply in_app_or in Ht as [Ht|[<-|[]]];
        [left; exact (C t Ht Hn) | right; left; reflexivity]. }
    destruct (existsb _ _) eqn:X; [|exact G].
    apply in_app_or in G as [G|[<-|[]]]; [exact G|]. apply existsb_eqb_In. exact X.
Qed.

Lemma collect_grouped E pdc cols rows :
  forall i ts pm ts' pm',
    grouped ts pm ->
    Dashboard.collect E pdc cols i rows ts pm = Returns (ts', pm') ->
    grouped ts' pm'.
Proof.
  induction rows as [|r rows IH]; intros i ts pm ts' pm' G; cbn [Dashboard.collect].
  - intros [= <- <-]. exact G.
  - destruct (Dashboard.rowTask E pdc cols i r) as [[task|]| |];
      cbn [Dashboard.andThen]; try discriminate.
    + apply IH. unfold Dashboard.nonEmpty.
      destruct (String.eqb_spec (Dashboard.phase task) EmptyString) as [Hp|Hp]; cbn [negb].
      * apply grouped_skip; assumption.
      * apply grouped_add; assumption.
    + apply IH. exact G.
Qed.


Local Open Scope Z_scope.

Lemma expandedYears_clipped tz clock : Z.abs clock <= maxTime -> clipped (expandedYears tz clock).
Proof.
  intros H. split; [exact H|]. intros s t. cbn [parseOther expandedYears].
  destruct (String.eqb s _); [|discriminate]. intros [= <-]. unfold maxTime. lia.
Qed.

(** X7. Every progress the dashboard shows is a percentage, computed as
    the host computes it, in doubles.  On a host whose clock and parsed
    time values are time values of a Date (at most 8.64e15 in absolute
    value), [calculateProgress] returns a number from 0 to 100, or NaN
    when both dates are given and one of them cannot be parsed.  For a
    sheet of fewer than [2 ^ 32] rows, the limit of an array, the overall
    progress and the progress of every phase, which are rounded
    averages, lie between 0 and 100 as well, unless a task has such a
    NaN. *)
Theorem shown_progress_is_a_percentage :
  forall (E : engine) (pdc : Z -> option (Z * Z * Z)),
    clipped E ->
    (forall startDate endDate,
       match Dashboard.calculateProgress E startDate endDate with
       | Some p => 0 <= p <= 100
       | None =>
           startDate <> EmptyString /\ endDate <> EmptyString /\
           (Date_parse E startDate = None \/ Date_parse E endDate = None)
       end) /\
    (forall rows data,
       Z.of_nat (length rows) < 2 ^ 32 ->
       Dashboard.projectDataOf E pdc rows = Returns (Dashboard.Success data) ->
       match Dashboard.overallProgress data with
       | Some p => 0 <= p <= 100
       | None => exists t, In t (Dashboard.allTasks data) /\ Dashboard.progress t = None
       end /\
       forall ph, In ph (Dashboard.phases data) ->
         match Dashboard.phaseProgress ph with
         | Some p => 0 <= p <= 100
         | None => exists t, In t (Dashboard.tasks ph) /\ Dashboard.progress t = None
         end).
Proof.
  intros E pdc HE. split; [intros s e; apply calculateProgress_percent, HE|].
  intros rows data Hlen H.
  destruct rows as [|header [|r rows]]; cbn [Dashboard.projectDataOf] in H; try discriminate.
  destruct (Dashboard.findColumns E (Dashboard.headerTexts E header)) as [cols| |];
    cbn [Dashboard.andThen] in H; try discriminate.
  destruct (Dashboard.collect E pdc cols 1 (r :: rows) [] []) as [[ts pm]| |] eqn:C;
    cbn [Dashboard.andThen] in H; try discriminate.
  injection H as <-.
  cbn [Dashboard.overallProgress Dashboard.phases Dashboard.allTasks].
  assert (P : Forall (fun t => percentage (Dashboard.progress t)) ts).
  { pose proof (collect_datedOnly E pdc cols _ _ _ _ _ _ ltac:(constructor) C) as D.
    eapply Forall_impl; [exact D|]. intros t [_ Pt]. rewrite Pt. unfold percentage.
    pose proof (calculateProgress_percent E (Dashboard.startDate t) (Dashboard.endDate t) HE) as Q.
    destruct (Dashboard.calculateProgress _ _ _); [exact Q | exact I]. }
  assert (Lts : Z.of_nat (length ts) < 2 ^ 32).
  { pose proof (collect_length E pdc cols _ _ _ _ _ _ C) as L.
    cbn [length] in L, Hlen. lia. }
  split.
  - destruct ts as [|t ts]; [lia|]. apply average_range; [discriminate | exact Lts | exact P].
  - assert (G0 : grouped [] []).
    { split; [constructor|]. split; [constructor|]. intros t []. }
    destruct (collect_grouped E pdc cols _ _ _ _ _ _ G0 C) as (_ & F & _).
    intros ph Hin. apply in_map_iff in Hin as ([k l] & <- & Hin).
    rewrite List.Forall_forall in F. destruct (F (k, l) Hin) as (_ & Hl & El).
    cbn [fst snd] in *. cbn [Dashboard.buildPhase Dashboard.phaseProgress Dashboard.tasks].
    apply average_range; [exact Hl | | rewrite El; apply Forall_filter, P].
    rewrite El. pose proof (filter_length_le (inPhase k) ts). lia.
Qed.

Lemma shown_progress_is_a_percentage_witness :
  Dashboard.calculateProgress (expandedYears 0 day57) "2025-01-01" "2025-07-20" = Some 28 /\
  match Dashboard.calculateProgress (expandedYears 0 day57) "2025-01-01" "2025-07-20" with
  | Some p => 0 <= p <= 100
  | None =>
      "2025-01-01" <> EmptyString /\ "2025-07-20" <> EmptyString /\
      (Date_parse (expandedYears 0 day57) "2025-01-01" = None \/
       Date_parse (expandedYears 0 day57) "2025-07-20" = None)
  end /\
  exists data,
    Dashboard.projectDataOf (expandedYears 0 1760000000000) (fun _ => None) sheetPhased
      = Returns (Dashboard.Success data) /\
    Dashboard.overallProgress data = Some 9 /\
    match Dashboard.overallProgress data with
    | Some p => 0 <= p <= 100
    | None => exists t, In t (Dashboard.allTasks data) /\ Dashboard.progress t = None
    end.
Proof.
  split; [vm_compute; reflexivity|].
  split.
  - exact (proj1 (shown_progress_is_a_percentage (expandedYears 0 day57) (fun _ => None)
                    (expandedYears_clipped 0 day57 ltac:(vm_compute; discriminate)))
             "2025-01-01" "2025-07-20").
  - let r := eval vm_compute in
      (Dashboard.projectDataOf (expandedYears 0 1760000000000) (fun _ => None) sheetPhased) in
    match r with
    | Returns (Dashboard.Success ?d) =>
        assert (H : Dashboard.projectDataOf (expandedYears 0 1760000000000) (fun _ => None)
                      sheetPhased = Returns (Dashboard.Success d)) by (vm_compute; reflexivity);
        exists d; split; [exact H|]; split; [reflexivity|];
        exact (proj1 (proj2 (shown_progress_is_a_percentage (expandedYears 0 1760000000000)
                               (fun _ => None)
                               (expandedYears_clipped 0 1760000000000
                                  ltac:(vm_compute; discriminate)))
                        sheetPhased d ltac:(vm_compute; reflexivity) H))
    end.
Defined.

Lemma todayMidnight_le_now E : Dashboard.todayMidnight E <= now E.
Proof.
  unfold Dashboard.todayMidnight, localCivil, localMidnight.
  pose proof (daysFromCivil_civilFromDays ((now E + tzOffset E * 60000) / msPerDay)) as R.
  destruct (civilFromDays _) as [[y m] d]. rewrite R. unfold msPerDay. zdiv.
Qed.

(** X8. A task that [determineStatus] calls completed has the progress
    100 when it has a start date, and the progress 0 when it has none:
    [calculateProgress] gives up on a missing start date before it looks
    at the end date. *)
Theorem completed_task_progress :
  forall (E : engine) (startDate endDate : string),
    Dashboard.determineStatus E startDate endDate = Dashboard.completed ->
    Dashboard.calculateProgress E startDate endDate
      = Some (if Dashboard.nonEmpty startDate then 100 else 0).
Proof.
  intros E s e. unfold Dashboard.determineStatus, Dashboard.calculateProgress.
  pose proof (todayMidnight_le_now E) as T.
  destruct (Dashboard.nonEmpty s) eqn:Hs, (Dashboard.nonEmpty e) eqn:He;
    cbn [negb andb orb]; try discriminate; try reflexivity.
  - destruct (Date_parse E e) as [te|]; cbn [Dashboard.before Dashboard.notAfter].
    + destruct (Z.ltb_spec te (Dashboard.todayMidnight E)).
      * intros _. destruct (Z.leb_spec te (now E)); [reflexivity|lia].
      * destruct (Dashboard.notAfter _ _); discriminate.
    + destruct (Dashboard.notAfter _ _); discriminate.
  - destruct (Dashboard.notAfter _ _); discriminate.
Qed.

Lemma completed_task_progress_witness :
  Dashboard.calculateProgress (isoOnly 0 1760000000000) "2025-09-01" "2025-09-30" = Some 100 /\
  Dashboard.calculateProgress (isoOnly 0 1760000000000) "" "2025-09-30" = Some 0.
Proof.
  split.
  - exact (completed_task_progress (isoOnly 0 1760000000000) "2025-09-01" "2025-09-30" eq_refl).
  - exact (completed_task_progress (isoOnly 0 1760000000000) "" "2025-09-30" eq_refl).
Defined.

(** *** The statistics *)

Lemma determineStatus_not_blocked E s e :
  Dashboard.determineStatus E s e <> Dashboard.blocked.
Proof.
  unfold Dashboard.determineStatus.
  destruct (_ && _); [discriminate|]. destruct (_ && _); [discriminate|].
  destruct (_ && _); discriminate.
Qed.

Lemma count_le_length {A} (p : A -> bool) l : 0 <= Dashboard.count p l <= Z.of_nat (length l).
Proof.
  unfold Dashboard.count. pose proof (List.filter_length_le p l). lia.
Qed.

Lemma count_cons {A} (p : A -> bool) a l :
  Dashboard.count p (a :: l) = (if p a then 1 else 0) + Dashboard.count p l.
Proof. unfold Dashboard.count. cbn [List.filter]. destruct (p a); cbn [length]; lia. Qed.

Lemma count_by_status ts :
  Forall (fun t => Dashboard.status t <> Dashboard.blocked) ts ->
  Dashboard.count (fun t => Dashboard.TaskStatus_eqb (Dashboard.status t) Dashboard.completed) ts
  + Dashboard.count (fun t => Dashboard.TaskStatus_eqb (Dashboard.status t) Dashboard.in_progress) ts
  + Dashboard.count (fun t => Dashboard.TaskStatus_eqb (Dashboard.status t) Dashboard.not_started) ts
  = Z.of_nat (length ts).
Proof.
  induction 1 as [|t ts Ht _ IH]; [reflexivity|].
  rewrite !count_cons. cbn [length]. destruct (Dashboard.status t); cbn [Dashboard.TaskStatus_eqb];
    [lia | lia | lia | contradiction].
Qed.

Lemma count_open ts (f : Dashboard.Task -> bool) :
  (forall t, f t = true ->
     Dashboard.TaskStatus_eqb (Dashboard.status t) Dashboard.completed = false) ->
  Forall (fun t => Dashboard.status t <> Dashboard.blocked) ts ->
  Dashboard.count f ts
  <= Dashboard.count (fun t => Dashboard.TaskStatus_eqb (Dashboard.status t) Dashboard.in_progress) ts
     + Dashboard.count (fun t => Dashboard.TaskStatus_eqb (Dashboard.status t) Dashboard.not_started) ts.
Proof.
  intros Hf. induction 1 as [|t ts Ht _ IH]; [reflexivity|].
  rewrite !count_cons. specialize (Hf t).
  destruct (Dashboard.status t); cbn [Dashboard.TaskStatus_eqb] in *;
    try contradiction; destruct (f t); try lia; discriminate (Hf eq_refl).
Qed.

Lemma projectDataOf_inv E pdc rows data :
  Dashboard.projectDataOf E pdc rows = Returns (Dashboard.Success data) ->
  exists header dataRows cols pm,
    rows = header :: dataRows /\
    Dashboard.collect E pdc cols 1 dataRows [] [] = Returns (Dashboard.allTasks data, pm) /\
    Dashboard.phases data = map Dashboard.buildPhase pm /\
    Dashboard.stats data = Dashboard.buildStats E (Dashboard.allTasks data).
Proof.
  destruct rows as [|header [|r rows]]; cbn [Dashboard.projectDataOf]; try discriminate.
  destruct (Dashboard.findColumns E (Dashboard.headerTexts E header)) as [cols| |];
    cbn [Dashboard.andThen]; try discriminate.
  destruct (Dashboard.collect E pdc cols 1 (r :: rows) [] []) as [[ts pm]| |] eqn:C;
    cbn [Dashboard.andThen]; try discriminate.
  intros [= <-]. exists header, (r :: rows), cols, pm. cbn [Dashboard.allTasks Dashboard.phases Dashboard.stats].
  auto.
Qed.

(** X9. The three counters of the dashboard partition the tasks: no task
    is ever blocked, so completed, in progress and not started add up to
    the total; and the overdue tasks are among those not completed. *)
Theorem stats_partition :
  forall (E : engine) (pdc : Z -> option (Z * Z * Z)) (rows : list Dashboard.sheetRow)
         (data : Dashboard.ProjectData),
    Dashboard.projectDataOf E pdc rows = Returns (Dashboard.Success data) ->
    let st := Dashboard.stats data in
    Dashboard.total st = Z.of_nat (length (Dashboard.allTasks data)) /\
    Dashboard.nCompleted st + Dashboard.inProgress st + Dashboard.notStarted st
      = Dashboard.total st /\
    0 <= Dashboard.overdue st <= Dashboard.inProgress st + Dashboard.notStarted st.
Proof.
  intros E pdc rows data H.
  destruct (projectDataOf_inv E pdc rows data H) as (header & dataRows & cols & pm & _ & C & _ & S).
  cbv zeta. rewrite S. unfold Dashboard.buildStats.
  cbn [Dashboard.total Dashboard.nCompleted Dashboard.inProgress Dashboard.notStarted
       Dashboard.overdue].
  assert (B : Forall (fun t => Dashboard.status t <> Dashboard.blocked) (Dashboard.allTasks data)).
  { pose proof (collect_datedOnly E pdc cols _ _ _ _ _ _ ltac:(constructor) C) as D.
    eapply Forall_impl; [exact D|]. intros t [St _]. rewrite St.
    apply determineStatus_not_blocked. }
  split; [reflexivity|]. split; [apply count_by_status, B|]. split.
  - apply count_le_length.
  - apply count_open; [|exact B]. intros t Ht.
    destruct (Dashboard.TaskStatus_eqb (Dashboard.status t) Dashboard.completed);
      [discriminate Ht | reflexivity].
Qed.

Lemma stats_partition_witness :
  exists data,
    Dashboard.projectDataOf (isoOnly 0 1760000000000) (fun _ => None) sheetPhased
      = Returns (Dashboard.Success data) /\
    Dashboard.total (Dashboard.stats data) = 3 /\
    Dashboard.nCompleted (Dashboard.stats data) + Dashboard.inProgress (Dashboard.stats data)
      + Dashboard.notStarted (Dashboard.stats data) = Dashboard.total (Dashboard.stats data).
Proof.
  let r := eval vm_compute in
    (Dashboard.projectDataOf (isoOnly 0 1760000000000) (fun _ => None) sheetPhased) in
  match r with
  | Returns (Dashboard.Success ?d) =>
      assert (H : Dashboard.projectDataOf (isoOnly 0 1760000000000) (fun _ => None) sheetPhased
                  = Returns (Dashboard.Success d)) by (vm_compute; reflexivity);
      exists d; split; [exact H|]; split; [reflexivity|];
      exact (proj1 (proj2 (stats_partition (isoOnly 0 1760000000000) (fun _ => None)
                             sheetPhased d H)))
  end.
Defined.

Local Open Scope string_scope.

(** X10. The phases of the dashboard group its tasks: the phase names are
    distinct and not empty, every phase holds exactly the tasks of the
    sheet that name it, in sheet order and at least one, and every phase
    that a task names is there. *)
Theorem phases_group_the_tasks :
  forall (E : engine) (pdc : Z -> option (Z * Z * Z)) (rows : list Dashboard.sheetRow)
         (data : Dashboard.ProjectData),
    Dashboard.projectDataOf E pdc rows = Returns (Dashboard.Success data) ->
    List.NoDup (map Dashboard.name (Dashboard.phases data)) /\
    (forall p, In p (Dashboard.phases data) ->
       Dashboard.name p <> EmptyString /\ Dashboard.tasks p <> [] /\
       Dashboard.tasks p = List.filter (inPhase (Dashboard.name p)) (Dashboard.allTasks data)) /\
    (forall t, In t (Dashboard.allTasks data) -> Dashboard.phase t <> EmptyString ->
       In (Dashboard.phase t) (map Dashboard.name (Dashboard.phases data))).
Proof.
  intros E pdc rows data H.
  destruct rows as [|header [|r rows]]; cbn [Dashboard.projectDataOf] in H; try discriminate.
  destruct (Dashboard.findColumns E (Dashboard.headerTexts E header)) as [cols| |];
    cbn [Dashboard.andThen] in H; try discriminate.
  destruct (Dashboard.collect E pdc cols 1 (r :: rows) [] []) as [[ts pm]| |] eqn:C;
    cbn [Dashboard.andThen] in H; try discriminate.
  injection H as <-. cbn [Dashboard.phases Dashboard.allTasks].
  assert (G0 : grouped [] []).
  { split; [constructor|]. split; [constructor|]. intros t []. }
  destruct (collect_grouped E pdc cols _ _ _ _ _ _ G0 C) as (N & F & K).
  assert (Names : map Dashboard.name (map Dashboard.buildPhase pm) = map fst pm).
  { rewrite map_map. apply map_ext. intros [k l]. reflexivity. }
  rewrite Names. split; [exact N|]. split; [|exact K].
  intros p Hp. apply in_map_iff in Hp as ([k l] & <- & Hin).
  rewrite List.Forall_forall in F. exact (F (k, l) Hin).
Qed.

Lemma phases_group_the_tasks_witness :
  exists data,
    Dashboard.projectDataOf (isoOnly 0 1760000000000) (fun _ => None) sheetPhased
      = Returns (Dashboard.Success data) /\
    map Dashboard.name (Dashboard.phases data) = ["Phase 1"; "Phase 2"] /\
    forall p, In p (Dashboard.phases data) ->
      Dashboard.name p <> EmptyString /\ Dashboard.tasks p <> [] /\
      Dashboard.tasks p = List.filter (inPhase (Dashboard.name p)) (Dashboard.allTasks data).
Proof.
  let r := eval vm_compute in
    (Dashboard.projectDataOf (isoOnly 0 1760000000000) (fun _ => None) sheetPhased) in
  match r with
  | Returns (Dashboard.Success ?d) =>
      assert (H : Dashboard.projectDataOf (isoOnly 0 1760000000000) (fun _ => None) sheetPhased
                  = Returns (Dashboard.Success d)) by (vm_compute; reflexivity);
      exists d; split; [exact H|]; split; [reflexivity|];
      exact (proj1 (proj2 (phases_group_the_tasks (isoOnly 0 1760000000000) (fun _ => None)
                             sheetPhased d H)))
  end.
Defined.

(** *** Finding a column *)

Local Open Scope Z_scope.

Lemma scanHeaders_none lower kw :
  forall i, Dashboard.scanHeaders lower kw i = None -> missing kw lower.
Proof.
  induction lower as [|[h|] lower IH]; intros i; cbn [Dashboard.scanHeaders]; try discriminate.
  - intros _. constructor.
  - destruct (includes (toLowerCase kw) h) eqn:I; [discriminate|].
    intros H. constructor; [eauto | exact (IH _ H)].
Qed.

Lemma scanHeaders_first lower kw :
  forall i c, Dashboard.scanHeaders lower kw i = Some (Returns c) ->
    i <= c < i + Z.of_nat (length lower) /\
    (exists h, nth (Z.to_nat (c - i)) lower None = Some h /\
               includes (toLowerCase kw) h = true) /\
    missing kw (firstn (Z.to_nat (c - i)) lower).
Proof.
  induction lower as [|[h|] lower IH]; intros i c; cbn [Dashboard.scanHeaders]; try discriminate.
  destruct (includes (toLowerCase kw) h) eqn:I.
  - intros [= <-]. rewrite Z.sub_diag. cbn [length Z.to_nat firstn nth].
    split; [lia|]. split; [eauto | constructor].
  - intros H. destruct (IH _ _ H) as (Hle & (h' & Hn & Hi) & Hm). cbn [length].
    replace (Z.to_nat (c - i)) with (S (Z.to_nat (c - (i + 1)))) by lia.
    cbn [nth firstn]. split; [lia|]. split; [eauto|]. constructor; [eauto | exact Hm].
Qed.

(** X11. [findCol] goes by the keywords first and by the columns second:
    it returns the first column whose header contains the first keyword
    that any header contains, an index within the header row; and -1
    exactly when no header contains any of the keywords. *)
Theorem findCol_keyword_priority :
  forall (E : engine) (headers : list value) (keywords : list string) (c : Z),
    Dashboard.findCol E headers keywords = Returns c ->
    let lower := map (Dashboard.lowered E) headers in
    (c = -1 /\ forall kw, In kw keywords -> missing kw lower) \/
    (exists before kw after h,
       keywords = (before ++ kw :: after)%list /\
       (forall k, In k before -> missing k lower) /\
       0 <= c < Z.of_nat (length headers) /\
       nth (Z.to_nat c) lower None = Some h /\ includes (toLowerCase kw) h = true /\
       missing kw (firstn (Z.to_nat c) lower)).
Proof.
  intros E headers keywords c. unfold Dashboard.findCol. cbv zeta.
  rewrite <- (length_map (Dashboard.lowered E) headers).
  generalize (map (Dashboard.lowered E) headers). intros lower.
  induction keywords as [|kw keywords IH]; cbn [Dashboard.findColIn].
  - intros [= <-]. left. split; [reflexivity | intros kw []].
  - destruct (Dashboard.scanHeaders lower kw 0) as [r|] eqn:S.
    + intros ->. destruct (scanHeaders_first _ _ _ _ S) as (Hle & (h & Hn & Hi) & Hm).
      rewrite Z.sub_0_r in Hn, Hm. right. exists [], kw, keywords, h.
      split; [reflexivity|]. split; [intros k []|]. split; [lia|]. auto.
    + intros H. pose proof (scanHeaders_none _ _ _ S) as M.
      destruct (IH H) as [[-> Hall]|(before & kw' & after & h & -> & Hb & Hc & Hn & Hi & Hm)].
      * left. split; [reflexivity|]. intros k [<-|Hk]; [exact M | exact (Hall k Hk)].
      * right. exists (kw :: before), kw', after, h. split; [reflexivity|].
        split; [intros k [<-|Hk]; [exact M | exact (Hb k Hk)]|]. auto.
Qed.

Lemma findCol_keyword_priority_witness :
  exists before kw after h,
    ["start date"; "start"] = (before ++ kw :: after)%list /\
    (forall k, In k before ->
       missing k (map (Dashboard.lowered (isoOnly 0 0)) [VStr "Start"; VStr "Start Date"])) /\
    0 <= 1 < Z.of_nat (length [VStr "Start"; VStr "Start Date"]) /\
    nth (Z.to_nat 1) (map (Dashboard.lowered (isoOnly 0 0)) [VStr "Start"; VStr "Start Date"])
      None = Some h /\
    includes (toLowerCase kw) h = true /\
    missing kw (firstn (Z.to_nat 1)
                  (map (Dashboard.lowered (isoOnly 0 0)) [VStr "Start"; VStr "Start Date"])).
Proof.
  destruct (findCol_keyword_priority (isoOnly 0 0) [VStr "Start"; VStr "Start Date"]
              ["start date"; "start"] 1 eq_refl) as [[H _]|H]; [discriminate H | exact H].
Defined.

Local Open Scope string_scope.

(** ** Listing the issues *)

Lemma getExistingIssuesFrom_pages fuel :
  forall (k : nat) (w : world),
    faults w = [] ->
    (k <= fullPages (length (issues (remote w))))%nat ->
    (fullPages (length (issues (remote w))) - k < fuel)%nat ->
    SyncLocal.getExistingIssuesFrom fuel (Z.of_nat k + 1)
      (firstn (k * perPage) (issues (remote w))) w
    = (Returns (issues (remote w)),
       World (remote w) []
         (log w ++ pagesFrom (S k) (S (fullPages (length (issues (remote w))) - k)))).
Proof.
  induction fuel as [|fuel IH]; intros k w Hw Hk Hf; [lia|].
  cbn [SyncLocal.getExistingIssuesFrom]. unfold Remote.bind at 1.
  rewrite (listIssues_quiet _ w Hw). unfold pageOf.
  replace (Z.leb 1 (Z.of_nat k + 1)) with true by (symmetry; apply Z.leb_le; lia).
  replace (Z.to_nat (Z.of_nat k + 1 - 1)) with k by lia.
  set (n := length (issues (remote w))) in *.
  assert (Hn : (n <= fullPages n * 100 < n + 100)%nat).
  { unfold fullPages. pose proof (Nat.div_mod_eq (n + 99) 100).
    pose proof (Nat.mod_upper_bound (n + 99) 100). lia. }
  destruct (skipn (k * perPage) (issues (remote w))) as [|i rest] eqn:Sk.
  - cbn [firstn perPage]. rewrite (skipn_nil_firstn _ _ Sk).
    assert (Hlen : (n <= k * 100)%nat).
    { pose proof (length_skipn (k * perPage) (issues (remote w))) as L.
      rewrite Sk in L. cbn [length] in L. unfold perPage in L. fold n in L. lia. }
    replace (fullPages n - k)%nat with 0%nat by lia.
    unfold ret, pagesFrom. cbn [seq map].
    replace (Z.of_nat (S k)) with (Z.of_nat k + 1) by lia. reflexivity.
  - assert (Hlen : (k * 100 < n)%nat).
    { pose proof (length_skipn (k * perPage) (issues (remote w))) as L.
      rewrite Sk in L. cbn [length] in L. unfold perPage in L. fold n in L. lia. }
    assert (Fp : firstn perPage (i :: rest) = i :: firstn 99 rest) by reflexivity.
    assert (Acc : (firstn (k * perPage) (issues (remote w)) ++ i :: firstn 99 rest)%list
                  = firstn (S k * perPage) (issues (remote w))).
    { rewrite <- Fp, <- Sk, <- firstn_more. f_equal. lia. }
    rewrite Fp. cbv iota. rewrite Acc.
    replace (Z.of_nat k + 1 + 1) with (Z.of_nat (S k) + 1) by lia.
    set (w1 := World (remote w) [] (log w ++ [ListIssues (Z.of_nat k + 1)])).
    pose proof (IH (S k) w1 eq_refl) as R. subst w1. cbn [remote log] in R. fold n in R.
    rewrite R by lia. rewrite <- app_assoc. do 3 f_equal.
    replace (S (fullPages n - k)) with (S (S (fullPages n - S k))) by lia.
    unfold pagesFrom. cbn [seq map app].
    replace (Z.of_nat (S k)) with (Z.of_nat k + 1) by lia. reflexivity.
Qed.

(** X12. [getExistingIssues] stops at the first empty page only: for a
    tracker that answers, it returns every issue in listing order after
    asking for each page that holds issues and for one page more, so a
    tracker with exactly a hundred issues costs two requests. *)
Theorem getExistingIssues_asks_one_page_more :
  forall (fuel : nat) (t : tracker),
    (fullPages (length (issues t)) < fuel)%nat ->
    SyncLocal.getExistingIssues fuel (calm t)
    = (Returns (issues t),
       World t [] (pagesFrom 1 (S (fullPages (length (issues t)))))).
Proof.
  intros fuel t Hf.
  pose proof (getExistingIssuesFrom_pages fuel 0 (calm t) eq_refl) as H.
  cbn [calm remote log] in H. rewrite Nat.sub_0_r in H.
  apply H; lia.
Qed.

Lemma getExistingIssues_asks_one_page_more_witness :
  SyncLocal.getExistingIssues 2 (calm oneIssueTracker)
  = (Returns [kickoffMeeting], World oneIssueTracker [] [ListIssues 1; ListIssues 2]).
Proof.
  exact (getExistingIssues_asks_one_page_more 2 oneIssueTracker ltac:(cbn; lia)).
Defined.

(** Whatever fails, the paging loop only sends listing requests and
    leaves the tracker as it was. *)
Lemma getExistingIssuesFrom_reads fuel :
  forall page acc w o w',
    SyncLocal.getExistingIssuesFrom fuel page acc w = (o, w') ->
    exists pages,
      remote w' = remote w /\ log w' = (log w ++ pages)%list /\
      forallb isListing pages = true.
Proof.
  induction fuel as [|fuel IH]; intros page acc w o w'.
  - intros [= <- <-]. exists []. rewrite app_nil_r. auto.
  - cbn [SyncLocal.getExistingIssuesFrom].
    assert (S : exists resp fs,
      send (ListIssues page) w = (Returns resp, World (remote w) fs (log w ++ [ListIssues page]))).
    { unfold send. destruct (faults w) as [|[f|] fs]; cbn [serve].
      - eauto.
      - destruct (Z.leb 400 (fstatus f)); eauto.
      - eauto. }
    destruct S as (resp & fs & S).
    unfold Remote.bind at 1, SyncLocal.githubRequest, Remote.bind at 1. rewrite S.
    destruct (Z.leb 400 (status resp)).
    + intros [= <- <-]. exists [ListIssues page]. auto.
    + unfold ret at 1.
      destruct (data resp) as [|[|i l]| |];
        try (intros [= <- <-]; exists [ListIssues page]; auto).
      intros H. destruct (IH _ _ _ _ _ H) as (pages & R & L & P).
      exists (ListIssues page :: pages). rewrite R, L. cbn [remote log forallb isListing].
      rewrite <- app_assoc. auto.
Qed.

(** ** A run of sync-local.js *)

(** X13. Without a token [main] of sync-local.js exits with code 1 before
    any request.  With a token, when listing the issues fails, whatever
    the failure and on whatever page, it exits with code 1 as well: no
    row is handled, the tracker is as it was, and the only requests sent
    are the listing requests. *)
Theorem main_stops_when_listing_fails :
  forall (E : engine) (body : row -> outcome string) (fuel : nat) (token : value)
         (rows : list row) (w : world),
    (truthy token = false ->
     SyncLocal.main E body fuel token rows w = (Returns (SyncLocal.Exit 1), w)) /\
    (forall e, truthy token = true ->
       fst (SyncLocal.getExistingIssues fuel w) = Throws e ->
       exists w' pages,
         SyncLocal.main E body fuel token rows w = (Returns (SyncLocal.Exit 1), w') /\
         remote w' = remote w /\ log w' = (log w ++ pages)%list /\
         forallb isListing pages = true).
Proof.
  intros E body fuel token rows w. unfold SyncLocal.main. split.
  - intros ->. reflexivity.
  - intros e -> H. cbn [negb]. unfold SyncLocal.getExistingIssues in *.
    unfold tryCatch, Remote.bind.
    destruct (SyncLocal.getExistingIssuesFrom fuel 1 [] w) as [o w'] eqn:G.
    destruct (getExistingIssuesFrom_reads fuel 1 [] w o w' G) as (pages & R & L & P).
    cbn [fst] in H. subst o. exists w', pages. auto.
Qed.

Lemma main_stops_when_listing_fails_witness :
  exists w' pages,
    SyncLocal.main (isoOnly 0 0) plainBody 1 (VStr "token") [kickoffRow]
      (World emptyTracker [Some (Fault 401 "Bad credentials")] [])
      = (Returns (SyncLocal.Exit 1), w') /\
    remote w' = emptyTracker /\ log w' = ([] ++ pages)%list /\
    forallb isListing pages = true.
Proof.
  exact (proj2 (main_stops_when_listing_fails (isoOnly 0 0) plainBody 1 (VStr "token")
                  [kickoffRow] (World emptyTracker [Some (Fault 401 "Bad credentials")] []))
           _ eq_refl eq_refl).
Defined.


Lemma syncRow_numeric_phase E body r snapshot w n :
  truthy (get r "Activity") = true -> get r "Phase" = VNum n -> n <> 0 ->
  SyncLocal.syncRow E body r snapshot w
  = (Throws (TypeError "phase.split is not a function"), w).
Proof.
  intros Ha Hp Hn. unfold SyncLocal.syncRow, SyncLocal.createIssueTitle.
  rewrite Ha, Hp. unfold orElse at 1. cbn [truthy].
  destruct (Z.eqb_spec n 0); [contradiction|]. reflexivity.
Qed.

(** The loop over rows that can be processed, in front of more rows. *)
Lemma syncRows_prefix E body snapshot rows1 :
  forall (w : world) (c u s : Z),
    faults w = [] -> known (remote w) snapshot = true ->
    forallb (goodRow body) rows1 = true ->
    exists c' u' s' w1,
      faults w1 = [] /\
      forall rest,
        SyncLocal.syncRows E body (rows1 ++ rest) snapshot c u s w
        = SyncLocal.syncRows E body rest snapshot c' u' s' w1.
Proof.
  induction rows1 as [|r rows IH]; intros w c u s Hw Hk Hg.
  - exists c, u, s, w. split; [exact Hw | reflexivity].
  - cbn [forallb] in Hg. apply andb_true_iff in Hg as [Hr Hg].
    unfold goodRow in Hr. apply andb_true_iff in Hr as [Ht Hb].
    destruct (truthy (get r "Activity")) eqn:Ha.
    + destruct (get_text r "Activity" Ht) as [[a Ea] | Ea]; [|rewrite Ea in Ha; discriminate Ha].
      assert (Hne : a <> EmptyString) by (intros ->; rewrite Ea in Ha; discriminate Ha).
      destruct (body r) as [b| |] eqn:Eb; try discriminate Hb.
      destruct (SyncLocal_syncRow_quiet E body r snapshot w a b Hw Hk Ht Ea Hne Eb)
        as (ti & lbls & extra & w1 & T & P & F1 & K1 & M).
      destruct (find (SyncLocal.isTitled ti) snapshot) as [ex|]; destruct M as [R L].
      * destruct (IH w1 c (u + 1) s F1 K1 Hg) as (c' & u' & s' & w2 & F2 & G).
        exists c', u', s', w2. split; [exact F2|]. intros rest.
        cbn [app SyncLocal.syncRows]. rewrite Ha. cbn [negb]. unfold Remote.bind at 1.
        rewrite R. apply G.
      * destruct (IH w1 (c + 1) u s F1 K1 Hg) as (c' & u' & s' & w2 & F2 & G).
        exists c', u', s', w2. split; [exact F2|]. intros rest.
        cbn [app SyncLocal.syncRows]. rewrite Ha. cbn [negb]. unfold Remote.bind at 1.
        rewrite R. apply G.
    + destruct (IH w c u (s + 1) Hw Hk Hg) as (c' & u' & s' & w2 & F2 & G).
      exists c', u', s', w2. split; [exact F2|]. intros rest.
      cbn [app SyncLocal.syncRows]. rewrite Ha. cbn [negb]. apply G.
Qed.

(** X15. A Phase cell that holds a number other than 0 stops the run of
    sync-local.js.  [syncRow] throws a TypeError on such a row before it
    sends anything, [main] catches it and exits with code 1: the rows
    before it were synced, the row itself and all the rows after it
    never reach the tracker. *)
Theorem numeric_phase_aborts_the_run :
  forall (E : engine) (body : row -> outcome string) (fuel : nat) (token : value)
         (rows1 rows2 : list row) (r : row) (t : tracker) (n : Z),
    truthy token = true -> (length (issues t) < fuel)%nat ->
    forallb (goodRow body) rows1 = true ->
    truthy (get r "Activity") = true -> get r "Phase" = VNum n -> n <> 0 ->
    (forall snapshot w,
       SyncLocal.syncRow E body r snapshot w
       = (Throws (TypeError "phase.split is not a function"), w)) /\
    exists c u s w1,
      SyncLocal.main E body fuel token rows1 (calm t)
        = (Returns (SyncLocal.Counts c u s), w1) /\
      SyncLocal.main E body fuel token (rows1 ++ r :: rows2) (calm t)
        = (Returns (SyncLocal.Exit 1), w1).
Proof.
  intros E body fuel token rows1 rows2 r t n Htok Hf Hg Ha Hp Hn.
  split; [intros; apply (syncRow_numeric_phase E body r _ _ n Ha Hp Hn)|].
  destruct (getExistingIssues_quiet fuel t Hf) as (pages & R & _ & _).
  destruct (syncRows_prefix E body (issues t) rows1 (World t [] pages) 0 0 0 eq_refl
              (known_self t) Hg) as (c & u & s & w1 & F1 & G).
  exists c, u, s, w1. unfold SyncLocal.main. rewrite Htok. cbn [negb].
  split.
  - unfold tryCatch, Remote.bind at 1. rewrite R.
    pose proof (G []) as G0. rewrite app_nil_r in G0. rewrite G0. reflexivity.
  - unfold tryCatch, Remote.bind at 1. rewrite R.
    rewrite (G (r :: rows2)). cbn [SyncLocal.syncRows]. rewrite Ha. cbn [negb].
    unfold Remote.bind. rewrite (syncRow_numeric_phase E body r _ _ n Ha Hp Hn).
    reflexivity.
Qed.

Lemma numeric_phase_aborts_the_run_witness :
  exists c u s w1,
    SyncLocal.main (isoOnly 0 0) plainBody 1 (VStr "token") [kickoffRow] (calm emptyTracker)
      = (Returns (SyncLocal.Counts c u s), w1) /\
    SyncLocal.main (isoOnly 0 0) plainBody 1 (VStr "token")
      ([kickoffRow] ++ numberedRow :: [kickoffRow]) (calm emptyTracker)
      = (Returns (SyncLocal.Exit 1), w1).
Proof.
  exact (proj2 (numeric_phase_aborts_the_run (isoOnly 0 0) plainBody 1 (VStr "token")
                  [kickoffRow] [kickoffRow] numberedRow emptyTracker 2
                  eq_refl ltac:(cbn; lia) eq_refl eq_refl eq_refl ltac:(discriminate))).
Defined.

(** ** Labels and titles on the tracker *)

Lemma titles_updated n b ls t : titles (updatedTracker n b ls t) = titles t.
Proof.
  unfold titles, updatedTracker. cbn [issues]. rewrite map_map. apply map_ext.
  intros i. destruct (hasNumber n i); reflexivity.
Qed.

Lemma titles_created ti b ls t : titles (createdTracker ti b ls t) = (titles t ++ [ti])%list.
Proof. unfold titles, createdTracker. cbn [issues]. rewrite map_app. reflexivity. Qed.


Lemma present_app t ls ls' : present t (ls ++ ls') = present t ls && present t ls'.
Proof. unfold present. apply forallb_app. Qed.

Lemma present_ensured name c d w ls :
  present (remote w) ls = true -> present (remote (ensured name c d w)) (ls ++ [name]) = true.
Proof.
  intros H. rewrite present_app. apply andb_true_iff. split.
  - unfold present in *. rewrite forallb_forall in H |- *. intros l Hl.
    specialize (H l Hl). apply bool_decide_eq_true in H. apply bool_decide_eq_true.
    unfold ensured. destruct (bool_decide (name ∈ labelNames (remote w))); cbn [remote withLabel labelNames];
      [exact H | set_solver].
  - cbn [present forallb]. rewrite ensured_present. reflexivity.
Qed.

Lemma labelStage_keep ls : labelStage ls ls (ret ls).
Proof.
  intros w Hw Hp. exists w. repeat split; auto. exists []. rewrite app_nil_r. auto.
Qed.

Lemma labelStage_local ls name c d :
  labelStage ls (ls ++ [name])
    (Remote.bind (SyncLocal.ensureLabel name c d) (fun _ => ret (ls ++ [name])%list)).
Proof.
  intros w Hw Hp. exists (ensured name c d w).
  unfold Remote.bind. rewrite (SyncLocal_ensureLabel_quiet name c d w Hw).
  split; [reflexivity|]. split; [apply ensured_quiet|]. split; [apply ensured_issues|].
  split; [apply present_ensured, Hp|].
  exact (proj2 (proj2 (labelsOnly_ensured name c d w Hw))).
Qed.

Lemma Actions_ensureLabel_quiet name c w :
  faults w = [] -> Actions.ensureLabel name c w = (Returns tt, ensured name c VUndef w).
Proof.
  intros Hw. destruct w as [t fs lg]. cbn [faults] in *. subst fs.
  unfold ensured. cbn [remote log].
  destruct (bool_decide (name ∈ labelNames t)) eqn:B;
    cbv [Actions.ensureLabel Actions.githubRequest tryCatch Remote.bind send ret throw
         faults remote log serve];
    rewrite ?B; cbn [status data text Z.leb Z.compare Pos.compare Pos.compare_cont andb negb];
    rewrite ?B; cbn [status data text Z.leb Z.compare Pos.compare Pos.compare_cont andb negb];
    rewrite <- ?app_assoc; reflexivity.
Qed.

Lemma labelStage_actions ls name c :
  labelStage ls (ls ++ [name])
    (Remote.bind (Actions.ensureLabel name c) (fun _ => ret (ls ++ [name])%list)).
Proof.
  intros w Hw Hp. exists (ensured name c VUndef w).
  unfold Remote.bind. rewrite (Actions_ensureLabel_quiet name c w Hw).
  split; [reflexivity|]. split; [apply ensured_quiet|]. split; [apply ensured_issues|].
  split; [apply present_ensured, Hp|].
  exact (proj2 (proj2 (labelsOnly_ensured name c VUndef w Hw))).
Qed.

(** Running a stage in front of a continuation. *)
Lemma labelStage_run {B} ls ls' (c : M (list string)) (k : list string -> M B) w :
  labelStage ls ls' c -> faults w = [] -> present (remote w) ls = true ->
  exists w1, Remote.bind c k w = k ls' w1 /\ faults w1 = [] /\
    issues (remote w1) = issues (remote w) /\ present (remote w1) ls' = true /\
    exists extra, log w1 = (log w ++ extra)%list /\ forallb isLabelRequest extra = true.
Proof.
  intros Hc Hw Hp. destruct (Hc w Hw Hp) as (w1 & R1 & F1 & I1 & P1 & E1).
  exists w1. unfold Remote.bind. rewrite R1. auto.
Qed.

Lemma present_updated n b ls t l : present (updatedTracker n b ls t) l = present t l.
Proof. reflexivity. Qed.

Lemma present_created ti b ls t l : present (createdTracker ti b ls t) l = present t l.
Proof. reflexivity. Qed.

(** The two label stages of sync-local.js. *)
Lemma phaseStage_local p :
  labelStage [] (phaseLabel p)
    match SyncLocal.firstPhaseKey SyncLocal.PHASE_LABELS p with
    | Some (key, (color, description)) =>
        Remote.bind (SyncLocal.ensureLabel key (VStr color) (VStr description))
          (fun _ => ret [key])
    | None => ret []
    end.
Proof.
  unfold phaseLabel.
  destruct (SyncLocal.firstPhaseKey _ p) as [[key [color description]]|].
  - exact (labelStage_local [] key _ _).
  - apply labelStage_keep.
Qed.

Lemma quarterStage_local E q ls :
  labelStage ls (ls ++ quarterLabel E q)
    (if truthy q then
       match lookup SyncLocal.QUARTER_LABELS (toStr E q) with
       | Own (color, description) =>
           Remote.bind (SyncLocal.ensureLabel (toStr E q) (VStr color) (VStr description))
             (fun _ => ret (ls ++ [toStr E q])%list)
       | Inherited =>
           Remote.bind (SyncLocal.ensureLabel (toStr E q) VUndef VUndef)
             (fun _ => ret (ls ++ [toStr E q])%list)
       | Missing => ret ls
       end
     else ret ls).
Proof.
  unfold quarterLabel. destruct (truthy q); [|rewrite app_nil_r; apply labelStage_keep].
  destruct (lookup _ _) as [[color description]| |];
    [apply labelStage_local | apply labelStage_local | rewrite app_nil_r; apply labelStage_keep].
Qed.

(** [syncRow] of sync-local.js on a row of text, while nothing fails:
    the requests it sends and what it leaves on the tracker. *)
Lemma SyncLocal_syncRow_effect E body r snapshot w a b :
  faults w = [] -> known (remote w) snapshot = true ->
  textRow r = true -> get r "Activity" = VStr a -> a <> EmptyString ->
  body r = Returns b ->
  exists ti extra w',
    SyncLocal.createIssueTitle E r = Returns ti /\
    SyncLocal.syncRow E body r snapshot w
      = (Returns (Some (if existsb (SyncLocal.isTitled ti) snapshot
                        then SyncLocal.updated else SyncLocal.created)), w') /\
    faults w' = [] /\ known (remote w') snapshot = true /\
    log w' = (log w ++ extra ++ [issueWrite snapshot ti b (labelsOf E r)])%list /\
    forallb isLabelRequest extra = true /\
    present (remote w') (labelsOf E r) = true /\
    titles (remote w')
      = (titles (remote w) ++ (if existsb (SyncLocal.isTitled ti) snapshot then [] else [ti]))%list.
Proof.
  intros Hw Hk Ht Ha Hne Hb.
  assert (Hp : exists p, orElse (get r "Phase") (VStr "") = VStr p).
  { apply orElse_text. destruct (get_text r "Phase" Ht) as [?| ->]; auto. }
  destruct Hp as [p Hp].
  assert (Hti : exists ti, SyncLocal.createIssueTitle E r = Returns ti).
  { unfold SyncLocal.createIssueTitle. rewrite Hp. cbn [asString]. eauto. }
  destruct Hti as [ti Hti]. exists ti.
  unfold SyncLocal.syncRow, labelsOf, issueWrite.
  rewrite Ha, (truthy_text a Hne), Hti, Hb, Hp. cbn [negb asString toStr].
  rewrite !bind_lift_returns.
  match goal with |- context [Remote.bind ?c ?k w] =>
    destruct (labelStage_run [] (phaseLabel p) c k w (phaseStage_local p) Hw eq_refl)
      as (w1 & R1 & F1 & I1 & P1 & e1 & G1 & Q1);
    rewrite R1; clear R1
  end.
  match goal with |- context [Remote.bind ?c ?k w1] =>
    destruct (labelStage_run _ _ c k w1 (quarterStage_local E (get r "Quarter") (phaseLabel p))
                F1 P1) as (w2 & R2 & F2 & I2 & P2 & e2 & G2 & Q2);
    rewrite R2; clear R2
  end.
  assert (I : issues (remote w2) = issues (remote w)) by congruence.
  assert (K2 : known (remote w2) snapshot = true)
    by (rewrite (known_same (remote w) (remote w2)) by exact I; exact Hk).
  assert (T2 : titles (remote w2) = titles (remote w)) by (unfold titles; rewrite I; reflexivity).
  exists (e1 ++ e2)%list.
  assert (Q12 : forallb isLabelRequest (e1 ++ e2) = true)
    by (rewrite forallb_app, Q1, Q2; reflexivity).
  rewrite find_existsb.
  destruct (find (SyncLocal.isTitled ti) snapshot) as [ex|] eqn:F.
  - pose proof (known_find _ _ _ _ K2 F) as Hn.
    exists (World (updatedTracker (number ex) b (phaseLabel p ++ quarterLabel E (get r "Quarter"))
                     (remote w2)) []
              (log w2 ++ [UpdateIssue (number ex) b
                            (phaseLabel p ++ quarterLabel E (get r "Quarter"))])).
    unfold Remote.bind. rewrite (updateIssue_quiet_local _ b _ w2 F2 Hn).
    unfold ret. cbn [remote faults log].
    rewrite known_updated, titles_updated, present_updated, T2, app_nil_r, G2, G1, <- !app_assoc.
    auto 10.
  - exists (World (createdTracker ti b (phaseLabel p ++ quarterLabel E (get r "Quarter"))
                     (remote w2)) []
              (log w2 ++ [CreateIssue ti b (phaseLabel p ++ quarterLabel E (get r "Quarter"))])).
    unfold Remote.bind. rewrite (createIssue_quiet_local ti b _ w2 F2).
    unfold ret. cbn [remote faults log].
    rewrite titles_created, present_created, T2, G2, G1, <- !app_assoc.
    split; [reflexivity|]. split; [reflexivity|]. split; [reflexivity|].
    split; [apply known_created, K2|]. auto.
Qed.

(** X16. The labels that [syncRow] of sync-local.js attaches to an issue
    are defined on the tracker by the time the issue is written: on a
    row of text, while nothing fails, it sends label requests and then
    one issue write, and every label named in that write exists. *)
Theorem attached_labels_are_defined :
  forall (E : engine) (body : row -> outcome string) (r : row)
         (snapshot : list issue) (w : world) (a b : string),
    faults w = [] -> known (remote w) snapshot = true ->
    textRow r = true -> get r "Activity" = VStr a -> a <> EmptyString ->
    body r = Returns b ->
    exists ti extra w' res,
      SyncLocal.createIssueTitle E r = Returns ti /\
      SyncLocal.syncRow E body r snapshot w = (Returns (Some res), w') /\
      log w' = (log w ++ extra ++ [issueWrite snapshot ti b (labelsOf E r)])%list /\
      forallb isLabelRequest extra = true /\
      present (remote w') (labelsOf E r) = true.
Proof.
  intros E body r snapshot w a b Hw Hk Ht Ha Hne Hb.
  destruct (SyncLocal_syncRow_effect E body r snapshot w a b Hw Hk Ht Ha Hne Hb)
    as (ti & extra & w' & T & R & _ & _ & L & Q & P & _).
  exists ti, extra, w'. eexists. split; [exact T|]. split; [exact R|]. auto.
Qed.

Lemma attached_labels_are_defined_witness :
  exists ti extra w' res,
    SyncLocal.createIssueTitle (isoOnly 0 0) kickoffRow = Returns ti /\
    SyncLocal.syncRow (isoOnly 0 0) plainBody kickoffRow [] (calm emptyTracker)
      = (Returns (Some res), w') /\
    log w' = (log (calm emptyTracker) ++ extra
                ++ [issueWrite [] ti "body" (labelsOf (isoOnly 0 0) kickoffRow)])%list /\
    forallb isLabelRequest extra = true /\
    present (remote w') (labelsOf (isoOnly 0 0) kickoffRow) = true.
Proof.
  exact (attached_labels_are_defined (isoOnly 0 0) plainBody kickoffRow [] (calm emptyTracker)
           "Kickoff" "body" eq_refl eq_refl eq_refl eq_refl ltac:(discriminate) eq_refl).
Defined.

(** ** Running sync-local.js twice *)

Lemma isTitled_In ti snapshot :
  existsb (SyncLocal.isTitled ti) snapshot = true <-> In ti (map title snapshot).
Proof.
  rewrite existsb_exists, in_map_iff. unfold SyncLocal.isTitled.
  split; intros (i & A & B).
  - exists i. apply String.eqb_eq in B. auto.
  - exists i. split; [exact B | apply String.eqb_eq, A].
Qed.

Ltac counts_eq :=
  match goal with
  | |- (Returns (SyncLocal.Counts ?a ?b ?c), _) = (Returns (SyncLocal.Counts ?a' ?b' ?c'), _) =>
      replace a' with a by lia; replace b' with b by lia; replace c' with c by lia;
      reflexivity
  end.

Lemma filter_cons_length {A} (p : A -> bool) a l :
  Z.of_nat (length (List.filter p (a :: l)))
  = (if p a then 1 else 0) + Z.of_nat (length (List.filter p l)).
Proof. cbn [List.filter]. destruct (p a); cbn [length]; lia. Qed.

(** The loop over the rows, while nothing fails: the counters, and the
    titles it adds to the tracker. *)
Lemma syncRows_effect E body snapshot rows :
  forall (w : world) (c u s : Z),
    faults w = [] -> known (remote w) snapshot = true ->
    forallb (goodRow body) rows = true ->
    exists w' c' added,
      SyncLocal.syncRows E body rows snapshot c u s w
        = (Returns (SyncLocal.Counts (c + c') (u + (activeRows rows - c')) (s + idleRows rows)), w') /\
      titles (remote w') = (titles (remote w) ++ added)%list /\
      Z.of_nat (length added) = c' /\ c' <= activeRows rows /\
      (forall r ti, In r rows -> isActive r = true ->
         SyncLocal.createIssueTitle E r = Returns ti ->
         In ti (map title snapshot) \/ In ti added).
Proof.
  induction rows as [|r rows IH]; intros w c u s Hw Hk Hg.
  - exists w, 0, []. cbn [SyncLocal.syncRows]. unfold activeRows, idleRows. cbn.
    rewrite app_nil_r, !Z.add_0_r. repeat split; try lia; intros r ti [].
  - cbn [forallb] in Hg. apply andb_true_iff in Hg as [Hr Hg].
    unfold goodRow in Hr. apply andb_true_iff in Hr as [Ht Hb].
    cbn [SyncLocal.syncRows]. unfold activeRows, idleRows. rewrite !filter_cons_length.
    fold (activeRows rows) (idleRows rows). change (isActive r) with (truthy (get r "Activity")).
    destruct (truthy (get r "Activity")) eqn:Ha; cbn [negb].
    + destruct (get_text r "Activity" Ht) as [[a Ea] | Ea]; [|rewrite Ea in Ha; discriminate Ha].
      assert (Hne : a <> EmptyString) by (intros ->; rewrite Ea in Ha; discriminate Ha).
      destruct (body r) as [b| |] eqn:Eb; try discriminate Hb.
      destruct (SyncLocal_syncRow_effect E body r snapshot w a b Hw Hk Ht Ea Hne Eb)
        as (ti & extra & w1 & T & R & F1 & K1 & _ & _ & _ & Ti).
      unfold Remote.bind at 1. rewrite R.
      destruct (existsb (SyncLocal.isTitled ti) snapshot) eqn:X.
      * destruct (IH w1 c (u + 1) s F1 K1 Hg) as (w' & c' & added & R' & T' & La & Lc & C').
        exists w', c', added. rewrite R', T', Ti, app_nil_r.
        split; [counts_eq|]. split; [reflexivity|]. split; [exact La|]. split; [lia|].
        intros r0 ti0 [<-|Hin] A0 T0; [|exact (C' r0 ti0 Hin A0 T0)].
        left. apply isTitled_In. congruence.
      * destruct (IH w1 (c + 1) u s F1 K1 Hg) as (w' & c' & added & R' & T' & La & Lc & C').
        exists w', (1 + c'), (ti :: added). rewrite R', T', Ti, <- app_assoc.
        split; [counts_eq|]. split; [reflexivity|].
        split; [cbn [length]; lia|]. split; [lia|].
        intros r0 ti0 [<-|Hin] A0 T0.
        -- right. left. congruence.
        -- destruct (C' r0 ti0 Hin A0 T0) as [?|?]; [left | right; right]; assumption.
    + destruct (IH w c u (s + 1) Hw Hk Hg) as (w' & c' & added & R' & T' & La & Lc & C').
      exists w', c', added. rewrite R'.
      split; [counts_eq|]. split; [exact T'|]. split; [exact La|]. split; [lia|].
      intros r0 ti0 [<-|Hin] A0 T0; [|exact (C' r0 ti0 Hin A0 T0)].
      unfold isActive in A0. congruence.
Qed.

Lemma syncRows_all_known E body snapshot rows :
  forall (w : world) (c u s : Z),
    faults w = [] -> known (remote w) snapshot = true ->
    forallb (goodRow body) rows = true ->
    (forall r ti, In r rows -> isActive r = true ->
       SyncLocal.createIssueTitle E r = Returns ti -> In ti (map title snapshot)) ->
    exists w',
      SyncLocal.syncRows E body rows snapshot c u s w
        = (Returns (SyncLocal.Counts c (u + activeRows rows) (s + idleRows rows)), w') /\
      titles (remote w') = titles (remote w).
Proof.
  induction rows as [|r rows IH]; intros w c u s Hw Hk Hg Hall.
  - exists w. cbn [SyncLocal.syncRows]. unfold activeRows, idleRows. cbn.
    rewrite !Z.add_0_r. auto.
  - cbn [forallb] in Hg. apply andb_true_iff in Hg as [Hr Hg].
    unfold goodRow in Hr. apply andb_true_iff in Hr as [Ht Hb].
    assert (Hall' : forall r0 ti, In r0 rows -> isActive r0 = true ->
              SyncLocal.createIssueTitle E r0 = Returns ti -> In ti (map title snapshot))
      by (intros r0 ti Hin; apply Hall; right; exact Hin).
    cbn [SyncLocal.syncRows]. unfold activeRows, idleRows. rewrite !filter_cons_length.
    fold (activeRows rows) (idleRows rows). change (isActive r) with (truthy (get r "Activity")).
    destruct (truthy (get r "Activity")) eqn:Ha; cbn [negb].
    + destruct (get_text r "Activity" Ht) as [[a Ea] | Ea]; [|rewrite Ea in Ha; discriminate Ha].
      assert (Hne : a <> EmptyString) by (intros ->; rewrite Ea in Ha; discriminate Ha).
      destruct (body r) as [b| |] eqn:Eb; try discriminate Hb.
      destruct (SyncLocal_syncRow_effect E body r snapshot w a b Hw Hk Ht Ea Hne Eb)
        as (ti & extra & w1 & T & R & F1 & K1 & _ & _ & _ & Ti).
      unfold Remote.bind at 1. rewrite R.
      assert (X : existsb (SyncLocal.isTitled ti) snapshot = true).
      { apply isTitled_In. apply (Hall r ti); [left; reflexivity | exact Ha | exact T]. }
      rewrite X in *. rewrite app_nil_r in Ti.
      destruct (IH w1 c (u + 1) s F1 K1 Hg Hall') as (w' & R' & T').
      exists w'. rewrite R'. split; [counts_eq | congruence].
    + destruct (IH w c u (s + 1) Hw Hk Hg Hall') as (w' & R' & T').
      exists w'. rewrite R'. split; [counts_eq | exact T'].
Qed.

(** X17. A second run of sync-local.js creates nothing.  After a run
    over rows of text against a tracker that answers, a run over the
    same rows finds every title the first run looked for: it reports no
    issue created, as many updated as the first run created and updated
    together, the same rows skipped, and it adds no issue to the
    tracker. *)
Theorem second_run_creates_nothing :
  forall (E : engine) (body : row -> outcome string) (fuel : nat) (token : value)
         (rows : list row) (t : tracker) (c u s : Z) (w1 : world),
    truthy token = true -> forallb (goodRow body) rows = true ->
    (length (issues t) + length rows < fuel)%nat ->
    SyncLocal.main E body fuel token rows (calm t) = (Returns (SyncLocal.Counts c u s), w1) ->
    exists w2,
      SyncLocal.main E body fuel token rows (calm (remote w1))
        = (Returns (SyncLocal.Counts 0 (c + u) s), w2) /\
      titles (remote w2) = titles (remote w1).
Proof.
  intros E body fuel token rows t c u s w1 Htok Hg Hf.
  unfold SyncLocal.main. rewrite Htok. cbn [negb].
  destruct (getExistingIssues_quiet fuel t ltac:(lia)) as (pages & R & _ & _).
  destruct (syncRows_effect E body (issues t) rows (World t [] pages) 0 0 0 eq_refl
              (known_self t) Hg) as (w' & c' & added & R' & T' & La & Lc & C').
  unfold tryCatch, Remote.bind at 1. rewrite R, R'.
  intros [= <- <- <- <-]. cbn [remote] in T'.
  assert (Len : (length (issues (remote w')) < fuel)%nat).
  { assert (L : length (titles (remote w')) = length (titles t ++ added)) by (rewrite T'; reflexivity).
    unfold titles in L. rewrite length_app, !length_map in L.
    assert (activeRows rows <= Z.of_nat (length rows)).
    { unfold activeRows. pose proof (List.filter_length_le isActive rows). lia. }
    lia. }
  destruct (getExistingIssues_quiet fuel (remote w') Len) as (pages2 & R2 & _ & _).
  destruct (syncRows_all_known E body (issues (remote w')) rows (World (remote w') [] pages2) 0 0 0
              eq_refl (known_self _) Hg) as (w2 & R2' & T2').
  { intros r ti Hin A T. fold (titles (remote w')). rewrite T'. apply in_or_app.
    exact (C' r ti Hin A T). }
  exists w2. unfold Remote.bind at 1. rewrite R2, R2'. cbn [remote] in T2'.
  split; [counts_eq | exact T2'].
Qed.

Lemma second_run_creates_nothing_witness :
  exists w2,
    SyncLocal.main (isoOnly 0 0) plainBody 3 (VStr "token") [kickoffRow; kickoffRow]
      (calm (remote (snd (SyncLocal.main (isoOnly 0 0) plainBody 3 (VStr "token")
                            [kickoffRow; kickoffRow] (calm emptyTracker)))))
      = (Returns (SyncLocal.Counts 0 (2 + 0) 0), w2) /\
    titles (remote w2)
      = titles (remote (snd (SyncLocal.main (isoOnly 0 0) plainBody 3 (VStr "token")
                               [kickoffRow; kickoffRow] (calm emptyTracker)))).
Proof.
  apply (second_run_creates_nothing (isoOnly 0 0) plainBody 3 (VStr "token")
           [kickoffRow; kickoffRow] emptyTracker 2 0 0 _ eq_refl eq_refl ltac:(cbn; lia)).
  vm_compute. reflexivity.
Defined.

(** ** sync-issues.js beside sync-local.js *)

Lemma phaseKey_agrees p :
  match Actions.phaseKey Actions.PHASE_COLORS p with
  | Some (key, _) => phaseLabel p = [key]
  | None => phaseLabel p = []
  end.
Proof.
  unfold phaseLabel, Actions.PHASE_COLORS, SyncLocal.PHASE_LABELS.
  cbn [Actions.phaseKey SyncLocal.firstPhaseKey].
  destruct (includes "Phase 1" p); [reflexivity|].
  destruct (includes "Phase 2" p); [reflexivity|].
  destruct (includes "Phase 3" p); reflexivity.
Qed.

Lemma quarterTable_agrees q :
  match lookup Actions.QUARTER_COLORS q, lookup SyncLocal.QUARTER_LABELS q with
  | Own _, Own _ | Inherited, Inherited | Missing, Missing => True
  | _, _ => False
  end.
Proof.
  unfold lookup, Actions.QUARTER_COLORS, SyncLocal.QUARTER_LABELS. cbn [ownEntry].
  repeat match goal with
         | |- context [String.eqb ?k q] => destruct (String.eqb k q); [exact I|]
         end.
  destruct (existsb _ _); exact I.
Qed.

Lemma phaseStage_actions p :
  labelStage [] (phaseLabel p)
    (if truthy (VStr p) then
       match Actions.phaseKey Actions.PHASE_COLORS p with
       | Some (key, color) =>
           Remote.bind (Actions.ensureLabel key (VStr color)) (fun _ => ret [key])
       | None => ret []
       end
     else ret []).
Proof.
  destruct (truthy (VStr p)) eqn:T.
  - pose proof (phaseKey_agrees p) as A.
    destruct (Actions.phaseKey _ p) as [[key color]|]; rewrite A.
    + exact (labelStage_actions [] key _).
    + apply labelStage_keep.
  - cbn [truthy] in T. apply negb_false_iff, String.eqb_eq in T. subst p.
    apply labelStage_keep.
Qed.

Lemma quarterStage_actions E q ls :
  labelStage ls (ls ++ quarterLabel E q)
    (if truthy (orElse q (VStr "")) then
       match lookup Actions.QUARTER_COLORS (toStr E (orElse q (VStr ""))) with
       | Own color =>
           Remote.bind (Actions.ensureLabel (toStr E (orElse q (VStr ""))) (VStr color))
             (fun _ => ret (ls ++ [toStr E (orElse q (VStr ""))])%list)
       | Inherited =>
           Remote.bind (Actions.ensureLabel (toStr E (orElse q (VStr ""))) VUndef)
             (fun _ => ret (ls ++ [toStr E (orElse q (VStr ""))])%list)
       | Missing => ret ls
       end
     else ret ls).
Proof.
  unfold quarterLabel, orElse. destruct (truthy q) eqn:T.
  - rewrite T. pose proof (quarterTable_agrees (toStr E q)) as A.
    destruct (lookup Actions.QUARTER_COLORS _), (lookup SyncLocal.QUARTER_LABELS _);
      try contradiction;
      [apply labelStage_actions | apply labelStage_actions
      | rewrite app_nil_r; apply labelStage_keep].
  - cbn [truthy String.eqb negb]. rewrite app_nil_r. apply labelStage_keep.
Qed.

Lemma updateIssue_quiet_actions n b ls w :
  faults w = [] -> existsb (hasNumber n) (issues (remote w)) = true ->
  Actions.githubRequest (UpdateIssue n b ls) w
  = (Returns PNone, World (updatedTracker n b ls (remote w)) [] (log w ++ [UpdateIssue n b ls])).
Proof.
  intros Hw Hn. destruct w as [t fs lg]. cbn [faults remote log] in *. subst fs.
  cbv [Actions.githubRequest Remote.bind send faults remote log serve]. rewrite Hn.
  reflexivity.
Qed.

Lemma createIssue_quiet_actions ti b ls w :
  faults w = [] ->
  Actions.githubRequest (CreateIssue ti b ls) w
  = (Returns (PIssue (Issue (nextNumber (issues (remote w))) ti b ls)),
     World (createdTracker ti b ls (remote w)) [] (log w ++ [CreateIssue ti b ls])).
Proof.
  intros Hw. destruct w as [t fs lg]. cbn [faults remote log] in *. subst fs. reflexivity.
Qed.

(** [createOrUpdateIssue] of sync-issues.js on a row of text, while
    nothing fails. *)
Lemma Actions_createOrUpdateIssue_effect E body r snapshot w a b :
  faults w = [] -> known (remote w) snapshot = true ->
  textRow r = true -> get r "Activity" = VStr a -> a <> EmptyString ->
  body r = Returns b ->
  exists ti extra answer w',
    SyncLocal.createIssueTitle E r = Returns ti /\
    Actions.createOrUpdateIssue E body r snapshot w = (Returns (Some answer), w') /\
    faults w' = [] /\
    log w' = (log w ++ extra ++ [issueWrite snapshot ti b (labelsOf E r)])%list /\
    forallb isLabelRequest extra = true /\
    present (remote w') (labelsOf E r) = true /\
    known (remote w') snapshot = true.
Proof.
  intros Hw Hk Ht Ha Hne Hb.
  assert (Hp : exists p, orElse (get r "Phase") (VStr "") = VStr p).
  { apply orElse_text. destruct (get_text r "Phase" Ht) as [?| ->]; auto. }
  destruct Hp as [p Hp].
  unfold SyncLocal.createIssueTitle, Actions.createOrUpdateIssue, labelsOf, issueWrite.
  rewrite Ha, (orElse_truthy_text a _ Hne), (truthy_text a Hne), Hb, Hp.
  cbn [negb asString toStr]. rewrite bind_lift_returns. cbv beta zeta.
  rewrite bind_lift_returns. cbv beta.
  exists ("[" ++ toStr E (orElse (VStr (splitHead ":" p)) (VStr "Task")) ++ "] " ++ a).
  match goal with |- context [Remote.bind ?c ?k w] =>
    destruct (labelStage_run [] (phaseLabel p) c k w (phaseStage_actions p) Hw eq_refl)
      as (w1 & R1 & F1 & I1 & P1 & e1 & G1 & Q1);
    rewrite R1; clear R1
  end.
  match goal with |- context [Remote.bind ?c ?k w1] =>
    destruct (labelStage_run _ _ c k w1 (quarterStage_actions E (get r "Quarter") (phaseLabel p))
                F1 P1) as (w2 & R2 & F2 & I2 & P2 & e2 & G2 & Q2);
    rewrite R2; clear R2
  end.
  assert (I : issues (remote w2) = issues (remote w)) by congruence.
  assert (K2 : known (remote w2) snapshot = true)
    by (rewrite (known_same (remote w) (remote w2)) by exact I; exact Hk).
  exists (e1 ++ e2)%list.
  assert (Q12 : forallb isLabelRequest (e1 ++ e2) = true)
    by (rewrite forallb_app, Q1, Q2; reflexivity).
  unfold SyncLocal.isTitled.
  destruct (find (fun i => String.eqb (title i) _) snapshot) as [ex|] eqn:F.
  - pose proof (known_find _ _ _ _ K2 F) as Hn.
    exists PNone,
      (World (updatedTracker (number ex) b (phaseLabel p ++ quarterLabel E (get r "Quarter"))
                (remote w2)) []
         (log w2 ++ [UpdateIssue (number ex) b
                       (phaseLabel p ++ quarterLabel E (get r "Quarter"))])).
    split; [reflexivity|].
    unfold Remote.bind. rewrite (updateIssue_quiet_actions _ b _ w2 F2 Hn).
    unfold ret. cbn [remote faults log].
    rewrite present_updated, known_updated, G2, G1, <- !app_assoc. auto 10.
  - eexists _,
      (World (createdTracker _ b (phaseLabel p ++ quarterLabel E (get r "Quarter"))
                (remote w2)) []
         (log w2 ++ [CreateIssue _ b (phaseLabel p ++ quarterLabel E (get r "Quarter"))])).
    split; [reflexivity|].
    unfold Remote.bind. rewrite (createIssue_quiet_actions _ b _ w2 F2).
    unfold ret. cbn [remote faults log].
    rewrite present_created, G2, G1, <- !app_assoc.
    pose proof (known_created ("[" ++ toStr E (orElse (VStr (splitHead ":" p)) (VStr "Task"))
                                 ++ "] " ++ a) b
                  (phaseLabel p ++ quarterLabel E (get r "Quarter")) (remote w2) snapshot K2).
    auto 10.
Qed.

(** X18. [createOrUpdateIssue] of sync-issues.js and [syncRow] of
    sync-local.js decide alike.  On a row of text, while nothing fails,
    each sends label requests and then one issue write, and the two
    writes agree in everything but the body text: the same title, the
    same issue of the snapshot updated or the same issue created, the
    same labels. *)
Theorem sync_issues_writes_as_sync_local :
  forall (E : engine) (bodyA bodyL : row -> outcome string) (r : row)
         (snapshot : list issue) (w : world) (a bA bL : string),
    faults w = [] -> known (remote w) snapshot = true ->
    textRow r = true -> get r "Activity" = VStr a -> a <> EmptyString ->
    bodyA r = Returns bA -> bodyL r = Returns bL ->
    exists ti extraA extraL,
      SyncLocal.createIssueTitle E r = Returns ti /\
      log (snd (Actions.createOrUpdateIssue E bodyA r snapshot w))
        = (log w ++ extraA ++ [issueWrite snapshot ti bA (labelsOf E r)])%list /\
      log (snd (SyncLocal.syncRow E bodyL r snapshot w))
        = (log w ++ extraL ++ [issueWrite snapshot ti bL (labelsOf E r)])%list /\
      forallb isLabelRequest extraA = true /\ forallb isLabelRequest extraL = true.
Proof.
  intros E bodyA bodyL r snapshot w a bA bL Hw Hk Ht Ha Hne HA HL.
  destruct (Actions_createOrUpdateIssue_effect E bodyA r snapshot w a bA Hw Hk Ht Ha Hne HA)
    as (ti & extraA & answer & wA & TA & RA & _ & LA & QA & _).
  destruct (SyncLocal_syncRow_effect E bodyL r snapshot w a bL Hw Hk Ht Ha Hne HL)
    as (ti' & extraL & wL & TL & RL & _ & _ & LL & QL & _).
  assert (ti' = ti) by congruence. subst ti'.
  exists ti, extraA, extraL. rewrite RA, RL. cbn [snd]. auto.
Qed.

Lemma sync_issues_writes_as_sync_local_witness :
  exists ti extraA extraL,
    SyncLocal.createIssueTitle (isoOnly 0 0) kickoffRow = Returns ti /\
    log (snd (Actions.createOrUpdateIssue (isoOnly 0 0) plainBody kickoffRow [kickoffMeeting]
                (calm oneIssueTracker)))
      = (log (calm oneIssueTracker) ++ extraA
           ++ [issueWrite [kickoffMeeting] ti "body" (labelsOf (isoOnly 0 0) kickoffRow)])%list /\
    log (snd (SyncLocal.syncRow (isoOnly 0 0) plainBody kickoffRow [kickoffMeeting]
                (calm oneIssueTracker)))
      = (log (calm oneIssueTracker) ++ extraL
           ++ [issueWrite [kickoffMeeting] ti "body" (labelsOf (isoOnly 0 0) kickoffRow)])%list /\
    forallb isLabelRequest extraA = true /\ forallb isLabelRequest extraL = true.
Proof.
  exact (sync_issues_writes_as_sync_local (isoOnly 0 0) plainBody plainBody kickoffRow
           [kickoffMeeting] (calm oneIssueTracker) "Kickoff" "body" "body"
           eq_refl eq_refl eq_refl eq_refl ltac:(discriminate) eq_refl eq_refl).
Defined.

(** X19. In sync-issues.js a lookup that fails, for whatever reason, is
    taken for a missing label.  When the label is missing indeed, it is
    created and the failure is healed; when the label exists, the create
    is refused with status 422 and [ensureLabel] throws. *)
Theorem Actions_ensureLabel_after_failed_lookup :
  forall (t : tracker) (lg : list request) (f : fault) (name : string) (color : value),
    400 <= fstatus f ->
    Actions.ensureLabel name color (World t [Some f] lg)
    = if bool_decide (name ∈ labelNames t)
      then (Throws (Error "GitHub API error: 422 - Validation Failed"),
            World t [] (lg ++ [GetLabel name; CreateLabel name color VUndef]))
      else (Returns tt,
            World (withLabel name t) [] (lg ++ [GetLabel name; CreateLabel name color VUndef])).
Proof.
  intros t lg f name color Hf.
  unfold Actions.ensureLabel, tryCatch, Actions.githubRequest, Remote.bind at 1 2.
  unfold send at 1. cbn [faults remote log].
  replace (Z.leb 400 (fstatus f)) with true by (symmetry; apply Z.leb_le; exact Hf).
  cbn [status].
  replace (Z.leb 200 (fstatus f) && Z.leb (fstatus f) 299) with false
    by (symmetry; apply andb_false_iff; right; apply Z.leb_gt; lia).
  cbn [negb]. unfold throw at 1.
  unfold Remote.bind, send. cbn [faults remote log serve].
  destruct (bool_decide (name ∈ labelNames t)); cbn [status data text];
    rewrite <- app_assoc; reflexivity.
Qed.

Lemma Actions_ensureLabel_after_failed_lookup_witness :
  Actions.ensureLabel "Phase 1" (VStr "0052CC")
    (World (withLabel "Phase 1" emptyTracker) [Some (Fault 502 "Bad Gateway")] [])
  = (Throws (Error "GitHub API error: 422 - Validation Failed"),
     World (withLabel "Phase 1" emptyTracker) []
       [GetLabel "Phase 1"; CreateLabel "Phase 1" (VStr "0052CC") VUndef]).
Proof.
  exact (Actions_ensureLabel_after_failed_lookup (withLabel "Phase 1" emptyTracker) []
           (Fault 502 "Bad Gateway") "Phase 1" (VStr "0052CC") ltac:(cbn; lia)).
Defined.

(** ** Titles and phases in sync-local.cjs *)

Lemma append_nil_r s : s ++ "" = s.
Proof.
  induction s as [|c s IH]; [reflexivity|].
  change (String c s ++ "") with (String c (s ++ "")). rewrite IH. reflexivity.
Qed.

Lemma append_assoc a b c : (a ++ b) ++ c = a ++ b ++ c.
Proof.
  induction a as [|x a IH]; [reflexivity|].
  change (String x a ++ b) with (String x (a ++ b)).
  change (String x (a ++ b) ++ c) with (String x ((a ++ b) ++ c)). rewrite IH. reflexivity.
Qed.

Lemma includes_suffix a b : includes b (a ++ b) = true.
Proof. apply includes_substring. exists a, EmptyString. rewrite append_nil_r. reflexivity. Qed.

(** X20. The title that sync-local.cjs gives an issue always contains the
    activity of the row.  So the second half of its match test, the
    equal title, adds nothing: an issue matches a row exactly when its
    title contains the activity. *)
Theorem cjs_match_is_containment :
  forall (E : engine) (r : row) (a ti : string),
    SyncCjs.getField r "Activity" = VStr a ->
    SyncCjs.createIssueTitle E r = Returns ti ->
    includes a ti = true /\
    forall i, SyncCjs.sameTask E (VStr a) ti i = includes a (title i).
Proof.
  intros E r a ti Ha Ht.
  assert (I : includes a ti = true).
  { unfold SyncCjs.createIssueTitle in Ht. rewrite Ha in Ht.
    destruct (String.eqb_spec a EmptyString) as [->|Hne].
    - destruct ti; reflexivity.
    - rewrite (orElse_truthy_text a _ Hne) in Ht. cbn [toStr] in Ht.
      destruct (SyncCjs.getPhaseFromRow r) as [[ph|]| |]; try discriminate Ht;
        injection Ht as <-.
      + replace ("[" ++ ph ++ "] " ++ a) with (("[" ++ ph ++ "] ") ++ a)
          by (rewrite !append_assoc; reflexivity).
        apply includes_suffix.
      + apply (includes_suffix EmptyString a). }
  split; [exact I|]. intros i. unfold SyncCjs.sameTask. cbn [toStr].
  destruct (String.eqb_spec (title i) ti) as [->|]; [rewrite I; reflexivity | apply orb_false_r].
Qed.

Lemma cjs_match_is_containment_witness :
  includes "Kickoff" "[Phase 1] Kickoff" = true /\
  forall i, SyncCjs.sameTask (isoOnly 0 0) (VStr "Kickoff") "[Phase 1] Kickoff" i
            = includes "Kickoff" (title i).
Proof.
  exact (cjs_match_is_containment (isoOnly 0 0) kickoffRow "Kickoff" "[Phase 1] Kickoff"
           eq_refl eq_refl).
Defined.

Lemma phaseAt_digit s d : phaseAt s = Some d -> isDigit d = true.
Proof.
  unfold phaseAt. destruct s as [|p [|h [|a [|s1 [|e rest]]]]]; try discriminate.
  destruct (_ && _); [|discriminate].
  destruct (trimStart rest) as [|x r]; [discriminate|].
  destruct (isDigit x) eqn:D; [|discriminate]. intros [= <-]. exact D.
Qed.

Lemma matchPhase_digit s d : matchPhase s = Some d -> isDigit d = true.
Proof.
  induction s as [|c s IH]; cbn [matchPhase].
  - destruct (phaseAt EmptyString) eqn:P; [|discriminate].
    intros [= <-]. exact (phaseAt_digit _ _ P).
  - destruct (phaseAt (String c s)) eqn:P; [|exact IH].
    intros [= <-]. exact (phaseAt_digit _ _ P).
Qed.

(** The phases that have a color. *)
Lemma lookup_phase_digit d :
  isDigit d = true ->
  match lookup SyncCjs.PHASE_COLORS ("Phase " ++ String d EmptyString) with
  | Own _ => between 49 53 d = true
  | Inherited => False
  | Missing => between 49 53 d = false
  end.
Proof.
  destruct d as [[] [] [] [] [] [] [] []]; intros H; try discriminate H; reflexivity.
Qed.

(** X21. The phase that sync-local.cjs finds for a row is always the word
    Phase and one digit.  The digits 1 to 5 have a color, and a label;
    any other digit, which only the Phase column can give, goes into the
    title but gets no label. *)
Theorem phase_label_policy :
  forall (r : row) (ph : string),
    SyncCjs.getPhaseFromRow r = Returns (Some ph) ->
    exists d, isDigit d = true /\ ph = "Phase " ++ String d EmptyString /\
      match lookup SyncCjs.PHASE_COLORS ph with
      | Own _ => between 49 53 d = true
      | Inherited => False
      | Missing => between 49 53 d = false
      end.
Proof.
  intros r ph. unfold SyncCjs.getPhaseFromRow.
  destruct (asString _ (orElse (SyncCjs.getField r "Phase") _)) as [p| |]; try discriminate.
  destruct (matchPhase p) as [d|] eqn:M.
  - intros [= <-]. exists d. pose proof (matchPhase_digit _ _ M) as D.
    split; [exact D|]. split; [reflexivity|]. apply lookup_phase_digit, D.
  - destruct (asString _ (orElse (SyncCjs.getField r "Activity") _)) as [a| |]; try discriminate.
    intros [= H]. revert H. unfold SyncCjs.phaseByActivity.
    repeat match goal with
           | |- context [if ?b then _ else _] => destruct b
           end; intros [= <-];
      match goal with
      | |- exists d, _ /\ "Phase 1" = _ /\ _ => exists "1"%char
      | |- exists d, _ /\ "Phase 2" = _ /\ _ => exists "2"%char
      | |- exists d, _ /\ "Phase 3" = _ /\ _ => exists "3"%char
      | |- exists d, _ /\ "Phase 4" = _ /\ _ => exists "4"%char
      | |- exists d, _ /\ "Phase 5" = _ /\ _ => exists "5"%char
      end; repeat split.
Qed.

Lemma phase_label_policy_witness :
  exists d, isDigit d = true /\ "Phase 7" = "Phase " ++ String d EmptyString /\
    match lookup SyncCjs.PHASE_COLORS "Phase 7" with
    | Own _ => between 49 53 d = true
    | Inherited => False
    | Missing => between 49 53 d = false
    end.
Proof.
  exact (phase_label_policy [("Phase", VStr "phase7: Wrap-up"); ("Activity", VStr "Retro")]
           "Phase 7" eq_refl).
Defined.

(** ** The board dates in the Apps Script variant *)





(** ** Whole runs of sync-issues.js and sync-local.js *)

Local Open Scope Z_scope.

Lemma Actions_listIssues_quiet page w :
  faults w = [] ->
  Actions.githubRequest (ListIssues page) w
  = (Returns (PIssues (pageOf page (issues (remote w)))),
     World (remote w) [] (log w ++ [ListIssues page])).
Proof.
  intros Hw. destruct w as [t fs lg]. cbn [faults remote log] in *. subst fs. reflexivity.
Qed.

(** While nothing fails, the paging loops of the two scripts are one. *)
Lemma Actions_listing_agrees fuel :
  forall (page : Z) (acc : list issue) (w : world),
    faults w = [] ->
    Actions.getExistingIssuesFrom fuel page acc w
    = SyncLocal.getExistingIssuesFrom fuel page acc w.
Proof.
  induction fuel as [|fuel IH]; intros page acc w Hw; [reflexivity|].
  cbn [Actions.getExistingIssuesFrom SyncLocal.getExistingIssuesFrom].
  unfold Remote.bind.
  rewrite (Actions_listIssues_quiet _ w Hw), (listIssues_quiet _ w Hw).
  destruct (pageOf page (issues (remote w))) as [|i l]; [reflexivity|].
  apply IH. reflexivity.
Qed.

Lemma writesOf_cons E body snapshot r rows ti b :
  isActive r = true -> SyncLocal.createIssueTitle E r = Returns ti -> body r = Returns b ->
  writesOf E body snapshot (r :: rows)
  = issueWrite snapshot ti b (labelsOf E r) :: writesOf E body snapshot rows.
Proof. intros A T B. cbn [writesOf]. rewrite A, T, B. reflexivity. Qed.

Lemma writesOf_skip E body snapshot r rows :
  isActive r = false ->
  writesOf E body snapshot (r :: rows) = writesOf E body snapshot rows.
Proof. intros A. cbn [writesOf]. rewrite A. reflexivity. Qed.

Lemma isIssueWrite_issueWrite snapshot ti b ls :
  isIssueWrite (issueWrite snapshot ti b ls) = true.
Proof. unfold issueWrite. destruct (find _ snapshot); reflexivity. Qed.

Lemma filter_step l extra wr rest :
  forallb isLabelRequest extra = true -> isIssueWrite wr = true ->
  List.filter isIssueWrite ((l ++ extra ++ [wr]) ++ rest)
  = (List.filter isIssueWrite l ++ wr :: List.filter isIssueWrite rest)%list.
Proof.
  intros Q W. rewrite !List.filter_app, (filter_labels _ Q). cbn [List.filter]. rewrite W.
  cbn [app]. rewrite <- app_assoc. reflexivity.
Qed.

(** The loop of sync-local.js over the rows, while nothing fails: its
    issue writes. *)
Lemma SyncLocal_syncRows_writes E body snapshot rows :
  forall (w : world) (c u s : Z),
    faults w = [] -> known (remote w) snapshot = true ->
    forallb (goodRow body) rows = true ->
    exists w' rest,
      SyncLocal.syncRows E body rows snapshot c u s w
        = (Returns (tally E snapshot rows c u s), w') /\
      log w' = (log w ++ rest)%list /\
      List.filter isIssueWrite rest = writesOf E body snapshot rows.
Proof.
  induction rows as [|r rows IH]; intros w c u s Hw Hk Hg.
  - exists w, []. rewrite app_nil_r. repeat split.
  - cbn [forallb] in Hg. apply andb_true_iff in Hg as [Hr Hg].
    unfold goodRow in Hr. apply andb_true_iff in Hr as [Ht Hb].
    cbn [SyncLocal.syncRows tally].
    destruct (truthy (get r "Activity")) eqn:Ha; cbn [negb].
    + destruct (get_text r "Activity" Ht) as [[a Ea] | Ea]; [|rewrite Ea in Ha; discriminate Ha].
      assert (Hne : a <> EmptyString) by (intros ->; rewrite Ea in Ha; discriminate Ha).
      destruct (body r) as [b| |] eqn:Eb; try discriminate Hb.
      destruct (SyncLocal_syncRow_effect E body r snapshot w a b Hw Hk Ht Ea Hne Eb)
        as (ti & extra & w1 & T & R & F1 & K1 & L & Q & _).
      rewrite T, (writesOf_cons E body snapshot r rows ti b Ha T Eb).
      unfold Remote.bind at 1. rewrite R.
      destruct (existsb (SyncLocal.isTitled ti) snapshot).
      * destruct (IH w1 c (u + 1) s F1 K1 Hg) as (w' & rest & R' & L' & W').
        exists w', ((extra ++ [issueWrite snapshot ti b (labelsOf E r)]) ++ rest)%list.
        split; [exact R'|]. split; [rewrite L', L, <- !app_assoc; reflexivity|].
        rewrite <- W'.
        pose proof (filter_step [] extra _ rest Q (isIssueWrite_issueWrite snapshot ti b (labelsOf E r))) as S.
        exact S.
      * destruct (IH w1 (c + 1) u s F1 K1 Hg) as (w' & rest & R' & L' & W').
        exists w', ((extra ++ [issueWrite snapshot ti b (labelsOf E r)]) ++ rest)%list.
        split; [exact R'|]. split; [rewrite L', L, <- !app_assoc; reflexivity|].
        rewrite <- W'.
        exact (filter_step [] extra _ rest Q (isIssueWrite_issueWrite snapshot ti b (labelsOf E r))).
    + rewrite (writesOf_skip E body snapshot r rows Ha).
      exact (IH w c u (s + 1) Hw Hk Hg).
Qed.

Lemma tally_counts E snapshot rows :
  forall c u s, forallb textRow rows = true ->
    exists c' u' s', tally E snapshot rows c u s = SyncLocal.Counts c' u' s'.
Proof.
  induction rows as [|r rows IH]; intros c u s Hg; [cbn; eauto|].
  cbn [forallb] in Hg. apply andb_true_iff in Hg as [Ht Hg]. cbn [tally].
  destruct (truthy (get r "Activity")); cbn [negb]; [|apply IH, Hg].
  assert (Hp : exists p, orElse (get r "Phase") (VStr "") = VStr p).
  { apply orElse_text. destruct (get_text r "Phase" Ht) as [?| ->]; auto. }
  destruct Hp as [p Hp].
  unfold SyncLocal.createIssueTitle. rewrite Hp. cbn [asString].
  destruct (existsb _ snapshot); apply IH, Hg.
Qed.

Lemma tally_skipped E snapshot rows :
  forall c u s s', twoCounts (tally E snapshot rows c u s) = twoCounts (tally E snapshot rows c u s').
Proof.
  induction rows as [|r rows IH]; intros c u s s'; [reflexivity|]. cbn [tally].
  destruct (truthy (get r "Activity")); cbn [negb]; [|apply IH].
  destruct (SyncLocal.createIssueTitle E r); try reflexivity.
  destruct (existsb _ snapshot); apply IH.
Qed.

(** The loop of sync-issues.js over the rows, while nothing fails. *)
Lemma Actions_syncRows_writes E body snapshot rows :
  forall (w : world) (c u s : Z),
    faults w = [] -> known (remote w) snapshot = true ->
    forallb (goodRow body) rows = true ->
    exists w' rest,
      Actions.syncRows E body rows snapshot c u w
        = (Returns (twoCounts (tally E snapshot rows c u s)), w') /\
      log w' = (log w ++ rest)%list /\
      List.filter isIssueWrite rest = writesOf E body snapshot rows.
Proof.
  induction rows as [|r rows IH]; intros w c u s Hw Hk Hg.
  - exists w, []. rewrite app_nil_r. repeat split.
  - cbn [forallb] in Hg. apply andb_true_iff in Hg as [Hr Hg].
    unfold goodRow in Hr. apply andb_true_iff in Hr as [Ht Hb].
    cbn [Actions.syncRows tally].
    destruct (truthy (get r "Activity")) eqn:Ha; cbn [negb].
    + destruct (get_text r "Activity" Ht) as [[a Ea] | Ea]; [|rewrite Ea in Ha; discriminate Ha].
      assert (Hne : a <> EmptyString) by (intros ->; rewrite Ea in Ha; discriminate Ha).
      destruct (body r) as [b| |] eqn:Eb; try discriminate Hb.
      destruct (Actions_createOrUpdateIssue_effect E body r snapshot w a b Hw Hk Ht Ea Hne Eb)
        as (ti & extra & answer & w1 & T & R & F1 & L & Q & _ & K1).
      rewrite T, (writesOf_cons E body snapshot r rows ti b Ha T Eb).
      assert (Hp : exists p, orElse (get r "Phase") (VStr "") = VStr p).
      { apply orElse_text. destruct (get_text r "Phase" Ht) as [?| ->]; auto. }
      destruct Hp as [p Hp].
      unfold SyncLocal.createIssueTitle in T.
      rewrite Hp, Ea, (orElse_truthy_text a _ Hne) in T. cbn [asString toStr] in T.
      injection T as T.
      rewrite Hp, Ea. cbn [asString toStr]. rewrite bind_lift_returns. cbv beta zeta.
      rewrite T. unfold Remote.bind at 1. rewrite R.
      rewrite find_existsb. fold (SyncLocal.isTitled ti).
      destruct (find (SyncLocal.isTitled ti) snapshot).
      * destruct (IH w1 c (u + 1) s F1 K1 Hg) as (w' & rest & R' & L' & W').
        exists w', ((extra ++ [issueWrite snapshot ti b (labelsOf E r)]) ++ rest)%list.
        split; [exact R'|]. split; [rewrite L', L, <- !app_assoc; reflexivity|].
        rewrite <- W'.
        exact (filter_step [] extra _ rest Q (isIssueWrite_issueWrite snapshot ti b (labelsOf E r))).
      * destruct (IH w1 (c + 1) u s F1 K1 Hg) as (w' & rest & R' & L' & W').
        exists w', ((extra ++ [issueWrite snapshot ti b (labelsOf E r)]) ++ rest)%list.
        split; [exact R'|]. split; [rewrite L', L, <- !app_assoc; reflexivity|].
        rewrite <- W'.
        exact (filter_step [] extra _ rest Q (isIssueWrite_issueWrite snapshot ti b (labelsOf E r))).
    + rewrite (writesOf_skip E body snapshot r rows Ha).
      rewrite (tally_skipped E snapshot rows c u (s + 1) s).
      exact (IH w c u s Hw Hk Hg).
Qed.

Lemma filter_listing l : forallb isListing l = true -> List.filter isIssueWrite l = [].
Proof.
  induction l as [|r l IH]; [reflexivity|]. cbn [forallb List.filter].
  intros H. apply andb_true_iff in H as [Hr Hl]. rewrite (IH Hl).
  destruct r; try discriminate Hr; reflexivity.
Qed.

Lemma writesOf_bodies E bodyA bodyL snapshot rows :
  forallb (goodRow bodyA) rows = true -> forallb (goodRow bodyL) rows = true ->
  map withoutBody (writesOf E bodyA snapshot rows)
  = map withoutBody (writesOf E bodyL snapshot rows).
Proof.
  induction rows as [|r rows IH]; intros HA HL; [reflexivity|].
  cbn [forallb] in HA, HL.
  apply andb_true_iff in HA as [Ha HA]. apply andb_true_iff in HL as [Hl HL].
  unfold goodRow in Ha, Hl.
  apply andb_true_iff in Ha as [_ Ha]. apply andb_true_iff in Hl as [_ Hl].
  cbn [writesOf]. destruct (isActive r); [|exact (IH HA HL)].
  destruct (SyncLocal.createIssueTitle E r) as [ti| |]; try reflexivity.
  destruct (bodyA r) as [bA| |]; try discriminate Ha.
  destruct (bodyL r) as [bL| |]; try discriminate Hl.
  cbn [map]. rewrite (IH HA HL). f_equal.
  unfold issueWrite. destruct (find _ snapshot); reflexivity.
Qed.

Lemma writesOf_length E body snapshot rows :
  forallb (goodRow body) rows = true ->
  Z.of_nat (length (writesOf E body snapshot rows)) = activeRows rows.
Proof.
  unfold activeRows.
  induction rows as [|r rows IH]; intros Hg; [reflexivity|].
  cbn [forallb] in Hg. apply andb_true_iff in Hg as [Hr Hg].
  unfold goodRow in Hr. apply andb_true_iff in Hr as [Ht Hb].
  cbn [writesOf List.filter]. destruct (isActive r); [|exact (IH Hg)].
  assert (Hp : exists p, orElse (get r "Phase") (VStr "") = VStr p).
  { apply orElse_text. destruct (get_text r "Phase" Ht) as [?| ->]; auto. }
  destruct Hp as [p Hp].
  unfold SyncLocal.createIssueTitle. rewrite Hp. cbn [asString].
  destruct (body r); try discriminate Hb.
  cbn [length]. rewrite !Nat2Z.inj_succ, (IH Hg). reflexivity.
Qed.

(** A run of sync-local.js against a tracker that answers: its result
    and its issue writes. *)
Lemma SyncLocal_main_writes E body fuel token rows t :
  truthy token = true -> forallb (goodRow body) rows = true ->
  (length (issues t) < fuel)%nat ->
  exists w',
    SyncLocal.main E body fuel token rows (calm t)
      = (Returns (tally E (issues t) rows 0 0 0), w') /\
    List.filter isIssueWrite (log w') = writesOf E body (issues t) rows.
Proof.
  intros Htok Hg Hf.
  destruct (getExistingIssues_quiet fuel t Hf) as (pages & R & _ & P).
  destruct (SyncLocal_syncRows_writes E body (issues t) rows (World t [] pages) 0 0 0
              eq_refl (known_self t) Hg) as (w' & rest & R' & L' & W').
  exists w'. unfold SyncLocal.main, tryCatch, Remote.bind. rewrite Htok. cbn [negb].
  rewrite R, R'. split; [reflexivity|].
  rewrite L'. cbn [log]. rewrite List.filter_app, (filter_listing _ P), W'. reflexivity.
Qed.

(** A run of sync-issues.js against a tracker that answers. *)
Lemma Actions_main_writes E body fuel rows t :
  forallb (goodRow body) rows = true ->
  (length (issues t) < fuel)%nat ->
  exists w',
    Actions.main E body fuel rows (calm t)
      = (Returns (twoCounts (tally E (issues t) rows 0 0 0)), w') /\
    List.filter isIssueWrite (log w') = writesOf E body (issues t) rows.
Proof.
  intros Hg Hf.
  destruct (getExistingIssues_quiet fuel t Hf) as (pages & R & _ & P).
  destruct (Actions_syncRows_writes E body (issues t) rows (World t [] pages) 0 0 0
              eq_refl (known_self t) Hg) as (w' & rest & R' & L' & W').
  exists w'. unfold Actions.main, tryCatch, Remote.bind, Actions.getExistingIssues.
  rewrite (Actions_listing_agrees fuel 1 [] (calm t) eq_refl).
  change (SyncLocal.getExistingIssuesFrom fuel 1 []) with (SyncLocal.getExistingIssues fuel).
  rewrite R, R'. split; [reflexivity|].
  rewrite L'. cbn [log]. rewrite List.filter_app, (filter_listing _ P), W'. reflexivity.
Qed.

Lemma goodRow_textRow body rows :
  forallb (goodRow body) rows = true -> forallb textRow rows = true.
Proof.
  rewrite !forallb_forall. intros H r Hr. specialize (H r Hr).
  unfold goodRow in H. apply andb_true_iff in H as [H _]. exact H.
Qed.

(** X23. A run of sync-issues.js and a run of sync-local.js over the
    same rows against the same tracker do the same.  With rows of text,
    fuel for the pages and a tracker that answers, both runs return;
    they report the same numbers of issues created and updated, and they
    send the same issue writes in the same order, the body texts
    apart. *)
Theorem sync_issues_runs_as_sync_local :
  forall (E : engine) (bodyA bodyL : row -> outcome string) (fuel : nat) (token : value)
         (rows : list row) (t : tracker),
    truthy token = true ->
    forallb (goodRow bodyA) rows = true -> forallb (goodRow bodyL) rows = true ->
    (length (issues t) < fuel)%nat ->
    exists c u s wA wL,
      Actions.main E bodyA fuel rows (calm t) = (Returns (Actions.Counts c u), wA) /\
      SyncLocal.main E bodyL fuel token rows (calm t) = (Returns (SyncLocal.Counts c u s), wL) /\
      map withoutBody (List.filter isIssueWrite (log wA))
        = map withoutBody (List.filter isIssueWrite (log wL)).
Proof.
  intros E bodyA bodyL fuel token rows t Htok HA HL Hf.
  destruct (Actions_main_writes E bodyA fuel rows t HA Hf) as (wA & RA & WA).
  destruct (SyncLocal_main_writes E bodyL fuel token rows t Htok HL Hf) as (wL & RL & WL).
  destruct (tally_counts E (issues t) rows 0 0 0 (goodRow_textRow _ _ HL)) as (c & u & s & Tc).
  rewrite Tc in RA, RL. exists c, u, s, wA, wL.
  split; [exact RA|]. split; [exact RL|].
  rewrite WA, WL. apply writesOf_bodies; assumption.
Qed.

Lemma sync_issues_runs_as_sync_local_witness :
  exists c u s wA wL,
    Actions.main (isoOnly 0 0) plainBody 3 [kickoffRow] (calm oneIssueTracker)
      = (Returns (Actions.Counts c u), wA) /\
    SyncLocal.main (isoOnly 0 0) plainBody 3 (VStr "token") [kickoffRow] (calm oneIssueTracker)
      = (Returns (SyncLocal.Counts c u s), wL) /\
    map withoutBody (List.filter isIssueWrite (log wA))
      = map withoutBody (List.filter isIssueWrite (log wL)).
Proof.
  apply (sync_issues_runs_as_sync_local (isoOnly 0 0) plainBody plainBody 3 (VStr "token")
           [kickoffRow] oneIssueTracker); [reflexivity | reflexivity | reflexivity | cbn; lia].
Defined.

(** X24. The counters of sync-local.js account for every row and every
    write.  With a token, rows of text, fuel for the pages and a tracker
    that answers, the run skips exactly the rows without an activity,
    the issues it reports created and updated add up to the rows with
    one, and that sum is the number of issue writes it sent. *)
Theorem one_write_per_active_row :
  forall (E : engine) (body : row -> outcome string) (fuel : nat) (token : value)
         (rows : list row) (t : tracker),
    truthy token = true -> forallb (goodRow body) rows = true ->
    (length (issues t) < fuel)%nat ->
    exists c u w',
      SyncLocal.main E body fuel token rows (calm t)
        = (Returns (SyncLocal.Counts c u (idleRows rows)), w') /\
      c + u = activeRows rows /\
      Z.of_nat (length (List.filter isIssueWrite (log w'))) = c + u.
Proof.
  intros E body fuel token rows t Htok Hg Hf.
  destruct (SyncLocal_main_writes E body fuel token rows t Htok Hg Hf) as (w' & R & W).
  destruct (getExistingIssues_quiet fuel t Hf) as (pages & Rp & _ & P).
  destruct (syncRows_effect E body (issues t) rows (World t [] pages) 0 0 0
              eq_refl (known_self t) Hg) as (w2 & c' & added & R2 & _ & _ & Hc & _).
  assert (R3 : SyncLocal.main E body fuel token rows (calm t)
               = (Returns (SyncLocal.Counts (0 + c') (0 + (activeRows rows - c'))
                             (0 + idleRows rows)), w2)).
  { unfold SyncLocal.main, tryCatch, Remote.bind. rewrite Htok. cbn [negb].
    rewrite Rp, R2. reflexivity. }
  rewrite R3 in R. injection R as Tc <-.
  exists c', (activeRows rows - c'), w2.
  split; [rewrite R3; f_equal; f_equal; f_equal; lia|].
  split; [lia|].
  rewrite W, (writesOf_length E body (issues t) rows Hg). lia.
Qed.

Lemma one_write_per_active_row_witness :
  exists c u w',
    SyncLocal.main (isoOnly 0 0) plainBody 3 (VStr "token") [kickoffRow] (calm oneIssueTracker)
      = (Returns (SyncLocal.Counts c u (idleRows [kickoffRow])), w') /\
    c + u = activeRows [kickoffRow] /\
    Z.of_nat (length (List.filter isIssueWrite (log w'))) = c + u.
Proof.
  apply (one_write_per_active_row (isoOnly 0 0) plainBody 3 (VStr "token")
           [kickoffRow] oneIssueTracker); [reflexivity | reflexivity | cbn; lia].
Defined.

(** ** The dates of a phase *)

Lemma ascii_compare_trans a b c :
  Ascii.compare a b = Lt -> Ascii.compare b c = Lt -> Ascii.compare a c = Lt.
Proof.
  unfold Ascii.compare. rewrite !N.compare_lt_iff. lia.
Qed.

Lemma string_compare_trans :
  forall a b c, String.compare a b = Lt -> String.compare b c = Lt -> String.compare a c = Lt.
Proof.
  induction a as [|x a IH]; intros [|y b] [|z c]; cbn [String.compare]; try discriminate; auto.
  destruct (Ascii.compare x y) eqn:XY; try discriminate;
    destruct (Ascii.compare y z) eqn:YZ; try discriminate; intros H1 H2.
  - apply Ascii.compare_eq_iff in XY, YZ. subst. 
    replace (Ascii.compare z z) with Eq
      by (symmetry; unfold Ascii.compare; apply N.compare_refl).
    exact (IH b c H1 H2).
  - apply Ascii.compare_eq_iff in XY. subst. rewrite YZ. reflexivity.
  - apply Ascii.compare_eq_iff in YZ. subst. rewrite XY. reflexivity.
  - rewrite (ascii_compare_trans x y z XY YZ). reflexivity.
Qed.

Lemma string_compare_refl a : String.compare a a = Eq.
Proof.
  induction a as [|x a IH]; [reflexivity|]. cbn [String.compare].
  replace (Ascii.compare x x) with Eq by (symmetry; unfold Ascii.compare; apply N.compare_refl).
  exact IH.
Qed.

Lemma ltb_irrefl a : String.ltb a a = false.
Proof. unfold String.ltb. rewrite string_compare_refl. reflexivity. Qed.

(** [a] is not after [b], and [b] is not after [c]: [a] is not after [c]. *)
Lemma notAfter_trans a b c :
  String.ltb b a = false -> String.ltb c b = false -> String.ltb c a = false.
Proof.
  unfold String.ltb. intros H1 H2.
  destruct (String.compare c a) eqn:CA; try reflexivity.
  destruct (String.compare b a) eqn:BA; try discriminate H1.
  - apply String.compare_eq_iff in BA. subst. rewrite CA in H2. discriminate H2.
  - destruct (String.compare c b) eqn:CB; try discriminate H2.
    + apply String.compare_eq_iff in CB. subst. rewrite CA in BA. discriminate BA.
    + (* a < b, b < c, c < a *)
      rewrite String.compare_antisym in BA, CB.
      destruct (String.compare a b) eqn:AB; try discriminate BA.
      destruct (String.compare b c) eqn:BC; try discriminate CB.
      pose proof (string_compare_trans a b c AB BC) as AC.
      rewrite String.compare_antisym, AC in CA. discriminate CA.
Qed.

Lemma least_In : forall l s, In (Dashboard.least s l) (s :: l).
Proof.
  induction l as [|x l IH]; intros s; [left; reflexivity|]. cbn [Dashboard.least].
  destruct (IH (if String.ltb x s then x else s)) as [H|H]; [|right; right; exact H].
  rewrite <- H. destruct (String.ltb x s); [right; left | left]; reflexivity.
Qed.

Lemma least_first : forall l s, String.ltb s (Dashboard.least s l) = false.
Proof.
  induction l as [|x l IH]; intros s; cbn [Dashboard.least]; [apply ltb_irrefl|].
  apply (notAfter_trans _ (if String.ltb x s then x else s)); [apply IH|].
  destruct (String.ltb x s) eqn:X; [|apply ltb_irrefl].
  unfold String.ltb in *. rewrite String.compare_antisym.
  destruct (String.compare x s); try discriminate X. reflexivity.
Qed.

Lemma least_bound : forall l s x, In x (s :: l) -> String.ltb x (Dashboard.least s l) = false.
Proof.
  induction l as [|y l IH]; intros s x [<-|Hin]; try apply least_first; [destruct Hin|].
  cbn [Dashboard.least]. destruct Hin as [<-|Hin]; [|apply IH; right; exact Hin].
  apply (notAfter_trans _ (if String.ltb y s then y else s)); [apply least_first|].
  destruct (String.ltb y s) eqn:X; [apply ltb_irrefl | exact X].
Qed.

Lemma greatest_In : forall l s, In (Dashboard.greatest s l) (s :: l).
Proof.
  induction l as [|x l IH]; intros s; [left; reflexivity|]. cbn [Dashboard.greatest].
  destruct (IH (if String.ltb s x then x else s)) as [H|H]; [|right; right; exact H].
  rewrite <- H. destruct (String.ltb s x); [right; left | left]; reflexivity.
Qed.

Lemma greatest_first : forall l s, String.ltb (Dashboard.greatest s l) s = false.
Proof.
  induction l as [|x l IH]; intros s; cbn [Dashboard.greatest]; [apply ltb_irrefl|].
  apply (notAfter_trans _ (if String.ltb s x then x else s)); [|apply IH].
  destruct (String.ltb s x) eqn:X; [|apply ltb_irrefl].
  unfold String.ltb in *. rewrite String.compare_antisym.
  destruct (String.compare s x); try discriminate X. reflexivity.
Qed.

Lemma greatest_bound : forall l s x, In x (s :: l) -> String.ltb (Dashboard.greatest s l) x = false.
Proof.
  induction l as [|y l IH]; intros s x [<-|Hin]; try apply greatest_first; [destruct Hin|].
  cbn [Dashboard.greatest]. destruct Hin as [<-|Hin]; [|apply IH; right; exact Hin].
  apply (notAfter_trans _ (if String.ltb s y then y else s)); [|apply greatest_first].
  destruct (String.ltb s y) eqn:X; [apply ltb_irrefl | exact X].
Qed.

Lemma dated_In (f : Dashboard.Task -> string) ts t :
  In t ts -> f t <> EmptyString ->
  In (f t) (map f (List.filter (fun t => Dashboard.nonEmpty (f t)) ts)).
Proof.
  intros Hin Hne. apply in_map, filter_In. split; [exact Hin|].
  unfold Dashboard.nonEmpty. destruct (String.eqb_spec (f t) EmptyString); [contradiction | reflexivity].
Qed.

Lemma dated_incl (f : Dashboard.Task -> string) ts s :
  In s (map f (List.filter (fun t => Dashboard.nonEmpty (f t)) ts)) ->
  In s (map f ts) /\ s <> EmptyString.
Proof.
  intros H. apply in_map_iff in H as (t & <- & Hin). apply filter_In in Hin as [Hin Hne].
  split; [apply in_map, Hin|]. unfold Dashboard.nonEmpty in Hne.
  destruct (String.eqb_spec (f t) EmptyString); [discriminate Hne | assumption].
Qed.

Lemma buildPhase_dates nm ts t :
  In t ts ->
  (Dashboard.startDate t <> EmptyString ->
     (In (Dashboard.phaseStart (Dashboard.buildPhase (nm, ts))) (map Dashboard.startDate ts) /\
      Dashboard.phaseStart (Dashboard.buildPhase (nm, ts)) <> EmptyString) /\
     String.ltb (Dashboard.startDate t) (Dashboard.phaseStart (Dashboard.buildPhase (nm, ts))) = false) /\
  (Dashboard.endDate t <> EmptyString ->
     (In (Dashboard.phaseEnd (Dashboard.buildPhase (nm, ts))) (map Dashboard.endDate ts) /\
      Dashboard.phaseEnd (Dashboard.buildPhase (nm, ts)) <> EmptyString) /\
     String.ltb (Dashboard.phaseEnd (Dashboard.buildPhase (nm, ts))) (Dashboard.endDate t) = false).
Proof.
  intros Hin. cbn [Dashboard.buildPhase Dashboard.phaseStart Dashboard.phaseEnd]. split; intros Hne.
  - pose proof (dated_In Dashboard.startDate ts t Hin Hne) as D.
    pose proof (dated_incl Dashboard.startDate ts) as I.
    destruct (map Dashboard.startDate _) as [|s l]; [destruct D|].
    split; [apply I, least_In | apply least_bound, D].
  - pose proof (dated_In Dashboard.endDate ts t Hin Hne) as D.
    pose proof (dated_incl Dashboard.endDate ts) as I.
    destruct (map Dashboard.endDate _) as [|s l]; [destruct D|].
    split; [apply I, greatest_In | apply greatest_bound, D].
Qed.

(** X25. The dates of a phase on the dashboard are dates of its tasks
    and bound them.  When a task of the phase has a start date, the
    start date of the phase is the start date of one of its tasks, it is
    not empty, and the start date of the task does not come before it in
    the order of texts; when a task has an end date, the end date of the
    phase is the end date of one of its tasks, not empty, and does not
    come before that of the task. *)
Theorem phase_dates_bound_the_tasks :
  forall (E : engine) (pdc : Z -> option (Z * Z * Z)) (rows : list Dashboard.sheetRow)
         (data : Dashboard.ProjectData) (p : Dashboard.Phase) (t : Dashboard.Task),
    Dashboard.projectDataOf E pdc rows = Returns (Dashboard.Success data) ->
    In p (Dashboard.phases data) -> In t (Dashboard.tasks p) ->
    (Dashboard.startDate t <> EmptyString ->
       (In (Dashboard.phaseStart p) (map Dashboard.startDate (Dashboard.tasks p)) /\
        Dashboard.phaseStart p <> EmptyString) /\
       String.ltb (Dashboard.startDate t) (Dashboard.phaseStart p) = false) /\
    (Dashboard.endDate t <> EmptyString ->
       (In (Dashboard.phaseEnd p) (map Dashboard.endDate (Dashboard.tasks p)) /\
        Dashboard.phaseEnd p <> EmptyString) /\
       String.ltb (Dashboard.phaseEnd p) (Dashboard.endDate t) = false).
Proof.
  intros E pdc rows data p t H Hp Ht.
  destruct rows as [|header [|r rows]]; cbn [Dashboard.projectDataOf] in H; try discriminate.
  destruct (Dashboard.findColumns E (Dashboard.headerTexts E header)) as [cols| |];
    cbn [Dashboard.andThen] in H; try discriminate.
  destruct (Dashboard.collect E pdc cols 1 (r :: rows) [] []) as [[ts pm]| |] eqn:C;
    cbn [Dashboard.andThen] in H; try discriminate.
  injection H as <-. cbn [Dashboard.phases] in Hp.
  apply in_map_iff in Hp as ([k l] & <- & _).
  change (Dashboard.tasks (Dashboard.buildPhase (k, l))) with l in *.
  exact (buildPhase_dates k l t Ht).
Qed.

Lemma phase_dates_bound_the_tasks_witness :
  exists data p t,
    Dashboard.projectDataOf (isoOnly 0 1760000000000) (fun _ => None) sheetPhased
      = Returns (Dashboard.Success data) /\
    In p (Dashboard.phases data) /\ In t (Dashboard.tasks p) /\
    Dashboard.activity t = "Review" /\
    Dashboard.phaseStart p = "2025-10-01" /\ Dashboard.phaseEnd p = "2025-12-15" /\
    String.ltb (Dashboard.startDate t) (Dashboard.phaseStart p) = false /\
    String.ltb (Dashboard.phaseEnd p) (Dashboard.endDate t) = false.
Proof.
  let r := eval vm_compute in
    (Dashboard.projectDataOf (isoOnly 0 1760000000000) (fun _ => None) sheetPhased) in
  match r with
  | Returns (Dashboard.Success ?d) =>
      let ps := eval vm_compute in (Dashboard.phases d) in
      match ps with
      | ?p :: _ =>
          let ts := eval vm_compute in (Dashboard.tasks p) in
          match ts with
          | _ :: ?t :: _ =>
              assert (H : Dashboard.projectDataOf (isoOnly 0 1760000000000) (fun _ => None)
                            sheetPhased = Returns (Dashboard.Success d))
                by (vm_compute; reflexivity);
              assert (Hp : In p (Dashboard.phases d)) by (left; reflexivity);
              assert (Ht : In t (Dashboard.tasks p)) by (right; left; reflexivity);
              exists d, p, t;
              split; [exact H|]; split; [exact Hp|]; split; [exact Ht|];
              split; [reflexivity|]; split; [reflexivity|]; split; [reflexivity|];
              pose proof (phase_dates_bound_the_tasks (isoOnly 0 1760000000000) (fun _ => None)
                            sheetPhased d p t H Hp Ht) as [K1 K2];
              split; [exact (proj2 (K1 ltac:(discriminate))) | exact (proj2 (K2 ltac:(discriminate)))]
          end
      end
  end.
Defined.

(** ** The titles of the Apps Script and of sync-local.cjs *)

Lemma length_append a b : String.length (a ++ b) = (String.length a + String.length b)%nat.
Proof.
  induction a as [|x a IH]; [reflexivity|].
  change (String x a ++ b) with (String x (a ++ b)). cbn [String.length]. rewrite IH. reflexivity.
Qed.

Lemma prefixed_differs ph a : "[" ++ ph ++ "] " ++ a <> a.
Proof.
  intros H. apply (f_equal String.length) in H.
  rewrite !length_append in H. cbn [String.length] in H. lia.
Qed.

(** X26. The title that the Apps Script gives a row contains the
    activity of the row, and sync-local.cjs gives the row the same title
    exactly when the Phase cell names a phase or the activity holds none
    of the keywords by which sync-local.cjs guesses one: the Apps Script
    never guesses. *)
Theorem cjs_title_against_apps_script :
  forall (E : engine) (r : row) (p a : string),
    SyncCjs.getField r "Phase" = VStr p -> SyncCjs.getField r "Activity" = VStr a ->
    a <> EmptyString ->
    exists ti,
      SyncCjs.createIssueTitle E r = Returns ti /\
      includes a (AppsScript.createIssueTitle E (VStr p) (VStr a)) = true /\
      (ti = AppsScript.createIssueTitle E (VStr p) (VStr a)
       <-> matchPhase p <> None \/ SyncCjs.phaseByActivity a = None).
Proof.
  intros E r p a Hp Ha Hne.
  unfold SyncCjs.createIssueTitle, SyncCjs.getPhaseFromRow,
    AppsScript.createIssueTitle, AppsScript.getPhase.
  rewrite Hp, Ha, !(orElse_truthy_text a _ Hne). cbn [toStr asString].
  assert (Hor : orElse (VStr p) (VStr "") = VStr p).
  { unfold orElse. cbn [truthy]. destruct (String.eqb_spec p EmptyString) as [->|]; reflexivity. }
  rewrite Hor. cbn [asString].
  destruct (String.eqb_spec p EmptyString) as [->|Hpne].
  - cbn [truthy String.eqb negb]. 
    change (matchPhase "") with (@None ascii). 
    destruct (SyncCjs.phaseByActivity a) as [ph|] eqn:K.
    + eexists. split; [reflexivity|]. split; [apply (includes_suffix EmptyString a)|].
      split; [intros H; destruct (prefixed_differs ph a H) | intros [H|H]; [destruct H; reflexivity | discriminate H]].
    + eexists. split; [reflexivity|]. split; [apply (includes_suffix EmptyString a)|].
      split; auto.
  - rewrite (truthy_text p Hpne). cbn [negb].
    destruct (matchPhase p) as [d|] eqn:Mp.
    + eexists. split; [reflexivity|].
      split.
      * replace ("[" ++ ("Phase " ++ String d "") ++ "] " ++ a)
          with (("[" ++ ("Phase " ++ String d "") ++ "] ") ++ a)
          by (rewrite !append_assoc; reflexivity).
        apply includes_suffix.
      * split; [intros _; left; discriminate | reflexivity].
    + destruct (SyncCjs.phaseByActivity a) as [ph|] eqn:K.
      * eexists. split; [reflexivity|]. split; [apply (includes_suffix EmptyString a)|].
        split; [intros H; destruct (prefixed_differs ph a H) | intros [H|H]; [destruct H; reflexivity | discriminate H]].
      * eexists. split; [reflexivity|]. split; [apply (includes_suffix EmptyString a)|].
        split; auto.
Qed.

Lemma cjs_title_against_apps_script_witness :
  exists ti,
    SyncCjs.createIssueTitle (isoOnly 0 0) [("Phase", VStr "Setup"); ("Activity", VStr "Internal Audit")]
      = Returns ti /\
    includes "Internal Audit" (AppsScript.createIssueTitle (isoOnly 0 0) (VStr "Setup") (VStr "Internal Audit")) = true /\
    (ti = AppsScript.createIssueTitle (isoOnly 0 0) (VStr "Setup") (VStr "Internal Audit")
     <-> matchPhase "Setup" <> None \/ SyncCjs.phaseByActivity "Internal Audit" = None).
Proof.
  exact (cjs_title_against_apps_script (isoOnly 0 0)
           [("Phase", VStr "Setup"); ("Activity", VStr "Internal Audit")]
           "Setup" "Internal Audit" eq_refl eq_refl ltac:(discriminate)).
Defined.

(** ** Rows without an activity *)

(** The loop over the rows and the loop over the rows that have an
    activity differ in the counter of skipped rows alone. *)
Lemma syncRows_without_idle E body snapshot rows :
  forall (c u s s' : Z) (w : world),
    SyncLocal.syncRows E body rows snapshot c u s w
    = (skipMore (s - s' + idleRows rows)
         (fst (SyncLocal.syncRows E body (List.filter isActive rows) snapshot c u s' w)),
       snd (SyncLocal.syncRows E body (List.filter isActive rows) snapshot c u s' w)).
Proof.
  induction rows as [|r rows IH]; intros c u s s' w.
  - cbn [List.filter SyncLocal.syncRows]. unfold ret, idleRows. cbn [fst snd skipMore List.filter length].
    replace (s' + (s - s' + Z.of_nat 0)) with s by lia. reflexivity.
  - cbn [List.filter]. unfold idleRows. rewrite filter_cons_length. fold (idleRows rows).
    change (isActive r) with (truthy (get r "Activity")).
    cbn [SyncLocal.syncRows].
    destruct (truthy (get r "Activity")) eqn:Ha; cbn [negb].
    + cbn [SyncLocal.syncRows]. rewrite Ha. cbn [negb]. unfold Remote.bind.
      destruct (SyncLocal.syncRow E body r snapshot w) as [[[[|]|]| |] w1];
        try reflexivity; rewrite (IH _ _ s s' w1); do 2 f_equal; lia.
    + rewrite (IH c u (s + 1) s' w). do 2 f_equal. lia.
Qed.

(** X14. A row without an activity, wherever it stands among the rows,
    is only counted: [main] of sync-local.js sends the same requests,
    leaves the same tracker and reports the same issues created and
    updated as it does over the rows without it, whatever the state of
    the tracker and whatever fails; only the counter of skipped rows
    differs, by the number of such rows. *)
Theorem idle_rows_are_only_counted :
  forall (E : engine) (body : row -> outcome string) (fuel : nat) (token : value)
         (rows : list row) (w : world),
    SyncLocal.main E body fuel token rows w
    = (skipMore (idleRows rows)
         (fst (SyncLocal.main E body fuel token (List.filter isActive rows) w)),
       snd (SyncLocal.main E body fuel token (List.filter isActive rows) w)).
Proof.
  intros E body fuel token rows w. unfold SyncLocal.main.
  destruct (truthy token); cbn [negb]; [|reflexivity].
  unfold tryCatch, Remote.bind.
  destruct (SyncLocal.getExistingIssues fuel w) as [[snapshot| |] w1]; try reflexivity.
  rewrite (syncRows_without_idle E body snapshot rows 0 0 0 0 w1).
  destruct (SyncLocal.syncRows E body (List.filter isActive rows) snapshot 0 0 0 w1)
    as [[[c u s|n]| |] w2]; reflexivity.
Qed.

Lemma idle_rows_are_only_counted_witness :
  SyncLocal.main (isoOnly 0 0) plainBody 1 (VStr "token")
    [[("Phase", VStr "Phase 1")]; kickoffRow; []; kickoffRow]
    (World emptyTracker [None; Some (Fault 500 "Server Error")] [])
  = (Returns (SyncLocal.Counts 2 0 2),
     snd (SyncLocal.main (isoOnly 0 0) plainBody 1 (VStr "token") [kickoffRow; kickoffRow]
            (World emptyTracker [None; Some (Fault 500 "Server Error")] []))).
Proof.
  exact (idle_rows_are_only_counted (isoOnly 0 0) plainBody 1 (VStr "token")
           [[("Phase", VStr "Phase 1")]; kickoffRow; []; kickoffRow]
           (World emptyTracker [None; Some (Fault 500 "Server Error")] [])).
Defined.

(** ** The requests of a run, whatever fails *)

Lemma sends_ret {A} P (a : A) : sends P (ret a).
Proof. intros w. exists []. rewrite app_nil_r. auto. Qed.

Lemma sends_throw {A} P e : sends P (@throw A e).
Proof. intros w. exists []. rewrite app_nil_r. auto. Qed.

Lemma sends_lift {A} P (o : outcome A) : sends P (lift o).
Proof. intros w. exists []. rewrite app_nil_r. auto. Qed.

Lemma sends_bind {A B} P (c : M A) (k : A -> M B) :
  sends P c -> (forall a, sends P (k a)) -> sends P (Remote.bind c k).
Proof.
  intros Hc Hk w. unfold Remote.bind. destruct (Hc w) as (r1 & L1 & P1).
  destruct (c w) as [[a|e|] w1]; cbn [snd] in L1 |- *; try solve [exists r1; auto].
  destruct (Hk a w1) as (r2 & L2 & P2). exists (r1 ++ r2)%list.
  rewrite L2, L1, <- app_assoc, forallb_app, P1, P2. auto.
Qed.

Lemma sends_tryCatch {A} P (c : M A) (h : exn -> M A) :
  sends P c -> (forall e, sends P (h e)) -> sends P (tryCatch c h).
Proof.
  intros Hc Hh w. unfold tryCatch. destruct (Hc w) as (r1 & L1 & P1).
  destruct (c w) as [[a|e|] w1]; cbn [snd] in L1 |- *; try solve [exists r1; auto].
  destruct (Hh e w1) as (r2 & L2 & P2). exists (r1 ++ r2)%list.
  rewrite L2, L1, <- app_assoc, forallb_app, P1, P2. auto.
Qed.

Lemma sends_send P r : P r = true -> sends P (send r).
Proof.
  intros Hr w. exists [r]. cbn [forallb]. rewrite Hr. split; [|reflexivity].
  unfold send. destruct (faults w) as [|[f|] fs].
  - destruct (serve r (remote w)). reflexivity.
  - destruct (Z.leb 400 (fstatus f)); [reflexivity|]. destruct (serve r (remote w)). reflexivity.
  - destruct (serve r (remote w)). reflexivity.
Qed.

Lemma sends_githubRequest P r : P r = true -> sends P (SyncLocal.githubRequest r).
Proof.
  intros Hr. unfold SyncLocal.githubRequest. apply sends_bind; [apply sends_send, Hr|].
  intros resp. destruct (Z.leb 400 (status resp)); [apply sends_throw | apply sends_ret].
Qed.

Lemma sends_ensureLabel name c d : sends notListing (SyncLocal.ensureLabel name c d).
Proof.
  unfold SyncLocal.ensureLabel. apply sends_tryCatch.
  - apply sends_bind; [apply sends_githubRequest; reflexivity | intros; apply sends_ret].
  - intros e. destruct (includes "404" (message e)); [|apply sends_ret].
    apply sends_bind; [apply sends_githubRequest; reflexivity | intros; apply sends_ret].
Qed.

Lemma sends_syncRow E body r snapshot : sends notListing (SyncLocal.syncRow E body r snapshot).
Proof.
  unfold SyncLocal.syncRow. destruct (negb _); [apply sends_ret|].
  apply sends_bind; [apply sends_lift|]. intros ti.
  apply sends_bind; [apply sends_lift|]. intros b.
  apply sends_bind; [apply sends_lift|]. intros p.
  apply sends_bind.
  { destruct (SyncLocal.firstPhaseKey _ p) as [[key [color description]]|]; [|apply sends_ret].
    apply sends_bind; [apply sends_ensureLabel | intros; apply sends_ret]. }
  intros labels1. apply sends_bind.
  { destruct (truthy _); [|apply sends_ret].
    destruct (lookup _ _) as [[color description]| |]; try apply sends_ret;
      (apply sends_bind; [apply sends_ensureLabel | intros; apply sends_ret]). }
  intros labels2. destruct (find _ snapshot) as [ex|];
    (apply sends_bind; [apply sends_githubRequest; reflexivity | intros; apply sends_ret]).
Qed.

Lemma sends_syncRows E body snapshot rows :
  forall c u s, sends notListing (SyncLocal.syncRows E body rows snapshot c u s).
Proof.
  induction rows as [|r rows IH]; intros c u s; cbn [SyncLocal.syncRows]; [apply sends_ret|].
  destruct (negb _); [apply IH|].
  apply sends_bind; [apply sends_syncRow|]. intros [[|]|]; apply IH.
Qed.

Lemma sends_listing fuel : forall page acc, sends isListing (SyncLocal.getExistingIssuesFrom fuel page acc).
Proof.
  induction fuel as [|fuel IH]; intros page acc; cbn [SyncLocal.getExistingIssuesFrom];
    [apply sends_lift|].
  apply sends_bind; [apply sends_githubRequest; reflexivity|].
  intros [|[|i l]| |]; try apply sends_ret. apply IH.
Qed.

(** ** A run against a tracker that answers, whatever the rows hold *)

Lemma title_phase E r ti :
  SyncLocal.createIssueTitle E r = Returns ti ->
  exists p, orElse (get r "Phase") (VStr "") = VStr p.
Proof.
  unfold SyncLocal.createIssueTitle.
  destruct (orElse (get r "Phase") (VStr "")); cbn [asString]; try discriminate. eauto.
Qed.

(** [syncRow] of sync-local.js on a row with an activity whose title
    and body can be built, while nothing fails. *)
Lemma SyncLocal_syncRow_any E body r snapshot w ti b :
  faults w = [] -> known (remote w) snapshot = true ->
  truthy (get r "Activity") = true ->
  SyncLocal.createIssueTitle E r = Returns ti -> body r = Returns b ->
  exists extra w',
    SyncLocal.syncRow E body r snapshot w
      = (Returns (Some (if existsb (SyncLocal.isTitled ti) snapshot
                        then SyncLocal.updated else SyncLocal.created)), w') /\
    faults w' = [] /\ known (remote w') snapshot = true /\
    log w' = (log w ++ extra ++ [issueWrite snapshot ti b (labelsOf E r)])%list /\
    forallb isLabelRequest extra = true.
Proof.
  intros Hw Hk Ha Hti Hb.
  destruct (title_phase E r ti Hti) as [p Hp].
  unfold SyncLocal.syncRow, labelsOf, issueWrite.
  rewrite Ha, Hti, Hb, Hp. cbn [negb asString toStr].
  rewrite !bind_lift_returns.
  match goal with |- context [Remote.bind ?c ?k w] =>
    destruct (labelStage_run [] (phaseLabel p) c k w (phaseStage_local p) Hw eq_refl)
      as (w1 & R1 & F1 & I1 & P1 & e1 & G1 & Q1);
    rewrite R1; clear R1
  end.
  match goal with |- context [Remote.bind ?c ?k w1] =>
    destruct (labelStage_run _ _ c k w1 (quarterStage_local E (get r "Quarter") (phaseLabel p))
                F1 P1) as (w2 & R2 & F2 & I2 & P2 & e2 & G2 & Q2);
    rewrite R2; clear R2
  end.
  assert (I : issues (remote w2) = issues (remote w)) by congruence.
  assert (K2 : known (remote w2) snapshot = true)
    by (rewrite (known_same (remote w) (remote w2)) by exact I; exact Hk).
  exists (e1 ++ e2)%list.
  assert (Q12 : forallb isLabelRequest (e1 ++ e2) = true)
    by (rewrite forallb_app, Q1, Q2; reflexivity).
  rewrite find_existsb.
  destruct (find (SyncLocal.isTitled ti) snapshot) as [ex|] eqn:F.
  - pose proof (known_find _ _ _ _ K2 F) as Hn.
    exists (World (updatedTracker (number ex) b (phaseLabel p ++ quarterLabel E (get r "Quarter"))
                     (remote w2)) []
              (log w2 ++ [UpdateIssue (number ex) b
                            (phaseLabel p ++ quarterLabel E (get r "Quarter"))])).
    unfold Remote.bind. rewrite (updateIssue_quiet_local _ b _ w2 F2 Hn).
    unfold ret. cbn [remote faults log].
    rewrite known_updated, G2, G1, <- !app_assoc. auto 10.
  - exists (World (createdTracker ti b (phaseLabel p ++ quarterLabel E (get r "Quarter"))
                     (remote w2)) []
              (log w2 ++ [CreateIssue ti b (phaseLabel p ++ quarterLabel E (get r "Quarter"))])).
    unfold Remote.bind. rewrite (createIssue_quiet_local ti b _ w2 F2).
    unfold ret. cbn [remote faults log].
    rewrite G2, G1, <- !app_assoc.
    split; [reflexivity|]. split; [reflexivity|]. split; [apply known_created, K2|]. auto.
Qed.

Lemma issueWrite_notListing snapshot ti b ls : notListing (issueWrite snapshot ti b ls) = true.
Proof. unfold issueWrite. destruct (find _ snapshot); reflexivity. Qed.

(** The loop over the rows, while no request fails: every row is
    matched against the snapshot the loop was given. *)
Lemma syncRows_against E body snapshot rows :
  forall (w : world) (c u s : Z),
    faults w = [] -> known (remote w) snapshot = true ->
    exists w' rest,
      SyncLocal.syncRows E body rows snapshot c u s w
        = (runAgainst E body snapshot rows c u s, w') /\
      log w' = (log w ++ rest)%list /\ forallb notListing rest = true /\
      List.filter isIssueWrite rest = writesOf E body snapshot rows.
Proof.
  induction rows as [|r rows IH]; intros w c u s Hw Hk.
  - exists w, []. rewrite app_nil_r. repeat split.
  - cbn [SyncLocal.syncRows runAgainst writesOf].
    change (isActive r) with (truthy (get r "Activity")).
    destruct (truthy (get r "Activity")) eqn:Ha; cbn [negb]; [|exact (IH w c u (s + 1) Hw Hk)].
    destruct (SyncLocal.createIssueTitle E r) as [ti|e|] eqn:T.
    + destruct (body r) as [b|e|] eqn:B.
      * destruct (SyncLocal_syncRow_any E body r snapshot w ti b Hw Hk Ha T B)
          as (extra & w1 & R & F1 & K1 & L & Q).
        unfold Remote.bind at 1. rewrite R.
        destruct (existsb (SyncLocal.isTitled ti) snapshot).
        -- destruct (IH w1 c (u + 1) s F1 K1) as (w' & rest & R' & L' & N' & W').
           exists w', ((extra ++ [issueWrite snapshot ti b (labelsOf E r)]) ++ rest)%list.
           split; [exact R'|]. split; [rewrite L', L, <- !app_assoc; reflexivity|].
           rewrite !forallb_app, (labels_notListing _ Q), N'. cbn [forallb].
           rewrite issueWrite_notListing. split; [reflexivity|].
           rewrite !List.filter_app, (filter_labels _ Q), W'. cbn [List.filter].
           rewrite isIssueWrite_issueWrite. reflexivity.
        -- destruct (IH w1 (c + 1) u s F1 K1) as (w' & rest & R' & L' & N' & W').
           exists w', ((extra ++ [issueWrite snapshot ti b (labelsOf E r)]) ++ rest)%list.
           split; [exact R'|]. split; [rewrite L', L, <- !app_assoc; reflexivity|].
           rewrite !forallb_app, (labels_notListing _ Q), N'. cbn [forallb].
           rewrite issueWrite_notListing. split; [reflexivity|].
           rewrite !List.filter_app, (filter_labels _ Q), W'. cbn [List.filter].
           rewrite isIssueWrite_issueWrite. reflexivity.
      * exists w, []. rewrite app_nil_r. split; [|auto].
        unfold Remote.bind at 1, SyncLocal.syncRow. rewrite Ha, T, B. reflexivity.
      * exists w, []. rewrite app_nil_r. split; [|auto].
        unfold Remote.bind at 1, SyncLocal.syncRow. rewrite Ha, T, B. reflexivity.
    + exists w, []. rewrite app_nil_r. split; [|auto].
      unfold Remote.bind at 1, SyncLocal.syncRow. rewrite Ha, T. reflexivity.
    + exists w, []. rewrite app_nil_r. split; [|auto].
      unfold Remote.bind at 1, SyncLocal.syncRow. rewrite Ha, T. reflexivity.
Qed.

(** C8, as the code has it.  Whatever the rows hold and whatever fails,
    the requests of a run of [main] in sync-local.js are first listing
    requests and then requests that list nothing: once the first row is
    handled the issues are not fetched again.  With a token, fuel for
    the pages and a tracker that answers, the listing is sent, page
    after page, and every row is matched against the issues the tracker
    held when the run began: the report of the run and its issue writes
    are those of matching each row against that list, an update for a
    title the list holds and a create for any other, until a row whose
    title or body cannot be built ends the run.  Nothing created during
    the run enters the list. *)
Theorem snapshot_is_fetched_once :
  forall (E : engine) (body : row -> outcome string) (fuel : nat) (token : value)
         (rows : list row),
    (forall w, exists pages rest,
       log (snd (SyncLocal.main E body fuel token rows w)) = (log w ++ pages ++ rest)%list /\
       forallb isListing pages = true /\ forallb notListing rest = true) /\
    (forall t, truthy token = true -> (length (issues t) < fuel)%nat ->
       exists w' pages rest,
         SyncLocal.main E body fuel token rows (calm t)
           = (caught (runAgainst E body (issues t) rows 0 0 0), w') /\
         log w' = (pages ++ rest)%list /\ pages <> [] /\
         forallb isListing pages = true /\ forallb notListing rest = true /\
         List.filter isIssueWrite rest = writesOf E body (issues t) rows).
Proof.
  intros E body fuel token rows. split.
  - intros w. unfold SyncLocal.main.
    destruct (truthy token); cbn [negb];
      [|exists [], []; unfold ret; cbn [snd]; rewrite app_nil_r; auto].
    unfold tryCatch, Remote.bind, SyncLocal.getExistingIssues.
    destruct (sends_listing fuel 1 [] w) as (pages & L1 & P1).
    destruct (SyncLocal.getExistingIssuesFrom fuel 1 [] w) as [[snapshot|e|] w1];
      cbn [snd] in L1 |- *;
      try solve [exists pages, []; rewrite app_nil_r; auto].
    destruct (sends_syncRows E body snapshot rows 0 0 0 w1) as (rest & L2 & P2).
    exists pages, rest.
    destruct (SyncLocal.syncRows E body rows snapshot 0 0 0 w1) as [[rep|e|] w2];
      cbn [snd] in L2 |- *; unfold ret; cbn [snd]; rewrite L2, L1, <- app_assoc; auto.
  - intros t Htok Hf.
    destruct (getExistingIssues_quiet fuel t Hf) as (pages & R & N & P).
    destruct (syncRows_against E body (issues t) rows (World t [] pages) 0 0 0 eq_refl
                (known_self t)) as (w' & rest & R' & L' & N' & W').
    exists w', pages, rest.
    unfold SyncLocal.main. rewrite Htok. cbn [negb].
    unfold tryCatch, Remote.bind. rewrite R, R'.
    destruct (runAgainst E body (issues t) rows 0 0 0) as [rep|e|]; cbn [caught]; auto 10.
Qed.

Lemma snapshot_is_fetched_once_witness :
  (forall w, exists pages rest,
     log (snd (SyncLocal.main (isoOnly 0 0) plainBody 1 (VStr "token")
                 [kickoffRow; mixedRow; kickoffRow] w)) = (log w ++ pages ++ rest)%list /\
     forallb isListing pages = true /\ forallb notListing rest = true) /\
  (exists w' pages rest,
     SyncLocal.main (isoOnly 0 0) plainBody 1 (VStr "token") [kickoffRow; mixedRow; kickoffRow]
       (calm emptyTracker)
       = (Returns (SyncLocal.Counts 3 0 0), w') /\
     log w' = (pages ++ rest)%list /\ pages <> [] /\
     forallb isListing pages = true /\ forallb notListing rest = true /\
     List.filter isIssueWrite rest
       = [CreateIssue "[Phase 1] Kickoff" "body" ["Phase 1"];
          CreateIssue "[Task] Review" "body" ["Q4 2025"];
          CreateIssue "[Phase 1] Kickoff" "body" ["Phase 1"]]).
Proof.
  split.
  - exact (proj1 (snapshot_is_fetched_once (isoOnly 0 0) plainBody 1 (VStr "token")
                    [kickoffRow; mixedRow; kickoffRow])).
  - exact (proj2 (snapshot_is_fetched_once (isoOnly 0 0) plainBody 1 (VStr "token")
                    [kickoffRow; mixedRow; kickoffRow]) emptyTracker eq_refl ltac:(cbn; lia)).
Defined.
